(** * GitHub profile card generators: aggregation, year slicing, line formatting

    A shallow embedding of the two pipelines of the repository,

    - [Generator]     : [generator.py], the neofetch-style card
                        ([GitHubProfileGenerator]);
    - [GeneratorPrev] : [generator_prev.py], the terminal-window card
                        ([GitHubLanguageAnalyzer]);

    followed by the properties of the aggregation, of the year ranges, of
    the per-year error handling and of the fixed-width line formatter.

    Conventions of the embedding.

    - A Python [dict] keeps insertion order; the [defaultdict]s holding the
      per-language statistics are association lists with unique keys
      ([Dict]): reading a missing key yields the default entry, writing to
      it appends the key at the end.
    - Python [float] arithmetic is an interface ([PyFloat]) with two
      instances: IEEE binary64 ([binary64], Rocq's primitive floats, what
      CPython computes) and exact rationals ([exact]).  Definitions are
      generic; statements that do not depend on rounding are generic too,
      the concrete runs are evaluated in binary64, and the statements that
      the specification makes "within floating-point tolerance" are proved
      for the exact instance.
    - Exceptions are the left summand of ExtLib's [sum] monad; [raise] and
      [catch] model [raise] and [try ... except Exception].
    - The remote API is an oracle: the outcome of each request is an
      argument of the model, and so is the clock ([datetime.now()]).
      [print] output is kept only where the code prints a warning. *)

From Stdlib Require Import ZArith QArith Qround Floats List String Ascii Bool Lia Lqa.
From Stdlib Require Import Permutation DecimalString.
From ExtLib Require Import Structures.Monad Structures.MonadExc Data.Monads.EitherMonad.
From Equations Require Import Equations.
From Equations.Prop Require Import Logic.
Import ListNotations.
Import MonadNotation.
Local Open Scope monad_scope.
Local Open Scope string_scope.
Local Open Scope list_scope.
Local Open Scope Z_scope.

(** ** Numbers *)

(** What the code needs from Python's [float]: conversion from [int],
    [+], [-], [*], true division (the callers guard the divisor),
    [int(x)], which truncates toward zero, [<], and [format(x, '.1f')],
    the value rounded to one decimal, read as a number of tenths. *)
Class PyFloat (F : Type) : Type := {
  of_int : Z -> F;
  fadd : F -> F -> F;
  fsub : F -> F -> F;
  fmul : F -> F -> F;
  fdiv : F -> F -> F;
  to_int : F -> Z;
  fltb : F -> F -> bool;
  tenths : F -> Z
}.

(** The decimal literal [n/d] ([0.3] is [decimal 3 10]): the correctly
    rounded quotient of two small integers is the float the literal
    denotes. *)
Definition decimal {F} `{PyFloat F} (n d : Z) : F := fdiv (of_int n) (of_int d).

(** Exact rationals. *)
Definition Q_to_int (q : Q) : Z := Z.quot (Qnum q) (Zpos (Qden q)).

Definition Q_ltb (a b : Q) : bool := negb (Qle_bool b a).

(** Rounding to the nearest integer, a tie to the even one: the rounding of
    Python's formatting, which works on the exact value of the float. *)
Definition round_half_even (q : Q) : Z :=
  let f := Qfloor q in
  match Qcompare (q - inject_Z f) (1 # 2) with
  | Lt => f
  | Gt => f + 1
  | Eq => if Z.even f then f else f + 1
  end.

Definition Q_tenths (q : Q) : Z := round_half_even (q * inject_Z 10).

#[export] Instance exact : PyFloat Q := {|
  of_int := inject_Z;
  fadd := Qplus;
  fsub := Qminus;
  fmul := Qmult;
  fdiv := Qdiv;
  to_int := Q_to_int;
  fltb := Q_ltb;
  tenths := Q_tenths
|}.

(** IEEE binary64.  [of_int] rounds to nearest even as [float(n)] does;
    [to_int] reads the integer part off the mantissa and the exponent
    (Python raises on infinities and NaN, which no guarded division of the
    code produces from finite inputs; the model answers [0] there). *)
Definition float_of_int (z : Z) : float :=
  SF2Prim (binary_normalize prec emax z 0 false).

Definition float_to_int (x : float) : Z :=
  match Prim2SF x with
  | S754_finite s m e =>
      let a := match e with
               | Z0 => Zpos m
               | Zpos p => Z.shiftl (Zpos m) (Zpos p)
               | Zneg p => Z.shiftr (Zpos m) (Zpos p)
               end in
      if s then - a else a
  | _ => 0
  end.

(** The exact value of a finite float; formatting an infinity or a NaN
    prints no number, and the model answers [0] there. *)
Definition float_to_Q (x : float) : Q :=
  match Prim2SF x with
  | S754_finite s m e =>
      let a := (inject_Z (Zpos m) * Qpower 2 e)%Q in if s then Qopp a else a
  | _ => 0%Q
  end.

Definition float_tenths (x : float) : Z := Q_tenths (float_to_Q x).

#[export] Instance binary64 : PyFloat float := {|
  of_int := float_of_int;
  fadd := PrimFloat.add;
  fsub := PrimFloat.sub;
  fmul := PrimFloat.mul;
  fdiv := PrimFloat.div;
  to_int := float_to_int;
  fltb := PrimFloat.ltb;
  tenths := float_tenths
|}.

(** ** Exceptions *)

Inductive exn : Type :=
| ZeroDivisionError
| ValueError
| RequestException          (* requests.post raised: connection, timeout *)
| JSONDecodeError           (* response.json() raised *)
| GraphQLQueryFailed (status : Z)
| GraphQLErrors
| UserNotFound
| NoUserData
| KeyError
| OutputError               (* rendering or writing an artifact failed *)
| OverflowError
| TypeError.

Abbreviation result := (sum exn).

(** [x / b] with [b] an [int]: [ZeroDivisionError] when [b] is [0]. *)
Definition fdiv_int {F} `{PyFloat F} (x : F) (b : Z) : result F :=
  if b =? 0 then raise ZeroDivisionError else ret (fdiv x (of_int b)).

(** [a / b] on two [int]s. *)
Definition truediv {F} `{PyFloat F} (a b : Z) : result F := fdiv_int (of_int a) b.

(** A [for] loop whose body may raise. *)
Fixpoint for_each {A S : Type} (body : S -> A -> result S) (xs : list A) (s : S)
  : result S :=
  match xs with
  | [] => ret s
  | x :: xs' => s' <- body s x ;; for_each body xs' s'
  end.

(** ** Insertion-ordered dictionaries with a default entry *)

Module Dict.
Section WithValue.
Context {V : Type} (default : V).

Definition t := list (string * V).

Definition empty : t := [].

Fixpoint lookup (k : string) (d : t) : option V :=
  match d with
  | [] => None
  | (k', v) :: d' => if String.eqb k k' then Some v else lookup k d'
  end.

(** [d[k]] read through the default factory. *)
Definition get (k : string) (d : t) : V :=
  match lookup k d with Some v => v | None => default end.

(** [d[k] = f(d[k])] on a [defaultdict]: an existing entry is updated in
    place, a missing one is created from the default at the end. *)
Fixpoint update (k : string) (f : V -> V) (d : t) : t :=
  match d with
  | [] => [(k, f default)]
  | (k', v) :: d' =>
      if String.eqb k k' then (k', f v) :: d' else (k', v) :: update k f d'
  end.

Definition keys (d : t) : list string := map fst d.
Definition values (d : t) : list V := map snd d.
End WithValue.
End Dict.

(** [sorted(items, key=..., reverse=True)]: Python's sort is stable, also
    with [reverse=True]: items with equal keys keep their original order.
    The items are inserted from the last to the first, each one in front of
    the first item whose key is not strictly greater. *)
Section SortedReverse.
Context {A : Type} (ltb : A -> A -> bool).

Fixpoint insert_desc (x : A) (l : list A) : list A :=
  match l with
  | [] => [x]
  | y :: l' => if ltb x y then y :: insert_desc x l' else x :: y :: l'
  end.

Definition sorted_reverse (l : list A) : list A := fold_right insert_desc [] l.
End SortedReverse.

(** [range(a, b)]. *)
Definition py_range (a b : Z) : list Z :=
  map (fun i => a + Z.of_nat i) (seq 0 (Z.to_nat (b - a))).

(** [sum(xs)] over [int]s. *)
Definition sum_int (xs : list Z) : Z := fold_left Z.add xs 0.

(** [x or default] and the truth value of an optional string: [None] and
    the empty string are false. *)
Definition truthy_str (x : option string) : option string :=
  match x with
  | Some s => if String.eqb s "" then None else Some s
  | None => None
  end.

Definition str_or (x : option string) (default : string) : string :=
  match truthy_str x with Some s => s | None => default end.

(** [table.get(k, default)] on a constant table. *)
Fixpoint table_get (table : list (string * string)) (k default : string) : string :=
  match table with
  | [] => default
  | (k', v) :: table' => if String.eqb k k' then v else table_get table' k default
  end.

(** The outcome of [requests.post] followed by [response.json()], as far as
    the code reads it: the status, and the body with its [errors] key and
    its [data] object, of which [root] is the one top-level field of the
    query ([data['user']]; [data['repository']] for the commit history).
    A [null] is [None], and so is a key that the code reads with [.get] and
    finds absent; an answer without [errors] carries a [data] key. *)
Record Data (U : Type) : Type := { root : option U }.
Record Body (U : Type) : Type := { errors : bool; data : option (Data U) }.
Record Response (U : Type) : Type := { status_code : Z; json : result (Body U) }.
Arguments root {U} _.
Arguments errors {U} _.
Arguments data {U} _.
Arguments status_code {U} _.
Arguments json {U} _.

(** ** Text *)

(** A Python [str] is a sequence of code points; [len] counts them. *)
Definition pystr := list N.

Definition len (s : pystr) : Z := Z.of_nat (List.length s).

(** [len] of a list. *)
Definition len_list {A : Type} (xs : list A) : Z := Z.of_nat (List.length xs).

(** An ASCII literal. *)
Fixpoint str (s : string) : pystr :=
  match s with
  | EmptyString => []
  | String c s' => N_of_ascii c :: str s'
  end.

Definition em_dash : pystr := [8212%N].     (* U+2014 *)
Definition double_quote : pystr := [34%N].

Fixpoint pystr_eqb (a b : pystr) : bool :=
  match a, b with
  | [], [] => true
  | x :: a', y :: b' => N.eqb x y && pystr_eqb a' b'
  | _, _ => false
  end.

(** [s.startswith(prefix)]. *)
Fixpoint startswith (s prefix : pystr) : bool :=
  match prefix, s with
  | [], _ => true
  | p :: prefix', c :: s' => N.eqb p c && startswith s' prefix'
  | _ :: _, [] => false
  end.

(** [s * n]: empty when [n <= 0]. *)
Definition times (s : pystr) (n : Z) : pystr :=
  List.concat (repeat s (Z.to_nat n)).

(** [s[:n]]: a negative [n] counts from the end. *)
Definition slice_to (s : pystr) (n : Z) : pystr :=
  if n <? 0 then firstn (Z.to_nat (len s + n)) s else firstn (Z.to_nat n) s.

(** [str(n)] of an [int]. *)
Definition str_of_int (n : Z) : pystr := str (NilZero.string_of_int (Z.to_int n)).

(** [sep.join(xs)]. *)
Fixpoint join (sep : pystr) (xs : list pystr) : pystr :=
  match xs with
  | [] => []
  | [x] => x
  | x :: rest => x ++ sep ++ join sep rest
  end.

(** * generator.py *)

Module Generator.

Definition LANGUAGE_COLORS : list (string * string) := [
    ("Python", "#3572A5");
    ("JavaScript", "#f1e05a");
    ("TypeScript", "#2b7489");
    ("Java", "#b07219");
    ("C++", "#f34b7d");
    ("C", "#555555");
    ("C#", "#239120");
    ("Go", "#00ADD8");
    ("Rust", "#dea584");
    ("Ruby", "#701516");
    ("PHP", "#4F5D95");
    ("Swift", "#ffac45");
    ("Kotlin", "#F18E33");
    ("Scala", "#c22d40");
    ("HTML", "#e34c26");
    ("CSS", "#1572B6");
    ("Shell", "#89e051");
    ("Dockerfile", "#384d54");
    ("YAML", "#cb171e");
    ("JSON", "#292929");
    ("Markdown", "#083fa1");
    ("Vue", "#2c3e50");
    ("React", "#61dafb");
    ("Jupyter Notebook", "#DA5B0B");
    ("R", "#198CE7");
    ("MATLAB", "#e16737");
    ("Objective-C", "#438eff");
    ("Perl", "#0298c3");
    ("Lua", "#000080");
    ("Dart", "#00B4AB");
    ("Haskell", "#5e5086");
    ("Clojure", "#db5855");
    ("Elixir", "#6e4a7e");
    ("Erlang", "#B83998");
    ("F#", "#b845fc");
    ("OCaml", "#3be133");
    ("PowerShell", "#012456");
    ("Assembly", "#6E4C13");
    ("Vim script", "#199f4b");
    ("Makefile", "#427819");
    ("CMake", "#DA3434");
    ("Batchfile", "#C1F12E");
    ("TeX", "#3D6117");
    ("Groovy", "#e69f56");
    ("ActionScript", "#882B0F");
    ("CoffeeScript", "#244776");
    ("LiveScript", "#499886");
    ("PureScript", "#1D222D");
    ("Elm", "#60B5CC");
    ("Crystal", "#000100");
    ("Nim", "#ffc200");
    ("D", "#ba595e");
    ("Zig", "#ec915c");
    ("V", "#4f87c4");
    ("Julia", "#a270ba");
    ("Chapel", "#8dc63f");
    ("Pike", "#005390");
    ("Nix", "#7e7eff");
    ("Racket", "#3c5caa");
    ("Standard ML", "#dc566d");
    ("Smalltalk", "#596706");
    ("Ada", "#02f88c");
    ("Fortran", "#4d41b1");
    ("COBOL", "#005590")
  ].

(** ** The records of the contributions query *)

Record LanguageNode : Type := { name : option string; node_color : option string }.

Record LanguageEdge : Type := { size : option Z; node : option LanguageNode }.

(** [languages] holds [repo['languages']['edges']]; a missing or empty
    [languages] object and a missing or empty [edges] list, which the code
    does not tell apart, are the empty list.  [totalCount] is
    [contributions['totalCount']], [None] when either is absent. *)
Record Repository : Type := {
  primaryLanguage : option LanguageNode;
  languages : list (option LanguageEdge)
}.

Record RepoContribution : Type := {
  repository : option Repository;
  totalCount : option Z
}.

Record YearData : Type := {
  totalCommitContributions : option Z;
  commitContributionsByRepository : list (option RepoContribution)
}.

Record UserContributions : Type := { contributionsCollection : option YearData }.

Record UserData : Type := { user_name : option string; login : string }.

(** ** The accumulators *)

Record LanguageStat : Type := {
  commits : Z;
  additions : Z;
  deletions : Z;
  color : string
}.

Definition default_stat : LanguageStat :=
  {| commits := 0; additions := 0; deletions := 0; color := "#000000" |}.

Definition LanguageStats := @Dict.t LanguageStat.

Inductive Warning : Type :=
| FailedToFetch (year status : Z)
| GraphQLErrorsFor (year : Z)
| NoUserDataFor (year : Z)
| NoContributionsCollection (year : Z).

Record RunState : Type := {
  contributions_data : list (Z * YearData);
  total_commits : Z;
  language_stats : LanguageStats;
  warnings : list Warning
}.

Record RunData : Type := {
  data_user : UserData;
  data_total_commits : Z;
  data_language_stats : LanguageStats;
  data_contributions_data : list (Z * YearData)
}.

Record Network : Type := {
  post_user : result (Response UserData);
  post_year : Z -> result (Response UserContributions)
}.

Section WithFloat.
Context {F : Type} `{PyFloat F}.

(** ** get_user_data_multi_year: one repository of one year *)

(** Lines 485-490: the primary language. *)
Definition attribute_primary (commit_count : Z) (repo : Repository)
    (stats : LanguageStats) : LanguageStats :=
  match primaryLanguage repo with
  | Some primary_lang =>
      match truthy_str (name primary_lang) with
      | Some lang_name =>
          let lang_color :=
            str_or (node_color primary_lang)
                   (table_get LANGUAGE_COLORS lang_name "#000000") in
          Dict.update default_stat lang_name
            (fun s => {| commits := commits s + commit_count;
                         additions := additions s;
                         deletions := deletions s;
                         color := lang_color |}) stats
      | None => stats
      end
  | None => stats
  end.

(** Line 495: [sum(edge.get('size', 0) for edge in edges if edge and edge.get('size'))]. *)
Definition edge_size_of (edge : LanguageEdge) : Z :=
  match size edge with Some s => s | None => 0 end.

Definition counted_sizes (edges : list (option LanguageEdge)) : list Z :=
  flat_map (fun edge =>
              match edge with
              | Some e => if edge_size_of e =? 0 then [] else [edge_size_of e]
              | None => []
              end) edges.

Definition total_size_of (edges : list (option LanguageEdge)) : Z :=
  sum_int (counted_sizes edges).

(** Line 509: [int(commit_count * lang_proportion)]. *)
Definition weighted_commits_of (commit_count edge_size total_size : Z) : result Z :=
  lang_proportion <- truediv edge_size total_size ;;
  ret (to_int (fmul (of_int commit_count) lang_proportion)).

(** Lines 515-516: [int(edge_size * 0.3)] and [int(edge_size * 0.1)]. *)
Definition estimated_additions (edge_size : Z) : Z :=
  to_int (fmul (of_int edge_size) (decimal 3 10)).

Definition estimated_deletions (edge_size : Z) : Z :=
  to_int (fmul (of_int edge_size) (decimal 1 10)).

(** Lines 497-516: one edge of the language breakdown. *)
Definition attribute_edge (commit_count total_size : Z) (stats : LanguageStats)
    (edge : option LanguageEdge) : result LanguageStats :=
  match edge with
  | None => ret stats
  | Some edge =>
      match node edge with
      | None => ret stats
      | Some nd =>
          match truthy_str (name nd) with
          | None => ret stats
          | Some lang_name =>
              let lang_color :=
                str_or (node_color nd)
                       (table_get LANGUAGE_COLORS lang_name "#000000") in
              let edge_size := edge_size_of edge in
              weighted_commits <- weighted_commits_of commit_count edge_size total_size ;;
              if weighted_commits >? 0 then
                ret (Dict.update default_stat lang_name
                       (fun s => {| commits := commits s + weighted_commits;
                                    additions := additions s + estimated_additions edge_size;
                                    deletions := deletions s + estimated_deletions edge_size;
                                    color := lang_color |}) stats)
              else ret stats
          end
      end
  end.

(** Lines 493-516: all languages of the repository, weighted by size. *)
Definition attribute_weighted (commit_count : Z) (repo : Repository)
    (stats : LanguageStats) : result LanguageStats :=
  let total_size := total_size_of (languages repo) in
  if total_size >? 0 then
    for_each (attribute_edge commit_count total_size) (languages repo) stats
  else ret stats.

(** Lines 473-516: the body of the loop over [commit_contribs]. *)
Definition process_repo_contrib (stats : LanguageStats)
    (repo_contrib : option RepoContribution) : result LanguageStats :=
  match repo_contrib with
  | None => ret stats
  | Some rc =>
      match repository rc with
      | None => ret stats
      | Some repo =>
          let commit_count := match totalCount rc with Some c => c | None => 0 end in
          if commit_count =? 0 then ret stats
          else attribute_weighted commit_count repo
                 (attribute_primary commit_count repo stats)
      end
  end.

(** ** get_user_data_multi_year: one year *)

Definition warn (w : Warning) (st : RunState) : RunState :=
  {| contributions_data := contributions_data st;
     total_commits := total_commits st;
     language_stats := language_stats st;
     warnings := warnings st ++ [w] |}.

(** Lines 461-516, once the year's collection is in hand. *)
Definition process_year_data (year : Z) (year_data : YearData) (st : RunState)
    : result RunState :=
  let year_commits :=
    match totalCommitContributions year_data with Some c => c | None => 0 end in
  stats <- for_each process_repo_contrib
             (commitContributionsByRepository year_data) (language_stats st) ;;
  ret {| contributions_data := contributions_data st ++ [(year, year_data)];
         total_commits := total_commits st + year_commits;
         language_stats := stats;
         warnings := warnings st |}.

(** Lines 430-459: the request of one year and its four guards. *)
Definition process_year (net : Network) (st : RunState) (year : Z) : result RunState :=
  response <- post_year net year ;;
  if negb (status_code response =? 200) then
    ret (warn (FailedToFetch year (status_code response)) st)
  else
    response_data <- json response ;;
    if errors response_data then ret (warn (GraphQLErrorsFor year) st)
    else
      match data response_data with
      | None => ret (warn (NoUserDataFor year) st)
      | Some d =>
          match root d with
          | None => ret (warn (NoUserDataFor year) st)
          | Some user_contrib =>
              match contributionsCollection user_contrib with
              | None => ret (warn (NoContributionsCollection year) st)
              | Some year_data => process_year_data year year_data st
              end
          end
      end.

(** Lines 354-370: the user query; every failure raises. *)
Definition fetch_user (net : Network) : result UserData :=
  response <- post_user net ;;
  if negb (status_code response =? 200) then
    raise (GraphQLQueryFailed (status_code response))
  else
    response_data <- json response ;;
    if errors response_data then raise GraphQLErrors
    else
      match data response_data with
      | None => raise UserNotFound
      | Some d =>
          match root d with
          | None => raise UserNotFound
          | Some user_data => ret user_data
          end
      end.

Definition initial_state : RunState :=
  {| contributions_data := []; total_commits := 0;
     language_stats := Dict.empty; warnings := [] |}.

(** ** The window of the fetch: lines 318-319 *)

(** [end_date = datetime.now()]: its date; the time of day plays no part in
    what follows. *)
Record date : Type := { date_year : Z; date_month : Z; date_day : Z }.

(** [date.toordinal()], as the [datetime] module computes it. *)
Definition _is_leap (year : Z) : bool :=
  (year mod 4 =? 0) && (negb (year mod 100 =? 0) || (year mod 400 =? 0)).

Definition _days_before_year (year : Z) : Z :=
  let y := year - 1 in y * 365 + y / 4 - y / 100 + y / 400.

Definition _days_in_month (year month : Z) : Z :=
  if month =? 2 then (if _is_leap year then 29 else 28)
  else if (month =? 4) || (month =? 6) || (month =? 9) || (month =? 11) then 30
  else 31.

Definition _days_before_month (year month : Z) : Z :=
  sum_int (map (_days_in_month year) (py_range 1 month)).

Definition toordinal (d : date) : Z :=
  _days_before_year (date_year d) + _days_before_month (date_year d) (date_month d)
  + date_day d.

(** [date.max.toordinal()], the last day of the year 9999. *)
Definition _MAXORDINAL : Z := 3652059.

(** [timedelta(days=n)] raises [OverflowError] beyond 999999999 days. *)
Definition timedelta (days : Z) : result Z :=
  if Z.abs days >? 999999999 then raise OverflowError else ret days.

(** [d - delta], as the ordinal of the day it falls on: [OverflowError]
    outside of the years 1 to 9999. *)
Definition date_minus (d : date) (delta : Z) : result Z :=
  let ordinal := toordinal d - delta in
  if (0 <? ordinal) && (ordinal <=? _MAXORDINAL) then ret ordinal
  else raise OverflowError.

(** Line 319: [end_date - timedelta(days=365 * years_back)]. *)
Definition window_start (end_date : date) (years_back : Z) : result Z :=
  delta <- timedelta (365 * years_back) ;;
  date_minus end_date delta.

(** The years of the loop, line 385. *)
Definition years_of (current_year years_back : Z) : list Z :=
  py_range (current_year - years_back + 1) (current_year + 1).

(** Lines 316-526; [end_date] is [datetime.now()].  The start of the window
    is computed before any request and used by none. *)
Definition get_user_data_multi_year (net : Network) (end_date : date) (years_back : Z)
    : result (RunData * list Warning) :=
  start_date <- window_start end_date years_back ;;
  user_data <- fetch_user net ;;
  let current_year := date_year end_date in
  st <- for_each (process_year net) (years_of current_year years_back) initial_state ;;
  ret ({| data_user := user_data;
          data_total_commits := total_commits st;
          data_language_stats := language_stats st;
          data_contributions_data := contributions_data st |}, warnings st).

(** ** calculate_language_percentages *)

Record LanguagePercentage : Type := {
  percentage : F;
  pct_commits : Z;
  pct_additions : Z;
  pct_deletions : Z;
  net : Z;
  pct_color : string
}.

(** Lines 535-544: the body of the loop over [language_stats.items()]. *)
Definition percentage_entry (total : Z)
    (percentages : list (string * LanguagePercentage))
    (item : string * LanguageStat) : result (list (string * LanguagePercentage)) :=
  let '(lang, stats) := item in
  if commits stats >? 0 then
    share <- truediv (commits stats) total ;;
    ret (percentages ++
           [(lang, {| percentage := fmul share (of_int 100);
                      pct_commits := commits stats;
                      pct_additions := additions stats;
                      pct_deletions := deletions stats;
                      net := additions stats - deletions stats;
                      pct_color := color stats |})])
  else ret percentages.

Definition by_percentage (a b : string * LanguagePercentage) : bool :=
  fltb (percentage (snd a)) (percentage (snd b)).

Definition calculate_language_percentages (stats : LanguageStats)
    : result (list (string * LanguagePercentage)) :=
  let total := sum_int (map commits (Dict.values stats)) in
  if total =? 0 then ret []
  else
    percentages <- for_each (percentage_entry total) stats [] ;;
    ret (sorted_reverse by_percentage percentages).

(** ** main *)

(** [generate_svg] and the two [open(...).write(...)] of [main] are the
    renderer, [write_artifacts]; it may raise. *)
Definition main (args_token env_token : option string) (net : Network)
    (end_date : date) (years : Z) (write_artifacts : RunData -> result unit) : Z :=
  match truthy_str (match truthy_str args_token with
                    | Some t => Some t
                    | None => env_token
                    end) with
  | None => 1
  | Some _ =>
      match (r <- get_user_data_multi_year net end_date years ;;
             write_artifacts (fst r) ;;
             calculate_language_percentages (data_language_stats (fst r))) with
      | inl _ => 1
      | inr _ => 0
      end
  end.

End WithFloat.

(** ** format_line and format_styled_line *)

Definition is_header (key : pystr) : bool :=
  startswith key em_dash || startswith key (str "-").

(** [total_width] defaults to 68 and [separator] to ":". *)
Definition format_line (key value : pystr) (total_width : Z) (separator : pystr)
    : pystr :=
  if is_header key then key ++ times em_dash (total_width - len key)
  else
    let key_part := str ". " ++ key ++ separator in
    let value_part := str " " ++ value in
    let dots_needed := total_width - len key_part - len value_part in
    if dots_needed <? 1 then
      let available_for_value := total_width - len key_part - 1 in
      let value_part := str " " ++ slice_to value (available_for_value - 3) ++ str "..." in
      let dots_needed := 1 in
      key_part ++ times (str ".") dots_needed ++ value_part
    else key_part ++ times (str ".") dots_needed ++ value_part.

Definition tspan (class : string) (text : pystr) : pystr :=
  str "<tspan class=" ++ double_quote ++ str class ++ double_quote ++ str ">"
    ++ text ++ str "</tspan>".

Fixpoint styling_for (special_styling : list (pystr * (pystr -> pystr)))
    (key : pystr) : option (pystr -> pystr) :=
  match special_styling with
  | [] => None
  | (k, f) :: rest => if pystr_eqb key k then Some f else styling_for rest key
  end.

(** The truncated [value_part] of lines 290-294 is computed and not used:
    only [dots_needed] reaches the result. *)
Definition format_styled_line (key value : pystr)
    (special_styling : list (pystr * (pystr -> pystr))) : pystr :=
  if is_header key then
    let header_line := key ++ times em_dash (68 - len key) in
    tspan "separator" header_line
  else
    let key_part := str ". " ++ key ++ str ":" in
    let value_part := str " " ++ value in
    let dots_needed := 68 - len key_part - len value_part in
    let dots_needed := if dots_needed <? 1 then 1 else dots_needed in
    let dots := times (str ".") dots_needed in
    let styled_value :=
      match styling_for special_styling key with
      | Some style => style value
      | None => tspan "value" value
      end in
    str ". " ++ tspan "key" key ++ str ": " ++ dots ++ styled_value.

(** ** generate_language_bar *)

Section LanguageBar.
Context {F : Type} `{PyFloat F}.

(** What a [<rect>] of the bar prints: its [x], the float itself; its
    [width], with one decimal, here in tenths; and its [fill]. *)
Record BarSegment : Type := {
  seg_x : F;
  seg_width : Z;
  seg_fill : string
}.

(** Lines 557-565: the body of the loop, on [(elements, x_offset)]. *)
Definition bar_step (width : Z) (acc : list BarSegment * F)
    (item : string * @LanguagePercentage F) : list BarSegment * F :=
  let '(elements, x_offset) := acc in
  let segment_width := fmul (fdiv (percentage (snd item)) (of_int 100)) (of_int width) in
  if fltb segment_width (of_int 1) then (elements, x_offset)
  else (elements ++ [{| seg_x := x_offset;
                        seg_width := tenths segment_width;
                        seg_fill := pct_color (snd item) |}],
        fadd x_offset segment_width).

(** [width] defaults to 400; [generate_svg] passes 500. *)
Definition generate_language_bar (language_percentages : list (string * @LanguagePercentage F))
    (width : Z) : list BarSegment :=
  fst (fold_left (bar_step width) language_percentages ([], of_int 0)).

End LanguageBar.

(** ** get_profile_content_definition and get_content_lines *)

(** Lines 109-111: the years, months and days of the account's age. *)
Definition uptime_parts (age_days : Z) : Z * Z * Z :=
  (age_days / 365, (age_days mod 365) / 30, (age_days mod 365) mod 30).

(** Lines 107-172.  [age_days] is [(datetime.now(tz) - created_date).days]
    for the [createdAt] of the user; [company] is [user_data.get("company")],
    [None] when the key is absent or null. *)
Definition get_profile_content_definition (age_days : Z) (company : option pystr)
    (top_languages : list pystr) : list (pystr * pystr) :=
  let '(years, months, days) := uptime_parts age_days in
  [ (str "OS", str "Windows 10, Android 14, Linux");
    (str "Uptime",
     str_of_int years ++ str " years, " ++ str_of_int months ++ str " months, "
       ++ str_of_int days ++ str " days");
    (str "Host",
     match company with
     | Some (c :: cs) => c :: cs
     | _ => str "TTM Technologies, Inc."
     end);
    (str "Kernel", str "CAM (Computer Aided Manufacturing) Operator");
    (str "IDE", str "IDEA 2023.3.2, VSCode 1.96.0") ]
  ++ [ (str "GAP", []) ]
  ++ [ (str "Languages.Programming",
        match top_languages with
        | [] => str "Java, Python, JavaScript, C++"
        | _ => join (str ", ") top_languages
        end);
       (str "Languages.Computer", str "HTML, CSS, JSON, LaTeX, YAML");
       (str "Languages.Real", str "English, Spanish") ]
  ++ [ (str "GAP", []) ]
  ++ [ (str "Hobbies.Software", str "Minecraft Modding, iOS Jailbreaking");
       (str "Hobbies.Hardware", str "Overclocking, Undervolting") ]
  ++ [ (str "GAP", []);
       (em_dash ++ str " Contact ", []) ]
  ++ [ (str "Email.Personal", str "agrantnmac@gmail.com");
       (str "Email.Personal", str "andrew@grant.software");
       (str "Email.Work", str "Andrew.Grant@ttmtech.com");
       (str "LinkedIn", str "Andrew6rant");
       (str "Discord", str "andrew6rant") ]
  ++ [ (str "GAP", []);
       (em_dash ++ str " GitHub Stats ", []) ]
  ++ [ (str "Repos", str "PLACEHOLDER");
       (str "Commits", str "PLACEHOLDER");
       (str "Lines of Code on GitHub", str "PLACEHOLDER") ].

(** Lines 306-314: the first four languages of the table. *)
Definition get_content_lines {F : Type} (age_days : Z) (company : option pystr)
    (language_percentages : list (string * @LanguagePercentage F)) : list (pystr * pystr) :=
  let top_languages := firstn 4 (map (fun item => str (fst item)) language_percentages) in
  get_profile_content_definition age_days company top_languages.

(** ** generate_svg: the geometry of the card *)

Definition is_gap (line : pystr * pystr) : bool := pystr_eqb (fst line) (str "GAP").

(** Lines 601-636: the height of the card. *)
Definition svg_height {F : Type} (content_lines : list (pystr * pystr))
    (language_percentages : list (string * @LanguagePercentage F)) : Z :=
  let line_height := 22 in
  let ascii_height := 460 in
  let top_margin := 35 in
  let text_lines_count := len_list (filter (fun line => negb (is_gap line)) content_lines) in
  let gap_lines_count := len_list (filter is_gap content_lines) in
  let language_details_count :=
    match language_percentages with
    | [] => 0
    | _ => Z.min 6 (len_list language_percentages)
    end in
  let total_content_lines :=
    1 + text_lines_count + gap_lines_count + language_details_count in
  let content_height :=
    top_margin + 25 + total_content_lines * line_height + 10 + 35 + 15 in
  Z.max (ascii_height + top_margin) content_height + 20.

(** Where [generate_svg] puts its text, lines 686-760: the [y] of the
    header, of each content line with its key, of the language bar and of
    each language detail with its language.  The markup of the elements is
    left out. *)
Record CardGeometry : Type := {
  header_y : Z;
  line_ys : list (pystr * Z);
  bar_y : option Z;
  detail_ys : list (string * Z)
}.

(** Lines 718-737: a gap moves down, a line is placed and moves down. *)
Definition place_line (acc : list (pystr * Z) * Z) (line : pystr * pystr)
    : list (pystr * Z) * Z :=
  let '(placed, y_current) := acc in
  if is_gap line then (placed, y_current + 22)
  else (placed ++ [(fst line, y_current)], y_current + 22).

(** Lines 751-760. *)
Definition place_detail {F : Type} (acc : list (string * Z) * Z)
    (item : string * @LanguagePercentage F) : list (string * Z) * Z :=
  let '(placed, y_current) := acc in
  (placed ++ [(fst item, y_current)], y_current + 22).

Definition card_geometry {F : Type} (content_lines : list (pystr * pystr))
    (language_percentages : list (string * @LanguagePercentage F)) : CardGeometry :=
  let top_margin := 35 in
  let y_start := top_margin in
  let '(lines, y_current) := fold_left place_line content_lines ([], y_start + 25) in
  match language_percentages with
  | [] => {| header_y := y_start; line_ys := lines; bar_y := None; detail_ys := [] |}
  | _ =>
      {| header_y := y_start;
         line_ys := lines;
         bar_y := Some y_current;
         detail_ys :=
           fst (fold_left place_detail (firstn 6 language_percentages)
                  ([], y_current + 35)) |}
  end.

(** ** clean_and_visible_length and format_username_header *)

(** [s.endswith(suffix)]. *)
Definition endswith (s suffix : pystr) : bool := startswith (rev s) (rev suffix).

(** [sub in s]. *)
Fixpoint contains (s sub : pystr) : bool :=
  startswith s sub ||
  match s with
  | [] => false
  | _ :: rest => contains rest sub
  end.

(** [s.replace("...", "")]: the occurrences are taken from the left and do not
    overlap. *)
Fixpoint remove_ellipsis (s : pystr) : pystr :=
  match s with
  | [] => []
  | a :: tail =>
      match tail with
      | b :: c :: rest =>
          if N.eqb a 46 && N.eqb b 46 && N.eqb c 46 then remove_ellipsis rest
          else a :: remove_ellipsis tail
      | _ => s
      end
  end.

Definition invisible_characters : list N :=
  [8203; 8204; 8205; 8288; 65279; 8234; 8235; 8236; 8237; 8238]%N.

Section Unicode.

(** [unicodedata.category] and [unicodedata.east_asian_width]: the tables of the
    Unicode database. *)
Variable category : N -> string.
Variable east_asian_width : N -> string.

(** Lines 193-199: the characters that are kept. *)
Definition visible (char : N) : bool :=
  negb (existsb (String.eqb (category char)) ["Cf"; "Mn"; "Me"]%string)
  && negb (existsb (N.eqb char) invisible_characters).

(** Lines 205-208 and 254. *)
Definition char_width (char : N) : Z :=
  if existsb (String.eqb (east_asian_width char)) ["F"; "W"]%string then 2 else 1.

Definition visual_length (cleaned : pystr) : Z :=
  fold_left (fun visual_length char => visual_length + char_width char) cleaned 0.

Definition clean_and_visible_length (text : pystr) : pystr * Z :=
  match text with
  | [] => (text, 0)
  | _ => let cleaned := filter visible text in (cleaned, visual_length cleaned)
  end.

(** Lines 253-259: the loop that stops at the first character that does not fit
    before the three dots. *)
Fixpoint truncate_name (available_for_name : Z) (cleaned_name truncated_name : pystr)
    (current_length : Z) : pystr * Z :=
  match cleaned_name with
  | [] => (truncated_name, current_length)
  | char :: rest =>
      let char_width := char_width char in
      if current_length + char_width + 3 >? available_for_name
      then (truncated_name ++ str "...", current_length)
      else truncate_name available_for_name rest (truncated_name ++ [char])
             (current_length + char_width)
  end.

(** [total_width] defaults to 68. *)
Definition format_username_header (full_name username : pystr) (total_width : Z) : pystr :=
  let '(cleaned_name, name_visual_length) := clean_and_visible_length full_name in
  let username_part := str "@" ++ username in
  let fixed_parts := str " -" ++ em_dash ++ str "- " ++ username_part ++ str " -" in
  let end_part := em_dash ++ str "-" ++ em_dash ++ str "-" in
  let fixed_length := len fixed_parts + len end_part in
  let available_for_name := total_width - fixed_length in
  let '(cleaned_name, name_visual_length) :=
    if name_visual_length >? available_for_name then
      let '(truncated_name, current_length) :=
        truncate_name available_for_name cleaned_name [] 0 in
      (truncated_name,
       current_length + (if endswith truncated_name (str "...") then 3 else 0))
    else (cleaned_name, name_visual_length) in
  let start_part := cleaned_name ++ fixed_parts in
  let middle_dashes_needed := total_width - len start_part - len end_part in
  let visual_adjustment :=
    name_visual_length - len (remove_ellipsis cleaned_name)
    - (if contains cleaned_name (str "...") then 3 else 0) in
  let middle_dashes_needed := middle_dashes_needed - visual_adjustment in
  let middle_dashes_needed :=
    if middle_dashes_needed <? 0 then 0 else middle_dashes_needed in
  start_part ++ times em_dash middle_dashes_needed ++ end_part.

End Unicode.


End Generator.

(** * generator_prev.py *)

Module GeneratorPrev.

Definition language_colors : list (string * string) := [
    ("Python", "#3572A5");
    ("JavaScript", "#f1e05a");
    ("TypeScript", "#2b7489");
    ("Java", "#b07219");
    ("C", "#555555");
    ("C++", "#f34b7d");
    ("C#", "#239120");
    ("Go", "#00ADD8");
    ("Rust", "#dea584");
    ("Ruby", "#701516");
    ("PHP", "#4F5D95");
    ("Swift", "#ffac45");
    ("Kotlin", "#F18E33");
    ("Scala", "#c22d40");
    ("Shell", "#89e051");
    ("PowerShell", "#012456");
    ("HTML", "#e34c26");
    ("CSS", "#563d7c");
    ("SCSS", "#c6538c");
    ("Vue", "#2c3e50");
    ("React", "#61dafb");
    ("Angular", "#dd0031");
    ("Svelte", "#ff3e00");
    ("Dart", "#00B4AB");
    ("R", "#198CE7");
    ("MATLAB", "#e16737");
    ("Jupyter Notebook", "#DA5B0B");
    ("Dockerfile", "#384d54");
    ("YAML", "#cb171e");
    ("JSON", "#292929");
    ("XML", "#0060ac");
    ("Markdown", "#083fa1");
    ("LaTeX", "#3D6117");
    ("Vim script", "#199f4b");
    ("Emacs Lisp", "#c065db");
    ("Lua", "#000080");
    ("Perl", "#0298c3");
    ("Haskell", "#5e5086");
    ("Clojure", "#db5855");
    ("F#", "#b845fc");
    ("OCaml", "#3be133");
    ("Erlang", "#B83998");
    ("Elixir", "#6e4a7e");
    ("Crystal", "#000100");
    ("Nim", "#ffc200");
    ("Zig", "#ec915c");
    ("Assembly", "#6E4C13");
    ("VHDL", "#adb2cb");
    ("Verilog", "#b2b7f8");
    ("SQL", "#e38c00");
    ("PLpgSQL", "#336790");
    ("Makefile", "#427819");
    ("CMake", "#DA3434");
    ("Tcl", "#e4cc98");
    ("TeX", "#3D6117");
    ("Batchfile", "#C1F12E");
    ("Visual Basic", "#945db7");
    ("VBA", "#867db1");
    ("AppleScript", "#101F1F");
    ("ActionScript", "#882B0F");
    ("CoffeeScript", "#244776");
    ("LiveScript", "#499886");
    ("Objective-C", "#438eff");
    ("Objective-C++", "#6866fb");
    ("D", "#ba595e");
    ("Pascal", "#E3F171");
    ("Fortran", "#4d41b1");
    ("COBOL", "#000000");
    ("Ada", "#02f88c");
    ("Prolog", "#74283c");
    ("Scheme", "#1e4aec");
    ("Common Lisp", "#3fb68b");
    ("Racket", "#3c5caa");
    ("Smalltalk", "#596706");
    ("Groovy", "#e69f56");
    ("Julia", "#a270ba");
    ("Hack", "#878787");
    ("Processing", "#0096D8");
    ("Arduino", "#bd79d1");
    ("PureScript", "#1D222D");
    ("Elm", "#60B5CC");
    ("Reason", "#ff5847");
    ("F*", "#572e30");
    ("Idris", "#b30000");
    ("Agda", "#315665");
    ("Coq", "#d0b68c");
    ("Lean", "#fff")
  ].

(** ** Dates *)

(** A [datetime] in UTC at the resolution of [_to_iso_string], whole
    seconds; [main] builds no other.  Python compares the fields in
    order. *)
Record datetime : Type := {
  year : Z; month : Z; day : Z; hour : Z; minute : Z; second : Z
}.

Definition MINYEAR : Z := 1.
Definition MAXYEAR : Z := 9999.

Definition fields (d : datetime) : list Z :=
  [year d; month d; day d; hour d; minute d; second d].

Fixpoint compare_fields (a b : list Z) : comparison :=
  match a, b with
  | x :: a', y :: b' =>
      match x ?= y with
      | Eq => compare_fields a' b'
      | c => c
      end
  | [], [] => Eq
  | [], _ :: _ => Lt
  | _ :: _, [] => Gt
  end.

Definition dt_compare (a b : datetime) : comparison :=
  compare_fields (fields a) (fields b).

Definition dt_ltb (a b : datetime) : bool :=
  match dt_compare a b with Lt => true | _ => false end.

Definition dt_leb (a b : datetime) : bool :=
  match dt_compare a b with Gt => false | _ => true end.

(** [min(a, b)]: the first argument unless the second is smaller. *)
Definition dt_min (a b : datetime) : datetime := if dt_ltb b a then b else a.

Definition is_leap (y : Z) : bool :=
  (y mod 4 =? 0) && (negb (y mod 100 =? 0) || (y mod 400 =? 0)).

Definition days_in_month (y m : Z) : Z :=
  if m =? 2 then (if is_leap y then 29 else 28)
  else if (m =? 4) || (m =? 6) || (m =? 9) || (m =? 11) then 30
  else 31.

(** The [datetime] values Python can hold. *)
Definition valid (d : datetime) : bool :=
  (MINYEAR <=? year d) && (year d <=? MAXYEAR)
  && (1 <=? month d) && (month d <=? 12)
  && (1 <=? day d) && (day d <=? days_in_month (year d) (month d))
  && (0 <=? hour d) && (hour d <=? 23)
  && (0 <=? minute d) && (minute d <=? 59)
  && (0 <=? second d) && (second d <=? 59).

(** [datetime(y, 12, 31, 23, 59, 59)] and [datetime(y, 1, 1)]: the
    constructor raises [ValueError] when the year is out of range. *)
Definition end_of_year (y : Z) : result datetime :=
  if (MINYEAR <=? y) && (y <=? MAXYEAR) then
    ret {| year := y; month := 12; day := 31; hour := 23; minute := 59; second := 59 |}
  else raise ValueError.

Definition start_of_year (y : Z) : result datetime :=
  if (MINYEAR <=? y) && (y <=? MAXYEAR) then
    ret {| year := y; month := 1; day := 1; hour := 0; minute := 0; second := 0 |}
  else raise ValueError.

(** [(b - a).days]: whole days, rounded down. *)
Definition days_before_year (y : Z) : Z :=
  let y' := y - 1 in y' * 365 + y' / 4 - y' / 100 + y' / 400.

Definition days_before_month (y m : Z) : Z :=
  sum_int (map (days_in_month y) (py_range 1 m)).

Definition to_seconds (d : datetime) : Z :=
  (days_before_year (year d) + days_before_month (year d) (month d) + day d) * 86400
  + hour d * 3600 + minute d * 60 + second d.

Definition timedelta_days (b a : datetime) : Z := (to_seconds b - to_seconds a) / 86400.

(** ** _generate_year_ranges *)

Definition year_range : Type := datetime * datetime.

(** The [while current_start < end_dt] loop, lines 215-226.  A range is
    kept as the pair of [datetime]s that [_to_iso_string] renders. *)
Equations? year_ranges_loop (current_start end_dt : datetime) (ranges : list year_range)
    : result (list year_range)
    by wf (Z.to_nat (year end_dt + 1 - year current_start)) lt :=
  year_ranges_loop current_start end_dt ranges
    with inspect (dt_ltb current_start end_dt) := {
    | exist _ false _ => inr ranges
    | exist _ true Hlt
        with inspect (end_of_year (year current_start)) := {
        | exist _ (inl e) _ => inl e
        | exist _ (inr year_end) _
            with inspect (start_of_year (year current_start + 1)) := {
            | exist _ (inl e) _ => inl e
            | exist _ (inr next_start) Hnext =>
                let current_end := dt_min year_end end_dt in
                year_ranges_loop next_start end_dt
                  (ranges ++ [(current_start, current_end)])
            }
        }
    }.
Proof.
  assert (Hy : year next_start = year current_start + 1).
  { unfold start_of_year in Hnext.
    destruct ((MINYEAR <=? year current_start + 1) && (year current_start + 1 <=? MAXYEAR));
      inversion Hnext; reflexivity. }
  assert (Hle : year current_start <= year end_dt).
  { unfold dt_ltb, dt_compare in Hlt. simpl in Hlt.
    destruct (Z.compare_spec (year current_start) (year end_dt)); try lia; discriminate. }
  lia.
Defined.

(** [from_date] and [to_date] are given parsed. *)
Definition _generate_year_ranges (start_dt end_dt : datetime) : result (list year_range) :=
  year_ranges_loop start_dt end_dt [].

(** ** The records of the contributions query *)

Record LanguageNode : Type := { name : string; node_color : option string }.

Record LanguageEdge : Type := { node : LanguageNode; size : Z }.

Record Languages : Type := { edges : list LanguageEdge; totalSize : Z }.

Record Repository : Type := {
  nameWithOwner : string;
  primaryLanguage : option LanguageNode;
  languages : Languages;
  isPrivate : bool;
  isFork : bool
}.

Record ContributionNode : Type := { commitCount : Z; occurredAt : string }.

(** [line_stats]: a key that is absent reads as [0] through [.get]. *)
Record LineStats : Type := {
  ls_total_additions : Z;
  ls_total_deletions : Z;
  ls_net_lines : Z
}.

Definition no_line_stats : LineStats :=
  {| ls_total_additions := 0; ls_total_deletions := 0; ls_net_lines := 0 |}.

(** [nodes] is [contributions['nodes']]. *)
Record RepoContribution : Type := {
  repository : Repository;
  nodes : list ContributionNode;
  line_stats : option LineStats
}.

(** [startedAt] and [endedAt], copied to the report's [period], are left
    out. *)
Record ContributionsCollection : Type := {
  hasAnyContributions : bool;
  totalCommitContributions : Z;
  commitContributionsByRepository : list RepoContribution
}.

(** The [user] object of the contributions query. *)
Record UserContributions : Type := {
  login : string;
  user_name : option string;
  contributionsCollection : ContributionsCollection
}.

(** What [get_user_contributions] returns: the data of the single query
    when the window lies in one year (the collection is inside [user]), and
    otherwise the aggregate built by [get_user_contributions_range] (the
    collection is a key of its own). *)
Inductive ContributionsData : Type :=
| SingleYear (response_data : option (Data UserContributions))
| Aggregated (agg_user : option UserContributions)
             (agg_collection : ContributionsCollection).

(** ** The requests *)

(** The commits of the history query, as far as the line counts read them.
    [author] is [commit['author']], which the API may answer with null;
    [user_login] is its [['user']['login']], [None] when the author has no
    linked account. *)
Record Author : Type := { user_login : option string }.

Record Commit : Type := {
  author : option Author;
  commit_additions : option Z;
  commit_deletions : option Z
}.

(** [defaultBranchRef] holds [...['target']['history']['nodes']]. *)
Record RepositoryHistory : Type := { defaultBranchRef : option (list Commit) }.

(** The fields of the profile query that the model keeps. *)
Record UserProfile : Type := { profile_login : string; profile_name : option string }.

(** The remote API: the outcome of each request. *)
Record Network : Type := {
  post_profile : result (Response UserProfile);
  post_contributions : year_range -> result (Response UserContributions);
  post_history : string -> year_range -> result (Response RepositoryHistory)
}.

(** Lines 129-156; [time.sleep] has no counterpart. *)
Definition _make_graphql_request {U : Type} (post : result (Response U))
    : result (option (Data U)) :=
  response <- post ;;
  if negb (status_code response =? 200) then
    raise (GraphQLQueryFailed (status_code response))
  else
    body <- json response ;;
    if errors body then raise GraphQLErrors else ret (data body).

(** [s.lower()] on ASCII, the alphabet of logins. *)
Definition lower_ascii (c : ascii) : ascii :=
  let n := nat_of_ascii c in
  if (65 <=? n)%nat && (n <=? 90)%nat then ascii_of_nat (n + 32) else c.

Fixpoint lower (s : string) : string :=
  match s with
  | EmptyString => EmptyString
  | String c s' => String (lower_ascii c) (lower s')
  end.

(** What [get_commit_stats_for_repo] returns; the early return of line 292
    has no [net_lines] key. *)
Record CommitStats : Type := {
  cs_total_additions : Z;
  cs_total_deletions : Z;
  cs_net_lines : option Z
}.

Definition int_or_0 (x : option Z) : Z :=
  match x with Some n => n | None => 0 end.

(** Lines 301-329: the commits of the target user.  Subscripting a null
    author, line 305, raises [TypeError]. *)
Definition count_commit (username : string) (acc : Z * Z) (commit : Commit)
    : result (Z * Z) :=
  match author commit with
  | None => raise TypeError
  | Some actor =>
      match truthy_str (user_login actor) with
      | Some login =>
          if String.eqb (lower login) (lower username) then
            ret (fst acc + int_or_0 (commit_additions commit),
                 snd acc + int_or_0 (commit_deletions commit))
          else ret acc
      | None => ret acc
      end
  end.

(** Lines 288-342: every exception is caught and answered with zeros. *)
Definition get_commit_stats_for_repo (net : Network) (repo_key username : string)
    (range : year_range) : CommitStats :=
  let attempt : result CommitStats :=
    d <- _make_graphql_request (post_history net repo_key range) ;;
    match d with
    | None => ret {| cs_total_additions := 0; cs_total_deletions := 0; cs_net_lines := None |}
    | Some d =>
        match root d with
        | None => ret {| cs_total_additions := 0; cs_total_deletions := 0; cs_net_lines := None |}
        | Some repo =>
            match defaultBranchRef repo with
            | None => ret {| cs_total_additions := 0; cs_total_deletions := 0; cs_net_lines := None |}
            | Some commits =>
                totals <- for_each (count_commit username) commits (0, 0) ;;
                ret {| cs_total_additions := fst totals;
                       cs_total_deletions := snd totals;
                       cs_net_lines := Some (fst totals - snd totals) |}
            end
        end
    end in
  match attempt with
  | inr stats => stats
  | inl _ => {| cs_total_additions := 0; cs_total_deletions := 0; cs_net_lines := Some 0 |}
  end.

(** Lines 440-511. *)
Definition get_user_contributions_single_year (net : Network) (range : year_range)
    : result (option (Data UserContributions)) :=
  _make_graphql_request (post_contributions net range).

(** The per-repository accumulator of lines 374-378. *)
Record RepoAccumulator : Type := {
  acc_repository : Repository;
  acc_nodes : list ContributionNode;
  acc_line_stats : LineStats
}.

Record RangeState : Type := {
  agg_user : option UserContributions;
  agg_hasAnyContributions : bool;
  agg_totalCommitContributions : Z;
  repo_contributions : @Dict.t RepoAccumulator
}.

(** Lines 403-426: one repository of one year.  Line 426 indexes
    [line_stats['net_lines']], which the early return of line 292 does not
    carry.  [repo_key.split('/')] has no counterpart: a [nameWithOwner] has
    exactly one slash. *)
Definition merge_repo_contrib (net : Network) (username : string)
    (include_line_counts : bool) (range : year_range)
    (contribs : @Dict.t RepoAccumulator) (repo_contrib : RepoContribution)
    : result (@Dict.t RepoAccumulator) :=
  let repo := repository repo_contrib in
  let repo_key := nameWithOwner repo in
  let fresh := {| acc_repository := repo; acc_nodes := [];
                  acc_line_stats := no_line_stats |} in
  let contribs :=
    Dict.update fresh repo_key
      (fun a => {| acc_repository := acc_repository a;
                   acc_nodes := acc_nodes a ++ nodes repo_contrib;
                   acc_line_stats := acc_line_stats a |}) contribs in
  if include_line_counts && negb (isPrivate repo) then
    let stats := get_commit_stats_for_repo net repo_key username range in
    net_lines <- match cs_net_lines stats with
                 | Some n => ret n
                 | None => raise KeyError
                 end ;;
    ret (Dict.update fresh repo_key
           (fun a =>
              {| acc_repository := acc_repository a;
                 acc_nodes := acc_nodes a;
                 acc_line_stats :=
                   {| ls_total_additions :=
                        ls_total_additions (acc_line_stats a) + cs_total_additions stats;
                      ls_total_deletions :=
                        ls_total_deletions (acc_line_stats a) + cs_total_deletions stats;
                      ls_net_lines := ls_net_lines (acc_line_stats a) + net_lines |} |})
           contribs)
  else ret contribs.

(** Lines 380-426: one year of the range. *)
Definition merge_year (net : Network) (username : string) (include_line_counts : bool)
    (st : RangeState) (range : year_range) : result RangeState :=
  year_data <- get_user_contributions_single_year net range ;;
  match year_data with
  | None => ret st
  | Some d =>
      match root d with
      | None => ret st
      | Some u =>
          let year_contributions := contributionsCollection u in
          contribs <- for_each (merge_repo_contrib net username include_line_counts range)
                        (commitContributionsByRepository year_contributions)
                        (repo_contributions st) ;;
          ret {| agg_user := match agg_user st with Some u0 => Some u0 | None => Some u end;
                 agg_hasAnyContributions :=
                   if hasAnyContributions year_contributions then true
                   else agg_hasAnyContributions st;
                 agg_totalCommitContributions :=
                   agg_totalCommitContributions st
                   + totalCommitContributions year_contributions;
                 repo_contributions := contribs |}
      end
  end.

(** Lines 429-435: only the repositories with contributions are kept. *)
Definition kept_contribution (item : string * RepoAccumulator) : list RepoContribution :=
  let repo_data := snd item in
  let total_count := sum_int (map commitCount (acc_nodes repo_data)) in
  if total_count >? 0 then
    [{| repository := acc_repository repo_data;
        nodes := acc_nodes repo_data;
        line_stats := Some (acc_line_stats repo_data) |}]
  else [].

(** Lines 344-438. *)
Definition get_user_contributions_range (net : Network) (username : string)
    (start_dt end_dt : datetime) (include_line_counts : bool)
    : result ContributionsData :=
  year_ranges <- _generate_year_ranges start_dt end_dt ;;
  st <- for_each (merge_year net username include_line_counts) year_ranges
          {| agg_user := None; agg_hasAnyContributions := false;
             agg_totalCommitContributions := 0; repo_contributions := Dict.empty |} ;;
  ret (Aggregated (agg_user st)
         {| hasAnyContributions := agg_hasAnyContributions st;
            totalCommitContributions := agg_totalCommitContributions st;
            commitContributionsByRepository :=
              flat_map kept_contribution (repo_contributions st) |}).

(** Lines 547-564: the line counts attached in the single-year case. *)
Definition with_line_stats (net : Network) (username : string) (range : year_range)
    (repo_contrib : RepoContribution) : RepoContribution :=
  let repo := repository repo_contrib in
  {| repository := repo;
     nodes := nodes repo_contrib;
     line_stats :=
       if isPrivate repo then Some no_line_stats
       else
         let stats := get_commit_stats_for_repo net (nameWithOwner repo) username range in
         Some {| ls_total_additions := cs_total_additions stats;
                 ls_total_deletions := cs_total_deletions stats;
                 ls_net_lines := int_or_0 (cs_net_lines stats) |} |}.

Definition attach_line_stats (net : Network) (username : string) (range : year_range)
    (d : Data UserContributions) : Data UserContributions :=
  match root d with
  | None => d
  | Some u =>
      let c := contributionsCollection u in
      {| root := Some
           {| login := login u;
              user_name := user_name u;
              contributionsCollection :=
                {| hasAnyContributions := hasAnyContributions c;
                   totalCommitContributions := totalCommitContributions c;
                   commitContributionsByRepository :=
                     map (with_line_stats net username range)
                         (commitContributionsByRepository c) |} |} |}
  end.

(** Lines 536-569, with [from_date] and [to_date] given. *)
Definition get_user_contributions (net : Network) (username : string)
    (start_dt end_dt : datetime) (include_line_counts : bool)
    : result ContributionsData :=
  if (timedelta_days end_dt start_dt <=? 365) && (year start_dt =? year end_dt) then
    d <- get_user_contributions_single_year net (start_dt, end_dt) ;;
    ret (SingleYear
           (match d with
            | Some d' =>
                if include_line_counts then Some (attach_line_stats net username (start_dt, end_dt) d')
                else Some d'
            | None => None
            end))
  else get_user_contributions_range net username start_dt end_dt include_line_counts.

(** Lines 816-820; the profile itself is handed to the renderer. *)
Definition get_basic_user_stats (net : Network) : result UserProfile :=
  d <- _make_graphql_request (post_profile net) ;;
  match d with
  | None => raise UserNotFound
  | Some d =>
      match root d with
      | None => raise UserNotFound
      | Some u => ret u
      end
  end.

(** ** analyze_languages *)

Section WithFloat.
Context {F : Type} `{PyFloat F}.

(** The per-language entry; [repo_details], a log of the contributing
    repositories that no total reads, is left out. *)
Record LanguageStat : Type := {
  total_commits : Z;
  weighted_commits : F;
  repositories : list string;
  total_bytes : Z;
  total_additions : F;
  total_deletions : F;
  net_lines : F;
  color : option string
}.

Definition default_stat : LanguageStat :=
  {| total_commits := 0; weighted_commits := of_int 0; repositories := [];
     total_bytes := 0; total_additions := of_int 0; total_deletions := of_int 0;
     net_lines := of_int 0; color := None |}.

Definition LanguageStats := @Dict.t LanguageStat.

(** [set.add]. *)
Definition set_add (x : string) (xs : list string) : list string :=
  if existsb (String.eqb x) xs then xs else xs ++ [x].

(** The run-level accumulators of lines 605-610; [repository_details] and
    [yearly_stats], which feed only the listing and the yearly table, are
    left out. *)
Record Totals : Type := {
  sum_commits : Z;
  sum_additions : Z;
  sum_deletions : Z;
  sum_repositories : Z;
  language_stats : LanguageStats
}.

Definition initial_totals : Totals :=
  {| sum_commits := 0; sum_additions := 0; sum_deletions := 0;
     sum_repositories := 0; language_stats := Dict.empty |}.

Definition line_stats_of (rc : RepoContribution) : LineStats :=
  match line_stats rc with Some ls => ls | None => no_line_stats end.

(** Line 626. *)
Definition repo_commits_of (rc : RepoContribution) : Z :=
  sum_int (map commitCount (nodes rc)).

(** Lines 619-629: the three filters. *)
Definition filtered_out (include_forks include_private : bool) (min_commits : Z)
    (rc : RepoContribution) : bool :=
  (negb include_forks && isFork (repository rc))
  || (negb include_private && isPrivate (repository rc))
  || (repo_commits_of rc <? min_commits).

(** Lines 642-655: the primary language. *)
Definition attribute_primary (rc : RepoContribution) (stats : LanguageStats)
    : LanguageStats :=
  let repo := repository rc in
  let ls := line_stats_of rc in
  match primaryLanguage repo with
  | Some primary_language =>
      let lang_name := name primary_language in
      let lang_color :=
        str_or (node_color primary_language)
               (table_get language_colors lang_name "#858585") in
      Dict.update default_stat lang_name
        (fun s =>
           {| total_commits := total_commits s + repo_commits_of rc;
              weighted_commits := weighted_commits s;
              repositories := set_add (nameWithOwner repo) (repositories s);
              total_bytes := total_bytes s;
              total_additions := fadd (total_additions s) (of_int (ls_total_additions ls));
              total_deletions := fadd (total_deletions s) (of_int (ls_total_deletions ls));
              net_lines := fadd (net_lines s) (of_int (ls_net_lines ls));
              color := Some lang_color |}) stats
  | None => stats
  end.

(** Line 668: [lang_size / total_repo_size if total_repo_size > 0 else 0]. *)
Definition lang_percentage_of (lang_size total_repo_size : Z) : result F :=
  if total_repo_size >? 0 then truediv lang_size total_repo_size
  else ret (of_int 0).

(** Lines 661-680: one edge of the language breakdown. *)
Definition attribute_edge (rc : RepoContribution) (stats : LanguageStats)
    (lang_edge : LanguageEdge) : result LanguageStats :=
  let repo := repository rc in
  let ls := line_stats_of rc in
  let total_repo_size := totalSize (languages repo) in
  let lang_name := name (node lang_edge) in
  let lang_size := size lang_edge in
  let lang_color :=
    str_or (node_color (node lang_edge))
           (table_get language_colors lang_name "#858585") in
  lang_percentage <- lang_percentage_of lang_size total_repo_size ;;
  let weighted := fmul (of_int (repo_commits_of rc)) lang_percentage in
  let weighted_additions := fmul (of_int (ls_total_additions ls)) lang_percentage in
  let weighted_deletions := fmul (of_int (ls_total_deletions ls)) lang_percentage in
  let weighted_net := fmul (of_int (ls_net_lines ls)) lang_percentage in
  ret (Dict.update default_stat lang_name
         (fun s =>
            {| total_commits := total_commits s;
               weighted_commits := fadd (weighted_commits s) weighted;
               repositories := set_add (nameWithOwner repo) (repositories s);
               total_bytes := total_bytes s + lang_size;
               total_additions := fadd (total_additions s) weighted_additions;
               total_deletions := fadd (total_deletions s) weighted_deletions;
               net_lines := fadd (net_lines s) weighted_net;
               color := Some lang_color |}) stats).

Definition attribute_weighted (rc : RepoContribution) (stats : LanguageStats)
    : result LanguageStats :=
  for_each (attribute_edge rc) (edges (languages (repository rc))) stats.

(** Lines 612-717: the body of the loop over [commit_contributions]. *)
Definition process_repo_contribution (include_forks include_private : bool)
    (min_commits : Z) (t : Totals) (rc : RepoContribution) : result Totals :=
  if filtered_out include_forks include_private min_commits rc then ret t
  else
    let ls := line_stats_of rc in
    stats <- attribute_weighted rc (attribute_primary rc (language_stats t)) ;;
    ret {| sum_commits := sum_commits t + repo_commits_of rc;
           sum_additions := sum_additions t + ls_total_additions ls;
           sum_deletions := sum_deletions t + ls_total_deletions ls;
           sum_repositories := sum_repositories t + 1;
           language_stats := stats |}.

(** Lines 720-736: an entry of [final_stats]. *)
Record FinalStat : Type := {
  final_total_commits : Z;
  final_weighted_commits : F;
  commit_percentage : F;
  weighted_percentage : F;
  repository_count : Z;
  final_total_bytes : Z;
  final_total_additions : Z;
  final_total_deletions : Z;
  final_net_lines : Z;
  lines_percentage : F;
  final_color : option string
}.

(** [x / n * 100 if n > 0 else 0]. *)
Definition percent_of (x : F) (n : Z) : result F :=
  if n >? 0 then q <- fdiv_int x n ;; ret (fmul q (of_int 100))
  else ret (of_int 0).

Definition final_stat (t : Totals) (stats : LanguageStat) : result FinalStat :=
  commit_pct <- percent_of (of_int (total_commits stats)) (sum_commits t) ;;
  weighted_pct <- percent_of (weighted_commits stats) (sum_commits t) ;;
  lines_pct <- percent_of (total_additions stats) (sum_additions t) ;;
  ret {| final_total_commits := total_commits stats;
         final_weighted_commits := weighted_commits stats;
         commit_percentage := commit_pct;
         weighted_percentage := weighted_pct;
         repository_count := Z.of_nat (List.length (repositories stats));
         final_total_bytes := total_bytes stats;
         final_total_additions := to_int (total_additions stats);
         final_total_deletions := to_int (total_deletions stats);
         final_net_lines := to_int (net_lines stats);
         lines_percentage := lines_pct;
         final_color := color stats |}.

Definition final_entry (t : Totals) (final_stats : list (string * FinalStat))
    (item : string * LanguageStat) : result (list (string * FinalStat)) :=
  fs <- final_stat t (snd item) ;;
  ret (final_stats ++ [(fst item, fs)]).

Record Summary : Type := {
  summary_total_commits : Z;
  summary_total_repositories : Z;
  summary_total_additions : Z;
  summary_total_deletions : Z;
  summary_net_lines : Z;
  has_contributions : bool
}.

Record Analysis : Type := {
  analysis_login : string;
  summary : Summary;
  analysis_languages : list (string * FinalStat)
}.

(** Line 762: the sort key is [weighted_commits]. *)
Definition by_weighted_commits (a b : string * FinalStat) : bool :=
  fltb (final_weighted_commits (snd a)) (final_weighted_commits (snd b)).

(** The fold of lines 612-717 and the final table of lines 720-736. *)
Definition aggregate (include_forks include_private : bool) (min_commits : Z)
    (commit_contributions : list RepoContribution) : result Totals :=
  for_each (process_repo_contribution include_forks include_private min_commits)
    commit_contributions initial_totals.

Definition analyze_languages (contributions_data : ContributionsData)
    (include_forks include_private : bool) (min_commits : Z) : result Analysis :=
  match contributions_data with
  | SingleYear None => raise NoUserData
  | SingleYear (Some d) =>
      match root d with
      | None => raise NoUserData
      | Some _ => raise KeyError
      end
  | Aggregated None _ => raise NoUserData
  | Aggregated (Some u) contributions =>
      t <- aggregate include_forks include_private min_commits
             (commitContributionsByRepository contributions) ;;
      final_stats <- for_each (final_entry t) (language_stats t) [] ;;
      ret {| analysis_login := login u;
             summary :=
               {| summary_total_commits := sum_commits t;
                  summary_total_repositories := sum_repositories t;
                  summary_total_additions := sum_additions t;
                  summary_total_deletions := sum_deletions t;
                  summary_net_lines := sum_additions t - sum_deletions t;
                  has_contributions := hasAnyContributions contributions |};
             analysis_languages := sorted_reverse by_weighted_commits final_stats |}
  end.

(** ** main *)

(** From the token check on, with the window resolved; [print_analysis],
    [save_to_json] and [generate_terminal_svg] are the renderer, [emit]. *)
Definition main (args_token env_token : option string) (username : string)
    (start_dt end_dt : datetime)
    (exclude_forks exclude_private no_line_counts : bool) (min_commits : Z)
    (net : Network) (emit : Analysis -> UserProfile -> result unit) : Z :=
  match truthy_str (match truthy_str args_token with
                    | Some t => Some t
                    | None => env_token
                    end) with
  | None => 1
  | Some _ =>
      match (user_stats <- get_basic_user_stats net ;;
             contributions_data <-
               get_user_contributions net username start_dt end_dt (negb no_line_counts) ;;
             analysis <-
               analyze_languages contributions_data (negb exclude_forks)
                 (negb exclude_private) min_commits ;;
             emit analysis user_stats) with
      | inl _ => 1
      | inr _ => 0
      end
  end.

End WithFloat.

(** ** The yearly breakdown *)

Section YearlyBreakdown.
Context {F : Type} `{PyFloat F}.

(** An entry of [yearly_stats].  In the code the key [total_commits] and
    the keys of the languages share one dict; here they are two fields. *)
Record YearStat : Type := {
  year_total_commits : Z;
  year_languages : @Dict.t F
}.

Definition default_year : YearStat :=
  {| year_total_commits := 0; year_languages := Dict.empty |}.

(** [contrib["occurredAt"][:4]]. *)
Definition year_of (contrib : ContributionNode) : string :=
  String.substring 0 4 (occurredAt contrib).

(** Lines 637-639. *)
Definition count_year (yearly_stats : @Dict.t YearStat) (contrib : ContributionNode)
    : @Dict.t YearStat :=
  Dict.update default_year (year_of contrib)
    (fun y => {| year_total_commits := year_total_commits y + commitCount contrib;
                 year_languages := year_languages y |}) yearly_stats.

(** Lines 701-703. *)
Definition credit_year (lang_name : string) (lang_percentage : F)
    (yearly_stats : @Dict.t YearStat) (contrib : ContributionNode) : @Dict.t YearStat :=
  Dict.update default_year (year_of contrib)
    (fun y => {| year_total_commits := year_total_commits y;
                 year_languages :=
                   Dict.update (of_int 0) lang_name
                     (fun v => fadd v (fmul (of_int (commitCount contrib)) lang_percentage))
                     (year_languages y) |}) yearly_stats.

Definition yearly_edge (rc : RepoContribution) (yearly_stats : @Dict.t YearStat)
    (lang_edge : LanguageEdge) : result (@Dict.t YearStat) :=
  lang_percentage <-
    lang_percentage_of (size lang_edge) (totalSize (languages (repository rc))) ;;
  ret (fold_left (credit_year (name (node lang_edge)) lang_percentage) (nodes rc)
         yearly_stats).

(** What the body of the loop of lines 612-717 does to [yearly_stats]. *)
Definition yearly_step (include_forks include_private : bool) (min_commits : Z)
    (yearly_stats : @Dict.t YearStat) (rc : RepoContribution)
    : result (@Dict.t YearStat) :=
  if filtered_out include_forks include_private min_commits rc then ret yearly_stats
  else
    for_each (yearly_edge rc) (edges (languages (repository rc)))
      (fold_left count_year (nodes rc) yearly_stats).

(** [yearly_breakdown] of the analysis, lines 738-741 and 764. *)
Definition yearly_breakdown (include_forks include_private : bool) (min_commits : Z)
    (commit_contributions : list RepoContribution) : result (@Dict.t YearStat) :=
  for_each (yearly_step include_forks include_private min_commits)
    commit_contributions Dict.empty.

(** [years_analyzed], line 759. *)
Definition years_analyzed (yearly_summary : @Dict.t YearStat) : Z :=
  Z.of_nat (List.length yearly_summary).

End YearlyBreakdown.

(** ** The statistics of the profile *)

(** A repository of the profile query, lines 794-804; [profile_language]
    is the name of its primary language, [None] when it has none. *)
Record ProfileRepository : Type := {
  stargazerCount : Z;
  forkCount : Z;
  profile_language : option string;
  profile_isPrivate : bool;
  profile_isFork : bool
}.

(** Lines 826-828. *)
Definition total_stars (repos : list ProfileRepository) : Z :=
  sum_int (map stargazerCount (filter (fun repo => negb (profile_isPrivate repo)) repos)).

Definition total_forks (repos : list ProfileRepository) : Z :=
  sum_int (map forkCount (filter (fun repo => negb (profile_isPrivate repo)) repos)).

Definition public_repos (repos : list ProfileRepository) : Z :=
  Z.of_nat (List.length
              (filter (fun repo => negb (profile_isPrivate repo) && negb (profile_isFork repo))
                 repos)).

(** Lines 831-832. *)
Definition public_languages (repos : list ProfileRepository) : list string :=
  flat_map (fun repo =>
              match profile_language repo with
              | Some language => if profile_isPrivate repo then [] else [language]
              | None => []
              end) repos.

(** [Counter(languages)]: the number of occurrences of each item, the
    items in the order of their first occurrence. *)
Definition Counter (xs : list string) : @Dict.t Z :=
  fold_left (fun counts x => Dict.update 0 x (fun n => n + 1) counts) xs Dict.empty.

(** [max(items, key=count)]: the first of the items with the greatest
    count, which is what [most_common(1)] returns. *)
Fixpoint max_by_count (best : string * Z) (items : list (string * Z)) : string * Z :=
  match items with
  | [] => best
  | item :: rest => max_by_count (if snd best <? snd item then item else best) rest
  end.

(** Line 833. *)
Definition most_used_language (repos : list ProfileRepository) : string :=
  match Counter (public_languages repos) with
  | [] => "N/A"
  | first :: rest => fst (max_by_count first rest)
  end.

(** ** print_analysis: the distribution chart *)

Definition full_block : pystr := [9608%N].     (* U+2588 *)
Definition light_shade : pystr := [9617%N].    (* U+2591 *)

Section DistributionChart.
Context {F : Type} `{PyFloat F}.

(** [max(xs)] from its first item on: the first of the greatest. *)
Fixpoint max_float (best : F) (xs : list F) : F :=
  match xs with
  | [] => best
  | x :: rest => max_float (if fltb best x then x else best) rest
  end.

(** [x == 0] on a number that is not NaN: neither below nor above 0. *)
Definition is_zero (x : F) : bool :=
  negb (fltb x (of_int 0)) && negb (fltb (of_int 0) x).

(** Lines 1183-1184: the division raises when [max_weighted] is 0. *)
Definition distribution_bar (max_weighted : F) (stats : @FinalStat F) : result pystr :=
  if is_zero max_weighted then raise ZeroDivisionError
  else
    let bar_length :=
      to_int (fmul (fdiv (final_weighted_commits stats) max_weighted) (of_int 40)) in
    ret (times full_block bar_length ++ times light_shade (40 - bar_length)).

(** Lines 1180-1185, which an empty table does not reach (line 1152): the
    bars of the first ten languages. *)
Definition distribution_chart (languages : list (string * @FinalStat F))
    : result (list (string * pystr)) :=
  match map (fun item => final_weighted_commits (snd item)) languages with
  | [] => ret []
  | first :: rest =>
      let max_weighted := max_float first rest in
      for_each (fun chart item =>
                  bar <- distribution_bar max_weighted (snd item) ;;
                  ret (chart ++ [(fst item, bar)]))
        (firstn 10 languages) []
  end.

End DistributionChart.

(** ** generate_terminal_svg: the lines of the box *)

Definition box_vertical : pystr := [9474%N].     (* U+2502 *)
Definition box_horizontal : pystr := [9472%N].   (* U+2500 *)

(** [s.ljust(width)]. *)
Definition ljust (s : pystr) (width : Z) : pystr := s ++ times (str " ") (width - len s).

(** The three lines of the frame, lines 987, 989 and 1095. *)
Definition top_border : pystr :=
  [9484%N] ++ box_horizontal ++ str " GitHub Stats " ++ times box_horizontal 50 ++ [9488%N].

Definition blank_line : pystr := box_vertical ++ times (str " ") 65 ++ box_vertical.

Definition bottom_border : pystr := [9492%N] ++ times box_horizontal 65 ++ [9496%N].

(** [line.ljust(65) + "│"], the closing of every line with data. *)
Definition boxed (line : pystr) : pystr := ljust line 65 ++ box_vertical.

(** Lines 993-995; [join_date] is the year of [created_at]. *)
Definition user_line (name login join_date : pystr) : pystr :=
  boxed (box_vertical ++ str "  " ++ [128100%N] ++ str " " ++ name
         ++ str " (@" ++ login ++ str ") - Joined " ++ join_date).

(** Lines 998-1003, for a bio that is not empty. *)
Definition bio_line (bio : pystr) : pystr :=
  let bio_text := slice_to bio 50 ++ (if len bio >? 50 then str "..." else []) in
  boxed (box_vertical ++ str "  " ++ [128221%N] ++ str " " ++ bio_text).

(** Lines 1006-1008, for a location that is not empty. *)
Definition location_line (location : pystr) : pystr :=
  boxed (box_vertical ++ str "  " ++ [128205%N] ++ str " " ++ slice_to location 50).

(** Lines 1017-1027 and 1035-1045. *)
Definition stats_line1 (public_repos total_stars total_forks : Z) : pystr :=
  boxed (box_vertical ++ str "     Public Repos: " ++ str_of_int public_repos
         ++ str " " ++ box_vertical ++ str " Total Stars: " ++ str_of_int total_stars
         ++ str " " ++ box_vertical ++ str " Forks: " ++ str_of_int total_forks).

Definition stats_line2 (followers following : Z) : pystr :=
  boxed (box_vertical ++ str "     Followers: " ++ str_of_int followers
         ++ str " " ++ box_vertical ++ str " Following: " ++ str_of_int following).

End GeneratorPrev.

(** * The vocabulary of the statements *)

(** ** generator.py *)

Section NeofetchVocabulary.
Context {F : Type} `{PyFloat F}.
Import Generator.

(** The language an edge names, when the guards of lines 498-504 let it
    through. *)
Definition edge_language (edge : option LanguageEdge) : option string :=
  match edge with
  | Some e =>
      match node e with
      | Some nd => truthy_str (name nd)
      | None => None
      end
  | None => None
  end.

(** [int(commit_count * (edge_size / total_size))]. *)
Definition weighted_int (commit_count edge_size total_size : Z) : Z :=
  to_int (fmul (of_int commit_count) (fdiv (of_int edge_size) (of_int total_size))).

(** The edges that credit [lang]: they name it and their truncated
    weighted commit count is positive. *)
Definition credits (commit_count total_size : Z) (lang : string)
    (edge : option LanguageEdge) : list LanguageEdge :=
  match edge, edge_language edge with
  | Some e, Some l =>
      if String.eqb l lang && (weighted_int commit_count (edge_size_of e) total_size >? 0)
      then [e] else []
  | _, _ => []
  end.

Definition credited_sum (measure : LanguageEdge -> Z) (commit_count total_size : Z)
    (lang : string) (edges : list (option LanguageEdge)) : Z :=
  sum_int (map measure (flat_map (credits commit_count total_size lang) edges)).

Definition stat_of (lang : string) (stats : LanguageStats) : LanguageStat :=
  Dict.get default_stat lang stats.

(** The primary language of a repository, when lines 485-486 accept it. *)
Definition primary_name (repo : Repository) : option string :=
  match primaryLanguage repo with
  | Some primary_lang => truthy_str (name primary_lang)
  | None => None
  end.

Definition primary_gain (commit_count : Z) (repo : Repository) (lang : string) : Z :=
  match primary_name repo with
  | Some l => if String.eqb l lang then commit_count else 0
  | None => 0
  end.

Definition year_commits_of (year_data : YearData) : Z :=
  match totalCommitContributions year_data with Some c => c | None => 0 end.

(** The row lines 537-544 give a language with commits. *)
Definition percentage_row (total : Z) (item : string * LanguageStat)
    : list (string * @LanguagePercentage F) :=
  if commits (snd item) >? 0 then
    [(fst item,
      {| percentage := fmul (fdiv (of_int (commits (snd item))) (of_int total)) (of_int 100);
         pct_commits := commits (snd item);
         pct_additions := additions (snd item);
         pct_deletions := deletions (snd item);
         net := additions (snd item) - deletions (snd item);
         pct_color := color (snd item) |})]
  else [].

(** What the request of a year comes to, lines 430-459: an exception
    that nothing catches before [main], a warning and a skipped year, or
    the year's collection. *)
Inductive YearOutcome : Type :=
| Raised (e : exn)
| Skipped (w : Warning)
| Fetched (year_data : YearData).

Definition year_outcome (net : Network) (y : Z) : YearOutcome :=
  match post_year net y with
  | inl e => Raised e
  | inr response =>
      if negb (status_code response =? 200) then
        Skipped (FailedToFetch y (status_code response))
      else
        match json response with
        | inl e => Raised e
        | inr body =>
            if errors body then Skipped (GraphQLErrorsFor y)
            else
              match data body with
              | None => Skipped (NoUserDataFor y)
              | Some d =>
                  match root d with
                  | None => Skipped (NoUserDataFor y)
                  | Some user_contrib =>
                      match contributionsCollection user_contrib with
                      | None => Skipped (NoContributionsCollection y)
                      | Some year_data => Fetched year_data
                      end
                  end
              end
        end
  end.

Definition answered (net : Network) (y : Z) : bool :=
  match year_outcome net y with
  | Raised _ => false
  | _ => true
  end.

Definition fetched_years (net : Network) (years : list Z) : list (Z * YearData) :=
  flat_map (fun y => match year_outcome net y with
                     | Fetched year_data => [(y, year_data)]
                     | _ => []
                     end) years.

Definition skipped_warnings (net : Network) (years : list Z) : list Warning :=
  flat_map (fun y => match year_outcome net y with
                     | Skipped w => [w]
                     | _ => []
                     end) years.

(** The fold of the fetched years alone. *)
Definition fold_fetched (fetched : list (Z * YearData)) (st : RunState) : result RunState :=
  for_each (fun st p => process_year_data (fst p) (snd p) st) fetched st.

(** The totals of a state, apart from the warnings. *)
Definition totals_of (st : RunState)
    : list (Z * YearData) * Z * LanguageStats :=
  (contributions_data st, total_commits st, language_stats st).

End NeofetchVocabulary.

(** ** generator_prev.py *)

Section TerminalVocabulary.
Context {F : Type} `{PyFloat F}.
Import GeneratorPrev.

(** The share of line 668 as a value. *)
Definition lang_share (lang_size total_repo_size : Z) : F :=
  if total_repo_size >? 0 then fdiv (of_int lang_size) (of_int total_repo_size)
  else of_int 0.

(** What lines 674-680 do to the entry of the edge's language. *)
Definition edge_update (rc : RepoContribution) (lang_edge : LanguageEdge)
    (s : @LanguageStat F) : @LanguageStat F :=
  let ls := line_stats_of rc in
  let share := lang_share (size lang_edge) (totalSize (languages (repository rc))) in
  {| total_commits := total_commits s;
     weighted_commits := fadd (weighted_commits s) (fmul (of_int (repo_commits_of rc)) share);
     repositories := set_add (nameWithOwner (repository rc)) (repositories s);
     total_bytes := total_bytes s + size lang_edge;
     total_additions :=
       fadd (total_additions s) (fmul (of_int (ls_total_additions ls)) share);
     total_deletions :=
       fadd (total_deletions s) (fmul (of_int (ls_total_deletions ls)) share);
     net_lines := fadd (net_lines s) (fmul (of_int (ls_net_lines ls)) share);
     color := Some (str_or (node_color (node lang_edge))
                      (table_get language_colors (name (node lang_edge)) "#858585")) |}.

Definition prev_stat_of (lang : string) (stats : @LanguageStats F) : @LanguageStat F :=
  Dict.get default_stat lang stats.

Definition names (lang : string) (lang_edge : LanguageEdge) : bool :=
  String.eqb (name (node lang_edge)) lang.

(** What lines 648-655 do to the entry of the primary language. *)
Definition primary_update (rc : RepoContribution) (primary_language : LanguageNode)
    (s : @LanguageStat F) : @LanguageStat F :=
  let ls := line_stats_of rc in
  {| total_commits := total_commits s + repo_commits_of rc;
     weighted_commits := weighted_commits s;
     repositories := set_add (nameWithOwner (repository rc)) (repositories s);
     total_bytes := total_bytes s;
     total_additions := fadd (total_additions s) (of_int (ls_total_additions ls));
     total_deletions := fadd (total_deletions s) (of_int (ls_total_deletions ls));
     net_lines := fadd (net_lines s) (of_int (ls_net_lines ls));
     color := Some (str_or (node_color primary_language)
                      (table_get language_colors (name primary_language) "#858585")) |}.

(** The records that pass the filters of lines 619-629. *)
Definition survives (include_forks include_private : bool) (min_commits : Z)
    (rc : RepoContribution) : bool :=
  negb (filtered_out include_forks include_private min_commits rc).

(** The percentage of lines 725-733 as a value. *)
Definition percent (x : F) (n : Z) : F :=
  if n >? 0 then fmul (fdiv x (of_int n)) (of_int 100) else of_int 0.

Definition final_of (t : @Totals F) (stats : @LanguageStat F) : @FinalStat F :=
  {| final_total_commits := total_commits stats;
     final_weighted_commits := weighted_commits stats;
     commit_percentage := percent (of_int (total_commits stats)) (sum_commits t);
     weighted_percentage := percent (weighted_commits stats) (sum_commits t);
     repository_count := Z.of_nat (List.length (repositories stats));
     final_total_bytes := total_bytes stats;
     final_total_additions := to_int (total_additions stats);
     final_total_deletions := to_int (total_deletions stats);
     final_net_lines := to_int (net_lines stats);
     lines_percentage := percent (total_additions stats) (sum_additions t);
     final_color := color stats |}.

Definition final_table (t : @Totals F) : list (string * @FinalStat F) :=
  map (fun item => (fst item, final_of t (snd item))) (language_stats t).

(** The entry of [lang] after the primary step of a record. *)
Definition after_primary (rc : RepoContribution) (lang : string) (s : @LanguageStat F)
    : @LanguageStat F :=
  match primaryLanguage (repository rc) with
  | Some pl => if String.eqb (name pl) lang then primary_update rc pl s else s
  | None => s
  end.

(** The repositories filed under a language hold no name twice, and only
    names from [names]. *)
Definition repositories_within (names : list string) (item : string * @LanguageStat F)
    : Prop :=
  NoDup (repositories (snd item)) /\ incl (repositories (snd item)) names.

End TerminalVocabulary.

(** ** Exact arithmetic *)

Section ExactVocabulary.
Import GeneratorPrev.

Definition exact_sum (xs : list Q) : Q := fold_right Qplus 0%Q xs.

(** The amount line 669 attributes for an edge: [repo_commits * share]. *)
Definition weighted_amount (rc : RepoContribution) (e : LanguageEdge) : Q :=
  inject_Z (repo_commits_of rc)
  * @lang_share Q exact (size e) (totalSize (languages (repository rc))).

Definition weighted_lines (count : Z) (rc : RepoContribution) (e : LanguageEdge) : Q :=
  inject_Z count * @lang_share Q exact (size e) (totalSize (languages (repository rc))).

End ExactVocabulary.






(** ** Dates *)

Section DateVocabulary.
Import GeneratorPrev.

(** The first and the last second of a year. *)
Definition jan1 (y : Z) : datetime :=
  {| year := y; month := 1; day := 1; hour := 0; minute := 0; second := 0 |}.

Definition dec31 (y : Z) : datetime :=
  {| year := y; month := 12; day := 31; hour := 23; minute := 59; second := 59 |}.

(** A valid [datetime] as one number, in the order of the fields. *)
Definition stamp (d : datetime) : Z :=
  ((((year d * 13 + month d) * 32 + day d) * 24 + hour d) * 60 + minute d) * 60 + second d.

(** The last calendar year that holds an instant of the window before its
    end. *)
Definition last_year (e : datetime) : Z :=
  if dt_ltb (jan1 (year e)) e then year e else year e - 1.

Definition sound_range (cs e : datetime) (r : year_range) : Prop :=
  valid (fst r) = true /\ valid (snd r) = true /\
  stamp cs <= stamp (fst r) /\ stamp (fst r) <= stamp (snd r) /\
  stamp (snd r) <= stamp e /\ year (fst r) = year (snd r).

End DateVocabulary.

(** ** The line counts and the multi-year fetch *)

Section FetchVocabulary.
Import GeneratorPrev.

(** A commit that lines 305-308 attribute to [username]: its author has a
    linked account whose login is [username], letter case apart. *)
Definition authored_by (username : string) (commit : Commit) : bool :=
  match author commit with
  | Some actor =>
      match truthy_str (user_login actor) with
      | Some login => String.eqb (lower login) (lower username)
      | None => false
      end
  | None => false
  end.

(** The API answered the commit's author. *)
Definition has_author (commit : Commit) : bool :=
  match author commit with Some _ => true | None => false end.

(** The answers of the history query that take the early return of
    line 292: no data, no repository, or no default branch. *)
Definition without_default_branch (d : option (Data RepositoryHistory)) : bool :=
  match d with
  | None => true
  | Some d =>
      match root d with
      | None => true
      | Some repo =>
          match defaultBranchRef repo with
          | None => true
          | Some _ => false
          end
      end
  end.

(** The records that the query of a year range lists, when it is answered
    with a user. *)
Definition year_records (net : Network) (range : year_range) : list RepoContribution :=
  match get_user_contributions_single_year net range with
  | inr (Some d) =>
      match root d with
      | Some u => commitContributionsByRepository (contributionsCollection u)
      | None => []
      end
  | _ => []
  end.

Definition repository_name (rc : RepoContribution) : string :=
  nameWithOwner (repository rc).

(** The entries of the accumulator of lines 374-378 carry the repository
    they are filed under. *)
Definition filed_under_its_name (item : string * RepoAccumulator) : Prop :=
  nameWithOwner (acc_repository (snd item)) = fst item.

(** The commits of all the contribution nodes an accumulator holds. *)
Definition held_commits (a : RepoAccumulator) : Z :=
  sum_int (map commitCount (acc_nodes a)).

End FetchVocabulary.

(** ** Order *)

(** A list in descending order of a rational key: no item stands before an
    item with a greater key. *)
Definition descending {A : Type} (key : A -> Q) (l : list A) : Prop :=
  ForallOrdPairs (fun a b => (key b <= key a)%Q) l.

(** ** The buckets of the neofetch pipeline *)

Section BucketVocabulary.
Context {F : Type} `{PyFloat F}.
Import Generator.

(** The sum of all [commits] buckets, the denominator of line 530. *)
Definition bucket_sum (stats : LanguageStats) : Z :=
  sum_int (map commits (Dict.values stats)).

(** What lines 497-512 add to the buckets for one edge: its truncated
    weighted commit count, when the edge names a language and the count is
    positive. *)
Definition credited_weight (commit_count total_size : Z) (edge : option LanguageEdge) : Z :=
  match edge, edge_language edge with
  | Some e, Some _ =>
      if weighted_int commit_count (edge_size_of e) total_size >? 0
      then weighted_int commit_count (edge_size_of e) total_size
      else 0
  | _, _ => 0
  end.

(** What lines 485-489 add to the buckets: the commit count, when the
    repository names its primary language. *)
Definition primary_weight (commit_count : Z) (repo : Repository) : Z :=
  match primary_name repo with
  | Some _ => commit_count
  | None => 0
  end.

(** The size of an edge is not negative. *)
Definition sized (edge : option LanguageEdge) : Prop :=
  match edge with
  | Some e => 0 <= edge_size_of e
  | None => True
  end.

End BucketVocabulary.

(** ** Occurrences *)

(** The number of occurrences of a string in a list. *)
Definition occurrences (x : string) (xs : list string) : Z :=
  Z.of_nat (count_occ string_dec xs x).

(** The year of a contribution node of a record that passes the filters. *)
Definition year_of_a_surviving_node (include_forks include_private : bool)
    (min_commits : Z) (records : list GeneratorPrev.RepoContribution) (y : string) : Prop :=
  exists rc node,
    In rc (filter (survives include_forks include_private min_commits) records) /\
    In node (GeneratorPrev.nodes rc) /\
    GeneratorPrev.year_of node = y.

(** ** The card *)

(** The places of the content lines that are not gaps, among the 24 lines
    of the profile content. *)
Definition gap_free_indices : list Z :=
  [0; 1; 2; 3; 4; 6; 7; 8; 10; 11; 13; 14; 15; 16; 17; 18; 20; 21; 22; 23].

(** Every [y] the geometry places text at. *)
Definition text_ys (g : Generator.CardGeometry) : list Z :=
  Generator.header_y g :: map snd (Generator.line_ys g) ++ map snd (Generator.detail_ys g).

(** The share of the bar's width that line 558 gives a language, in exact
    arithmetic, and the languages that line 559 lets through. *)
Definition share (width : Z) (row : string * @Generator.LanguagePercentage Q) : Q :=
  (Generator.percentage (snd row) / inject_Z 100 * inject_Z width)%Q.

Definition drawn (width : Z) (row : string * @Generator.LanguagePercentage Q) : bool :=
  negb (Q_ltb (share width row) 1).

(** Where segments of the given widths start when they lie end to end from
    [x] on. *)
Fixpoint starts (x : Q) (widths : list Q) : list Q :=
  match widths with
  | [] => []
  | w :: rest => x :: starts (x + w)%Q rest
  end.

(** A bar of the distribution chart with [k] filled cells. *)
Definition cells (k : Z) : pystr :=
  times GeneratorPrev.full_block k ++ times GeneratorPrev.light_shade (40 - k).


(** ** The header of the card *)

Definition ellipsis : pystr := str "...".

(** The name that [clean_and_visible_length] keeps. *)
Definition cleaned_name (category east_asian_width : N -> string) (full_name : pystr)
    : pystr :=
  fst (Generator.clean_and_visible_length category east_asian_width full_name).

(** What follows the name in the header, with [dashes] em dashes in the middle. *)
Definition decoration (username : pystr) (dashes : Z) : pystr :=
  (str " -" ++ em_dash ++ str "- " ++ (str "@" ++ username) ++ str " -")
  ++ times em_dash dashes ++ (em_dash ++ str "-" ++ em_dash ++ str "-").


(** ** The languages of the terminal table *)

(** A record credits [lang]: it is the primary language of its repository
    or the language of one of its edges. *)
Definition credits_language (rc : GeneratorPrev.RepoContribution) (lang : string) : Prop :=
  (exists primary,
     GeneratorPrev.primaryLanguage (GeneratorPrev.repository rc) = Some primary /\
     GeneratorPrev.name primary = lang) \/
  (exists lang_edge,
     In lang_edge (GeneratorPrev.edges (GeneratorPrev.languages (GeneratorPrev.repository rc)))
     /\ GeneratorPrev.name (GeneratorPrev.node lang_edge) = lang).

(** A record that passes the filters credits [lang]. *)
Definition accumulated (include_forks include_private : bool) (min_commits : Z)
    (rcs : list GeneratorPrev.RepoContribution) (lang : string) : Prop :=
  exists rc,
    In rc rcs /\ survives include_forks include_private min_commits rc = true /\
    credits_language rc lang.

(** ** The chart of the terminal pipeline *)

(** Every language of the accumulator has weighted commits 0. *)
Definition weightless (stats : @GeneratorPrev.LanguageStats Q) : Prop :=
  Forall (fun item => (GeneratorPrev.weighted_commits (snd item) == 0)%Q) stats.

(** A record that passes the filters has no language edge with bytes. *)
Definition without_sized_language (include_forks include_private : bool) (min_commits : Z)
    (rc : GeneratorPrev.RepoContribution) : Prop :=
  survives include_forks include_private min_commits rc = true ->
  Forall (fun e => GeneratorPrev.size e = 0)
    (GeneratorPrev.edges (GeneratorPrev.languages (GeneratorPrev.repository rc))).

(** A record that passes the filters and names a language. *)
Definition names_a_language (include_forks include_private : bool) (min_commits : Z)
    (rc : GeneratorPrev.RepoContribution) : Prop :=
  survives include_forks include_private min_commits rc = true /\
  (GeneratorPrev.primaryLanguage (GeneratorPrev.repository rc) <> None \/
   GeneratorPrev.edges (GeneratorPrev.languages (GeneratorPrev.repository rc)) <> []).


(** ** The window of the neofetch fetch *)

(** The start of the window exists: the days fit a [timedelta] and the day
    falls in the years 1 to 9999. *)
Definition window_fits (end_date : Generator.date) (years_back : Z) : Prop :=
  Z.abs (365 * years_back) <= 999999999 /\
  0 < Generator.toordinal end_date - 365 * years_back <= 3652059.


(** * Sample data *)

Definition ok_response {U : Type} (x : U) : result (Response U) :=
  inr {| status_code := 200;
         json := inr {| errors := false; data := Some {| root := Some x |} |} |}.

Definition http_error {U : Type} (status : Z) : result (Response U) :=
  inr {| status_code := status; json := inl JSONDecodeError |}.

Definition neofetch_edge (lang : string) (bytes : Z) : option Generator.LanguageEdge :=
  Some {| Generator.size := Some bytes;
          Generator.node := Some {| Generator.name := Some lang;
                                    Generator.node_color := None |} |}.

Definition neofetch_repo (primary : option string) (breakdown : list (string * Z))
    : Generator.Repository :=
  {| Generator.primaryLanguage :=
       match primary with
       | Some lang => Some {| Generator.name := Some lang; Generator.node_color := None |}
       | None => None
       end;
     Generator.languages := map (fun p => neofetch_edge (fst p) (snd p)) breakdown |}.

Definition neofetch_record (primary : option string) (breakdown : list (string * Z))
    (commit_count : Z) : option Generator.RepoContribution :=
  Some {| Generator.repository := Some (neofetch_repo primary breakdown);
          Generator.totalCount := Some commit_count |}.

Definition neofetch_year (year_total : Z) (records : list (option Generator.RepoContribution))
    : Generator.UserContributions :=
  {| Generator.contributionsCollection :=
       Some {| Generator.totalCommitContributions := Some year_total;
               Generator.commitContributionsByRepository := records |} |}.

Definition ada : Generator.UserData :=
  {| Generator.user_name := Some "Ada"; Generator.login := "ada" |}.

(** The commit count line 479 reads off a record. *)
Definition recorded_count (repo_contrib : option Generator.RepoContribution) : Z :=
  match repo_contrib with
  | Some rc => match Generator.totalCount rc with Some c => c | None => 0 end
  | None => 0
  end.

(** A single year whose collection reports 5 commits and lists one
    repository with 3. *)
Definition one_year_network : Generator.Network :=
  {| Generator.post_user := ok_response ada;
     Generator.post_year := fun _ =>
       ok_response (neofetch_year 5 [neofetch_record (Some "A") [("A", 60); ("B", 40)] 3]) |}.


(** Three years, the middle of which fails: its request raises in
    [transport_failure], and is answered with status 502 in
    [gateway_failure]. *)
Definition year_2023 : Generator.UserContributions :=
  neofetch_year 7 [neofetch_record (Some "A") [("A", 60); ("B", 40)] 7].

Definition year_2025 : Generator.UserContributions :=
  neofetch_year 5 [neofetch_record (Some "B") [("B", 10)] 5].

Definition transport_failure : Generator.Network :=
  {| Generator.post_user := ok_response ada;
     Generator.post_year := fun y =>
       if y =? 2023 then ok_response year_2023
       else if y =? 2024 then inl RequestException
       else ok_response year_2025 |}.

Definition gateway_failure : Generator.Network :=
  {| Generator.post_user := ok_response ada;
     Generator.post_year := fun y =>
       if y =? 2023 then ok_response year_2023
       else if y =? 2024 then http_error 502
       else ok_response year_2025 |}.

Definition written (data : Generator.RunData) : result unit := inr tt.

Definition prev_edge (lang : string) (bytes : Z) : GeneratorPrev.LanguageEdge :=
  {| GeneratorPrev.node := {| GeneratorPrev.name := lang; GeneratorPrev.node_color := None |};
     GeneratorPrev.size := bytes |}.

Definition prev_repo (full_name : string) (primary : option string)
    (breakdown : list (string * Z)) (total : Z) : GeneratorPrev.Repository :=
  {| GeneratorPrev.nameWithOwner := full_name;
     GeneratorPrev.primaryLanguage :=
       match primary with
       | Some lang => Some {| GeneratorPrev.name := lang; GeneratorPrev.node_color := None |}
       | None => None
       end;
     GeneratorPrev.languages :=
       {| GeneratorPrev.edges := map (fun p => prev_edge (fst p) (snd p)) breakdown;
          GeneratorPrev.totalSize := total |};
     GeneratorPrev.isPrivate := false;
     GeneratorPrev.isFork := false |}.

Definition prev_record (repo : GeneratorPrev.Repository) (commit_counts : list Z)
    (lines : option GeneratorPrev.LineStats) : GeneratorPrev.RepoContribution :=
  {| GeneratorPrev.repository := repo;
     GeneratorPrev.nodes :=
       map (fun c => {| GeneratorPrev.commitCount := c;
                        GeneratorPrev.occurredAt := "2024-03-01T00:00:00Z" |}) commit_counts;
     GeneratorPrev.line_stats := lines |}.

(** Fifteen listed languages of 10 bytes each in a repository of sixteen:
    the query lists at most fifteen edges, [totalSize] counts them all. *)
Definition fifteen_of_sixteen : GeneratorPrev.RepoContribution :=
  prev_record
    (prev_repo "ada/polyglot" None
       (map (fun l => (l, 10))
          ["L01"; "L02"; "L03"; "L04"; "L05"; "L06"; "L07"; "L08"; "L09"; "L10";
           "L11"; "L12"; "L13"; "L14"; "L15"]) 160)
    [16] None.

(** A repository where the user deleted more lines than were added. *)
Definition shrinking_record : GeneratorPrev.RepoContribution :=
  prev_record (prev_repo "ada/cleanup" (Some "A") [("A", 100)] 100) [2]
    (Some {| GeneratorPrev.ls_total_additions := 5;
             GeneratorPrev.ls_total_deletions := 20;
             GeneratorPrev.ls_net_lines := -15 |}).

(** Two languages with equal shares in one repository of 10 commits: both
    stand at 50 percent and keep the accumulator's order, A before B. *)
Definition tied_collection : GeneratorPrev.ContributionsCollection :=
  {| GeneratorPrev.hasAnyContributions := true;
     GeneratorPrev.totalCommitContributions := 10;
     GeneratorPrev.commitContributionsByRepository :=
       [prev_record (prev_repo "ada/x" None [("A", 50); ("B", 50)] 100) [10] None] |}.


Definition ada_contributions : GeneratorPrev.UserContributions :=
  {| GeneratorPrev.login := "ada"; GeneratorPrev.user_name := Some "Ada";
     GeneratorPrev.contributionsCollection := tied_collection |}.

Definition terminal_user (rcs : list GeneratorPrev.RepoContribution)
    : GeneratorPrev.UserContributions :=
  {| GeneratorPrev.login := "ada"; GeneratorPrev.user_name := Some "Ada";
     GeneratorPrev.contributionsCollection :=
       {| GeneratorPrev.hasAnyContributions := true;
          GeneratorPrev.totalCommitContributions := 5;
          GeneratorPrev.commitContributionsByRepository := rcs |} |}.

(** The terminal pipeline's network with the year 2024 answered by
    status 502. *)
Definition terminal_gateway_failure : GeneratorPrev.Network :=
  {| GeneratorPrev.post_profile :=
       ok_response {| GeneratorPrev.profile_login := "ada";
                      GeneratorPrev.profile_name := Some "Ada" |};
     GeneratorPrev.post_contributions := fun r =>
       if GeneratorPrev.year (fst r) =? 2024 then http_error 502
       else ok_response
              (terminal_user
                 [prev_record (prev_repo "ada/x" (Some "A") [("A", 100)] 100) [5] None]);
     GeneratorPrev.post_history := fun _ _ => http_error 404 |}.

Definition emitted {F : Type} (a : @GeneratorPrev.Analysis F)
    (u : GeneratorPrev.UserProfile) : result unit := inr tt.

Definition at_time (y mo d h mi s : Z) : GeneratorPrev.datetime :=
  {| GeneratorPrev.year := y; GeneratorPrev.month := mo; GeneratorPrev.day := d;
     GeneratorPrev.hour := h; GeneratorPrev.minute := mi; GeneratorPrev.second := s |}.

(** The terminal pipeline's network with every query answered: one
    repository of 5 commits in every year, and a history of three commits
    of which two are the user's. *)
Definition commit_by (login : option string) (additions deletions : option Z)
    : GeneratorPrev.Commit :=
  {| GeneratorPrev.author := Some {| GeneratorPrev.user_login := login |};
     GeneratorPrev.commit_additions := additions;
     GeneratorPrev.commit_deletions := deletions |}.

Definition ada_history : list GeneratorPrev.Commit :=
  [commit_by (Some "Ada") (Some 10) (Some 4);
   commit_by (Some "grace") (Some 100) (Some 50);
   commit_by None (Some 7) (Some 7);
   commit_by (Some "ADA") (Some 1) None].

(** The same history followed by a commit whose author the API answers with
    null. *)
Definition history_with_a_null_author : list GeneratorPrev.Commit :=
  ada_history
  ++ [{| GeneratorPrev.author := None;
         GeneratorPrev.commit_additions := Some 3;
         GeneratorPrev.commit_deletions := Some 2 |}].

Definition null_author_network : GeneratorPrev.Network :=
  {| GeneratorPrev.post_profile :=
       ok_response {| GeneratorPrev.profile_login := "ada";
                      GeneratorPrev.profile_name := Some "Ada" |};
     GeneratorPrev.post_contributions := fun _ =>
       ok_response
         (terminal_user
            [prev_record (prev_repo "ada/x" (Some "A") [("A", 100)] 100) [5] None]);
     GeneratorPrev.post_history := fun _ _ =>
       ok_response {| GeneratorPrev.defaultBranchRef := Some history_with_a_null_author |} |}.

Definition terminal_network : GeneratorPrev.Network :=
  {| GeneratorPrev.post_profile :=
       ok_response {| GeneratorPrev.profile_login := "ada";
                      GeneratorPrev.profile_name := Some "Ada" |};
     GeneratorPrev.post_contributions := fun _ =>
       ok_response
         (terminal_user
            [prev_record (prev_repo "ada/x" (Some "A") [("A", 100)] 100) [5] None]);
     GeneratorPrev.post_history := fun _ _ =>
       ok_response {| GeneratorPrev.defaultBranchRef := Some ada_history |} |}.

(** The same network, whose history query finds no default branch. *)
Definition terminal_empty_history : GeneratorPrev.Network :=
  {| GeneratorPrev.post_profile := GeneratorPrev.post_profile terminal_network;
     GeneratorPrev.post_contributions := GeneratorPrev.post_contributions terminal_network;
     GeneratorPrev.post_history := fun _ _ =>
       ok_response {| GeneratorPrev.defaultBranchRef := None |} |}.

(** Two forks of 4 commits each. *)
Definition two_forks : list GeneratorPrev.RepoContribution :=
  map (fun n =>
         prev_record
           {| GeneratorPrev.nameWithOwner := n;
              GeneratorPrev.primaryLanguage :=
                Some {| GeneratorPrev.name := "A"; GeneratorPrev.node_color := None |};
              GeneratorPrev.languages :=
                {| GeneratorPrev.edges := [prev_edge "A" 100];
                   GeneratorPrev.totalSize := 100 |};
              GeneratorPrev.isPrivate := false;
              GeneratorPrev.isFork := true |} [4] None)
    ["ada/fork1"; "ada/fork2"].

(** Two repositories: ada/x, 10 commits, bytes A: 30 and B: 70; ada/y,
    10 commits, bytes A: 20, B: 30 and C: 50. *)
Definition two_repositories : GeneratorPrev.ContributionsCollection :=
  {| GeneratorPrev.hasAnyContributions := true;
     GeneratorPrev.totalCommitContributions := 20;
     GeneratorPrev.commitContributionsByRepository :=
       [prev_record (prev_repo "ada/x" (Some "B") [("A", 30); ("B", 70)] 100) [10] None;
        prev_record (prev_repo "ada/y" None [("A", 20); ("B", 30); ("C", 50)] 100)
          [10] None] |}.

(** What the terminal pipeline aggregates from [terminal_network] over the
    window from 2023 to June 2025: three years of ada/x, each with 5
    commits and with 11 lines added and 4 deleted by the user. *)
Definition three_years_user : GeneratorPrev.UserContributions :=
  terminal_user [prev_record (prev_repo "ada/x" (Some "A") [("A", 100)] 100) [5] None].

Definition three_years_of_ada : GeneratorPrev.ContributionsCollection :=
  {| GeneratorPrev.hasAnyContributions := true;
     GeneratorPrev.totalCommitContributions := 15;
     GeneratorPrev.commitContributionsByRepository :=
       [prev_record (prev_repo "ada/x" (Some "A") [("A", 100)] 100) [5; 5; 5]
          (Some {| GeneratorPrev.ls_total_additions := 33;
                   GeneratorPrev.ls_total_deletions := 12;
                   GeneratorPrev.ls_net_lines := 21 |})] |}.

(** Three buckets, one of them empty. *)
Definition three_buckets : Generator.LanguageStats :=
  [("A", {| Generator.commits := 1; Generator.additions := 0;
            Generator.deletions := 0; Generator.color := "#000000" |});
   ("B", {| Generator.commits := 0; Generator.additions := 0;
            Generator.deletions := 0; Generator.color := "#000000" |});
   ("C", {| Generator.commits := 2; Generator.additions := 0;
            Generator.deletions := 0; Generator.color := "#000000" |})].

(** The repositories of a profile. *)
Definition profile_repository (language : option string) (private : bool) (stars : Z)
    : GeneratorPrev.ProfileRepository :=
  {| GeneratorPrev.stargazerCount := stars;
     GeneratorPrev.forkCount := 0;
     GeneratorPrev.profile_language := language;
     GeneratorPrev.profile_isPrivate := private;
     GeneratorPrev.profile_isFork := false |}.

Definition five_repositories : list GeneratorPrev.ProfileRepository :=
  [profile_repository (Some "Python") false 3;
   profile_repository (Some "Rust") false 1;
   profile_repository (Some "Python") true 9;
   profile_repository (Some "Rust") false 0;
   profile_repository None false 2].

(** A table of two languages, one of them below a fifth of a percent. *)
Definition two_rows : list (string * @Generator.LanguagePercentage Q) :=
  [("A", {| Generator.percentage := 999 # 10; Generator.pct_commits := 999;
            Generator.pct_additions := 0; Generator.pct_deletions := 0;
            Generator.net := 0; Generator.pct_color := "#3572A5" |});
   ("B", {| Generator.percentage := 1 # 10; Generator.pct_commits := 1;
            Generator.pct_additions := 0; Generator.pct_deletions := 0;
            Generator.net := 0; Generator.pct_color := "#dea584" |})].

(** A row of the final table with the given weighted commits. *)
Definition chart_row (lang : string) (weighted : Q) : string * @GeneratorPrev.FinalStat Q :=
  (lang, {| GeneratorPrev.final_total_commits := 0;
            GeneratorPrev.final_weighted_commits := weighted;
            GeneratorPrev.commit_percentage := 0%Q;
            GeneratorPrev.weighted_percentage := 0%Q;
            GeneratorPrev.repository_count := 1;
            GeneratorPrev.final_total_bytes := 0;
            GeneratorPrev.final_total_additions := 0;
            GeneratorPrev.final_total_deletions := 0;
            GeneratorPrev.final_net_lines := 0;
            GeneratorPrev.lines_percentage := 0%Q;
            GeneratorPrev.final_color := None |}).

Definition charted_rows : list (string * @GeneratorPrev.FinalStat Q) :=
  [chart_row "Python" (15 # 2)%Q; chart_row "Rust" (5 # 2)%Q; chart_row "Shell" 0%Q].

(** Two repositories with a primary language, one without language breakdown and
    one whose only language has no bytes. *)
Definition unsized_repositories : GeneratorPrev.ContributionsCollection :=
  {| GeneratorPrev.hasAnyContributions := true;
     GeneratorPrev.totalCommitContributions := 5;
     GeneratorPrev.commitContributionsByRepository :=
       [prev_record (prev_repo "ada/notes" (Some "TeX") [] 0) [3] None;
        prev_record (prev_repo "ada/empty" (Some "Python") [("Python", 0)] 0) [2] None] |}.


(** The Unicode tables on the characters of the examples: U+200B is a format
    character, the CJK ideographs are wide. *)
Definition sample_category (char : N) : string :=
  if N.eqb char 8203 then "Cf"
  else if N.eqb char 32 then "Zs"
  else if (19968 <=? char)%N && (char <=? 40959)%N then "Lo"
  else "Ll".

Definition sample_east_asian_width (char : N) : string :=
  if N.eqb char 8203 then "N"
  else if (19968 <=? char)%N && (char <=? 40959)%N then "W"
  else "Na".

(** Two ideographs, a zero-width space, a space and two ideographs. *)
Definition wide_name : pystr := [23665; 30000; 8203; 32; 22826; 37070]%N.

Definition long_name : pystr :=
  str "Augusta Ada King, Countess of Lovelace, of Ockham Park in the county of Surrey".


(** The 18th of June of a year, the day of the sample runs. *)
Definition june_18 (year : Z) : Generator.date :=
  {| Generator.date_year := year; Generator.date_month := 6; Generator.date_day := 18 |}.


(** Three languages with a third of the commits each. *)
Definition three_thirds : list (string * @Generator.LanguagePercentage Q) :=
  map (fun l => (l, {| Generator.percentage := 100 # 3; Generator.pct_commits := 1;
                       Generator.pct_additions := 0; Generator.pct_deletions := 0;
                       Generator.net := 0; Generator.pct_color := "#000000" |}))
    ["A"; "B"; "C"].

(** * Properties *)

(** ** The loops and the dictionaries *)

Lemma for_each_app {A S : Type} (body : S -> A -> result S) (xs ys : list A) (s : S) :
  for_each body (xs ++ ys) s =
  match for_each body xs s with
  | inr s' => for_each body ys s'
  | inl e => inl e
  end.
Proof.
  revert s. induction xs as [|x xs IH]; intros s; simpl.
  - reflexivity.
  - destruct (body s x) as [e|s']; simpl; [reflexivity | apply IH].
Qed.

(** A loop whose body never raises is a left fold. *)
Lemma for_each_total {A S : Type} (body : S -> A -> result S) (step : S -> A -> S)
    (xs : list A) (s : S) :
  (forall s x, In x xs -> body s x = inr (step s x)) ->
  for_each body xs s = inr (fold_left step xs s).
Proof.
  revert s. induction xs as [|x xs IH]; intros s Hbody; simpl.
  - reflexivity.
  - rewrite (Hbody s x (or_introl eq_refl)). simpl.
    apply IH. intros s' y Hy. apply Hbody. right. exact Hy.
Qed.

(** A body that raises on one of the items, whatever the state, makes the
    loop raise. *)
Lemma for_each_raises {A S : Type} (body : S -> A -> result S) (xs : list A) (x : A) :
  In x xs -> (forall s, exists e, body s x = inl e) ->
  forall s, exists e, for_each body xs s = inl e.
Proof.
  intros Hin Hx. induction xs as [|y xs IH]; intros s; simpl.
  - destruct Hin.
  - destruct Hin as [->|Hin].
    + destruct (Hx s) as [e He]. rewrite He. simpl. eauto.
    + destruct (body s y) as [e|s']; simpl; [eauto | apply IH; exact Hin].
Qed.

Lemma sum_int_from (xs : list Z) (a : Z) : fold_left Z.add xs a = a + sum_int xs.
Proof.
  unfold sum_int. revert a. induction xs as [|x xs IH]; intros a; simpl.
  - lia.
  - rewrite IH. rewrite (IH x). lia.
Qed.

Lemma sum_int_cons (x : Z) (xs : list Z) : sum_int (x :: xs) = x + sum_int xs.
Proof. unfold sum_int at 1. simpl. apply sum_int_from. Qed.

Lemma sum_int_app (xs ys : list Z) : sum_int (xs ++ ys) = sum_int xs + sum_int ys.
Proof.
  induction xs as [|x xs IH]; simpl.
  - reflexivity.
  - rewrite !sum_int_cons, IH. lia.
Qed.

Lemma sum_int_nonneg (xs : list Z) : Forall (fun x => 0 <= x) xs -> 0 <= sum_int xs.
Proof.
  induction 1 as [|x xs Hx _ IH].
  - reflexivity.
  - rewrite sum_int_cons. lia.
Qed.

Section DictFacts.
Context {V : Type} (default : V).

Lemma get_update_same (k : string) (f : V -> V) (d : Dict.t) :
  Dict.get default k (Dict.update default k f d) = f (Dict.get default k d).
Proof.
  unfold Dict.get. induction d as [|[k' v] d IH]; simpl.
  - rewrite String.eqb_refl. reflexivity.
  - destruct (String.eqb k k') eqn:E; simpl; rewrite E; [reflexivity | exact IH].
Qed.

Lemma get_update_other (k k' : string) (f : V -> V) (d : Dict.t) :
  k <> k' ->
  Dict.get default k' (Dict.update default k f d) = Dict.get default k' d.
Proof.
  intros Hne. unfold Dict.get. induction d as [|[k0 v] d IH]; simpl.
  - destruct (String.eqb_spec k' k); [congruence | reflexivity].
  - destruct (String.eqb_spec k k0) as [->|Hk]; simpl.
    + destruct (String.eqb_spec k' k0); [congruence | reflexivity].
    + destruct (String.eqb k' k0); [reflexivity | exact IH].
Qed.

(** An update keeps the keys in place and appends a new one. *)
Lemma keys_update (k : string) (f : V -> V) (d : Dict.t) :
  Dict.keys (Dict.update default k f d) =
  if existsb (String.eqb k) (Dict.keys d) then Dict.keys d else Dict.keys d ++ [k].
Proof.
  unfold Dict.keys. induction d as [|[k' v] d IH]; simpl.
  - reflexivity.
  - destruct (String.eqb k k'); simpl; [reflexivity |].
    rewrite IH. destruct (existsb (String.eqb k) (map fst d)); reflexivity.
Qed.

Lemma keys_update_prefix (k : string) (f : V -> V) (d : Dict.t) :
  exists new, Dict.keys (Dict.update default k f d) = Dict.keys d ++ new.
Proof.
  rewrite keys_update. destruct (existsb (String.eqb k) (Dict.keys d)).
  - exists []. rewrite app_nil_r. reflexivity.
  - exists [k]. reflexivity.
Qed.

Lemma keys_update_In (k y : string) (g : V -> V) (d : Dict.t) :
  In y (Dict.keys (Dict.update default k g d)) <-> y = k \/ In y (Dict.keys d).
Proof.
  rewrite keys_update. destruct (existsb (String.eqb k) (Dict.keys d)) eqn:Hk.
  - split; [tauto |]. intros [->|Hy]; [| exact Hy].
    apply existsb_exists in Hk. destruct Hk as (k' & Hin & Heq).
    apply String.eqb_eq in Heq. subst k'. exact Hin.
  - rewrite in_app_iff. simpl. intuition congruence.
Qed.

End DictFacts.

(** ** generator.py: what one repository adds *)

Section GeneratorFacts.
Context {F : Type} `{PyFloat F}.
Import Generator.

Lemma weighted_commits_of_ok (commit_count edge_size total_size : Z) :
  total_size <> 0 ->
  weighted_commits_of commit_count edge_size total_size =
  inr (weighted_int commit_count edge_size total_size).
Proof.
  intros Hne. unfold weighted_commits_of, truediv, fdiv_int, weighted_int.
  destruct (Z.eqb_spec total_size 0); [contradiction | reflexivity].
Qed.

Lemma credited_sum_cons (measure : LanguageEdge -> Z) (c total : Z) (lang : string)
    (edge : option LanguageEdge) (edges : list (option LanguageEdge)) :
  credited_sum measure c total lang (edge :: edges) =
  sum_int (map measure (credits c total lang edge)) + credited_sum measure c total lang edges.
Proof. unfold credited_sum. simpl. rewrite map_app, sum_int_app. reflexivity. Qed.

(** One edge: the three numbers of the language it credits grow by the
    truncated weighted count and by the two size estimates; nothing else
    changes. *)
Lemma attribute_edge_spec (c total : Z) (stats : LanguageStats)
    (edge : option LanguageEdge) :
  total <> 0 ->
  exists stats',
    attribute_edge c total stats edge = inr stats' /\
    forall lang,
      commits (stat_of lang stats') =
        commits (stat_of lang stats)
        + sum_int (map (fun e => weighted_int c (edge_size_of e) total)
                       (credits c total lang edge)) /\
      additions (stat_of lang stats') =
        additions (stat_of lang stats)
        + sum_int (map (fun e => estimated_additions (edge_size_of e))
                       (credits c total lang edge)) /\
      deletions (stat_of lang stats') =
        deletions (stat_of lang stats)
        + sum_int (map (fun e => estimated_deletions (edge_size_of e))
                       (credits c total lang edge)).
Proof.
  intros Hne. unfold attribute_edge, credits, edge_language.
  destruct edge as [e|]; [| exists stats; split; [reflexivity | intros; cbn; lia]].
  destruct (node e) as [nd|]; [| exists stats; split; [reflexivity | intros; cbn; lia]].
  destruct (truthy_str (name nd)) as [l|];
    [| exists stats; split; [reflexivity | intros; cbn; lia]].
  rewrite (weighted_commits_of_ok c (edge_size_of e) total Hne). simpl.
  destruct (weighted_int c (edge_size_of e) total >? 0) eqn:Hpos.
  - eexists. split; [reflexivity |]. intros lang. unfold stat_of.
    destruct (String.eqb_spec l lang) as [->|Hl]; simpl.
    + rewrite get_update_same. cbn. lia.
    + rewrite get_update_other by exact Hl. cbn. lia.
  - exists stats. split; [reflexivity |]. intros lang.
    rewrite andb_false_r. cbn. lia.
Qed.

Lemma attribute_edges_spec (c total : Z) (edges : list (option LanguageEdge))
    (stats : LanguageStats) :
  total <> 0 ->
  exists stats',
    for_each (attribute_edge c total) edges stats = inr stats' /\
    forall lang,
      commits (stat_of lang stats') =
        commits (stat_of lang stats)
        + credited_sum (fun e => weighted_int c (edge_size_of e) total) c total lang edges /\
      additions (stat_of lang stats') =
        additions (stat_of lang stats)
        + credited_sum (fun e => estimated_additions (edge_size_of e)) c total lang edges /\
      deletions (stat_of lang stats') =
        deletions (stat_of lang stats)
        + credited_sum (fun e => estimated_deletions (edge_size_of e)) c total lang edges.
Proof.
  intros Hne. revert stats. induction edges as [|edge edges IH]; intros stats.
  - exists stats. split; [reflexivity |]. intros lang. cbn. lia.
  - destruct (attribute_edge_spec c total stats edge Hne) as (s1 & Hs1 & Hget1).
    destruct (IH s1) as (s2 & Hs2 & Hget2).
    exists s2. split.
    + simpl. rewrite Hs1. simpl. exact Hs2.
    + intros lang. rewrite !credited_sum_cons.
      destruct (Hget1 lang) as (Hc1 & Ha1 & Hd1).
      destruct (Hget2 lang) as (Hc2 & Ha2 & Hd2).
      rewrite Hc2, Ha2, Hd2, Hc1, Ha1, Hd1. lia.
Qed.

Lemma attribute_primary_spec (c : Z) (repo : Repository) (stats : LanguageStats)
    (lang : string) :
  commits (stat_of lang (attribute_primary c repo stats)) =
    commits (stat_of lang stats) + primary_gain c repo lang /\
  additions (stat_of lang (attribute_primary c repo stats)) = additions (stat_of lang stats) /\
  deletions (stat_of lang (attribute_primary c repo stats)) = deletions (stat_of lang stats).
Proof.
  unfold attribute_primary, primary_gain, primary_name, stat_of.
  destruct (primaryLanguage repo) as [pl|]; [| repeat split; lia].
  destruct (truthy_str (name pl)) as [l|]; [| repeat split; lia].
  destruct (String.eqb_spec l lang) as [->|Hl].
  - rewrite get_update_same. simpl. repeat split; lia.
  - rewrite get_update_other by exact Hl. repeat split; lia.
Qed.

(** The weighted step never raises: the division of line 508 is behind
    the guard of line 496. *)
Lemma attribute_weighted_spec (c : Z) (repo : Repository) (stats : LanguageStats) :
  exists stats',
    attribute_weighted c repo stats = inr stats' /\
    (total_size_of (languages repo) <= 0 -> stats' = stats) /\
    (0 < total_size_of (languages repo) ->
     forall lang,
       let total := total_size_of (languages repo) in
       commits (stat_of lang stats') =
         commits (stat_of lang stats)
         + credited_sum (fun e => weighted_int c (edge_size_of e) total)
             c total lang (languages repo) /\
       additions (stat_of lang stats') =
         additions (stat_of lang stats)
         + credited_sum (fun e => estimated_additions (edge_size_of e))
             c total lang (languages repo) /\
       deletions (stat_of lang stats') =
         deletions (stat_of lang stats)
         + credited_sum (fun e => estimated_deletions (edge_size_of e))
             c total lang (languages repo)).
Proof.
  unfold attribute_weighted.
  destruct (Z.gtb_spec (total_size_of (languages repo)) 0) as [Hpos|Hle].
  - destruct (attribute_edges_spec c (total_size_of (languages repo)) (languages repo) stats)
      as (stats' & Hrun & Hget); [lia |].
    exists stats'. split; [exact Hrun |]. split; [lia |]. intros _ lang. apply Hget.
  - exists stats. split; [reflexivity |]. split; [reflexivity | lia].
Qed.

Lemma process_repo_contrib_counted (c : Z) (repo : Repository) (stats : LanguageStats) :
  c <> 0 ->
  process_repo_contrib stats (Some {| repository := Some repo; totalCount := Some c |}) =
  attribute_weighted c repo (attribute_primary c repo stats).
Proof.
  intros Hc. unfold process_repo_contrib. simpl.
  destruct (Z.eqb_spec c 0); [contradiction | reflexivity].
Qed.

(** In exact arithmetic the two estimates are the integer parts of three
    tenths and of one tenth of the size. *)
Lemma estimates_exact (s : Z) :
  0 <= s ->
  @estimated_additions Q exact s = 3 * s / 10 /\
  @estimated_deletions Q exact s = s / 10.
Proof.
  intros Hs. split.
  - replace (3 * s / 10) with (s * 3 ÷ 10); [reflexivity |].
    rewrite Z.quot_div_nonneg by lia. f_equal. lia.
  - replace (s / 10) with (s * 1 ÷ 10); [reflexivity |].
    rewrite Z.quot_div_nonneg by lia. f_equal. lia.
Qed.

End GeneratorFacts.

(** C10 (neofetch pipeline).  A repository record with a positive total
    of declared bytes is processed without an exception, and for every
    language the accumulated additions and deletions grow by the sum of
    [int(size * 0.3)] and of [int(size * 0.1)] over exactly those edges of
    the record that name the language and whose truncated weighted commit
    count [int(commit_count * (size / total))] is positive: the line counts
    are estimates from the byte sizes, no per-commit data enters.  A record
    with no commits is skipped by line 481 and adds nothing.  In exact
    arithmetic the two estimates are [floor(3 * size / 10)] and
    [floor(size / 10)]. *)
Theorem neofetch_line_counts_are_size_estimates :
  forall (F : Type) (PF : PyFloat F) (repo : Generator.Repository) (c : Z)
         (stats : Generator.LanguageStats),
    0 < Generator.total_size_of (Generator.languages repo) ->
    (exists stats',
       Generator.process_repo_contrib stats
         (Some {| Generator.repository := Some repo; Generator.totalCount := Some c |})
       = inr stats' /\
       forall lang,
         let total := Generator.total_size_of (Generator.languages repo) in
         Generator.additions (stat_of lang stats') =
           Generator.additions (stat_of lang stats)
           + (if c =? 0 then 0
              else credited_sum
                     (fun e => Generator.estimated_additions (Generator.edge_size_of e))
                     c total lang (Generator.languages repo)) /\
         Generator.deletions (stat_of lang stats') =
           Generator.deletions (stat_of lang stats)
           + (if c =? 0 then 0
              else credited_sum
                     (fun e => Generator.estimated_deletions (Generator.edge_size_of e))
                     c total lang (Generator.languages repo))) /\
    (forall s, 0 <= s ->
       @Generator.estimated_additions Q exact s = 3 * s / 10 /\
       @Generator.estimated_deletions Q exact s = s / 10).
Proof.
  intros F PF repo c stats Hpos. split; [| exact estimates_exact].
  destruct (Z.eqb_spec c 0) as [->|Hc].
  - exists stats. split; [reflexivity |]. intros lang total. split; lia.
  - rewrite (process_repo_contrib_counted c repo stats Hc).
    destruct (attribute_weighted_spec c repo (Generator.attribute_primary c repo stats))
      as (stats' & Hrun & _ & Hget).
    exists stats'. split; [exact Hrun |]. intros lang total.
    destruct (Hget Hpos lang) as (_ & Ha & Hd).
    destruct (attribute_primary_spec c repo stats lang) as (_ & Ha0 & Hd0).
    subst total. rewrite Ha, Hd, Ha0, Hd0. split; reflexivity.
Qed.

Lemma for_each_always {A S : Type} (body : S -> A -> result S) (xs : list A) (s : S) :
  (forall s x, In x xs -> exists s', body s x = inr s') ->
  exists s', for_each body xs s = inr s'.
Proof.
  revert s. induction xs as [|x xs IH]; intros s Hbody; simpl.
  - exists s. reflexivity.
  - destruct (Hbody s x (or_introl eq_refl)) as (s1 & Hs1). rewrite Hs1. simpl.
    apply IH. intros s' y Hy. apply Hbody. right. exact Hy.
Qed.

(** ** generator_prev.py: what one repository adds *)

Section GeneratorPrevFacts.
Context {F : Type} `{PyFloat F}.
Import GeneratorPrev.

Lemma lang_percentage_of_ok (lang_size total_repo_size : Z) :
  lang_percentage_of lang_size total_repo_size = inr (lang_share lang_size total_repo_size).
Proof.
  unfold lang_percentage_of, lang_share, truediv, fdiv_int.
  destruct (Z.gtb_spec total_repo_size 0) as [Hpos|Hle]; [| reflexivity].
  destruct (Z.eqb_spec total_repo_size 0); [lia | reflexivity].
Qed.

Lemma attribute_edge_ok (rc : RepoContribution) (stats : @LanguageStats F)
    (lang_edge : LanguageEdge) :
  attribute_edge rc stats lang_edge =
  inr (Dict.update default_stat (name (node lang_edge)) (edge_update rc lang_edge) stats).
Proof.
  unfold attribute_edge. rewrite lang_percentage_of_ok. reflexivity.
Qed.

(** The weighted step never raises, and the entry of a language is
    updated by exactly the edges that name it, in their order. *)
Lemma attribute_edges_prev (rc : RepoContribution) (es : list LanguageEdge)
    (stats : @LanguageStats F) :
  exists stats',
    for_each (attribute_edge rc) es stats = inr stats' /\
    forall lang,
      prev_stat_of lang stats' =
      fold_left (fun s e => edge_update rc e s) (filter (names lang) es)
        (prev_stat_of lang stats).
Proof.
  revert stats. induction es as [|e es IH]; intros stats.
  - exists stats. split; [reflexivity | intros; reflexivity].
  - destruct (IH (Dict.update default_stat (name (node e)) (edge_update rc e) stats))
      as (stats' & Hrun & Hget).
    exists stats'. split.
    + simpl. rewrite attribute_edge_ok. simpl. exact Hrun.
    + intros lang. rewrite Hget. simpl. unfold names at 2, prev_stat_of.
      destruct (String.eqb_spec (name (node e)) lang) as [<-|Hne]; simpl.
      * rewrite get_update_same. reflexivity.
      * rewrite get_update_other by exact Hne. reflexivity.
Qed.

Lemma attribute_weighted_prev (rc : RepoContribution) (stats : @LanguageStats F) :
  exists stats',
    attribute_weighted rc stats = inr stats' /\
    forall lang,
      prev_stat_of lang stats' =
      fold_left (fun s e => edge_update rc e s)
        (filter (names lang) (edges (languages (repository rc))))
        (prev_stat_of lang stats).
Proof. apply attribute_edges_prev. Qed.

Lemma attribute_primary_prev (rc : RepoContribution) (stats : @LanguageStats F)
    (lang : string) :
  prev_stat_of lang (attribute_primary rc stats) =
  match primaryLanguage (repository rc) with
  | Some pl =>
      if String.eqb (name pl) lang then primary_update rc pl (prev_stat_of lang stats)
      else prev_stat_of lang stats
  | None => prev_stat_of lang stats
  end.
Proof.
  unfold attribute_primary, prev_stat_of.
  destruct (primaryLanguage (repository rc)) as [pl|]; [| reflexivity].
  destruct (String.eqb_spec (name pl) lang) as [<-|Hne].
  - rewrite get_update_same. reflexivity.
  - rewrite get_update_other by exact Hne. reflexivity.
Qed.

(** A record that passes the filters is processed without an exception. *)
Lemma process_repo_contribution_kept (include_forks include_private : bool)
    (min_commits : Z) (t : @Totals F) (rc : RepoContribution) :
  filtered_out include_forks include_private min_commits rc = false ->
  exists stats',
    attribute_weighted rc (attribute_primary rc (language_stats t)) = inr stats' /\
    process_repo_contribution include_forks include_private min_commits t rc =
    inr {| sum_commits := sum_commits t + repo_commits_of rc;
           sum_additions := sum_additions t + ls_total_additions (line_stats_of rc);
           sum_deletions := sum_deletions t + ls_total_deletions (line_stats_of rc);
           sum_repositories := sum_repositories t + 1;
           language_stats := stats' |}.
Proof.
  intros Hkept.
  destruct (attribute_weighted_prev rc (attribute_primary rc (language_stats t)))
    as (stats' & Hrun & _).
  exists stats'. split; [exact Hrun |].
  unfold process_repo_contribution. rewrite Hkept, Hrun. reflexivity.
Qed.

Lemma process_repo_contribution_filtered (include_forks include_private : bool)
    (min_commits : Z) (t : @Totals F) (rc : RepoContribution) :
  filtered_out include_forks include_private min_commits rc = true ->
  process_repo_contribution include_forks include_private min_commits t rc = inr t.
Proof. intros Hf. unfold process_repo_contribution. rewrite Hf. reflexivity. Qed.

Lemma aggregate_from (include_forks include_private : bool) (min_commits : Z)
    (rcs : list RepoContribution) (t0 : @Totals F) :
  exists t,
    for_each (process_repo_contribution include_forks include_private min_commits) rcs t0
    = inr t /\
    sum_commits t =
      sum_commits t0
      + sum_int (map repo_commits_of
                   (filter (survives include_forks include_private min_commits) rcs)).
Proof.
  revert t0. induction rcs as [|rc rcs IH]; intros t0.
  - exists t0. split; [reflexivity | cbn; lia].
  - simpl. unfold survives at 1.
    destruct (filtered_out include_forks include_private min_commits rc) eqn:Hf.
    + rewrite (process_repo_contribution_filtered _ _ _ _ _ Hf). simpl. apply IH.
    + destruct (process_repo_contribution_kept _ _ _ t0 rc Hf) as (stats' & _ & Hstep).
      rewrite Hstep. simpl.
      match goal with |- context [for_each _ rcs ?t1] => destruct (IH t1) as (t & Hrun & Hsum) end.
      exists t. split; [exact Hrun |]. rewrite Hsum. simpl. rewrite sum_int_cons. lia.
Qed.

Lemma percent_of_ok (x : F) (n : Z) : percent_of x n = inr (percent x n).
Proof.
  unfold percent_of, percent, fdiv_int.
  destruct (Z.gtb_spec n 0) as [Hpos|Hle]; [| reflexivity].
  destruct (Z.eqb_spec n 0); [lia | reflexivity].
Qed.

Lemma final_entries_ok (t : @Totals F) (items : list (string * @LanguageStat F))
    (acc : list (string * @FinalStat F)) :
  for_each (final_entry t) items acc =
  inr (acc ++ map (fun item => (fst item, final_of t (snd item))) items).
Proof.
  revert acc. induction items as [|item items IH]; intros acc; simpl.
  - rewrite app_nil_r. reflexivity.
  - unfold final_entry at 1, final_stat. rewrite !percent_of_ok. simpl.
    rewrite IH, <- app_assoc. reflexivity.
Qed.

(** The analysis of an aggregate with a user never raises; its summary
    carries the totals of the fold and its language table is the final table
    in the order of the stable descending sort. *)
Lemma analyze_languages_ok (u : UserContributions) (cc : ContributionsCollection)
    (include_forks include_private : bool) (min_commits : Z) :
  exists t a,
    aggregate include_forks include_private min_commits
      (commitContributionsByRepository cc) = inr t /\
    analyze_languages (Aggregated (Some u) cc) include_forks include_private min_commits
    = inr a /\
    summary_total_commits (summary a) = sum_commits t /\
    analysis_languages a = sorted_reverse by_weighted_commits (final_table t).
Proof.
  destruct (aggregate_from include_forks include_private min_commits
              (commitContributionsByRepository cc) initial_totals) as (t & Hrun & _).
  exists t. eexists. split; [exact Hrun |].
  unfold analyze_languages. unfold aggregate in *. rewrite Hrun. simpl.
  rewrite final_entries_ok. simpl. repeat split; reflexivity.
Qed.

End GeneratorPrevFacts.

(** ** generator.py: a year and a run *)

Section GeneratorRunFacts.
Context {F : Type} `{PyFloat F}.
Import Generator.

Lemma process_repo_contrib_total (stats : LanguageStats)
    (repo_contrib : option RepoContribution) :
  exists stats', process_repo_contrib stats repo_contrib = inr stats'.
Proof.
  unfold process_repo_contrib.
  destruct repo_contrib as [rc|]; [| exists stats; reflexivity].
  destruct (repository rc) as [repo|]; [| exists stats; reflexivity].
  destruct (_ =? 0); [exists stats; reflexivity |].
  match goal with
  | |- context [attribute_weighted ?c repo ?s] =>
      destruct (attribute_weighted_spec c repo s) as (stats' & Hrun & _)
  end.
  exists stats'. exact Hrun.
Qed.

(** A fetched year is folded without an exception; the run-level total
    grows by the year's [totalCommitContributions] and by nothing else. *)
Lemma process_year_data_ok (year : Z) (year_data : YearData) (st : RunState) :
  exists stats',
    for_each process_repo_contrib (commitContributionsByRepository year_data)
      (language_stats st) = inr stats' /\
    process_year_data year year_data st =
    inr {| contributions_data := contributions_data st ++ [(year, year_data)];
           total_commits := total_commits st + year_commits_of year_data;
           language_stats := stats';
           warnings := warnings st |}.
Proof.
  destruct (for_each_always process_repo_contrib
              (commitContributionsByRepository year_data) (language_stats st))
    as (stats' & Hrun).
  { intros s x _. apply process_repo_contrib_total. }
  exists stats'. split; [exact Hrun |].
  unfold process_year_data. rewrite Hrun. reflexivity.
Qed.

End GeneratorRunFacts.

(** ** C2: the run-level total *)

(** C2, as stated, fails in the neofetch pipeline: with one year that
    reports 5 commits and lists one repository with 3 commits, the run-level
    total is 5, not the sum 3 of the per-repository counts. *)
Lemma neofetch_total_is_not_the_repository_sum :
  exists data w,
    Generator.get_user_data_multi_year (F := float) one_year_network (june_18 2024) 1
      = inr (data, w) /\
    Generator.data_total_commits data = 5 /\
    sum_int (map recorded_count
               (flat_map (fun yd => Generator.commitContributionsByRepository (snd yd))
                  (Generator.data_contributions_data data))) = 3 /\
    Generator.data_total_commits data <>
    sum_int (map recorded_count
               (flat_map (fun yd => Generator.commitContributionsByRepository (snd yd))
                  (Generator.data_contributions_data data))).
Proof.
  eexists. eexists. split; [vm_compute; reflexivity |].
  split; [reflexivity |]. split; [reflexivity |]. vm_compute. discriminate.
Qed.

(** C2, amended.  In the terminal pipeline the analysis of an aggregate
    never raises and its run-level [total_commits] is the sum of the raw
    commit counts of exactly the records that pass the three filters,
    whatever their language breakdown.  In the neofetch pipeline, which has
    no such filters, a fetched year adds its own [totalCommitContributions]
    to the run-level total, whatever its per-repository records hold. *)
Theorem run_total_is_the_raw_commit_sum :
  (forall (F : Type) (PF : PyFloat F) (u : GeneratorPrev.UserContributions)
          (cc : GeneratorPrev.ContributionsCollection)
          (include_forks include_private : bool) (min_commits : Z),
     exists a,
       GeneratorPrev.analyze_languages (GeneratorPrev.Aggregated (Some u) cc)
         include_forks include_private min_commits = inr a /\
       GeneratorPrev.summary_total_commits (GeneratorPrev.summary a) =
       sum_int (map GeneratorPrev.repo_commits_of
                  (filter (survives include_forks include_private min_commits)
                     (GeneratorPrev.commitContributionsByRepository cc)))) /\
  (forall (F : Type) (PF : PyFloat F) (year : Z) (year_data : Generator.YearData)
          (st : Generator.RunState),
     exists st',
       Generator.process_year_data year year_data st = inr st' /\
       Generator.total_commits st' =
       Generator.total_commits st + year_commits_of year_data).
Proof.
  split.
  - intros F PF u cc include_forks include_private min_commits.
    destruct (analyze_languages_ok u cc include_forks include_private min_commits)
      as (t & a & Hagg & Hrun & Htotal & _).
    exists a. split; [exact Hrun |]. rewrite Htotal.
    destruct (aggregate_from include_forks include_private min_commits
                (GeneratorPrev.commitContributionsByRepository cc)
                GeneratorPrev.initial_totals) as (t' & Hagg' & Hsum).
    unfold GeneratorPrev.aggregate in Hagg. rewrite Hagg in Hagg'.
    injection Hagg' as <-. rewrite Hsum. simpl. lia.
  - intros F PF year year_data st.
    destruct (process_year_data_ok year year_data st) as (stats' & _ & Hrun).
    eexists. split; [exact Hrun | reflexivity].
Qed.

(** ** generator_prev.py: the entry of a language across the edges *)

Section PrevEdgeFold.
Context {F : Type} `{PyFloat F}.
Import GeneratorPrev.

Lemma edge_fold_total_commits (rc : RepoContribution) (es : list LanguageEdge)
    (s : @LanguageStat F) :
  total_commits (fold_left (fun s e => edge_update rc e s) es s) = total_commits s.
Proof.
  revert s. induction es as [|e es IH]; intros s; simpl; [reflexivity |].
  rewrite IH. reflexivity.
Qed.

Lemma edge_fold_total_bytes (rc : RepoContribution) (es : list LanguageEdge)
    (s : @LanguageStat F) :
  total_bytes (fold_left (fun s e => edge_update rc e s) es s) =
  total_bytes s + sum_int (map size es).
Proof.
  revert s. induction es as [|e es IH]; intros s; simpl.
  - cbn. lia.
  - rewrite IH, sum_int_cons. simpl. lia.
Qed.

End PrevEdgeFold.

(** In exact arithmetic. *)
Section PrevExact.
Import GeneratorPrev.

Lemma edge_fold_exact (rc : RepoContribution) (es : list LanguageEdge)
    (s : @LanguageStat Q) :
  let s' := fold_left (fun s e => edge_update rc e s) es s in
  (weighted_commits s' == weighted_commits s + exact_sum (map (weighted_amount rc) es))%Q /\
  (total_additions s' ==
     total_additions s
     + exact_sum (map (weighted_lines (ls_total_additions (line_stats_of rc)) rc) es))%Q /\
  (total_deletions s' ==
     total_deletions s
     + exact_sum (map (weighted_lines (ls_total_deletions (line_stats_of rc)) rc) es))%Q.
Proof.
  revert s. induction es as [|e es IH]; intros s; simpl.
  - repeat split; ring.
  - destruct (IH (edge_update rc e s)) as (Hw & Ha & Hd).
    rewrite Hw, Ha, Hd. unfold weighted_amount, weighted_lines. simpl.
    repeat split; ring.
Qed.

Lemma lang_share_nonneg (s total : Z) : 0 <= s -> (0 <= @lang_share Q exact s total)%Q.
Proof.
  intros Hs. unfold lang_share. simpl.
  destruct (Z.gtb_spec total 0) as [Hpos|Hle].
  - apply Qle_shift_div_l.
    + replace 0%Q with (inject_Z 0) by reflexivity. rewrite <- Zlt_Qlt. exact Hpos.
    + rewrite Qmult_0_l. replace 0%Q with (inject_Z 0) by reflexivity.
      rewrite <- Zle_Qle. exact Hs.
  - apply Qle_refl.
Qed.

Lemma exact_sum_nonneg (xs : list Q) : Forall (fun x => (0 <= x)%Q) xs -> (0 <= exact_sum xs)%Q.
Proof.
  induction 1 as [|x xs Hx _ IH]; simpl.
  - apply Qle_refl.
  - replace 0%Q with (0 + 0)%Q by reflexivity. apply Qplus_le_compat; assumption.
Qed.

(** With a total of zero every share, and so every weighted amount, is
    zero. *)
Lemma weighted_amounts_zero (rc : RepoContribution) (es : list LanguageEdge) :
  totalSize (languages (repository rc)) <= 0 ->
  (exact_sum (map (weighted_amount rc) es) == 0)%Q.
Proof.
  intros Hz. induction es as [|e es IH]; simpl; [reflexivity |].
  rewrite IH. unfold weighted_amount, lang_share.
  destruct (Z.gtb_spec (totalSize (languages (repository rc))) 0); [lia |].
  simpl. ring.
Qed.

Lemma inject_Z_nonzero (z : Z) : z <> 0 -> ~ (inject_Z z == 0)%Q.
Proof.
  intros Hz Hc. apply Hz. apply inject_Z_injective. exact Hc.
Qed.

(** When the API's [totalSize] is the sum of the listed sizes, the shares
    of a record add up to one, and the weighted amounts to its commits. *)
Lemma shares_sum (total : Z) (es : list LanguageEdge) :
  0 < total ->
  (exact_sum (map (fun e => @lang_share Q exact (size e) total) es)
   == inject_Z (sum_int (map size es)) / inject_Z total)%Q.
Proof.
  intros Hpos. induction es as [|e es IH]; simpl.
  - cbn. field. apply inject_Z_nonzero. lia.
  - rewrite IH, sum_int_cons, inject_Z_plus. unfold lang_share.
    destruct (Z.gtb_spec total 0); [| lia]. simpl. field.
    apply inject_Z_nonzero. lia.
Qed.

End PrevExact.

(** ** generator_prev.py: one processed record, language by language *)

Section PrevRecord.
Context {F : Type} `{PyFloat F}.
Import GeneratorPrev.

(** A record that passes the filters is folded without an exception; the
    entry of each language receives the primary update, if the language is
    the primary one, and then one update per edge that names it. *)
Lemma process_repo_contribution_entry (include_forks include_private : bool)
    (min_commits : Z) (t : @Totals F) (rc : RepoContribution) :
  filtered_out include_forks include_private min_commits rc = false ->
  exists t',
    process_repo_contribution include_forks include_private min_commits t rc = inr t' /\
    sum_commits t' = sum_commits t + repo_commits_of rc /\
    forall lang,
      prev_stat_of lang (language_stats t') =
      fold_left (fun s e => edge_update rc e s)
        (filter (names lang) (edges (languages (repository rc))))
        (after_primary rc lang (prev_stat_of lang (language_stats t))).
Proof.
  intros Hkept.
  destruct (process_repo_contribution_kept _ _ _ t rc Hkept) as (stats' & Hw & Hrun).
  destruct (attribute_weighted_prev rc (attribute_primary rc (language_stats t)))
    as (stats'' & Hw' & Hget).
  rewrite Hw in Hw'. injection Hw' as <-.
  eexists. split; [exact Hrun |]. split; [reflexivity |].
  intros lang. simpl. rewrite Hget, attribute_primary_prev. reflexivity.
Qed.

End PrevRecord.

(** ** C5: a record whose total of declared bytes is zero *)

(** C5.  In both pipelines a record whose total of declared language bytes
    is zero and whose primary language is [x] is processed without an
    exception, the division being guarded: [x]'s commit bucket grows by the
    record's commit count and no language receives a weighted amount.  In
    the neofetch pipeline the record changes no other number of any
    language; in the terminal pipeline (for a record that passes the
    filters) the weighted buckets are unchanged in exact arithmetic, the
    amounts added being [commits * 0]. *)
Theorem zero_size_record_is_safe :
  (forall (F : Type) (PF : PyFloat F) (repo : Generator.Repository) (c : Z)
          (stats : Generator.LanguageStats) (x : string),
     primary_name repo = Some x ->
     Generator.total_size_of (Generator.languages repo) = 0 ->
     exists stats',
       Generator.process_repo_contrib stats
         (Some {| Generator.repository := Some repo; Generator.totalCount := Some c |})
       = inr stats' /\
       forall lang,
         Generator.commits (stat_of lang stats') =
           Generator.commits (stat_of lang stats) + (if String.eqb x lang then c else 0) /\
         Generator.additions (stat_of lang stats') = Generator.additions (stat_of lang stats) /\
         Generator.deletions (stat_of lang stats') = Generator.deletions (stat_of lang stats)) /\
  (forall (F : Type) (PF : PyFloat F) (include_forks include_private : bool)
          (min_commits : Z) (t : @GeneratorPrev.Totals F)
          (rc : GeneratorPrev.RepoContribution) (pl : GeneratorPrev.LanguageNode),
     GeneratorPrev.filtered_out include_forks include_private min_commits rc = false ->
     GeneratorPrev.primaryLanguage (GeneratorPrev.repository rc) = Some pl ->
     GeneratorPrev.totalSize (GeneratorPrev.languages (GeneratorPrev.repository rc)) = 0 ->
     exists t',
       GeneratorPrev.process_repo_contribution include_forks include_private min_commits t rc
       = inr t' /\
       GeneratorPrev.total_commits
         (prev_stat_of (GeneratorPrev.name pl) (GeneratorPrev.language_stats t')) =
       GeneratorPrev.total_commits
         (prev_stat_of (GeneratorPrev.name pl) (GeneratorPrev.language_stats t))
       + GeneratorPrev.repo_commits_of rc) /\
  (forall (include_forks include_private : bool) (min_commits : Z)
          (t : @GeneratorPrev.Totals Q) (rc : GeneratorPrev.RepoContribution),
     GeneratorPrev.filtered_out include_forks include_private min_commits rc = false ->
     GeneratorPrev.totalSize (GeneratorPrev.languages (GeneratorPrev.repository rc)) = 0 ->
     exists t',
       GeneratorPrev.process_repo_contribution include_forks include_private min_commits t rc
       = inr t' /\
       forall lang,
         (GeneratorPrev.weighted_commits (prev_stat_of lang (GeneratorPrev.language_stats t'))
          == GeneratorPrev.weighted_commits (prev_stat_of lang (GeneratorPrev.language_stats t)))%Q).
Proof.
  split; [| split].
  - intros F PF repo c stats x Hx Hzero.
    unfold Generator.process_repo_contrib. simpl.
    destruct (Z.eqb_spec c 0) as [->|Hc].
    + exists stats. split; [reflexivity |]. intros lang.
      destruct (String.eqb x lang); repeat split; lia.
    + destruct (attribute_weighted_spec c repo (Generator.attribute_primary c repo stats))
        as (stats' & Hrun & Hsame & _).
      exists stats'. split; [exact Hrun |]. intros lang.
      rewrite (Hsame ltac:(lia)).
      destruct (attribute_primary_spec c repo stats lang) as (Hc1 & Ha1 & Hd1).
      rewrite Hc1, Ha1, Hd1. unfold primary_gain. rewrite Hx. repeat split; reflexivity.
  - intros F PF include_forks include_private min_commits t rc pl Hkept Hpl Hzero.
    destruct (process_repo_contribution_entry include_forks include_private min_commits
                t rc Hkept) as (t' & Hrun & _ & Hget).
    exists t'. split; [exact Hrun |].
    rewrite Hget, edge_fold_total_commits. unfold after_primary.
    rewrite Hpl, String.eqb_refl. reflexivity.
  - intros include_forks include_private min_commits t rc Hkept Hzero.
    destruct (process_repo_contribution_entry include_forks include_private min_commits
                t rc Hkept) as (t' & Hrun & _ & Hget).
    exists t'. split; [exact Hrun |]. intros lang. rewrite Hget.
    destruct (edge_fold_exact rc
                (filter (names lang)
                   (GeneratorPrev.edges (GeneratorPrev.languages (GeneratorPrev.repository rc))))
                (after_primary rc lang (prev_stat_of lang (GeneratorPrev.language_stats t))))
      as (Hw & _ & _).
    simpl in Hw. rewrite Hw, weighted_amounts_zero by lia.
    unfold after_primary.
    destruct (GeneratorPrev.primaryLanguage (GeneratorPrev.repository rc)) as [pl|];
      [destruct (String.eqb (GeneratorPrev.name pl) lang) |]; simpl; ring.
Qed.

(** A record with primary language X, 5 commits and no declared bytes,
    in both pipelines and in binary64; in exact arithmetic the terminal
    pipeline leaves X's weighted bucket at zero. *)
Lemma zero_size_record_is_safe_example :
  (exists stats',
     Generator.process_repo_contrib (F := float) Dict.empty
       (neofetch_record (Some "X") [("X", 0)] 5) = inr stats' /\
     Generator.commits (stat_of "X" stats') = 5 /\
     Generator.additions (stat_of "X" stats') = 0) /\
  (exists t',
     GeneratorPrev.process_repo_contribution (F := float) true true 1
       GeneratorPrev.initial_totals
       (prev_record (prev_repo "ada/x" (Some "X") [("X", 0)] 0) [2; 3] None) = inr t' /\
     GeneratorPrev.total_commits (prev_stat_of "X" (GeneratorPrev.language_stats t')) = 5) /\
  (exists t',
     GeneratorPrev.process_repo_contribution (F := Q) true true 1
       GeneratorPrev.initial_totals
       (prev_record (prev_repo "ada/x" (Some "X") [("X", 0)] 0) [2; 3] None) = inr t' /\
     (GeneratorPrev.weighted_commits (prev_stat_of "X" (GeneratorPrev.language_stats t'))
      == 0)%Q).
Proof.
  split; [| split].
  - destruct (proj1 zero_size_record_is_safe float binary64
                (neofetch_repo (Some "X") [("X", 0)]) 5 Dict.empty "X" eq_refl eq_refl)
      as (stats' & Hrun & Hget).
    exists stats'. split; [exact Hrun |].
    destruct (Hget "X") as (Hc & Ha & _). split; [exact Hc | exact Ha].
  - destruct (proj1 (proj2 zero_size_record_is_safe) float binary64 true true 1
                GeneratorPrev.initial_totals
                (prev_record (prev_repo "ada/x" (Some "X") [("X", 0)] 0) [2; 3] None)
                {| GeneratorPrev.name := "X"; GeneratorPrev.node_color := None |}
                eq_refl eq_refl eq_refl)
      as (t' & Hrun & Hget).
    exists t'. split; [exact Hrun | exact Hget].
  - destruct (proj2 (proj2 zero_size_record_is_safe) true true 1
                GeneratorPrev.initial_totals
                (prev_record (prev_repo "ada/x" (Some "X") [("X", 0)] 0) [2; 3] None)
                eq_refl eq_refl)
      as (t' & Hrun & Hget).
    exists t'. split; [exact Hrun | exact (Hget "X")].
Defined.

(** The record of the specification's example, bytes A: 60 and B: 40 and
    10 commits, in binary64: A's line estimates are 18 and 6. *)
Lemma neofetch_line_counts_example :
  exists stats',
    Generator.process_repo_contrib (F := float) Dict.empty
      (neofetch_record (Some "A") [("A", 60); ("B", 40)] 10) = inr stats' /\
    Generator.additions (stat_of "A" stats') = 18 /\
    Generator.deletions (stat_of "A" stats') = 6.
Proof.
  destruct (neofetch_line_counts_are_size_estimates float binary64
              (neofetch_repo (Some "A") [("A", 60); ("B", 40)]) 10 Dict.empty eq_refl)
    as ((stats' & Hrun & Hget) & _).
  exists stats'. split; [exact Hrun |].
  destruct (Hget "A") as (Ha & Hd). split; [exact Ha | exact Hd].
Defined.

(** ** C4: the two attributions and their accumulators *)

(** C4, as stated, fails in the neofetch pipeline, whose entries hold one
    commit number: for bytes A: 60, B: 40, primary language A and 10
    commits, the primary step sets A's [commits] to 10 and the weighted step
    then raises the same number to 16. *)
Lemma neofetch_merges_the_two_attributions :
  let repo := neofetch_repo (Some "A") [("A", 60); ("B", 40)] in
  Generator.commits (stat_of "A" (Generator.attribute_primary 10 repo Dict.empty)) = 10 /\
  exists stats',
    Generator.attribute_weighted (F := float) 10 repo
      (Generator.attribute_primary 10 repo Dict.empty) = inr stats' /\
    Generator.commits (stat_of "A" stats') = 16.
Proof.
  split; [reflexivity |]. eexists. split; [vm_compute; reflexivity | reflexivity].
Qed.

(** C4, amended.  In the terminal pipeline the primary step changes only
    the entry of the primary language and no [weighted_commits], and the
    weighted step, which never raises, changes no [total_commits]: the two
    commit accumulators are separate fields.  In the neofetch pipeline both
    steps add into the one [commits] number of an entry: the primary step
    adds the commit count to the primary language, and the weighted step
    adds the truncated weighted counts of the edges that credit the
    language. *)
Theorem attribution_accumulators :
  forall (F : Type) (PF : PyFloat F),
    (forall (rc : GeneratorPrev.RepoContribution) (stats : @GeneratorPrev.LanguageStats F)
            (lang : string),
       GeneratorPrev.weighted_commits (prev_stat_of lang (GeneratorPrev.attribute_primary rc stats))
       = GeneratorPrev.weighted_commits (prev_stat_of lang stats) /\
       GeneratorPrev.total_commits (prev_stat_of lang (GeneratorPrev.attribute_primary rc stats))
       = GeneratorPrev.total_commits (prev_stat_of lang stats)
         + match GeneratorPrev.primaryLanguage (GeneratorPrev.repository rc) with
           | Some pl => if String.eqb (GeneratorPrev.name pl) lang
                        then GeneratorPrev.repo_commits_of rc else 0
           | None => 0
           end /\
       (match GeneratorPrev.primaryLanguage (GeneratorPrev.repository rc) with
        | Some pl => String.eqb (GeneratorPrev.name pl) lang
        | None => false
        end = false ->
        prev_stat_of lang (GeneratorPrev.attribute_primary rc stats) = prev_stat_of lang stats)) /\
    (forall (rc : GeneratorPrev.RepoContribution) (stats : @GeneratorPrev.LanguageStats F),
       exists stats',
         GeneratorPrev.attribute_weighted rc stats = inr stats' /\
         forall lang,
           GeneratorPrev.total_commits (prev_stat_of lang stats')
           = GeneratorPrev.total_commits (prev_stat_of lang stats)) /\
    (forall (c : Z) (repo : Generator.Repository) (stats : Generator.LanguageStats)
            (lang : string),
       Generator.commits (stat_of lang (Generator.attribute_primary c repo stats))
       = Generator.commits (stat_of lang stats) + primary_gain c repo lang) /\
    (forall (c : Z) (repo : Generator.Repository) (stats : Generator.LanguageStats),
       exists stats',
         Generator.attribute_weighted c repo stats = inr stats' /\
         forall lang,
           Generator.commits (stat_of lang stats')
           = Generator.commits (stat_of lang stats)
             + if Generator.total_size_of (Generator.languages repo) >? 0 then
                 credited_sum
                   (fun e => weighted_int c (Generator.edge_size_of e)
                               (Generator.total_size_of (Generator.languages repo)))
                   c (Generator.total_size_of (Generator.languages repo)) lang
                   (Generator.languages repo)
               else 0).
Proof.
  intros F PF. split; [| split; [| split]].
  - intros rc stats lang. rewrite attribute_primary_prev.
    destruct (GeneratorPrev.primaryLanguage (GeneratorPrev.repository rc)) as [pl|].
    + destruct (String.eqb (GeneratorPrev.name pl) lang); simpl.
      * split; [reflexivity | split; [reflexivity | discriminate]].
      * split; [reflexivity | split; [lia | reflexivity]].
    + split; [reflexivity | split; [lia | reflexivity]].
  - intros rc stats.
    destruct (attribute_weighted_prev rc stats) as (stats' & Hrun & Hget).
    exists stats'. split; [exact Hrun |]. intros lang.
    rewrite Hget. apply edge_fold_total_commits.
  - intros c repo stats lang. apply attribute_primary_spec.
  - intros c repo stats.
    destruct (attribute_weighted_spec c repo stats) as (stats' & Hrun & Hsame & Hget).
    exists stats'. split; [exact Hrun |]. intros lang.
    destruct (Z.gtb_spec (Generator.total_size_of (Generator.languages repo)) 0) as [Hpos|Hle].
    + destruct (Hget Hpos lang) as (Hc & _). exact Hc.
    + rewrite (Hsame Hle). lia.
Qed.

(** ** C1: proportional attribution *)

(** C1, as stated, fails in the neofetch pipeline, which truncates each
    weighted amount: three languages of one byte each and 10 commits gain 3
    each, 9 in all.  In the terminal pipeline the shares are taken of the
    API's [totalSize], so the amounts of a repository with more languages
    than the query lists fall short too: 15 of 16 commits. *)
Lemma neofetch_truncates_the_weighted_amounts :
  (exists stats',
     Generator.process_repo_contrib (F := float) Dict.empty
       (neofetch_record None [("A", 1); ("B", 1); ("C", 1)] 10) = inr stats' /\
     Generator.commits (stat_of "A" stats') = 3 /\
     Generator.commits (stat_of "B" stats') = 3 /\
     Generator.commits (stat_of "C" stats') = 3 /\
     sum_int (map Generator.commits (Dict.values stats')) <> 10) /\
  (exists t',
     GeneratorPrev.process_repo_contribution (F := float) true true 1
       GeneratorPrev.initial_totals fifteen_of_sixteen = inr t' /\
     GeneratorPrev.sum_commits t' = 16 /\
     fold_left PrimFloat.add
       (map (fun s => GeneratorPrev.weighted_commits (snd s))
          (GeneratorPrev.language_stats t')) 0%float = 15%float).
Proof.
  split.
  - eexists. split; [vm_compute; reflexivity |].
    repeat split; try reflexivity. vm_compute. discriminate.
  - eexists. split; [vm_compute; reflexivity |]. split; reflexivity.
Qed.

(** C1, amended.  In the terminal pipeline and in exact arithmetic, a
    record that passes the filters and whose [totalSize] is the positive sum
    of its listed sizes adds to the weighted bucket of each language the
    amounts [commits * (size / totalSize)] of the edges that name it, and
    the amounts of all its edges add up to its raw commit count.  In the
    neofetch pipeline a record with a positive total adds to a language's
    bucket the truncated amounts [int(commits * (size / total))] of the edges
    that name it, those that are positive; they need not add up to the
    commit count. *)
Theorem weighted_attribution_is_proportional :
  (forall (include_forks include_private : bool) (min_commits : Z)
          (t : @GeneratorPrev.Totals Q) (rc : GeneratorPrev.RepoContribution),
     let listed := GeneratorPrev.edges (GeneratorPrev.languages (GeneratorPrev.repository rc)) in
     let total := GeneratorPrev.totalSize (GeneratorPrev.languages (GeneratorPrev.repository rc)) in
     GeneratorPrev.filtered_out include_forks include_private min_commits rc = false ->
     total = sum_int (map GeneratorPrev.size listed) ->
     0 < total ->
     exists t',
       GeneratorPrev.process_repo_contribution include_forks include_private min_commits t rc
       = inr t' /\
       (forall e,
          (weighted_amount rc e ==
           inject_Z (GeneratorPrev.repo_commits_of rc)
           * (inject_Z (GeneratorPrev.size e) / inject_Z total))%Q) /\
       (forall lang,
          (GeneratorPrev.weighted_commits (prev_stat_of lang (GeneratorPrev.language_stats t'))
           == GeneratorPrev.weighted_commits (prev_stat_of lang (GeneratorPrev.language_stats t))
              + exact_sum (map (weighted_amount rc) (filter (names lang) listed)))%Q) /\
       (exact_sum (map (weighted_amount rc) listed)
        == inject_Z (GeneratorPrev.repo_commits_of rc))%Q) /\
  (forall (F : Type) (PF : PyFloat F) (c : Z) (repo : Generator.Repository)
          (stats : Generator.LanguageStats),
     let total := Generator.total_size_of (Generator.languages repo) in
     0 < total ->
     exists stats',
       Generator.attribute_weighted c repo stats = inr stats' /\
       forall lang,
         Generator.commits (stat_of lang stats')
         = Generator.commits (stat_of lang stats)
           + credited_sum (fun e => weighted_int c (Generator.edge_size_of e) total)
               c total lang (Generator.languages repo)).
Proof.
  split.
  - intros include_forks include_private min_commits t rc listed total Hkept Htotal Hpos.
    destruct (process_repo_contribution_entry include_forks include_private min_commits
                t rc Hkept) as (t' & Hrun & _ & Hget).
    exists t'. split; [exact Hrun |].
    assert (Hshare : forall e,
               (@lang_share Q exact (GeneratorPrev.size e) total
                == inject_Z (GeneratorPrev.size e) / inject_Z total)%Q).
    { intros e. unfold lang_share.
      destruct (Z.gtb_spec total 0); [reflexivity | lia]. }
    split; [| split].
    + intros e. unfold weighted_amount. fold total. rewrite Hshare. reflexivity.
    + intros lang. rewrite Hget.
      destruct (edge_fold_exact rc (filter (names lang) listed)
                  (after_primary rc lang (prev_stat_of lang (GeneratorPrev.language_stats t))))
        as (Hw & _ & _).
      simpl in Hw. fold listed. rewrite Hw. unfold after_primary.
      destruct (GeneratorPrev.primaryLanguage (GeneratorPrev.repository rc)) as [pl|];
        [destruct (String.eqb (GeneratorPrev.name pl) lang) |]; reflexivity.
    + transitivity
        (inject_Z (GeneratorPrev.repo_commits_of rc)
         * exact_sum (map (fun e => @lang_share Q exact (GeneratorPrev.size e) total) listed))%Q.
      * unfold weighted_amount. fold total. clear.
        induction listed as [|e es IH]; simpl; [ring |]. rewrite IH. ring.
      * rewrite (shares_sum total listed Hpos), <- Htotal. field.
        apply inject_Z_nonzero. lia.
  - intros F PF c repo stats total Hpos.
    destruct (attribute_weighted_spec c repo stats) as (stats' & Hrun & _ & Hget).
    exists stats'. split; [exact Hrun |]. intros lang.
    destruct (Hget Hpos lang) as (Hc & _). exact Hc.
Qed.

(** The specification's example, bytes A: 60 and B: 40 with 10 commits:
    A gains 6 and B gains 4, exactly in the terminal pipeline and after
    truncation, in binary64, in the neofetch pipeline. *)
Lemma weighted_attribution_example :
  (exists t',
     GeneratorPrev.process_repo_contribution (F := Q) true true 1
       GeneratorPrev.initial_totals
       (prev_record (prev_repo "ada/x" None [("A", 60); ("B", 40)] 100) [10] None) = inr t' /\
     (GeneratorPrev.weighted_commits (prev_stat_of "A" (GeneratorPrev.language_stats t')) == 6)%Q /\
     (GeneratorPrev.weighted_commits (prev_stat_of "B" (GeneratorPrev.language_stats t')) == 4)%Q) /\
  (exists stats',
     Generator.attribute_weighted (F := float) 10
       (neofetch_repo None [("A", 60); ("B", 40)]) Dict.empty = inr stats' /\
     Generator.commits (stat_of "A" stats') = 6 /\
     Generator.commits (stat_of "B" stats') = 4).
Proof.
  split.
  - destruct (proj1 weighted_attribution_is_proportional true true 1
                GeneratorPrev.initial_totals
                (prev_record (prev_repo "ada/x" None [("A", 60); ("B", 40)] 100) [10] None)
                eq_refl eq_refl eq_refl)
      as (t' & Hrun & _ & Hget & _).
    exists t'. split; [exact Hrun |].
    split; [rewrite (Hget "A") | rewrite (Hget "B")]; vm_compute; reflexivity.
  - destruct (proj2 weighted_attribution_is_proportional float binary64 10
                (neofetch_repo None [("A", 60); ("B", 40)]) Dict.empty eq_refl)
      as (stats' & Hrun & Hget).
    exists stats'. split; [exact Hrun |].
    split; [exact (Hget "A") | exact (Hget "B")].
Defined.

(** The accumulators of both pipelines in one place, as a witness of C4:
    the terminal entry keeps its weighted bucket through the primary
    step. *)
Lemma attribution_accumulators_example :
  GeneratorPrev.weighted_commits
    (prev_stat_of "A"
       (GeneratorPrev.attribute_primary (F := float)
          (prev_record (prev_repo "ada/x" (Some "A") [("A", 60); ("B", 40)] 100) [10] None)
          Dict.empty))
  = GeneratorPrev.weighted_commits (prev_stat_of (F := float) "A" Dict.empty) /\
  prev_stat_of "B"
    (GeneratorPrev.attribute_primary (F := float)
       (prev_record (prev_repo "ada/x" (Some "A") [("A", 60); ("B", 40)] 100) [10] None)
       Dict.empty)
  = prev_stat_of (F := float) "B" Dict.empty.
Proof.
  destruct (proj1 (attribution_accumulators float binary64)
              (prev_record (prev_repo "ada/x" (Some "A") [("A", 60); ("B", 40)] 100) [10] None)
              Dict.empty "A") as (Hw & _ & _).
  destruct (proj1 (attribution_accumulators float binary64)
              (prev_record (prev_repo "ada/x" (Some "A") [("A", 60); ("B", 40)] 100) [10] None)
              Dict.empty "B") as (_ & _ & Hother).
  split; [exact Hw | exact (Hother eq_refl)].
Defined.

(** ** C8: monotonic accumulators *)

(** C8, as stated, fails for the net lines: a record with 5 additions and
    20 deletions lowers the [net_lines] of its language below the value it
    had before the record. *)
Lemma net_lines_can_decrease :
  exists t',
    GeneratorPrev.process_repo_contribution (F := float) true true 1
      GeneratorPrev.initial_totals shrinking_record = inr t' /\
    GeneratorPrev.net_lines (prev_stat_of "A" (GeneratorPrev.language_stats t')) = (-30)%float /\
    PrimFloat.ltb
      (GeneratorPrev.net_lines (prev_stat_of "A" (GeneratorPrev.language_stats t')))
      (GeneratorPrev.net_lines
         (prev_stat_of "A" (GeneratorPrev.language_stats (F := float) GeneratorPrev.initial_totals)))
    = true.
Proof.
  eexists. split; [vm_compute; reflexivity |]. split; reflexivity.
Qed.

Section Monotone.
Import GeneratorPrev.

Lemma weighted_lines_nonneg (count : Z) (rc : RepoContribution) (es : list LanguageEdge) :
  0 <= count ->
  Forall (fun e => 0 <= size e) es ->
  Forall (fun x => (0 <= x)%Q) (map (weighted_lines count rc) es).
Proof.
  intros Hc Hes. induction Hes as [|e es He _ IH]; simpl; constructor; [| exact IH].
  unfold weighted_lines. apply Qmult_le_0_compat.
  - replace 0%Q with (inject_Z 0) by reflexivity. rewrite <- Zle_Qle. exact Hc.
  - apply lang_share_nonneg. exact He.
Qed.

Lemma Forall_filter {A : Type} (P : A -> Prop) (f : A -> bool) (xs : list A) :
  Forall P xs -> Forall P (filter f xs).
Proof.
  induction 1 as [|x xs Hx _ IH]; simpl; [constructor |].
  destruct (f x); [constructor; assumption | assumption].
Qed.

Lemma Qle_plus_nonneg (a b : Q) : (0 <= b)%Q -> (a <= a + b)%Q.
Proof.
  intros Hb. rewrite <- (Qplus_0_r a) at 1. apply Qplus_le_compat; [apply Qle_refl | exact Hb].
Qed.

Lemma inject_Z_nonneg (z : Z) : 0 <= z -> (0 <= inject_Z z)%Q.
Proof.
  intros Hz. replace 0%Q with (inject_Z 0) by reflexivity. rewrite <- Zle_Qle. exact Hz.
Qed.

(** The entry of a language after a record with non-negative counts. *)
Lemma entry_grows (rc : RepoContribution) (lang : string) (s : @LanguageStat Q) :
  0 <= repo_commits_of rc ->
  0 <= ls_total_additions (line_stats_of rc) ->
  0 <= ls_total_deletions (line_stats_of rc) ->
  Forall (fun e => 0 <= size e) (edges (languages (repository rc))) ->
  let s' := fold_left (fun s e => edge_update rc e s)
              (filter (names lang) (edges (languages (repository rc))))
              (after_primary rc lang s) in
  total_commits s <= total_commits s' /\
  (weighted_commits s <= weighted_commits s')%Q /\
  (total_additions s <= total_additions s')%Q /\
  (total_deletions s <= total_deletions s')%Q /\
  total_bytes s <= total_bytes s'.
Proof.
  intros Hc Ha Hd Hsizes s'. subst s'.
  set (es := filter (names lang) (edges (languages (repository rc)))).
  assert (Hes : Forall (fun e => 0 <= size e) es) by (apply Forall_filter; exact Hsizes).
  destruct (edge_fold_exact rc es (after_primary rc lang s)) as (Hw & Hadd & Hdel).
  simpl in Hw, Hadd, Hdel.
  rewrite edge_fold_total_commits, edge_fold_total_bytes, Hw, Hadd, Hdel.
  assert (Hbytes : 0 <= sum_int (map size es)).
  { apply sum_int_nonneg. clear -Hes. induction Hes; simpl; constructor; assumption. }
  assert (Hsum : forall n, 0 <= n -> (0 <= exact_sum (map (weighted_lines n rc) es))%Q).
  { intros n Hn. apply exact_sum_nonneg, weighted_lines_nonneg; assumption. }
  pose proof (Hsum _ Hc) as Hsw. pose proof (Hsum _ Ha) as Hsa. pose proof (Hsum _ Hd) as Hsd.
  change (map (weighted_amount rc) es)
    with (map (weighted_lines (repo_commits_of rc) rc) es).
  unfold after_primary.
  destruct (primaryLanguage (repository rc)) as [pl|];
    [destruct (String.eqb (name pl) lang) |]; simpl.
  - repeat split; try lia.
    + apply Qle_plus_nonneg. exact Hsw.
    + rewrite <- Qplus_assoc. apply Qle_plus_nonneg.
      replace 0%Q with (0 + 0)%Q by reflexivity.
      apply Qplus_le_compat; [apply inject_Z_nonneg; exact Ha | exact Hsa].
    + rewrite <- Qplus_assoc. apply Qle_plus_nonneg.
      replace 0%Q with (0 + 0)%Q by reflexivity.
      apply Qplus_le_compat; [apply inject_Z_nonneg; exact Hd | exact Hsd].
  - repeat split; try lia; apply Qle_plus_nonneg; assumption.
  - repeat split; try lia; apply Qle_plus_nonneg; assumption.
Qed.

End Monotone.

Lemma credited_sum_nonneg {F : Type} `{PyFloat F} (measure : Generator.LanguageEdge -> Z)
    (c total : Z) (lang : string) (edges : list (option Generator.LanguageEdge)) :
  (forall e, In (Some e) edges ->
             0 < weighted_int c (Generator.edge_size_of e) total -> 0 <= measure e) ->
  0 <= credited_sum measure c total lang edges.
Proof.
  intros Hm. induction edges as [|edge edges IH].
  - cbn. lia.
  - rewrite credited_sum_cons.
    assert (0 <= credited_sum measure c total lang edges) as Hrest.
    { apply IH. intros e He. apply Hm. right. exact He. }
    assert (0 <= sum_int (map measure (credits c total lang edge))) as Hhead.
    { unfold credits. destruct edge as [e|]; [| cbn; lia].
      destruct (edge_language (Some e)) as [l|]; [| cbn; lia].
      destruct (String.eqb l lang); simpl; [| cbn; lia].
      destruct (Z.gtb_spec (weighted_int c (Generator.edge_size_of e) total) 0) as [Hpos|Hle];
        [| cbn; lia].
      cbn. specialize (Hm e (or_introl eq_refl) Hpos). lia. }
    lia.
Qed.

(** C8, amended.  For a record whose counts are not negative (commit
    counts, byte sizes, line additions and deletions), applying it to the
    accumulators never lowers a language's commits, weighted commits,
    additions, deletions or byte total, in either pipeline (floats taken
    exactly); the record is processed without an exception.  The net lines
    of the terminal pipeline are left out: they follow additions minus
    deletions and may go down. *)
Theorem accumulators_never_decrease :
  (forall (include_forks include_private : bool) (min_commits : Z)
          (t : @GeneratorPrev.Totals Q) (rc : GeneratorPrev.RepoContribution),
     Forall (fun n => 0 <= GeneratorPrev.commitCount n) (GeneratorPrev.nodes rc) ->
     0 <= GeneratorPrev.ls_total_additions (GeneratorPrev.line_stats_of rc) ->
     0 <= GeneratorPrev.ls_total_deletions (GeneratorPrev.line_stats_of rc) ->
     Forall (fun e => 0 <= GeneratorPrev.size e)
       (GeneratorPrev.edges (GeneratorPrev.languages (GeneratorPrev.repository rc))) ->
     exists t',
       GeneratorPrev.process_repo_contribution include_forks include_private min_commits t rc
       = inr t' /\
       forall lang,
         let s := prev_stat_of lang (GeneratorPrev.language_stats t) in
         let s' := prev_stat_of lang (GeneratorPrev.language_stats t') in
         GeneratorPrev.total_commits s <= GeneratorPrev.total_commits s' /\
         (GeneratorPrev.weighted_commits s <= GeneratorPrev.weighted_commits s')%Q /\
         (GeneratorPrev.total_additions s <= GeneratorPrev.total_additions s')%Q /\
         (GeneratorPrev.total_deletions s <= GeneratorPrev.total_deletions s')%Q /\
         GeneratorPrev.total_bytes s <= GeneratorPrev.total_bytes s') /\
  (forall (stats : Generator.LanguageStats) (repo : Generator.Repository) (c : Z),
     0 <= c ->
     (forall e, In (Some e) (Generator.languages repo) -> 0 <= Generator.edge_size_of e) ->
     exists stats',
       Generator.process_repo_contrib (F := Q) stats
         (Some {| Generator.repository := Some repo; Generator.totalCount := Some c |})
       = inr stats' /\
       forall lang,
         Generator.commits (stat_of lang stats) <= Generator.commits (stat_of lang stats') /\
         Generator.additions (stat_of lang stats) <= Generator.additions (stat_of lang stats') /\
         Generator.deletions (stat_of lang stats) <= Generator.deletions (stat_of lang stats')).
Proof.
  split.
  - intros include_forks include_private min_commits t rc Hnodes Ha Hd Hsizes.
    destruct (GeneratorPrev.filtered_out include_forks include_private min_commits rc) eqn:Hf.
    + exists t. split; [apply process_repo_contribution_filtered; exact Hf |].
      intros lang s s'. subst s s'. repeat split; try lia; apply Qle_refl.
    + destruct (process_repo_contribution_entry include_forks include_private min_commits
                  t rc Hf) as (t' & Hrun & _ & Hget).
      exists t'. split; [exact Hrun |]. intros lang s s'. subst s s'.
      rewrite Hget. apply entry_grows; try assumption.
      unfold GeneratorPrev.repo_commits_of. apply sum_int_nonneg.
      clear -Hnodes. induction Hnodes; simpl; constructor; assumption.
  - intros stats repo c Hc Hsizes.
    unfold Generator.process_repo_contrib. simpl.
    destruct (Z.eqb_spec c 0) as [->|Hne].
    + exists stats. split; [reflexivity |]. intros lang. repeat split; lia.
    + destruct (attribute_weighted_spec (F := Q) c repo (Generator.attribute_primary c repo stats))
        as (stats' & Hrun & Hsame & Hget).
      exists stats'. split; [exact Hrun |]. intros lang.
      destruct (attribute_primary_spec c repo stats lang) as (Hc1 & Ha1 & Hd1).
      assert (Hgain : 0 <= primary_gain c repo lang).
      { unfold primary_gain. destruct (primary_name repo) as [l|]; [| lia].
        destruct (String.eqb l lang); lia. }
      destruct (Z_lt_le_dec 0 (Generator.total_size_of (Generator.languages repo)))
        as [Hpos|Hle].
      * destruct (Hget Hpos lang) as (Hc2 & Ha2 & Hd2).
        rewrite Hc2, Ha2, Hd2, Hc1, Ha1, Hd1.
        set (total := Generator.total_size_of (Generator.languages repo)).
        assert (Hest : forall e, In (Some e) (Generator.languages repo) ->
                  0 <= @Generator.estimated_additions Q exact (Generator.edge_size_of e) /\
                  0 <= @Generator.estimated_deletions Q exact (Generator.edge_size_of e)).
        { intros e He. destruct (estimates_exact _ (Hsizes e He)) as (-> & ->).
          specialize (Hsizes e He). split; apply Z.div_pos; lia. }
        pose proof (credited_sum_nonneg (F := Q)
                      (fun e => @weighted_int Q exact c (Generator.edge_size_of e) total)
                      c total lang (Generator.languages repo)
                      ltac:(intros e He Hp; apply Z.lt_le_incl; exact Hp)) as Hw.
        pose proof (credited_sum_nonneg (F := Q)
                      (fun e => @Generator.estimated_additions Q exact (Generator.edge_size_of e))
                      c total lang (Generator.languages repo)
                      ltac:(intros e He _; apply (Hest e He))) as Hadd.
        pose proof (credited_sum_nonneg (F := Q)
                      (fun e => @Generator.estimated_deletions Q exact (Generator.edge_size_of e))
                      c total lang (Generator.languages repo)
                      ltac:(intros e He _; apply (Hest e He))) as Hdel.
        repeat split; lia.
      * rewrite (Hsame Hle), Hc1, Ha1, Hd1. repeat split; lia.
Qed.

(** A witness of C8: a terminal record with 10 commits, 30 additions and
    12 deletions, and the neofetch record of the specification's example. *)
Lemma accumulators_never_decrease_example :
  (exists t',
     GeneratorPrev.process_repo_contribution (F := Q) true true 1
       GeneratorPrev.initial_totals
       (prev_record (prev_repo "ada/x" (Some "A") [("A", 60); ("B", 40)] 100) [4; 6]
          (Some {| GeneratorPrev.ls_total_additions := 30;
                   GeneratorPrev.ls_total_deletions := 12;
                   GeneratorPrev.ls_net_lines := 18 |})) = inr t' /\
     0 <= GeneratorPrev.total_commits (prev_stat_of "A" (GeneratorPrev.language_stats t'))) /\
  (exists stats',
     Generator.process_repo_contrib (F := Q) Dict.empty
       (neofetch_record (Some "A") [("A", 60); ("B", 40)] 10) = inr stats' /\
     0 <= Generator.commits (stat_of "A" stats')).
Proof.
  split.
  - destruct (proj1 accumulators_never_decrease true true 1 GeneratorPrev.initial_totals
                (prev_record (prev_repo "ada/x" (Some "A") [("A", 60); ("B", 40)] 100) [4; 6]
                   (Some {| GeneratorPrev.ls_total_additions := 30;
                            GeneratorPrev.ls_total_deletions := 12;
                            GeneratorPrev.ls_net_lines := 18 |})))
      as (t' & Hrun & Hget).
    + repeat constructor; simpl; lia.
    + simpl; lia.
    + simpl; lia.
    + repeat constructor; simpl; lia.
    + exists t'. split; [exact Hrun |]. destruct (Hget "A") as (Hc & _). exact Hc.
  - destruct (proj2 accumulators_never_decrease Dict.empty
                (neofetch_repo (Some "A") [("A", 60); ("B", 40)]) 10)
      as (stats' & Hrun & Hget).
    + lia.
    + intros e [He|[He|[]]]; injection He as <-; cbv; discriminate.
    + exists stats'. split; [exact Hrun |]. destruct (Hget "A") as (Hc & _). exact Hc.
Defined.

(** ** C9: the fixed-width line *)

Lemma len_app (a b : pystr) : len (a ++ b) = len a + len b.
Proof. unfold len. rewrite length_app. lia. Qed.

Lemma len_nonneg (s : pystr) : 0 <= len s.
Proof. unfold len. lia. Qed.

Lemma len_times_char (c : N) (n : Z) : len (times [c] n) = Z.max 0 n.
Proof.
  unfold times, len.
  assert (E : forall k, List.length (List.concat (repeat [c] k)) = k).
  { induction k as [|k IH]; simpl; [reflexivity | rewrite IH; reflexivity]. }
  rewrite E. lia.
Qed.

Lemma len_slice_to (s : pystr) (n : Z) :
  0 <= n <= len s -> len (slice_to s n) = n.
Proof.
  intros Hn. unfold slice_to, len in *.
  destruct (Z.ltb_spec n 0); [lia |].
  rewrite length_firstn. lia.
Qed.

(** A key/value line that fits: the key part, at least one dot, a space
    and the value as it is, [total_width] columns in all. *)
Lemma format_line_fits (key value : pystr) (total_width : Z) (separator : pystr) :
  Generator.is_header key = false ->
  1 <= total_width - len (str ". " ++ key ++ separator) - len (str " " ++ value) ->
  Generator.format_line key value total_width separator =
    (str ". " ++ key ++ separator)
    ++ times (str ".")
         (total_width - len (str ". " ++ key ++ separator) - len (str " " ++ value))
    ++ str " " ++ value /\
  len (Generator.format_line key value total_width separator) = total_width.
Proof.
  intros Hkey Hfit. unfold Generator.format_line. rewrite Hkey.
  destruct (Z.ltb_spec
              (total_width - len (str ". " ++ key ++ separator) - len (str " " ++ value)) 1);
    [lia |].
  split; [reflexivity |].
  rewrite !len_app. change (str ".") with [46%N]. rewrite len_times_char.
  rewrite !len_app in *. lia.
Qed.

(** A key/value line whose value does not fit, behind a key part that
    leaves room for the ellipsis: the value is cut and "..." appended, and
    the line is one column wider than [total_width]. *)
Lemma format_line_truncated (key value : pystr) (total_width : Z) (separator : pystr) :
  Generator.is_header key = false ->
  total_width - len (str ". " ++ key ++ separator) - len (str " " ++ value) < 1 ->
  4 <= total_width - len (str ". " ++ key ++ separator) ->
  Generator.format_line key value total_width separator =
    (str ". " ++ key ++ separator) ++ str "." ++ str " "
    ++ slice_to value (total_width - len (str ". " ++ key ++ separator) - 1 - 3)
    ++ str "..." /\
  len (Generator.format_line key value total_width separator) = total_width + 1.
Proof.
  intros Hkey Hlong Hroom. unfold Generator.format_line. rewrite Hkey.
  destruct (Z.ltb_spec
              (total_width - len (str ". " ++ key ++ separator) - len (str " " ++ value)) 1);
    [| lia].
  split; [reflexivity |].
  rewrite !len_app in *. rewrite len_slice_to.
  - change (len (times (str ".") 1)) with 1. change (len (str "...")) with 3.
    change (len (str " ")) with 1 in *. lia.
  - change (len (str " ")) with 1 in *. pose proof (len_nonneg value). lia.
Qed.

(** C9 at the failing input: the key K and a value of 63 characters, one
    more than fits beside it.  [format_line] cuts the value to 60
    characters and appends the ellipsis, and the line is 69 columns wide,
    not 68; [format_styled_line] emits the whole value. *)
Theorem format_line_truncation_is_one_column_too_wide :
  Generator.format_line (str "K") (times (str "x") 63) 68 (str ":")
    = str ". K:. " ++ times (str "x") 60 ++ str "..." /\
  len (Generator.format_line (str "K") (times (str "x") 63) 68 (str ":")) = 69 /\
  len (Generator.format_line (str "K") (times (str "x") 62) 68 (str ":")) = 68 /\
  Generator.format_styled_line (str "K") (times (str "x") 63) []
    = str ". " ++ Generator.tspan "key" (str "K") ++ str ": ."
      ++ Generator.tspan "value" (times (str "x") 63).
Proof. repeat split; vm_compute; reflexivity. Qed.

(** ** C3: percentages and the order of the table *)

Section SortedReverseFacts.
Context {A : Type} (ltb : A -> A -> bool).

Lemma insert_desc_In (x y : A) (l : list A) :
  In y (insert_desc ltb x l) <-> y = x \/ In y l.
Proof.
  induction l as [|z l IH]; simpl.
  - intuition congruence.
  - destruct (ltb x z); simpl; rewrite ?IH; intuition congruence.
Qed.

Lemma sorted_reverse_In (y : A) (l : list A) :
  In y (sorted_reverse ltb l) <-> In y l.
Proof.
  induction l as [|x l IH]; simpl; [reflexivity |].
  rewrite insert_desc_In, IH. intuition congruence.
Qed.



End SortedReverseFacts.

Section SortedReversePermutation.
Context {A : Type} (ltb : A -> A -> bool).

Lemma insert_desc_Permutation (x : A) (l : list A) :
  Permutation (insert_desc ltb x l) (x :: l).
Proof.
  induction l as [|y l IH]; simpl; [apply Permutation_refl |].
  destruct (ltb x y); [| apply Permutation_refl].
  apply perm_trans with (y :: x :: l); [apply perm_skip; exact IH | apply perm_swap].
Qed.

Lemma sorted_reverse_Permutation (l : list A) : Permutation (sorted_reverse ltb l) l.
Proof.
  induction l as [|x l IH]; simpl; [apply perm_nil |].
  apply perm_trans with (x :: sorted_reverse ltb l);
    [apply insert_desc_Permutation | apply perm_skip; exact IH].
Qed.

End SortedReversePermutation.

Section SortedReverseOrder.
Context {A : Type} (key : A -> Q).

Lemma Q_ltb_true (a b : Q) : Q_ltb a b = true -> (a < b)%Q.
Proof.
  unfold Q_ltb. intros Hlt. apply negb_true_iff in Hlt.
  apply Qnot_le_lt. intros Hle. apply Qle_bool_iff in Hle. congruence.
Qed.

Lemma Q_ltb_false (a b : Q) : Q_ltb a b = false -> (b <= a)%Q.
Proof.
  unfold Q_ltb. intros Hlt. apply negb_false_iff in Hlt. apply Qle_bool_iff. exact Hlt.
Qed.

Lemma insert_desc_descending (x : A) (l : list A) :
  descending key l ->
  descending key (insert_desc (fun a b => Q_ltb (key a) (key b)) x l).
Proof.
  unfold descending. induction 1 as [|y l Hy Hl IH]; simpl.
  - constructor; constructor.
  - destruct (Q_ltb (key x) (key y)) eqn:Hlt.
    + constructor; [| exact IH].
      apply Forall_forall. intros z Hz. apply insert_desc_In in Hz.
      destruct Hz as [->|Hz].
      * apply Qlt_le_weak. apply Q_ltb_true. exact Hlt.
      * rewrite Forall_forall in Hy. apply Hy. exact Hz.
    + apply Q_ltb_false in Hlt. constructor; [| constructor; assumption].
      constructor; [exact Hlt |].
      apply Forall_forall. intros z Hz. rewrite Forall_forall in Hy.
      apply Qle_trans with (key y); [apply Hy; exact Hz | exact Hlt].
Qed.

Lemma sorted_reverse_descending (l : list A) :
  descending key (sorted_reverse (fun a b => Q_ltb (key a) (key b)) l).
Proof.
  induction l as [|x l IH]; simpl; [constructor |].
  apply insert_desc_descending. exact IH.
Qed.

End SortedReverseOrder.


Section NeofetchPercentages.
Context {F : Type} `{PyFloat F}.
Import Generator.

Lemma percentage_entries_ok (total : Z) (items : list (string * LanguageStat))
    (acc : list (string * @LanguagePercentage F)) :
  total <> 0 ->
  for_each (percentage_entry total) items acc
  = inr (acc ++ flat_map (percentage_row total) items).
Proof.
  intros Hne. revert acc. induction items as [|[lang stats] items IH]; intros acc; simpl.
  - rewrite app_nil_r. reflexivity.
  - unfold percentage_row at 1. simpl.
    destruct (commits stats >? 0).
    + unfold truediv, fdiv_int. destruct (Z.eqb_spec total 0); [contradiction |]. simpl.
      rewrite IH, <- app_assoc. reflexivity.
    + simpl. apply IH.
Qed.

(** The percentages never raise; with commits in some bucket they are the
    rows of the languages with commits, in the order of the stable
    descending sort by percentage. *)
Lemma calculate_language_percentages_ok (stats : LanguageStats) :
  let total := sum_int (map commits (Dict.values stats)) in
  calculate_language_percentages stats =
  inr (if total =? 0 then []
       else sorted_reverse by_percentage (flat_map (percentage_row total) stats)).
Proof.
  intros total. unfold calculate_language_percentages. fold total.
  destruct (Z.eqb_spec total 0) as [Hz|Hne]; [reflexivity |].
  rewrite (percentage_entries_ok total stats [] Hne). reflexivity.
Qed.

End NeofetchPercentages.




Section TerminalTable.
Import GeneratorPrev.


End TerminalTable.



(** ** C7: the year ranges *)

Section YearRanges.
Import GeneratorPrev.

(** One turn of the loop of lines 215-226. *)
Lemma year_ranges_loop_step (cs e : datetime) (acc : list year_range) :
  year_ranges_loop cs e acc =
  if dt_ltb cs e then
    match end_of_year (year cs) with
    | inl err => inl err
    | inr year_end =>
        match start_of_year (year cs + 1) with
        | inl err => inl err
        | inr next_start => year_ranges_loop next_start e (acc ++ [(cs, dt_min year_end e)])
        end
    end
  else inr acc.
Proof.
  rewrite year_ranges_loop_unfold_eq. unfold year_ranges_loop_unfold.
  match goal with |- _ = ?R => remember R as rhs eqn:ER end.
  generalize (Logic.inspect (dt_ltb cs e)). intros [b Hb].
  rewrite Hb in ER. subst rhs. destruct b; [| reflexivity].
  cbn -[Logic.inspect].
  match goal with |- _ = ?R => remember R as rhs eqn:ER end.
  generalize (Logic.inspect (end_of_year (year cs))). intros [r Hr].
  rewrite Hr in ER. subst rhs. destruct r as [err|ye]; [reflexivity |].
  cbn -[Logic.inspect].
  match goal with |- _ = ?R => remember R as rhs eqn:ER end.
  generalize (Logic.inspect (start_of_year (year cs + 1))). intros [r Hr'].
  rewrite Hr' in ER. subst rhs. destruct r as [err|nx]; reflexivity.
Qed.

Lemma days_in_month_le (y m : Z) : days_in_month y m <= 31.
Proof.
  unfold days_in_month.
  destruct (m =? 2); [destruct (is_leap y); lia |].
  destruct ((m =? 4) || (m =? 6) || (m =? 9) || (m =? 11)); lia.
Qed.

Lemma valid_bounds (d : datetime) :
  valid d = true ->
  1 <= year d <= 9999 /\ 1 <= month d <= 12 /\ 1 <= day d <= 31 /\
  0 <= hour d <= 23 /\ 0 <= minute d <= 59 /\ 0 <= second d <= 59.
Proof.
  unfold valid, MINYEAR, MAXYEAR. intros Hv.
  repeat (apply andb_prop in Hv; destruct Hv as [Hv ?]).
  repeat match goal with H : (_ <=? _) = true |- _ => apply Z.leb_le in H end.
  pose proof (days_in_month_le (year d) (month d)). lia.
Qed.

Lemma dt_compare_stamp (a b : datetime) :
  valid a = true -> valid b = true -> dt_compare a b = (stamp a ?= stamp b).
Proof.
  intros Ha Hb. apply valid_bounds in Ha. apply valid_bounds in Hb.
  unfold dt_compare, fields, stamp. simpl.
  repeat match goal with
         | |- context [?x ?= ?y] =>
             lazymatch x with
             | year _ => idtac | month _ => idtac | day _ => idtac
             | hour _ => idtac | minute _ => idtac | second _ => idtac
             end;
             destruct (Z.compare_spec x y)
         end;
    symmetry;
    first [apply Z.compare_eq_iff; lia | apply Z.compare_lt_iff; lia
          | apply Z.compare_gt_iff; lia].
Qed.

Lemma dt_ltb_stamp (a b : datetime) :
  valid a = true -> valid b = true -> (dt_ltb a b = true <-> stamp a < stamp b).
Proof.
  intros Ha Hb. unfold dt_ltb. rewrite (dt_compare_stamp a b Ha Hb).
  destruct (Z.compare_spec (stamp a) (stamp b)); split; intros; try lia; try discriminate;
    reflexivity.
Qed.

Lemma dt_leb_stamp (a b : datetime) :
  valid a = true -> valid b = true -> (dt_leb a b = true <-> stamp a <= stamp b).
Proof.
  intros Ha Hb. unfold dt_leb. rewrite (dt_compare_stamp a b Ha Hb).
  destruct (Z.compare_spec (stamp a) (stamp b)); split; intros; try lia; try discriminate;
    reflexivity.
Qed.

Lemma valid_jan1 (y : Z) : 1 <= y <= 9999 -> valid (jan1 y) = true.
Proof.
  intros Hy. unfold valid, jan1, MINYEAR, MAXYEAR. simpl.
  destruct (Z.leb_spec 1 y); [| lia]. destruct (Z.leb_spec y 9999); [| lia]. reflexivity.
Qed.

Lemma valid_dec31 (y : Z) : 1 <= y <= 9999 -> valid (dec31 y) = true.
Proof.
  intros Hy. unfold valid, dec31, MINYEAR, MAXYEAR. simpl.
  destruct (Z.leb_spec 1 y); [| lia]. destruct (Z.leb_spec y 9999); [| lia]. reflexivity.
Qed.

Lemma end_of_year_ok (y : Z) : 1 <= y <= 9999 -> end_of_year y = inr (dec31 y).
Proof.
  intros Hy. unfold end_of_year, MINYEAR, MAXYEAR.
  destruct (Z.leb_spec 1 y); [| lia]. destruct (Z.leb_spec y 9999); [| lia]. reflexivity.
Qed.

Lemma start_of_year_ok (y : Z) : 1 <= y <= 9999 -> start_of_year y = inr (jan1 y).
Proof.
  intros Hy. unfold start_of_year, MINYEAR, MAXYEAR.
  destruct (Z.leb_spec 1 y); [| lia]. destruct (Z.leb_spec y 9999); [| lia]. reflexivity.
Qed.

Lemma py_range_cons (a b : Z) : a < b -> py_range a b = a :: py_range (a + 1) b.
Proof.
  intros Hab. unfold py_range.
  replace (Z.to_nat (b - a)) with (S (Z.to_nat (b - (a + 1)))) by lia.
  simpl. f_equal; [lia |].
  rewrite <- seq_shift, map_map. apply map_ext. intros i. lia.
Qed.

Lemma py_range_nil (a b : Z) : b <= a -> py_range a b = [].
Proof.
  intros Hab. unfold py_range. replace (Z.to_nat (b - a)) with 0%nat by lia. reflexivity.
Qed.

Lemma dt_min_cases (a b : datetime) :
  valid a = true -> valid b = true ->
  (dt_min a b = a /\ stamp a <= stamp b) \/ (dt_min a b = b /\ stamp b < stamp a).
Proof.
  intros Ha Hb. unfold dt_min. destruct (dt_ltb b a) eqn:E.
  - right. split; [reflexivity |]. apply (dt_ltb_stamp b a Hb Ha). exact E.
  - left. split; [reflexivity |].
    destruct (Z_lt_le_dec (stamp b) (stamp a)) as [Hlt|Hle]; [| exact Hle].
    apply (dt_ltb_stamp b a Hb Ha) in Hlt. congruence.
Qed.

(** The ranges the loop appends, from a start that lies before the end. *)
Lemma year_ranges_loop_spec (n : nat) :
  forall (cs e : datetime) (acc : list year_range),
    valid cs = true -> valid e = true -> stamp cs < stamp e -> year e < MAXYEAR ->
    Z.to_nat (year e - year cs) = n ->
    exists rs,
      year_ranges_loop cs e acc = inr (acc ++ rs) /\
      Forall (sound_range cs e) rs /\
      ForallOrdPairs (fun r1 r2 => stamp (snd r1) < stamp (fst r2)) rs /\
      map (fun r => year (fst r)) rs = py_range (year cs) (last_year e + 1) /\
      (forall t, valid t = true -> stamp cs <= stamp t -> stamp t <= stamp e ->
                 stamp t < stamp e \/ stamp (jan1 (year e)) < stamp e ->
                 exists r, In r rs /\ stamp (fst r) <= stamp t <= stamp (snd r)).
Proof.
  induction n as [n IH] using lt_wf_ind.
  intros cs e acc Hcs He Hlt Hmax Hn. unfold MAXYEAR in Hmax.
  pose proof (valid_bounds cs Hcs) as Bcs. pose proof (valid_bounds e He) as Be.
  assert (Hyears : year cs <= year e) by (unfold stamp in Hlt; lia).
  rewrite year_ranges_loop_step.
  rewrite (proj2 (dt_ltb_stamp cs e Hcs He) Hlt).
  rewrite (end_of_year_ok (year cs)) by lia.
  rewrite (start_of_year_ok (year cs + 1)) by lia.
  assert (Hdec : valid (dec31 (year cs)) = true) by (apply valid_dec31; lia).
  assert (Hjan : valid (jan1 (year cs + 1)) = true) by (apply valid_jan1; lia).
  assert (Hjane : valid (jan1 (year e)) = true) by (apply valid_jan1; lia).
  set (current_end := dt_min (dec31 (year cs)) e).
  assert (Hend : valid current_end = true /\
                 stamp current_end = Z.min (stamp (dec31 (year cs))) (stamp e) /\
                 year current_end = year cs).
  { subst current_end.
    destruct (dt_min_cases (dec31 (year cs)) e Hdec He) as [[-> Hle]|[-> Hgt]].
    - split; [exact Hdec |]. split; [lia | reflexivity].
    - split; [exact He |]. split; [lia |]. unfold stamp, dec31 in *; simpl in *; lia. }
  destruct Hend as (Hvend & Hsend & Hyend).
  assert (Hhead : sound_range cs e (cs, current_end)).
  { unfold sound_range. simpl. rewrite Hsend, Hyend.
    repeat split; try assumption; try lia.
    unfold stamp, dec31 in *; simpl in *; lia. }
  assert (Hlast : year cs <= last_year e).
  { unfold last_year. destruct (dt_ltb (jan1 (year e)) e) eqn:E; [lia |].
    destruct (Z.eq_dec (year cs) (year e)) as [Heq|Hne]; [| lia].
    exfalso. assert (stamp (jan1 (year e)) < stamp e) as Hc
      by (unfold stamp, jan1 in *; simpl in *; lia).
    apply (dt_ltb_stamp _ _ Hjane He) in Hc. congruence. }
  destruct (Z_lt_le_dec (stamp (jan1 (year cs + 1))) (stamp e)) as [Hmore|Hdone].
  - (* the loop goes on to the next year *)
    assert (Hnext : year cs + 1 <= year e) by (unfold stamp, jan1 in *; simpl in *; lia).
    destruct (IH (Z.to_nat (year e - (year cs + 1))) ltac:(lia)
                (jan1 (year cs + 1)) e (acc ++ [(cs, current_end)]) Hjan He Hmore
                ltac:(unfold MAXYEAR; lia) eq_refl)
      as (rs & Hrun & Hsound & Hord & Hyrs & Hcover).
    exists ((cs, current_end) :: rs). split; [| split; [| split; [| split]]].
    + rewrite Hrun, <- app_assoc. reflexivity.
    + constructor; [exact Hhead |].
      eapply Forall_impl; [| exact Hsound]. intros r (H1 & H2 & H3 & H4 & H5 & H6).
      unfold sound_range. repeat split; try assumption.
      unfold stamp, jan1 in *; simpl in *; lia.
    + constructor; [| exact Hord].
      eapply Forall_impl; [| exact Hsound]. intros r (H1 & H2 & H3 & _). simpl.
      rewrite Hsend. unfold stamp, jan1, dec31 in *; simpl in *; lia.
    + simpl. simpl in Hyrs. rewrite Hyrs. symmetry. apply py_range_cons. lia.
    + intros t Ht Hfrom Hto Hin. pose proof (valid_bounds t Ht) as Bt.
      destruct (Z_le_gt_dec (stamp t) (stamp current_end)) as [Hhere|Hlater].
      * exists (cs, current_end). split; [left; reflexivity | simpl; lia].
      * destruct (Hcover t Ht) as (r & Hr & Hrange); try assumption.
        { rewrite Hsend in Hlater. unfold stamp, jan1, dec31 in *; simpl in *; lia. }
        exists r. split; [right; exact Hr | exact Hrange].
  - (* the next year starts at or after the end: the loop stops *)
    rewrite year_ranges_loop_step.
    assert (Hstop : dt_ltb (jan1 (year cs + 1)) e = false).
    { destruct (dt_ltb (jan1 (year cs + 1)) e) eqn:E; [| reflexivity].
      apply (dt_ltb_stamp _ _ Hjan He) in E. lia. }
    rewrite Hstop.
    exists [(cs, current_end)]. split; [| split; [| split; [| split]]].
    + reflexivity.
    + constructor; [exact Hhead | constructor].
    + constructor; constructor.
    + simpl. rewrite py_range_cons by lia. rewrite py_range_nil; [reflexivity |].
      unfold last_year. destruct (dt_ltb (jan1 (year e)) e) eqn:E.
      * apply (dt_ltb_stamp _ _ Hjane He) in E.
        unfold stamp, jan1 in *; simpl in *; lia.
      * unfold stamp, jan1 in *; simpl in *; lia.
    + intros t Ht Hfrom Hto Hin. pose proof (valid_bounds t Ht) as Bt.
      exists (cs, current_end). split; [left; reflexivity |]. simpl. rewrite Hsend.
      split; [lia |]. unfold stamp, jan1, dec31 in *; simpl in *; lia.
Qed.

End YearRanges.

Lemma ForallOrdPairs_impl {A : Type} (P : A -> Prop) (R R' : A -> A -> Prop) (l : list A) :
  (forall a b, P a -> P b -> R a b -> R' a b) ->
  Forall P l -> ForallOrdPairs R l -> ForallOrdPairs R' l.
Proof.
  intros Himp HP HR. induction HR as [|a l Ha _ IH].
  - constructor.
  - inversion HP as [|? ? Pa Pl]; subst. constructor; [| apply IH; exact Pl].
    rewrite Forall_forall in *. intros b Hb. apply Himp; auto.
Qed.

(** C7, as stated, fails in three ways.  A window of one instant
    ([start = end]) yields no range, though the instant lies in the window.
    A window that ends on the first second of a year yields no range for
    that year, and the end is not covered.  A window that reaches the year
    9999 raises [ValueError], the loop building the start of the year
    10000. *)
Lemma year_ranges_miss_the_end_of_the_window :
  (GeneratorPrev.valid (at_time 2024 6 18 0 43 28) = true /\
   GeneratorPrev.dt_leb (at_time 2024 6 18 0 43 28) (at_time 2024 6 18 0 43 28) = true /\
   GeneratorPrev._generate_year_ranges (at_time 2024 6 18 0 43 28) (at_time 2024 6 18 0 43 28)
   = inr []) /\
  (GeneratorPrev.valid (at_time 2025 1 1 0 0 0) = true /\
   GeneratorPrev.dt_ltb (at_time 2024 6 18 0 43 28) (at_time 2025 1 1 0 0 0) = true /\
   GeneratorPrev._generate_year_ranges (at_time 2024 6 18 0 43 28) (at_time 2025 1 1 0 0 0)
   = inr [(at_time 2024 6 18 0 43 28, at_time 2024 12 31 23 59 59)] /\
   GeneratorPrev.dt_leb (at_time 2025 1 1 0 0 0) (at_time 2024 12 31 23 59 59) = false) /\
  (GeneratorPrev.valid (at_time 9999 7 18 0 0 0) = true /\
   GeneratorPrev.dt_ltb (at_time 9999 6 18 0 0 0) (at_time 9999 7 18 0 0 0) = true /\
   GeneratorPrev._generate_year_ranges (at_time 9999 6 18 0 0 0) (at_time 9999 7 18 0 0 0)
   = inl ValueError).
Proof. repeat split; vm_compute; reflexivity. Qed.

(** C7, amended.  For every window of valid UTC times (whole seconds) with
    [start < end] that ends before the year 9999, the ranges are produced
    without an exception; each is a sub-range of the window inside one
    calendar year; every earlier range ends strictly before every later one
    starts; there is exactly one range per calendar year from the year of
    the start to the last year that holds an instant before the end, in
    order; and every instant [t] with [start <= t < end] lies in a range.
    When the end is not the first second of its year, that last year is the
    year of the end and the end lies in a range too, so the ranges cover the
    closed window. *)
Theorem year_ranges_partition_the_window :
  forall start_dt end_dt : GeneratorPrev.datetime,
    GeneratorPrev.valid start_dt = true ->
    GeneratorPrev.valid end_dt = true ->
    GeneratorPrev.dt_ltb start_dt end_dt = true ->
    GeneratorPrev.year end_dt < GeneratorPrev.MAXYEAR ->
    exists ranges,
      GeneratorPrev._generate_year_ranges start_dt end_dt = inr ranges /\
      Forall (fun r =>
                GeneratorPrev.valid (fst r) = true /\ GeneratorPrev.valid (snd r) = true /\
                GeneratorPrev.dt_leb start_dt (fst r) = true /\
                GeneratorPrev.dt_leb (fst r) (snd r) = true /\
                GeneratorPrev.dt_leb (snd r) end_dt = true /\
                GeneratorPrev.year (fst r) = GeneratorPrev.year (snd r)) ranges /\
      ForallOrdPairs (fun r1 r2 => GeneratorPrev.dt_ltb (snd r1) (fst r2) = true) ranges /\
      map (fun r => GeneratorPrev.year (fst r)) ranges
        = py_range (GeneratorPrev.year start_dt) (last_year end_dt + 1) /\
      (forall t,
         GeneratorPrev.valid t = true ->
         GeneratorPrev.dt_leb start_dt t = true ->
         GeneratorPrev.dt_ltb t end_dt = true ->
         exists r, In r ranges /\
                   GeneratorPrev.dt_leb (fst r) t = true /\
                   GeneratorPrev.dt_leb t (snd r) = true) /\
      (GeneratorPrev.dt_ltb (jan1 (GeneratorPrev.year end_dt)) end_dt = true ->
       last_year end_dt = GeneratorPrev.year end_dt /\
       exists r, In r ranges /\
                 GeneratorPrev.dt_leb (fst r) end_dt = true /\
                 GeneratorPrev.dt_leb end_dt (snd r) = true).
Proof.
  intros start_dt end_dt Hs He Hlt Hmax.
  pose proof (proj1 (dt_ltb_stamp start_dt end_dt Hs He) Hlt) as Hstamp.
  destruct (year_ranges_loop_spec _ start_dt end_dt [] Hs He Hstamp Hmax eq_refl)
    as (ranges & Hrun & Hsound & Hord & Hyears & Hcover).
  exists ranges. split; [exact Hrun |].
  assert (Hje : GeneratorPrev.valid (jan1 (GeneratorPrev.year end_dt)) = true).
  { apply valid_jan1. pose proof (valid_bounds end_dt He). lia. }
  split; [| split; [| split; [exact Hyears | split]]].
  - eapply Forall_impl; [| exact Hsound].
    intros r (H1 & H2 & H3 & H4 & H5 & H6). repeat split; try assumption.
    + apply (dt_leb_stamp _ _ Hs H1). exact H3.
    + apply (dt_leb_stamp _ _ H1 H2). exact H4.
    + apply (dt_leb_stamp _ _ H2 He). exact H5.
  - apply (ForallOrdPairs_impl (sound_range start_dt end_dt)
             (fun r1 r2 => stamp (snd r1) < stamp (fst r2))); [| exact Hsound | exact Hord].
    intros a b (_ & Ha & _) (Hb & _) Hab. apply (dt_ltb_stamp _ _ Ha Hb). exact Hab.
  - intros t Ht Hfrom Hbefore.
    apply (dt_leb_stamp _ _ Hs Ht) in Hfrom. apply (dt_ltb_stamp _ _ Ht He) in Hbefore.
    destruct (Hcover t Ht Hfrom ltac:(lia) ltac:(left; exact Hbefore)) as (r & Hr & H1 & H2).
    exists r. split; [exact Hr |].
    rewrite Forall_forall in Hsound. destruct (Hsound r Hr) as (V1 & V2 & _).
    split; [apply (dt_leb_stamp _ _ V1 Ht); exact H1 | apply (dt_leb_stamp _ _ Ht V2); exact H2].
  - intros Hopen. split; [unfold last_year; rewrite Hopen; reflexivity |].
    pose proof (proj1 (dt_ltb_stamp _ _ Hje He) Hopen) as Hopen'.
    destruct (Hcover end_dt He ltac:(lia) ltac:(lia) ltac:(right; exact Hopen'))
      as (r & Hr & H1 & H2).
    exists r. split; [exact Hr |].
    rewrite Forall_forall in Hsound. destruct (Hsound r Hr) as (V1 & V2 & _).
    split; [apply (dt_leb_stamp _ _ V1 He); exact H1 | apply (dt_leb_stamp _ _ He V2); exact H2].
Qed.

(** The default window of five years back from 2025-06-18T00:43:28Z has
    one range per year from 2020 to 2025. *)
Lemma year_ranges_example :
  exists ranges,
    GeneratorPrev._generate_year_ranges (at_time 2020 6 19 0 43 28) (at_time 2025 6 18 0 43 28)
    = inr ranges /\
    map (fun r => GeneratorPrev.year (fst r)) ranges = [2020; 2021; 2022; 2023; 2024; 2025].
Proof.
  destruct (year_ranges_partition_the_window
              (at_time 2020 6 19 0 43 28) (at_time 2025 6 18 0 43 28)
              eq_refl eq_refl eq_refl eq_refl)
    as (ranges & Hrun & _ & _ & Hyears & _).
  exists ranges. split; [exact Hrun | exact Hyears].
Defined.

(** ** C6: failures of a year and of the user query *)

Section NeofetchRun.
Context {F : Type} `{PyFloat F}.
Import Generator.

Lemma process_year_by_outcome (net : Network) (st : RunState) (y : Z) :
  process_year net st y =
  match year_outcome net y with
  | Raised e => inl e
  | Skipped w => inr (warn w st)
  | Fetched year_data => process_year_data y year_data st
  end.
Proof.
  unfold process_year, year_outcome.
  destruct (post_year net y) as [e|response]; [reflexivity |]. simpl.
  destruct (negb (status_code response =? 200)); [reflexivity |].
  destruct (json response) as [e|body]; [reflexivity |]. simpl.
  destruct (errors body); [reflexivity |].
  destruct (data body) as [d|]; [| reflexivity].
  destruct (root d) as [uc|]; [| reflexivity].
  destruct (contributionsCollection uc); reflexivity.
Qed.

Lemma process_year_data_totals (y : Z) (year_data : YearData) (st sa : RunState) :
  totals_of st = totals_of sa ->
  exists st' sa',
    process_year_data y year_data st = inr st' /\
    process_year_data y year_data sa = inr sa' /\
    totals_of st' = totals_of sa' /\
    warnings st' = warnings st /\
    total_commits st' = total_commits st + year_commits_of year_data.
Proof.
  intros Hsame. unfold totals_of in Hsame. injection Hsame as Hc Ht Hl.
  destruct (process_year_data_ok y year_data st) as (stats1 & Hf1 & Hrun1).
  destruct (process_year_data_ok y year_data sa) as (stats2 & Hf2 & Hrun2).
  rewrite Hl, Hf2 in Hf1. injection Hf1 as <-.
  eexists. eexists. split; [exact Hrun1 |]. split; [exact Hrun2 |].
  unfold totals_of. simpl. rewrite Hc, Ht. repeat split; reflexivity.
Qed.

(** When no request of the run raises, the loop over the years ends
    without an exception, in the state that folding the fetched years alone
    gives, with one warning per skipped year. *)
Lemma years_loop_spec (net : Network) (years : list Z) :
  (forall y, In y years -> answered net y = true) ->
  forall st sa,
    totals_of st = totals_of sa ->
    exists st' sa',
      for_each (process_year net) years st = inr st' /\
      fold_fetched (fetched_years net years) sa = inr sa' /\
      totals_of st' = totals_of sa' /\
      warnings st' = warnings st ++ skipped_warnings net years /\
      total_commits st' =
        total_commits st
        + sum_int (map (fun p => year_commits_of (snd p)) (fetched_years net years)).
Proof.
  induction years as [|y years IH]; intros Hans st sa Hsame.
  - exists st, sa. split; [reflexivity |]. split; [reflexivity |].
    split; [exact Hsame |]. split; [simpl; rewrite app_nil_r; reflexivity | cbn; lia].
  - assert (Hrest : forall y', In y' years -> answered net y' = true)
      by (intros y' Hy'; apply Hans; right; exact Hy').
    specialize (Hans y (or_introl eq_refl)). unfold answered in Hans.
    simpl. rewrite process_year_by_outcome.
    unfold fetched_years, skipped_warnings. simpl.
    fold (fetched_years net years). fold (skipped_warnings net years).
    destruct (year_outcome net y) as [e|w|year_data]; [discriminate | |].
    + simpl. destruct (IH Hrest (warn w st) sa Hsame) as (st' & sa' & H1 & H2 & H3 & H4 & H5).
      exists st', sa'. split; [exact H1 |]. split; [exact H2 |]. split; [exact H3 |].
      split; [rewrite H4; simpl; rewrite <- app_assoc; reflexivity | exact H5].
    + destruct (process_year_data_totals y year_data st sa Hsame)
        as (st1 & sa1 & Hr1 & Hr2 & Hsame1 & Hw1 & Ht1).
      rewrite Hr1. simpl. unfold fold_fetched. simpl. rewrite Hr2. simpl.
      destruct (IH Hrest st1 sa1 Hsame1) as (st' & sa' & H1 & H2 & H3 & H4 & H5).
      exists st', sa'. split; [exact H1 |]. split; [exact H2 |]. split; [exact H3 |].
      split; [rewrite H4, Hw1; reflexivity |].
      rewrite H5, Ht1, sum_int_cons. simpl. lia.
Qed.

(** A year whose request raises makes the loop raise. *)
Lemma years_loop_raises (net : Network) (years : list Z) (y : Z) (e : exn) :
  In y years -> year_outcome net y = Raised e ->
  forall st, exists e', for_each (process_year net) years st = inl e'.
Proof.
  intros Hin Hout. apply (for_each_raises _ years y Hin).
  intros st. exists e. rewrite process_year_by_outcome, Hout. reflexivity.
Qed.

Lemma calculate_language_percentages_total (stats : LanguageStats) :
  exists rows, calculate_language_percentages stats = inr rows.
Proof. rewrite calculate_language_percentages_ok. eexists. reflexivity. Qed.

End NeofetchRun.

Section TerminalRun.
Context {F : Type} `{PyFloat F}.
Import GeneratorPrev.

(** A year whose query fails makes the whole multi-year fetch raise: the
    exception of [_make_graphql_request] is not caught in the loop. *)
Lemma range_fetch_raises (net : Network) (username : string) (start_dt end_dt : datetime)
    (include_line_counts : bool) (ranges : list year_range) (r : year_range) (e : exn) :
  _generate_year_ranges start_dt end_dt = inr ranges ->
  In r ranges ->
  get_user_contributions_single_year net r = inl e ->
  exists e', get_user_contributions_range net username start_dt end_dt include_line_counts
             = inl e'.
Proof.
  intros Hranges Hin Hfail. unfold get_user_contributions_range. rewrite Hranges. simpl.
  match goal with
  | |- context [for_each ?body ranges ?st] =>
      destruct (for_each_raises body ranges r Hin) with (s := st) as (e' & He')
  end.
  - intros st. exists e. unfold merge_year. rewrite Hfail. reflexivity.
  - rewrite He'. exists e'. reflexivity.
Qed.

Lemma main_fails_with_the_fetch (args_token env_token : option string) (username : string)
    (start_dt end_dt : datetime) (exclude_forks exclude_private no_line_counts : bool)
    (min_commits : Z) (net : Network) (emit : @Analysis F -> UserProfile -> result unit)
    (e : exn) :
  get_user_contributions net username start_dt end_dt (negb no_line_counts) = inl e ->
  main args_token env_token username start_dt end_dt exclude_forks exclude_private
    no_line_counts min_commits net emit = 1.
Proof.
  intros Hfail. unfold main.
  destruct (truthy_str _); [| reflexivity].
  destruct (get_basic_user_stats net) as [e0|u]; [reflexivity |]. simpl.
  rewrite Hfail. reflexivity.
Qed.

Lemma main_fails_without_the_user (args_token env_token : option string) (username : string)
    (start_dt end_dt : datetime) (exclude_forks exclude_private no_line_counts : bool)
    (min_commits : Z) (net : Network) (emit : @Analysis F -> UserProfile -> result unit)
    (e : exn) :
  get_basic_user_stats net = inl e ->
  main args_token env_token username start_dt end_dt exclude_forks exclude_private
    no_line_counts min_commits net emit = 1.
Proof.
  intros Hfail. unfold main.
  destruct (truthy_str _); [| reflexivity].
  rewrite Hfail. reflexivity.
Qed.

End TerminalRun.

(** C6, as stated, fails.  In the neofetch pipeline a transport failure of
    the middle year's request is an exception that the loop does not catch:
    the run ends with exit code 1.  In the terminal pipeline any failed
    query of a year, here status 502, ends the run with exit code 1. *)
Lemma a_failed_year_can_abort_the_run :
  Generator.main (F := float) (Some "token") None transport_failure (june_18 2025) 3 written = 1 /\
  GeneratorPrev.main (F := float) (Some "token") None "ada"
    (at_time 2023 1 1 0 0 0) (at_time 2025 6 18 0 43 28) false false true 1
    terminal_gateway_failure emitted = 1.
Proof. split; vm_compute; reflexivity. Qed.

Lemma window_start_ok (end_date : Generator.date) (years_back : Z) :
  window_fits end_date years_back ->
  Generator.window_start end_date years_back
  = inr (Generator.toordinal end_date - 365 * years_back).
Proof.
  intros [Hdays [Hlow Hhigh]]. unfold Generator.window_start, Generator.timedelta.
  set (days := 365 * years_back) in *.
  destruct (Z.gtb_spec (Z.abs days) 999999999) as [Hgt|_]; [lia |].
  simpl. unfold Generator.date_minus, Generator._MAXORDINAL.
  destruct (Z.ltb_spec 0 (Generator.toordinal end_date - days)); [| lia].
  destruct (Z.leb_spec (Generator.toordinal end_date - days) 3652059); [| lia].
  reflexivity.
Qed.

Lemma window_start_overflows (end_date : Generator.date) (years_back : Z) :
  ~ window_fits end_date years_back ->
  Generator.window_start end_date years_back = inl OverflowError.
Proof.
  intros Hout. unfold window_fits in Hout.
  unfold Generator.window_start, Generator.timedelta.
  set (days := 365 * years_back) in *.
  destruct (Z.gtb_spec (Z.abs days) 999999999) as [Hgt|Hle]; [reflexivity |].
  simpl. unfold Generator.date_minus, Generator._MAXORDINAL.
  destruct (Z.ltb_spec 0 (Generator.toordinal end_date - days)) as [Hlow|_];
    [| reflexivity].
  destruct (Z.leb_spec (Generator.toordinal end_date - days) 3652059)
    as [Hhigh|_]; [| reflexivity].
  exfalso. apply Hout. lia.
Qed.

(** C6, amended.  In the neofetch pipeline, when the start of the window
    (today minus 365 days per year, line 319) is a day of the years 1 to
    9999, the user query succeeds
    and the request of every year is answered (a status other than 200, an
    error list, or missing user or contributions data count as answered;
    they are reported as a warning and the year is skipped), the fetch
    returns: its totals are those of folding the fetched years alone, its
    run-level total is the sum of their [totalCommitContributions], there is
    one warning per skipped year, and the run ends with exit code 0 when the
    renderer succeeds.  A year whose request raises (a transport exception,
    or an unparsable body behind status 200) ends the run with exit code 1.
    In the terminal pipeline a failed query of any year of a multi-year
    window ends the run with exit code 1.  In both pipelines a failure of
    the user query ends the run with exit code 1.  In the neofetch pipeline
    a number of years that puts the start of the window outside of the
    years 1 to 9999 raises OverflowError before any request, and the run
    ends with exit code 1. *)
Theorem per_year_failures :
  forall (F : Type) (PF : PyFloat F),
    (forall (args_token env_token : option string) (net : Generator.Network)
            (end_date : Generator.date) (years_back : Z)
            (write_artifacts : Generator.RunData -> result unit) (u : Generator.UserData),
       truthy_str (match truthy_str args_token with
                   | Some t => Some t
                   | None => env_token
                   end) <> None ->
       window_fits end_date years_back ->
       Generator.fetch_user net = inr u ->
       (forall y, In y (Generator.years_of (Generator.date_year end_date) years_back) ->
                  answered net y = true) ->
       exists data good,
         Generator.get_user_data_multi_year net end_date years_back
         = inr (data, skipped_warnings net
                        (Generator.years_of (Generator.date_year end_date) years_back)) /\
         fold_fetched
           (fetched_years net (Generator.years_of (Generator.date_year end_date) years_back))
           Generator.initial_state = inr good /\
         Generator.data_user data = u /\
         Generator.data_total_commits data = Generator.total_commits good /\
         Generator.data_language_stats data = Generator.language_stats good /\
         Generator.data_contributions_data data = Generator.contributions_data good /\
         Generator.data_total_commits data =
           sum_int (map (fun p => year_commits_of (snd p))
                      (fetched_years net
                         (Generator.years_of (Generator.date_year end_date) years_back))) /\
         (write_artifacts data = inr tt ->
          Generator.main args_token env_token net end_date years_back write_artifacts
          = 0)) /\
    (forall (args_token env_token : option string) (net : Generator.Network)
            (end_date : Generator.date) (years_back : Z)
            (write_artifacts : Generator.RunData -> result unit) (y : Z) (e : exn),
       In y (Generator.years_of (Generator.date_year end_date) years_back) ->
       year_outcome net y = Raised e ->
       Generator.main args_token env_token net end_date years_back write_artifacts = 1) /\
    (forall (args_token env_token : option string) (username : string)
            (start_dt end_dt : GeneratorPrev.datetime)
            (exclude_forks exclude_private no_line_counts : bool) (min_commits : Z)
            (net : GeneratorPrev.Network)
            (emit : @GeneratorPrev.Analysis F -> GeneratorPrev.UserProfile -> result unit)
            (ranges : list GeneratorPrev.year_range) (r : GeneratorPrev.year_range) (e : exn),
       (GeneratorPrev.timedelta_days end_dt start_dt <=? 365)
       && (GeneratorPrev.year start_dt =? GeneratorPrev.year end_dt) = false ->
       GeneratorPrev._generate_year_ranges start_dt end_dt = inr ranges ->
       In r ranges ->
       GeneratorPrev.get_user_contributions_single_year net r = inl e ->
       GeneratorPrev.main args_token env_token username start_dt end_dt
         exclude_forks exclude_private no_line_counts min_commits net emit = 1) /\
    (forall (args_token env_token : option string) (net : Generator.Network)
            (end_date : Generator.date) (years_back : Z)
            (write_artifacts : Generator.RunData -> result unit) (e : exn),
       Generator.fetch_user net = inl e ->
       Generator.main args_token env_token net end_date years_back write_artifacts = 1) /\
    (forall (args_token env_token : option string) (username : string)
            (start_dt end_dt : GeneratorPrev.datetime)
            (exclude_forks exclude_private no_line_counts : bool) (min_commits : Z)
            (net : GeneratorPrev.Network)
            (emit : @GeneratorPrev.Analysis F -> GeneratorPrev.UserProfile -> result unit)
            (e : exn),
       GeneratorPrev.get_basic_user_stats net = inl e ->
       GeneratorPrev.main args_token env_token username start_dt end_dt
         exclude_forks exclude_private no_line_counts min_commits net emit = 1) /\
    (forall (args_token env_token : option string) (net : Generator.Network)
            (end_date : Generator.date) (years_back : Z)
            (write_artifacts : Generator.RunData -> result unit),
       ~ window_fits end_date years_back ->
       Generator.get_user_data_multi_year net end_date years_back = inl OverflowError /\
       Generator.main args_token env_token net end_date years_back write_artifacts = 1).
Proof.
  intros F PF. split; [| split; [| split; [| split; [| split]]]].
  - intros args_token env_token net end_date years_back write_artifacts u
      Htoken Hwindow Huser Hans.
    destruct (years_loop_spec net
                (Generator.years_of (Generator.date_year end_date) years_back) Hans
                Generator.initial_state Generator.initial_state eq_refl)
      as (st' & good & Hloop & Hgood & Hsame & Hwarn & Htotal).
    unfold totals_of in Hsame. injection Hsame as Hc Ht Hl.
    eexists. exists good. split; [| split; [exact Hgood |]].
    + unfold Generator.get_user_data_multi_year.
      rewrite (window_start_ok _ _ Hwindow), Huser. simpl.
      rewrite Hloop. simpl. rewrite Hwarn. reflexivity.
    + simpl. split; [reflexivity |]. split; [exact Ht |]. split; [exact Hl |].
      split; [exact Hc |]. split; [rewrite Htotal; reflexivity |].
      intros Hwritten. unfold Generator.main.
      destruct (truthy_str _); [| contradiction].
      unfold Generator.get_user_data_multi_year.
      rewrite (window_start_ok _ _ Hwindow), Huser. simpl.
      rewrite Hloop. simpl. rewrite Hwritten. simpl.
      destruct (calculate_language_percentages_total (Generator.language_stats st'))
        as (rows & Hrows).
      rewrite Hrows. reflexivity.
  - intros args_token env_token net end_date years_back write_artifacts y e Hin Hout.
    unfold Generator.main. destruct (truthy_str _); [| reflexivity].
    unfold Generator.get_user_data_multi_year.
    destruct (Generator.window_start end_date years_back) as [e1|start]; [reflexivity |].
    destruct (Generator.fetch_user net) as [e0|u]; [reflexivity |]. simpl.
    destruct (years_loop_raises net _ y e Hin Hout Generator.initial_state) as (e' & He').
    rewrite He'. reflexivity.
  - intros args_token env_token username start_dt end_dt exclude_forks exclude_private
      no_line_counts min_commits net emit ranges r e Hmulti Hranges Hin Hfail.
    destruct (range_fetch_raises net username start_dt end_dt (negb no_line_counts)
                ranges r e Hranges Hin Hfail) as (e' & He').
    apply (main_fails_with_the_fetch _ _ _ _ _ _ _ _ _ _ _ e').
    unfold GeneratorPrev.get_user_contributions. rewrite Hmulti. exact He'.
  - intros args_token env_token net end_date years_back write_artifacts e Hfail.
    unfold Generator.main. destruct (truthy_str _); [| reflexivity].
    unfold Generator.get_user_data_multi_year.
    destruct (Generator.window_start end_date years_back) as [e1|start]; [reflexivity |].
    rewrite Hfail. reflexivity.
  - intros args_token env_token username start_dt end_dt exclude_forks exclude_private
      no_line_counts min_commits net emit e Hfail.
    apply (main_fails_without_the_user _ _ _ _ _ _ _ _ _ _ _ e Hfail).
  - intros args_token env_token net end_date years_back write_artifacts Hout.
    assert (Hrun : Generator.get_user_data_multi_year net end_date years_back
                   = inl OverflowError).
    { unfold Generator.get_user_data_multi_year.
      rewrite (window_start_overflows _ _ Hout). reflexivity. }
    split; [exact Hrun |].
    unfold Generator.main. destruct (truthy_str _); [| reflexivity].
    rewrite Hrun. reflexivity.
Qed.

Lemma three_years_from_2025_fit : window_fits (june_18 2025) 3.
Proof. unfold window_fits. vm_compute. repeat split; discriminate. Qed.

Lemma three_thousand_years_from_2025_do_not_fit : ~ window_fits (june_18 2025) 3000.
Proof. unfold window_fits. vm_compute. intros [_ [Hlow _]]. discriminate Hlow. Qed.

(** The specification's scenario, three years of which the middle one
    fails.  Answered with status 502, the year is skipped: the run ends with
    exit code 0, one warning, and the total 12 of the years 2023 and 2025.
    When the request raises, or in the terminal pipeline, the run ends with
    exit code 1; so does [--years 3000], whose window would start before
    the year 1. *)
Lemma per_year_failures_example :
  window_fits (june_18 2025) 3 /\
  ~ window_fits (june_18 2025) 3000 /\
  Generator.main (F := float) (Some "token") None gateway_failure (june_18 2025) 3000 written
  = 1 /\
  (exists data,
     Generator.get_user_data_multi_year (F := float) gateway_failure (june_18 2025) 3
     = inr (data, [Generator.FailedToFetch 2024 502]) /\
     Generator.data_total_commits data = 12 /\
     Generator.main (F := float) (Some "token") None gateway_failure (june_18 2025) 3 written = 0) /\
  Generator.main (F := float) (Some "token") None transport_failure (june_18 2025) 3 written = 1 /\
  GeneratorPrev.main (F := float) (Some "token") None "ada"
    (at_time 2023 1 1 0 0 0) (at_time 2025 6 18 0 43 28) false false true 1
    terminal_gateway_failure emitted = 1.
Proof.
  split; [exact three_years_from_2025_fit |].
  split; [exact three_thousand_years_from_2025_do_not_fit |].
  split; [| split; [| split]].
  - apply (proj2 (proj2 (proj2 (proj2 (proj2 (per_year_failures float binary64)))))
             (Some "token") None gateway_failure (june_18 2025) 3000 written
             three_thousand_years_from_2025_do_not_fit).
  - destruct (proj1 (per_year_failures float binary64)
                (Some "token") None gateway_failure (june_18 2025) 3 written ada
                ltac:(discriminate) three_years_from_2025_fit eq_refl)
      as (data & good & Hrun & _ & _ & _ & _ & _ & Htotal & Hmain).
    + intros y Hy. vm_compute in Hy.
      destruct Hy as [<-|[<-|[<-|[]]]]; reflexivity.
    + exists data. split; [exact Hrun |]. split; [exact Htotal |].
      apply Hmain. reflexivity.
  - apply (proj1 (proj2 (per_year_failures float binary64))
             (Some "token") None transport_failure (june_18 2025) 3 written 2024 RequestException).
    + right. left. reflexivity.
    + reflexivity.
  - apply (proj1 (proj2 (proj2 (per_year_failures float binary64)))
             (Some "token") None "ada" (at_time 2023 1 1 0 0 0) (at_time 2025 6 18 0 43 28)
             false false true 1 terminal_gateway_failure emitted
             [(at_time 2023 1 1 0 0 0, at_time 2023 12 31 23 59 59);
              (at_time 2024 1 1 0 0 0, at_time 2024 12 31 23 59 59);
              (at_time 2025 1 1 0 0 0, at_time 2025 6 18 0 43 28)]
             (at_time 2024 1 1 0 0 0, at_time 2024 12 31 23 59 59)
             (GraphQLQueryFailed 502)).
    + reflexivity.
    + vm_compute. reflexivity.
    + right. left. reflexivity.
    + reflexivity.
Defined.

(** * Further properties of the terminal pipeline *)

(** ** The window inside one calendar year *)

(** A window that lies inside one calendar year is fetched with the single
    query of lines 541-566, whose answer holds the contributions collection
    inside [user]; [analyze_languages] reads it at the top level (line 589).
    Whatever the API answers, the analysis of such a fetch raises, and the
    run ends with exit code 1. *)
Theorem window_inside_one_year_ends_with_exit_code_1 :
  forall (F : Type) (PF : PyFloat F) (args_token env_token : option string)
         (username : string) (start_dt end_dt : GeneratorPrev.datetime)
         (exclude_forks exclude_private no_line_counts : bool) (min_commits : Z)
         (net : GeneratorPrev.Network)
         (emit : @GeneratorPrev.Analysis F -> GeneratorPrev.UserProfile -> result unit),
    GeneratorPrev.timedelta_days end_dt start_dt <= 365 ->
    GeneratorPrev.year start_dt = GeneratorPrev.year end_dt ->
    (forall d,
       GeneratorPrev.get_user_contributions net username start_dt end_dt
         (negb no_line_counts) = inr d ->
       GeneratorPrev.analyze_languages (F := F) d (negb exclude_forks)
         (negb exclude_private) min_commits = inl KeyError \/
       GeneratorPrev.analyze_languages (F := F) d (negb exclude_forks)
         (negb exclude_private) min_commits = inl NoUserData) /\
    GeneratorPrev.main args_token env_token username start_dt end_dt
      exclude_forks exclude_private no_line_counts min_commits net emit = 1.
Proof.
  intros F PF args_token env_token username start_dt end_dt exclude_forks exclude_private
    no_line_counts min_commits net emit Hdays Hyear.
  assert (Hone : (GeneratorPrev.timedelta_days end_dt start_dt <=? 365)
                 && (GeneratorPrev.year start_dt =? GeneratorPrev.year end_dt) = true).
  { apply andb_true_intro. split; [apply Z.leb_le; exact Hdays | apply Z.eqb_eq; exact Hyear]. }
  assert (Hanalysis : forall d,
            GeneratorPrev.get_user_contributions net username start_dt end_dt
              (negb no_line_counts) = inr d ->
            GeneratorPrev.analyze_languages (F := F) d (negb exclude_forks)
              (negb exclude_private) min_commits = inl KeyError \/
            GeneratorPrev.analyze_languages (F := F) d (negb exclude_forks)
              (negb exclude_private) min_commits = inl NoUserData).
  { intros d Hd. unfold GeneratorPrev.get_user_contributions in Hd. rewrite Hone in Hd.
    destruct (GeneratorPrev.get_user_contributions_single_year net (start_dt, end_dt))
      as [e|answer]; [discriminate |].
    simpl in Hd. injection Hd as <-.
    destruct answer as [d'|]; [| right; reflexivity].
    destruct (negb no_line_counts); simpl.
    - unfold GeneratorPrev.attach_line_stats.
      destruct (root d') as [u|] eqn:Hroot; simpl; [left; reflexivity |].
      rewrite Hroot. right. reflexivity.
    - destruct (root d'); [left | right]; reflexivity. }
  split; [exact Hanalysis |].
  unfold GeneratorPrev.main. destruct (truthy_str _); [| reflexivity].
  destruct (GeneratorPrev.get_basic_user_stats net) as [e|profile]; [reflexivity |]. simpl.
  destruct (GeneratorPrev.get_user_contributions net username start_dt end_dt
              (negb no_line_counts)) as [e|d] eqn:Hfetch; [reflexivity |]. simpl.
  destruct (Hanalysis d eq_refl) as [-> | ->]; reflexivity.
Qed.

(** The first five months of 2025, with every query answered. *)
Lemma window_inside_one_year_example :
  GeneratorPrev.main (F := float) (Some "token") None "ada"
    (at_time 2025 1 1 0 0 0) (at_time 2025 6 1 23 59 59) false false false 1
    terminal_network emitted = 1.
Proof.
  apply (window_inside_one_year_ends_with_exit_code_1 float binary64).
  - vm_compute. discriminate.
  - reflexivity.
Defined.

(** ** The line counts of a repository *)

Lemma count_commits_fold (username : string) (commits : list GeneratorPrev.Commit)
    (acc : Z * Z) :
  forallb has_author commits = true ->
  for_each (GeneratorPrev.count_commit username) commits acc =
  inr (fst acc
       + sum_int (map (fun c => GeneratorPrev.int_or_0 (GeneratorPrev.commit_additions c))
                    (filter (authored_by username) commits)),
       snd acc
       + sum_int (map (fun c => GeneratorPrev.int_or_0 (GeneratorPrev.commit_deletions c))
                    (filter (authored_by username) commits))).
Proof.
  revert acc. induction commits as [|c commits IH]; intros [a d] Hall.
  - cbn. do 2 f_equal; lia.
  - cbn [forallb] in Hall. apply andb_true_iff in Hall. destruct Hall as [Hc Hall].
    cbn [for_each filter].
    unfold GeneratorPrev.count_commit, authored_by, has_author in *.
    destruct (GeneratorPrev.author c) as [actor|]; [| discriminate Hc].
    destruct (truthy_str (GeneratorPrev.user_login actor)) as [login|];
      [| simpl; apply IH; exact Hall].
    destruct (String.eqb (GeneratorPrev.lower login) (GeneratorPrev.lower username));
      [| simpl; apply IH; exact Hall].
    simpl. rewrite IH by exact Hall.
    cbn [fst snd map]. rewrite !sum_int_cons. do 2 f_equal; lia.
Qed.

Lemma count_commits_raise (username : string) (commits : list GeneratorPrev.Commit)
    (acc : Z * Z) :
  forallb has_author commits = false ->
  for_each (GeneratorPrev.count_commit username) commits acc = inl TypeError.
Proof.
  revert acc. induction commits as [|c commits IH]; intros acc Hsome; [discriminate |].
  cbn [forallb] in Hsome. cbn [for_each].
  unfold GeneratorPrev.count_commit at 1. unfold has_author in Hsome at 1.
  destruct (GeneratorPrev.author c) as [actor|]; [| reflexivity].
  simpl in Hsome.
  destruct (truthy_str (GeneratorPrev.user_login actor)) as [login|];
    [| simpl; apply IH; exact Hsome].
  destruct (String.eqb (GeneratorPrev.lower login) (GeneratorPrev.lower username));
    simpl; apply IH; exact Hsome.
Qed.

(** [get_commit_stats_for_repo] never raises.  When the history query is
    answered with the commits of the default branch and every commit has
    an author, the additions and the deletions are summed over the commits
    whose author has a linked account with the login [username], letter
    case apart, a missing count read as 0, and [net_lines] is their
    difference.  When the author of one commit is null, line 305 raises
    and the whole history counts for nothing: zeros, with [net_lines] 0.  A
    failed query gives the same zeros.  An answer without a default branch
    gives zeros too, and no [net_lines] key. *)
Theorem line_counts_are_those_of_the_users_commits :
  forall (net : GeneratorPrev.Network) (repo_key username : string)
         (range : GeneratorPrev.year_range),
    let stats := GeneratorPrev.get_commit_stats_for_repo net repo_key username range in
    let request :=
      GeneratorPrev._make_graphql_request (GeneratorPrev.post_history net repo_key range) in
    (forall commits,
       request = inr (Some {| root := Some {| GeneratorPrev.defaultBranchRef := Some commits |} |}) ->
       forallb has_author commits = true ->
       GeneratorPrev.cs_total_additions stats =
         sum_int (map (fun c => GeneratorPrev.int_or_0 (GeneratorPrev.commit_additions c))
                    (filter (authored_by username) commits)) /\
       GeneratorPrev.cs_total_deletions stats =
         sum_int (map (fun c => GeneratorPrev.int_or_0 (GeneratorPrev.commit_deletions c))
                    (filter (authored_by username) commits)) /\
       GeneratorPrev.cs_net_lines stats =
         Some (GeneratorPrev.cs_total_additions stats - GeneratorPrev.cs_total_deletions stats)) /\
    (forall commits,
       request = inr (Some {| root := Some {| GeneratorPrev.defaultBranchRef := Some commits |} |}) ->
       forallb has_author commits = false ->
       stats = {| GeneratorPrev.cs_total_additions := 0;
                  GeneratorPrev.cs_total_deletions := 0;
                  GeneratorPrev.cs_net_lines := Some 0 |}) /\
    (forall e,
       request = inl e ->
       stats = {| GeneratorPrev.cs_total_additions := 0;
                  GeneratorPrev.cs_total_deletions := 0;
                  GeneratorPrev.cs_net_lines := Some 0 |}) /\
    (forall d,
       request = inr d -> without_default_branch d = true ->
       stats = {| GeneratorPrev.cs_total_additions := 0;
                  GeneratorPrev.cs_total_deletions := 0;
                  GeneratorPrev.cs_net_lines := None |}).
Proof.
  intros net repo_key username range stats request.
  subst stats request. unfold GeneratorPrev.get_commit_stats_for_repo.
  split; [| split; [| split]].
  - intros commits Hanswer Hauthors. rewrite Hanswer. simpl.
    rewrite (count_commits_fold username commits (0, 0) Hauthors). simpl.
    repeat split; reflexivity.
  - intros commits Hanswer Hnull. rewrite Hanswer. simpl.
    rewrite (count_commits_raise username commits (0, 0) Hnull). reflexivity.
  - intros e Hfail. rewrite Hfail. reflexivity.
  - intros d Hanswer Hnone. rewrite Hanswer. simpl.
    unfold without_default_branch in Hnone.
    destruct d as [d|]; [| reflexivity].
    destruct (root d) as [repo|]; [| reflexivity].
    destruct (GeneratorPrev.defaultBranchRef repo); [discriminate | reflexivity].
Qed.

(** A history of four commits: two by the user, with logins in other
    letter cases, one by someone else and one without linked account.  With
    a fifth commit whose author is null, nothing is counted. *)
Lemma line_counts_example :
  GeneratorPrev.get_commit_stats_for_repo terminal_network "ada/x" "ada"
    (at_time 2025 1 1 0 0 0, at_time 2025 6 1 23 59 59)
  = {| GeneratorPrev.cs_total_additions := 11;
       GeneratorPrev.cs_total_deletions := 4;
       GeneratorPrev.cs_net_lines := Some 7 |} /\
  GeneratorPrev.get_commit_stats_for_repo null_author_network "ada/x" "ada"
    (at_time 2025 1 1 0 0 0, at_time 2025 6 1 23 59 59)
  = {| GeneratorPrev.cs_total_additions := 0;
       GeneratorPrev.cs_total_deletions := 0;
       GeneratorPrev.cs_net_lines := Some 0 |}.
Proof.
  split.
  - destruct (proj1 (line_counts_are_those_of_the_users_commits terminal_network "ada/x"
                       "ada" (at_time 2025 1 1 0 0 0, at_time 2025 6 1 23 59 59))
                ada_history eq_refl eq_refl) as (Ha & Hd & Hn).
    destruct (GeneratorPrev.get_commit_stats_for_repo terminal_network "ada/x" "ada"
                (at_time 2025 1 1 0 0 0, at_time 2025 6 1 23 59 59)) as [a d n].
    simpl in Ha, Hd, Hn. subst n a d. reflexivity.
  - exact (proj1 (proj2 (line_counts_are_those_of_the_users_commits null_author_network
                           "ada/x" "ada"
                           (at_time 2025 1 1 0 0 0, at_time 2025 6 1 23 59 59)))
             history_with_a_null_author eq_refl eq_refl).
Defined.

(** ** The aggregate of a multi-year window *)

Lemma for_each_invariant {A S : Type} (P : S -> Prop) (body : S -> A -> result S)
    (xs : list A) :
  (forall s x s', In x xs -> P s -> body s x = inr s' -> P s') ->
  forall s s', P s -> for_each body xs s = inr s' -> P s'.
Proof.
  induction xs as [|x xs IH]; intros Hstep s s' Hs Hrun; simpl in Hrun.
  - injection Hrun as <-. exact Hs.
  - destruct (body s x) as [e|s1] eqn:Hbody; [discriminate |]. simpl in Hrun.
    apply (IH (fun s0 y s0' Hy => Hstep s0 y s0' (or_intror Hy)) s1 s'); [| exact Hrun].
    apply (Hstep s x s1 (or_introl eq_refl) Hs Hbody).
Qed.

Lemma for_each_measure {A S : Type} (m : S -> Z) (w : A -> Z) (body : S -> A -> result S)
    (xs : list A) :
  (forall s x s', In x xs -> body s x = inr s' -> m s' = m s + w x) ->
  forall s s', for_each body xs s = inr s' -> m s' = m s + sum_int (map w xs).
Proof.
  induction xs as [|x xs IH]; intros Hstep s s' Hrun; simpl in Hrun.
  - injection Hrun as <-. cbn. lia.
  - destruct (body s x) as [e|s1] eqn:Hbody; [discriminate |]. simpl in Hrun.
    rewrite (IH (fun s0 y s0' Hy => Hstep s0 y s0' (or_intror Hy)) s1 s' Hrun).
    rewrite (Hstep s x s1 (or_introl eq_refl) Hbody). simpl. rewrite sum_int_cons. lia.
Qed.

Section DictInvariants.
Context {V : Type} (default : V).

Lemma update_Forall (Q : string * V -> Prop) (k : string) (f : V -> V) (d : Dict.t) :
  Forall Q d -> (forall v, Q (k, v) -> Q (k, f v)) -> Q (k, f default) ->
  Forall Q (Dict.update default k f d).
Proof.
  intros Hd Hf Hnew. induction Hd as [|[k' v] d Hitem Hd IH]; simpl.
  - constructor; [exact Hnew | constructor].
  - destruct (String.eqb_spec k k') as [<-|Hne].
    + constructor; [apply Hf; exact Hitem | exact Hd].
    + constructor; [exact Hitem | exact IH].
Qed.

Lemma update_NoDup (k : string) (f : V -> V) (d : Dict.t) :
  NoDup (Dict.keys d) -> NoDup (Dict.keys (Dict.update default k f d)).
Proof.
  unfold Dict.keys. induction d as [|[k' v] d IH]; simpl; intros Hd.
  - constructor; [intros [] | constructor].
  - inversion Hd as [|? ? Hnotin Hrest]; subst.
    destruct (String.eqb_spec k k') as [<-|Hne]; simpl.
    + constructor; assumption.
    + constructor; [| apply IH; exact Hrest].
      fold (Dict.keys (Dict.update default k f d)). rewrite keys_update.
      fold (Dict.keys d) in Hnotin.
      destruct (existsb (String.eqb k) (Dict.keys d)); [exact Hnotin |].
      intros Hin. apply in_app_or in Hin. destruct Hin as [Hin|[Heq|[]]];
        [exact (Hnotin Hin) | exact (Hne Heq)].
Qed.

(** A measure that an update raises by [delta], whatever the entry, and
    that the default entry has at 0. *)
Lemma update_sum (g : V -> Z) (delta : Z) (k : string) (f : V -> V) (d : Dict.t) :
  (forall v, g (f v) = g v + delta) -> g default = 0 ->
  sum_int (map g (Dict.values (Dict.update default k f d)))
  = sum_int (map g (Dict.values d)) + delta.
Proof.
  intros Hf Hdefault. unfold Dict.values. induction d as [|[k' v] d IH]; simpl.
  - cbn. rewrite Hf, Hdefault. lia.
  - destruct (String.eqb k k'); simpl; rewrite !sum_int_cons.
    + rewrite Hf. lia.
    + rewrite IH. lia.
Qed.

End DictInvariants.

Section RangeFacts.
Import GeneratorPrev.

Lemma merge_repo_contrib_names (net : Network) (username : string)
    (include_line_counts : bool) (range : year_range)
    (contribs contribs' : @Dict.t RepoAccumulator) (rc : RepoContribution) :
  NoDup (Dict.keys contribs) /\ Forall filed_under_its_name contribs ->
  merge_repo_contrib net username include_line_counts range contribs rc = inr contribs' ->
  NoDup (Dict.keys contribs') /\ Forall filed_under_its_name contribs'.
Proof.
  intros [Hkeys Hnames] Hrun. unfold merge_repo_contrib in Hrun.
  match type of Hrun with
  | context [Dict.update ?fresh ?k ?f contribs] =>
      assert (H1 : NoDup (Dict.keys (Dict.update fresh k f contribs)) /\
                   Forall filed_under_its_name (Dict.update fresh k f contribs))
  end.
  { split; [apply update_NoDup; exact Hkeys |].
    apply update_Forall; [exact Hnames | intros v Hv; exact Hv | reflexivity]. }
  destruct (include_line_counts && negb (isPrivate (repository rc))).
  - destruct (cs_net_lines _) as [n|]; [| discriminate].
    simpl in Hrun. injection Hrun as <-. destruct H1 as [Hk1 Hn1].
    split; [apply update_NoDup; exact Hk1 |].
    apply update_Forall; [exact Hn1 | intros v Hv; exact Hv | reflexivity].
  - simpl in Hrun. injection Hrun as <-. exact H1.
Qed.

Lemma merge_repo_contrib_commits (net : Network) (username : string)
    (include_line_counts : bool) (range : year_range)
    (contribs contribs' : @Dict.t RepoAccumulator) (rc : RepoContribution) :
  merge_repo_contrib net username include_line_counts range contribs rc = inr contribs' ->
  sum_int (map held_commits (Dict.values contribs'))
  = sum_int (map held_commits (Dict.values contribs)) + repo_commits_of rc.
Proof.
  intros Hrun. unfold merge_repo_contrib in Hrun.
  match type of Hrun with
  | context [Dict.update ?fresh ?k ?f contribs] =>
      assert (H1 : sum_int (map held_commits (Dict.values (Dict.update fresh k f contribs)))
                   = sum_int (map held_commits (Dict.values contribs)) + repo_commits_of rc)
  end.
  { apply update_sum; [| reflexivity].
    intros v. unfold held_commits, repo_commits_of. simpl.
    rewrite map_app, sum_int_app. reflexivity. }
  destruct (include_line_counts && negb (isPrivate (repository rc))).
  - destruct (cs_net_lines _) as [n|]; [| discriminate].
    simpl in Hrun. injection Hrun as <-.
    rewrite (update_sum _ held_commits 0); [rewrite H1; lia | | reflexivity].
    intros v. unfold held_commits. simpl. lia.
  - simpl in Hrun. injection Hrun as <-. exact H1.
Qed.

Lemma merge_repo_contrib_nonneg (net : Network) (username : string)
    (include_line_counts : bool) (range : year_range)
    (contribs contribs' : @Dict.t RepoAccumulator) (rc : RepoContribution) :
  Forall (fun n => 0 <= commitCount n) (nodes rc) ->
  Forall (fun item => 0 <= held_commits (snd item)) contribs ->
  merge_repo_contrib net username include_line_counts range contribs rc = inr contribs' ->
  Forall (fun item => 0 <= held_commits (snd item)) contribs'.
Proof.
  intros Hrc Hall Hrun. unfold merge_repo_contrib in Hrun.
  assert (Hsum : 0 <= sum_int (map commitCount (nodes rc))).
  { apply sum_int_nonneg. apply Forall_map. exact Hrc. }
  match type of Hrun with
  | context [Dict.update ?fresh ?k ?f contribs] =>
      assert (H1 : Forall (fun item => 0 <= held_commits (snd item))
                     (Dict.update fresh k f contribs))
  end.
  { apply update_Forall; [exact Hall | |].
    - intros v Hv. unfold held_commits in *. simpl in *.
      rewrite map_app, sum_int_app. lia.
    - unfold held_commits. simpl. exact Hsum. }
  destruct (include_line_counts && negb (isPrivate (repository rc))).
  - destruct (cs_net_lines _) as [n|]; [| discriminate].
    simpl in Hrun. injection Hrun as <-.
    apply update_Forall; [exact H1 | intros v Hv; exact Hv |].
    unfold held_commits. simpl. reflexivity.
  - simpl in Hrun. injection Hrun as <-. exact H1.
Qed.

(** One year of the loop, seen from the accumulator of the repositories. *)
Lemma merge_year_records (net : Network) (username : string) (include_line_counts : bool)
    (st st' : RangeState) (range : year_range) :
  merge_year net username include_line_counts st range = inr st' ->
  for_each (merge_repo_contrib net username include_line_counts range)
    (year_records net range) (repo_contributions st) = inr (repo_contributions st').
Proof.
  unfold merge_year, year_records. intros Hrun.
  destruct (get_user_contributions_single_year net range) as [e|[d|]];
    [discriminate | | injection Hrun as <-; reflexivity].
  simpl in Hrun. destruct (root d) as [u|]; [| injection Hrun as <-; reflexivity].
  destruct (for_each _ _ _) as [e|contribs]; [discriminate |].
  simpl in Hrun. injection Hrun as <-. reflexivity.
Qed.

Lemma kept_names (d : @Dict.t RepoAccumulator) (n : string) :
  Forall filed_under_its_name d ->
  In n (map repository_name (flat_map kept_contribution d)) -> In n (Dict.keys d).
Proof.
  unfold Dict.keys. induction 1 as [|[k a] d Hitem Hd IH]; simpl; [tauto |].
  rewrite map_app. intros Hin. apply in_app_or in Hin. destruct Hin as [Hin|Hin].
  - left. unfold kept_contribution in Hin. simpl in Hin.
    destruct (_ >? 0); [| destruct Hin].
    destruct Hin as [<-|[]]. symmetry. exact Hitem.
  - right. apply IH. exact Hin.
Qed.

Lemma kept_NoDup (d : @Dict.t RepoAccumulator) :
  NoDup (Dict.keys d) -> Forall filed_under_its_name d ->
  NoDup (map repository_name (flat_map kept_contribution d)).
Proof.
  intros Hkeys Hnames. induction Hnames as [|[k a] d Hitem Hd IH]; simpl; [constructor |].
  unfold Dict.keys in Hkeys. simpl in Hkeys.
  inversion Hkeys as [|? ? Hnotin Hrest]; subst.
  unfold kept_contribution at 1. simpl.
  destruct (_ >? 0); simpl; [| apply IH; exact Hrest].
  constructor; [| apply IH; exact Hrest].
  unfold repository_name at 1. simpl. unfold filed_under_its_name in Hitem. simpl in Hitem.
  rewrite Hitem. intros Hin. apply Hnotin. apply (kept_names d k Hd Hin).
Qed.

Lemma kept_commits (d : @Dict.t RepoAccumulator) :
  Forall (fun item => 0 <= held_commits (snd item)) d ->
  sum_int (map repo_commits_of (flat_map kept_contribution d))
  = sum_int (map held_commits (Dict.values d)).
Proof.
  unfold Dict.values. induction 1 as [|[k a] d Hitem Hd IH]; simpl; [reflexivity |].
  rewrite map_app, sum_int_app, sum_int_cons, IH. f_equal.
  unfold kept_contribution, held_commits in *. simpl in *.
  destruct (Z.gtb_spec (sum_int (map commitCount (acc_nodes a))) 0).
  - cbn [map]. rewrite sum_int_cons. unfold repo_commits_of. cbn [nodes].
    change (sum_int []) with 0. lia.
  - cbn [map]. change (sum_int []) with 0. lia.
Qed.

Lemma kept_are_positive (d : @Dict.t RepoAccumulator) :
  Forall (fun rc => 0 < repo_commits_of rc /\ line_stats rc <> None)
    (flat_map kept_contribution d).
Proof.
  induction d as [|[k a] d IH]; simpl; [constructor |].
  apply Forall_app. split; [| exact IH].
  unfold kept_contribution. simpl.
  destruct (Z.gtb_spec (sum_int (map commitCount (acc_nodes a))) 0); constructor; [| constructor].
  split; [unfold repo_commits_of; simpl; lia | discriminate].
Qed.

(** The loop over the year ranges, seen from the accumulator. *)
Lemma range_loop_names (net : Network) (username : string) (include_line_counts : bool)
    (ranges : list year_range) (st st' : RangeState) :
  NoDup (Dict.keys (repo_contributions st)) /\
  Forall filed_under_its_name (repo_contributions st) ->
  for_each (merge_year net username include_line_counts) ranges st = inr st' ->
  NoDup (Dict.keys (repo_contributions st')) /\
  Forall filed_under_its_name (repo_contributions st').
Proof.
  apply (for_each_invariant
           (fun s => NoDup (Dict.keys (repo_contributions s)) /\
                     Forall filed_under_its_name (repo_contributions s))).
  intros s r s' _ Hs Hstep. apply merge_year_records in Hstep.
  revert Hs Hstep.
  apply (for_each_invariant
           (fun c => NoDup (Dict.keys c) /\ Forall filed_under_its_name c)).
  intros c rc c' _ Hc Hrc. exact (merge_repo_contrib_names _ _ _ _ _ _ _ Hc Hrc).
Qed.

Lemma range_loop_commits (net : Network) (username : string) (include_line_counts : bool)
    (ranges : list year_range) (st st' : RangeState) :
  for_each (merge_year net username include_line_counts) ranges st = inr st' ->
  sum_int (map held_commits (Dict.values (repo_contributions st')))
  = sum_int (map held_commits (Dict.values (repo_contributions st)))
    + sum_int (map repo_commits_of (flat_map (year_records net) ranges)).
Proof.
  intros Hrun.
  assert (Hyears :
            sum_int (map held_commits (Dict.values (repo_contributions st')))
            = sum_int (map held_commits (Dict.values (repo_contributions st)))
              + sum_int (map (fun r => sum_int (map repo_commits_of (year_records net r)))
                           ranges)).
  { apply (for_each_measure
             (fun s => sum_int (map held_commits (Dict.values (repo_contributions s))))
             (fun r => sum_int (map repo_commits_of (year_records net r)))
             (merge_year net username include_line_counts) ranges); [| exact Hrun].
    intros s r s' _ Hstep. apply merge_year_records in Hstep.
    apply (for_each_measure (fun c => sum_int (map held_commits (Dict.values c)))
             repo_commits_of
             (merge_repo_contrib net username include_line_counts r)
             (year_records net r)); [| exact Hstep].
    intros c rc c' _ Hrc. exact (merge_repo_contrib_commits _ _ _ _ _ _ _ Hrc). }
  rewrite Hyears. f_equal. clear.
  induction ranges as [|r ranges IH]; simpl; [reflexivity |].
  rewrite map_app, sum_int_app, sum_int_cons, IH. reflexivity.
Qed.

Lemma range_loop_nonneg (net : Network) (username : string) (include_line_counts : bool)
    (ranges : list year_range) (st st' : RangeState) :
  Forall (fun rc => Forall (fun n => 0 <= commitCount n) (nodes rc))
    (flat_map (year_records net) ranges) ->
  Forall (fun item => 0 <= held_commits (snd item)) (repo_contributions st) ->
  for_each (merge_year net username include_line_counts) ranges st = inr st' ->
  Forall (fun item => 0 <= held_commits (snd item)) (repo_contributions st').
Proof.
  intros Hrecords.
  apply (for_each_invariant
           (fun s => Forall (fun item => 0 <= held_commits (snd item)) (repo_contributions s))).
  intros s r s' Hr Hs Hstep. apply merge_year_records in Hstep.
  revert Hs Hstep.
  apply (for_each_invariant
           (fun c => Forall (fun item => 0 <= held_commits (snd item)) c)).
  intros c rc c' Hin Hc Hrc.
  assert (Hnodes : Forall (fun n => 0 <= commitCount n) (nodes rc)).
  { rewrite Forall_forall in Hrecords. apply Hrecords.
    apply in_flat_map. exists r. split; assumption. }
  exact (merge_repo_contrib_nonneg _ _ _ _ _ _ _ Hnodes Hc Hrc).
Qed.

Lemma range_fetch_state (net : Network) (username : string) (start_dt end_dt : datetime)
    (include_line_counts : bool) (ranges : list year_range)
    (u : option UserContributions) (c : ContributionsCollection) :
  _generate_year_ranges start_dt end_dt = inr ranges ->
  get_user_contributions_range net username start_dt end_dt include_line_counts
  = inr (Aggregated u c) ->
  exists st,
    for_each (merge_year net username include_line_counts) ranges
      {| agg_user := None; agg_hasAnyContributions := false;
         agg_totalCommitContributions := 0; repo_contributions := Dict.empty |} = inr st /\
    commitContributionsByRepository c = flat_map kept_contribution (repo_contributions st).
Proof.
  intros Hranges Hrun. unfold get_user_contributions_range in Hrun.
  rewrite Hranges in Hrun. simpl in Hrun.
  destruct (for_each _ ranges _) as [e|st]; [discriminate |].
  simpl in Hrun. injection Hrun as _ <-. exists st. split; reflexivity.
Qed.

End RangeFacts.

(** In the aggregate of a multi-year window every repository is listed
    once, under the name it has in the yearly answers, with a positive
    number of commits and with line counts, however many years list it. *)
Theorem aggregate_lists_every_repository_once :
  forall (net : GeneratorPrev.Network) (username : string)
         (start_dt end_dt : GeneratorPrev.datetime) (include_line_counts : bool)
         (u : option GeneratorPrev.UserContributions)
         (c : GeneratorPrev.ContributionsCollection),
    GeneratorPrev.get_user_contributions_range net username start_dt end_dt
      include_line_counts = inr (GeneratorPrev.Aggregated u c) ->
    NoDup (map repository_name (GeneratorPrev.commitContributionsByRepository c)) /\
    Forall (fun rc => 0 < GeneratorPrev.repo_commits_of rc /\
                      GeneratorPrev.line_stats rc <> None)
      (GeneratorPrev.commitContributionsByRepository c).
Proof.
  intros net username start_dt end_dt include_line_counts u c Hrun.
  destruct (GeneratorPrev._generate_year_ranges start_dt end_dt) as [e|ranges] eqn:Hranges.
  { unfold GeneratorPrev.get_user_contributions_range in Hrun. rewrite Hranges in Hrun.
    discriminate. }
  destruct (range_fetch_state _ _ _ _ _ _ _ _ Hranges Hrun) as (st & Hloop & ->).
  split; [| apply kept_are_positive].
  apply (range_loop_names net username include_line_counts ranges) in Hloop.
  - destruct Hloop as [Hkeys Hnames]. apply kept_NoDup; assumption.
  - split; constructor.
Qed.

(** The window from 2023 to June 2025, in each of whose three years the
    API lists the repository ada/x with 5 commits: the aggregate lists it
    once. *)
Lemma aggregate_lists_every_repository_once_example :
  GeneratorPrev.get_user_contributions_range terminal_network "ada"
    (at_time 2023 1 1 0 0 0) (at_time 2025 6 18 0 43 28) true
  = inr (GeneratorPrev.Aggregated (Some three_years_user) three_years_of_ada) /\
  NoDup (map repository_name
           (GeneratorPrev.commitContributionsByRepository three_years_of_ada)).
Proof.
  assert (Hrun : GeneratorPrev.get_user_contributions_range terminal_network "ada"
                   (at_time 2023 1 1 0 0 0) (at_time 2025 6 18 0 43 28) true
                 = inr (GeneratorPrev.Aggregated (Some three_years_user) three_years_of_ada))
    by (vm_compute; reflexivity).
  split; [exact Hrun |].
  exact (proj1 (aggregate_lists_every_repository_once _ _ _ _ _ _ _ Hrun)).
Defined.

(** No commit is lost or counted twice by the aggregation: when no
    contribution node has a negative count, the commits of the aggregate's
    records add up to the commits of the records of all the years. *)
Theorem aggregate_keeps_the_commits_of_every_year :
  forall (net : GeneratorPrev.Network) (username : string)
         (start_dt end_dt : GeneratorPrev.datetime) (include_line_counts : bool)
         (ranges : list GeneratorPrev.year_range)
         (u : option GeneratorPrev.UserContributions)
         (c : GeneratorPrev.ContributionsCollection),
    GeneratorPrev._generate_year_ranges start_dt end_dt = inr ranges ->
    GeneratorPrev.get_user_contributions_range net username start_dt end_dt
      include_line_counts = inr (GeneratorPrev.Aggregated u c) ->
    Forall (fun rc => Forall (fun n => 0 <= GeneratorPrev.commitCount n)
                        (GeneratorPrev.nodes rc))
      (flat_map (year_records net) ranges) ->
    sum_int (map GeneratorPrev.repo_commits_of
               (GeneratorPrev.commitContributionsByRepository c))
    = sum_int (map GeneratorPrev.repo_commits_of (flat_map (year_records net) ranges)).
Proof.
  intros net username start_dt end_dt include_line_counts ranges u c Hranges Hrun Hnonneg.
  destruct (range_fetch_state _ _ _ _ _ _ _ _ Hranges Hrun) as (st & Hloop & ->).
  rewrite kept_commits.
  - rewrite (range_loop_commits _ _ _ _ _ _ Hloop). cbn. lia.
  - eapply (range_loop_nonneg net username include_line_counts ranges);
      [exact Hnonneg | | exact Hloop].
    constructor.
Qed.

(** Three years of 5 commits each in ada/x: the aggregate holds 15. *)
Lemma aggregate_keeps_the_commits_example :
  sum_int (map GeneratorPrev.repo_commits_of
             (GeneratorPrev.commitContributionsByRepository three_years_of_ada)) = 15.
Proof.
  rewrite (aggregate_keeps_the_commits_of_every_year terminal_network "ada"
             (at_time 2023 1 1 0 0 0) (at_time 2025 6 18 0 43 28) true
             [(at_time 2023 1 1 0 0 0, at_time 2023 12 31 23 59 59);
              (at_time 2024 1 1 0 0 0, at_time 2024 12 31 23 59 59);
              (at_time 2025 1 1 0 0 0, at_time 2025 6 18 0 43 28)]
             (Some three_years_user) three_years_of_ada).
  - reflexivity.
  - reflexivity.
  - vm_compute. reflexivity.
  - vm_compute. repeat constructor; discriminate.
Defined.

(** ** The missing [net_lines] key *)

Section MissingKey.
Import GeneratorPrev.

Lemma commit_stats_without_default_branch (net : Network) (repo_key username : string)
    (range : year_range) (d : option (Data RepositoryHistory)) :
  _make_graphql_request (post_history net repo_key range) = inr d ->
  without_default_branch d = true ->
  cs_net_lines (get_commit_stats_for_repo net repo_key username range) = None.
Proof.
  intros Hanswer Hnone. unfold get_commit_stats_for_repo. rewrite Hanswer. simpl.
  unfold without_default_branch in Hnone.
  destruct d as [d|]; [| reflexivity].
  destruct (root d) as [repo|]; [| reflexivity].
  destruct (defaultBranchRef repo); [discriminate | reflexivity].
Qed.

Lemma merge_repo_contrib_key_error (net : Network) (username : string) (range : year_range)
    (contribs : @Dict.t RepoAccumulator) (rc : RepoContribution)
    (d : option (Data RepositoryHistory)) :
  isPrivate (repository rc) = false ->
  _make_graphql_request (post_history net (repository_name rc) range) = inr d ->
  without_default_branch d = true ->
  merge_repo_contrib net username true range contribs rc = inl KeyError.
Proof.
  intros Hpublic Hanswer Hnone. unfold merge_repo_contrib. rewrite Hpublic. simpl.
  rewrite (commit_stats_without_default_branch _ _ _ _ _ Hanswer Hnone). reflexivity.
Qed.

Lemma merge_year_raises (net : Network) (username : string) (include_line_counts : bool)
    (range : year_range) (rc : RepoContribution) :
  In rc (year_records net range) ->
  (forall contribs, exists e,
     merge_repo_contrib net username include_line_counts range contribs rc = inl e) ->
  forall st, exists e, merge_year net username include_line_counts st range = inl e.
Proof.
  intros Hin Hrc st. unfold merge_year. unfold year_records in Hin.
  destruct (get_user_contributions_single_year net range) as [e|[d|]];
    [destruct Hin | | destruct Hin].
  simpl. destruct (root d) as [u|]; [| destruct Hin].
  destruct (for_each_raises _ _ rc Hin Hrc (repo_contributions st)) as (e & He).
  rewrite He. exists e. reflexivity.
Qed.

End MissingKey.

(** With the line counts on, a public repository whose history query is
    answered without data, without repository or without default branch
    makes the aggregation of a multi-year window raise: line 426 reads the
    key [net_lines], which the early return of line 292 does not carry.  The
    run ends with exit code 1. *)
Theorem history_without_default_branch_ends_the_run :
  forall (F : Type) (PF : PyFloat F) (args_token env_token : option string)
         (username : string) (start_dt end_dt : GeneratorPrev.datetime)
         (exclude_forks exclude_private : bool) (min_commits : Z)
         (net : GeneratorPrev.Network)
         (emit : @GeneratorPrev.Analysis F -> GeneratorPrev.UserProfile -> result unit)
         (ranges : list GeneratorPrev.year_range) (r : GeneratorPrev.year_range)
         (rc : GeneratorPrev.RepoContribution)
         (d : option (Data GeneratorPrev.RepositoryHistory)),
    (GeneratorPrev.timedelta_days end_dt start_dt <=? 365)
    && (GeneratorPrev.year start_dt =? GeneratorPrev.year end_dt) = false ->
    GeneratorPrev._generate_year_ranges start_dt end_dt = inr ranges ->
    In r ranges ->
    In rc (year_records net r) ->
    GeneratorPrev.isPrivate (GeneratorPrev.repository rc) = false ->
    GeneratorPrev._make_graphql_request
      (GeneratorPrev.post_history net (repository_name rc) r) = inr d ->
    without_default_branch d = true ->
    (forall contribs,
       GeneratorPrev.merge_repo_contrib net username true r contribs rc = inl KeyError) /\
    GeneratorPrev.main args_token env_token username start_dt end_dt
      exclude_forks exclude_private false min_commits net emit = 1.
Proof.
  intros F PF args_token env_token username start_dt end_dt exclude_forks exclude_private
    min_commits net emit ranges r rc d Hmulti Hranges Hr Hrc Hpublic Hanswer Hnone.
  assert (Hkey : forall contribs,
            GeneratorPrev.merge_repo_contrib net username true r contribs rc = inl KeyError).
  { intros contribs. exact (merge_repo_contrib_key_error _ _ _ _ _ _ Hpublic Hanswer Hnone). }
  split; [exact Hkey |].
  unfold GeneratorPrev.main. destruct (truthy_str _); [| reflexivity].
  destruct (GeneratorPrev.get_basic_user_stats net) as [e|profile]; [reflexivity |]. simpl.
  unfold GeneratorPrev.get_user_contributions. rewrite Hmulti.
  unfold GeneratorPrev.get_user_contributions_range. rewrite Hranges. simpl.
  match goal with
  | |- context [for_each ?body ranges ?st] =>
      destruct (for_each_raises body ranges r Hr) with (s := st) as (e & He)
  end.
  - apply (merge_year_raises net username true r rc Hrc).
    intros contribs. exists KeyError. apply Hkey.
  - rewrite He. reflexivity.
Qed.

(** The window from 2023 to June 2025 with every query answered, the
    history query without a default branch. *)
Lemma history_without_default_branch_example :
  GeneratorPrev.main (F := float) (Some "token") None "ada"
    (at_time 2023 1 1 0 0 0) (at_time 2025 6 18 0 43 28) false false false 1
    terminal_empty_history emitted = 1 /\
  GeneratorPrev.main (F := float) (Some "token") None "ada"
    (at_time 2023 1 1 0 0 0) (at_time 2025 6 18 0 43 28) false false false 1
    terminal_network emitted = 0.
Proof.
  split; [| vm_compute; reflexivity].
  apply (proj2 (history_without_default_branch_ends_the_run float binary64
                  (Some "token") None "ada"
                  (at_time 2023 1 1 0 0 0) (at_time 2025 6 18 0 43 28) false false 1
                  terminal_empty_history emitted
                  [(at_time 2023 1 1 0 0 0, at_time 2023 12 31 23 59 59);
                   (at_time 2024 1 1 0 0 0, at_time 2024 12 31 23 59 59);
                   (at_time 2025 1 1 0 0 0, at_time 2025 6 18 0 43 28)]
                  (at_time 2024 1 1 0 0 0, at_time 2024 12 31 23 59 59)
                  (prev_record (prev_repo "ada/x" (Some "A") [("A", 100)] 100) [5] None)
                  (Some {| root := Some {| GeneratorPrev.defaultBranchRef := None |} |})
                  eq_refl ltac:(vm_compute; reflexivity)
                  (or_intror (or_introl eq_refl)) (or_introl eq_refl)
                  eq_refl eq_refl eq_refl)).
Defined.

(** ** The summary and the language table of the analysis *)

Section AnalysisFacts.
Context {F : Type} `{PyFloat F}.
Import GeneratorPrev.

Lemma set_add_NoDup (x : string) (xs : list string) : NoDup xs -> NoDup (set_add x xs).
Proof.
  intros Hxs. unfold set_add. destruct (existsb (String.eqb x) xs) eqn:Hin; [exact Hxs |].
  apply NoDup_app; [exact Hxs | constructor; [intros [] | constructor] |].
  intros y Hy [Heq|[]]. subst y.
  assert (Hex : existsb (String.eqb x) xs = true).
  { apply existsb_exists. exists x. split; [exact Hy | apply String.eqb_refl]. }
  congruence.
Qed.

Lemma set_add_incl (x : string) (xs names : list string) :
  In x names -> incl xs names -> incl (set_add x xs) names.
Proof.
  intros Hx Hxs. unfold set_add. destruct (existsb (String.eqb x) xs); [exact Hxs |].
  apply incl_app; [exact Hxs |]. intros y [<-|[]]. exact Hx.
Qed.

Lemma attribute_primary_keys (rc : RepoContribution) (stats : @LanguageStats F) :
  NoDup (Dict.keys stats) -> NoDup (Dict.keys (attribute_primary rc stats)).
Proof.
  intros Hkeys. unfold attribute_primary.
  destruct (primaryLanguage (repository rc)); [apply update_NoDup |]; exact Hkeys.
Qed.

Lemma attribute_weighted_keys (rc : RepoContribution) (stats stats' : @LanguageStats F) :
  NoDup (Dict.keys stats) -> attribute_weighted rc stats = inr stats' ->
  NoDup (Dict.keys stats').
Proof.
  unfold attribute_weighted.
  apply (for_each_invariant (fun s : @LanguageStats F => NoDup (Dict.keys s))).
  intros s e s' _ Hs Hstep. rewrite attribute_edge_ok in Hstep. injection Hstep as <-.
  apply update_NoDup. exact Hs.
Qed.

Lemma aggregate_keys (include_forks include_private : bool) (min_commits : Z)
    (rcs : list RepoContribution) (t : @Totals F) :
  aggregate include_forks include_private min_commits rcs = inr t ->
  NoDup (Dict.keys (language_stats t)).
Proof.
  unfold aggregate.
  apply (for_each_invariant (fun t0 : @Totals F => NoDup (Dict.keys (language_stats t0))));
    [| constructor].
  intros t0 rc t1 _ Ht0 Hstep. unfold process_repo_contribution in Hstep.
  destruct (filtered_out _ _ _ rc); [injection Hstep as <-; exact Ht0 |].
  destruct (attribute_weighted rc _) as [e|stats'] eqn:Hw; [discriminate |].
  simpl in Hstep. injection Hstep as <-. simpl.
  apply (attribute_weighted_keys rc _ _ (attribute_primary_keys rc _ Ht0) Hw).
Qed.

Lemma attribute_primary_repositories (names : list string) (rc : RepoContribution)
    (stats : @LanguageStats F) :
  In (repository_name rc) names ->
  Forall (repositories_within names) stats ->
  Forall (repositories_within names) (attribute_primary rc stats).
Proof.
  intros Hname Hstats. unfold attribute_primary.
  destruct (primaryLanguage (repository rc)); [| exact Hstats].
  apply update_Forall; [exact Hstats | |]; unfold repositories_within; simpl.
  - intros v [Hnd Hincl]. split; [apply set_add_NoDup | apply set_add_incl]; assumption.
  - split; [apply set_add_NoDup; constructor | apply set_add_incl; [exact Hname |]].
    intros y [].
Qed.

Lemma attribute_weighted_repositories (names : list string) (rc : RepoContribution)
    (stats stats' : @LanguageStats F) :
  In (repository_name rc) names ->
  Forall (repositories_within names) stats ->
  attribute_weighted rc stats = inr stats' ->
  Forall (repositories_within names) stats'.
Proof.
  intros Hname. unfold attribute_weighted.
  apply (for_each_invariant (fun s : @LanguageStats F => Forall (repositories_within names) s)).
  intros s e s' _ Hs Hstep. rewrite attribute_edge_ok in Hstep. injection Hstep as <-.
  apply update_Forall; [exact Hs | |]; unfold repositories_within, edge_update; simpl.
  - intros v [Hnd Hincl]. split; [apply set_add_NoDup | apply set_add_incl]; assumption.
  - split; [apply set_add_NoDup; constructor | apply set_add_incl; [exact Hname |]].
    intros y [].
Qed.

Lemma aggregate_repositories (include_forks include_private : bool) (min_commits : Z)
    (rcs : list RepoContribution) (t : @Totals F) :
  aggregate include_forks include_private min_commits rcs = inr t ->
  Forall (repositories_within
            (map repository_name
               (filter (survives include_forks include_private min_commits) rcs)))
    (language_stats t).
Proof.
  unfold aggregate.
  apply (for_each_invariant
           (fun t0 : @Totals F =>
              Forall (repositories_within
                        (map repository_name
                           (filter (survives include_forks include_private min_commits) rcs)))
                (language_stats t0))); [| constructor].
  intros t0 rc t1 Hin Ht0 Hstep. unfold process_repo_contribution in Hstep.
  destruct (filtered_out _ _ _ rc) eqn:Hf; [injection Hstep as <-; exact Ht0 |].
  destruct (attribute_weighted rc _) as [e|stats'] eqn:Hw; [discriminate |].
  simpl in Hstep. injection Hstep as <-. simpl.
  assert (Hname : In (repository_name rc)
                    (map repository_name
                       (filter (survives include_forks include_private min_commits) rcs))).
  { apply in_map. apply filter_In. split; [exact Hin |]. unfold survives. rewrite Hf.
    reflexivity. }
  apply (attribute_weighted_repositories _ rc _ _ Hname
           (attribute_primary_repositories _ rc _ Hname Ht0) Hw).
Qed.

(** The run-level totals of the fold. *)
Lemma aggregate_totals (include_forks include_private : bool) (min_commits : Z)
    (rcs : list RepoContribution) (t0 : @Totals F) :
  exists t,
    for_each (process_repo_contribution include_forks include_private min_commits) rcs t0
    = inr t /\
    sum_repositories t =
      sum_repositories t0
      + Z.of_nat (List.length
                    (filter (survives include_forks include_private min_commits) rcs)) /\
    sum_additions t =
      sum_additions t0
      + sum_int (map (fun rc => ls_total_additions (line_stats_of rc))
                   (filter (survives include_forks include_private min_commits) rcs)) /\
    sum_deletions t =
      sum_deletions t0
      + sum_int (map (fun rc => ls_total_deletions (line_stats_of rc))
                   (filter (survives include_forks include_private min_commits) rcs)).
Proof.
  revert t0. induction rcs as [|rc rcs IH]; intros t0.
  - exists t0. split; [reflexivity |]. cbn. lia.
  - cbn [for_each filter].
    destruct (survives include_forks include_private min_commits rc) eqn:Hs;
      unfold survives in Hs.
    + apply negb_true_iff in Hs.
      destruct (process_repo_contribution_kept _ _ _ t0 rc Hs) as (stats' & _ & Hstep).
      rewrite Hstep. simpl.
      match goal with
      | |- context [for_each _ rcs ?t1] => destruct (IH t1) as (t & Hrun & Hr & Ha & Hd)
      end.
      exists t. split; [exact Hrun |]. simpl in Hr, Ha, Hd.
      rewrite Hr, Ha, Hd, !sum_int_cons. lia.
    + apply negb_false_iff in Hs.
      rewrite (process_repo_contribution_filtered _ _ _ _ _ Hs). simpl. apply IH.
Qed.

End AnalysisFacts.

(** The summary of the analysis counts the records that pass the three
    filters and sums their line counts: [total_repositories] is their
    number, [total_additions] and [total_deletions] are the sums of their
    line counts (0 for a record without), and [net_lines] is the
    difference of the two. *)
Theorem summary_counts_the_surviving_records :
  forall (F : Type) (PF : PyFloat F) (u : GeneratorPrev.UserContributions)
         (cc : GeneratorPrev.ContributionsCollection)
         (include_forks include_private : bool) (min_commits : Z),
    let kept := filter (survives include_forks include_private min_commits)
                  (GeneratorPrev.commitContributionsByRepository cc) in
    exists a,
      GeneratorPrev.analyze_languages (F := F) (GeneratorPrev.Aggregated (Some u) cc)
        include_forks include_private min_commits = inr a /\
      GeneratorPrev.summary_total_repositories (GeneratorPrev.summary a)
        = Z.of_nat (List.length kept) /\
      GeneratorPrev.summary_total_additions (GeneratorPrev.summary a)
        = sum_int (map (fun rc => GeneratorPrev.ls_total_additions
                                    (GeneratorPrev.line_stats_of rc)) kept) /\
      GeneratorPrev.summary_total_deletions (GeneratorPrev.summary a)
        = sum_int (map (fun rc => GeneratorPrev.ls_total_deletions
                                    (GeneratorPrev.line_stats_of rc)) kept) /\
      GeneratorPrev.summary_net_lines (GeneratorPrev.summary a)
        = GeneratorPrev.summary_total_additions (GeneratorPrev.summary a)
          - GeneratorPrev.summary_total_deletions (GeneratorPrev.summary a) /\
      GeneratorPrev.has_contributions (GeneratorPrev.summary a)
        = GeneratorPrev.hasAnyContributions cc.
Proof.
  intros F PF u cc include_forks include_private min_commits kept. subst kept.
  destruct (aggregate_totals include_forks include_private min_commits
              (GeneratorPrev.commitContributionsByRepository cc)
              GeneratorPrev.initial_totals) as (t & Hrun & Hr & Ha & Hd).
  eexists. split.
  - unfold GeneratorPrev.analyze_languages, GeneratorPrev.aggregate. rewrite Hrun. simpl.
    rewrite final_entries_ok. simpl. reflexivity.
  - simpl in *. rewrite Hr, Ha, Hd. repeat split; lia.
Qed.

(** When no record passes the filters, and so for a user without
    contributions, the analysis does not raise: its language table is empty
    and its totals are 0. *)
Theorem no_surviving_record_gives_an_empty_report :
  forall (F : Type) (PF : PyFloat F) (u : GeneratorPrev.UserContributions)
         (cc : GeneratorPrev.ContributionsCollection)
         (include_forks include_private : bool) (min_commits : Z),
    Forall (fun rc => survives include_forks include_private min_commits rc = false)
      (GeneratorPrev.commitContributionsByRepository cc) ->
    exists a,
      GeneratorPrev.analyze_languages (F := F) (GeneratorPrev.Aggregated (Some u) cc)
        include_forks include_private min_commits = inr a /\
      GeneratorPrev.analysis_languages a = [] /\
      GeneratorPrev.summary a =
        {| GeneratorPrev.summary_total_commits := 0;
           GeneratorPrev.summary_total_repositories := 0;
           GeneratorPrev.summary_total_additions := 0;
           GeneratorPrev.summary_total_deletions := 0;
           GeneratorPrev.summary_net_lines := 0;
           GeneratorPrev.has_contributions := GeneratorPrev.hasAnyContributions cc |}.
Proof.
  intros F PF u cc include_forks include_private min_commits Hnone.
  assert (Hrun : GeneratorPrev.aggregate (F := F) include_forks include_private min_commits
                   (GeneratorPrev.commitContributionsByRepository cc)
                 = inr GeneratorPrev.initial_totals).
  { unfold GeneratorPrev.aggregate.
    rewrite (for_each_total _ (fun t _ => t)).
    - f_equal. clear Hnone.
      induction (GeneratorPrev.commitContributionsByRepository cc) as [|rc rcs IH];
        [reflexivity | exact IH].
    - intros t rc Hin. apply process_repo_contribution_filtered.
      rewrite Forall_forall in Hnone. specialize (Hnone rc Hin). unfold survives in Hnone.
      apply negb_false_iff. exact Hnone. }
  eexists. split.
  - unfold GeneratorPrev.analyze_languages. rewrite Hrun. simpl. reflexivity.
  - split; reflexivity.
Qed.

(** Two forks, with forks excluded. *)
Lemma no_surviving_record_example :
  exists a,
    GeneratorPrev.analyze_languages (F := float)
      (GeneratorPrev.Aggregated (Some ada_contributions)
         {| GeneratorPrev.hasAnyContributions := true;
            GeneratorPrev.totalCommitContributions := 8;
            GeneratorPrev.commitContributionsByRepository := two_forks |})
      false true 1 = inr a /\
    GeneratorPrev.analysis_languages a = [] /\
    GeneratorPrev.summary_total_commits (GeneratorPrev.summary a) = 0.
Proof.
  destruct (no_surviving_record_gives_an_empty_report float binary64 ada_contributions
              {| GeneratorPrev.hasAnyContributions := true;
                 GeneratorPrev.totalCommitContributions := 8;
                 GeneratorPrev.commitContributionsByRepository := two_forks |}
              false true 1) as (a & Hrun & Hlangs & Hsummary).
  - repeat constructor.
  - exists a. split; [exact Hrun |]. split; [exact Hlangs |]. rewrite Hsummary. reflexivity.
Defined.

Section TableKeys.
Context {F : Type} `{PyFloat F}.

Lemma attribute_primary_key_In (rc : GeneratorPrev.RepoContribution)
    (stats : @GeneratorPrev.LanguageStats F) (lang : string) :
  In lang (Dict.keys (GeneratorPrev.attribute_primary rc stats))
  <-> In lang (Dict.keys stats) \/
      exists primary,
        GeneratorPrev.primaryLanguage (GeneratorPrev.repository rc) = Some primary /\
        GeneratorPrev.name primary = lang.
Proof.
  unfold GeneratorPrev.attribute_primary.
  destruct (GeneratorPrev.primaryLanguage (GeneratorPrev.repository rc)) as [primary|].
  - rewrite keys_update_In. split.
    + intros [->|Hin]; [right; exists primary; split; reflexivity | left; exact Hin].
    + intros [Hin|(p & Hp & <-)]; [right; exact Hin |].
      injection Hp as <-. left. reflexivity.
  - split; [intros Hin; left; exact Hin |].
    intros [Hin|(p & Hp & _)]; [exact Hin | discriminate Hp].
Qed.

Lemma attribute_edges_key_In (rc : GeneratorPrev.RepoContribution)
    (es : list GeneratorPrev.LanguageEdge) :
  forall (stats stats' : @GeneratorPrev.LanguageStats F) (lang : string),
    for_each (GeneratorPrev.attribute_edge rc) es stats = inr stats' ->
    (In lang (Dict.keys stats')
     <-> In lang (Dict.keys stats) \/
         exists lang_edge,
           In lang_edge es /\ GeneratorPrev.name (GeneratorPrev.node lang_edge) = lang).
Proof.
  induction es as [|e es IH]; intros stats stats' lang Hrun; cbn [for_each] in Hrun.
  - injection Hrun as <-. split; [intros Hin; left; exact Hin |].
    intros [Hin|(e & [] & _)]. exact Hin.
  - rewrite attribute_edge_ok in Hrun. simpl in Hrun.
    rewrite (IH _ _ lang Hrun), keys_update_In. split.
    + intros [[->|Hin]|(e' & He' & Hname)].
      * right. exists e. split; [left; reflexivity | reflexivity].
      * left. exact Hin.
      * right. exists e'. split; [right; exact He' | exact Hname].
    + intros [Hin|(e' & [<-|He'] & Hname)].
      * left. right. exact Hin.
      * left. left. symmetry. exact Hname.
      * right. exists e'. split; [exact He' | exact Hname].
Qed.

Lemma aggregate_key_In (include_forks include_private : bool) (min_commits : Z)
    (rcs : list GeneratorPrev.RepoContribution) :
  forall (t0 t : @GeneratorPrev.Totals F) (lang : string),
    for_each (GeneratorPrev.process_repo_contribution include_forks include_private
                min_commits) rcs t0 = inr t ->
    (In lang (Dict.keys (GeneratorPrev.language_stats t))
     <-> In lang (Dict.keys (GeneratorPrev.language_stats t0)) \/
         accumulated include_forks include_private min_commits rcs lang).
Proof.
  induction rcs as [|rc rcs IH]; intros t0 t lang Hrun; cbn [for_each] in Hrun.
  - injection Hrun as <-. split; [intros Hin; left; exact Hin |].
    intros [Hin|(rc & [] & _)]. exact Hin.
  - destruct (GeneratorPrev.filtered_out include_forks include_private min_commits rc)
      eqn:Hf.
    + rewrite (process_repo_contribution_filtered _ _ _ t0 rc Hf) in Hrun. simpl in Hrun.
      rewrite (IH _ _ lang Hrun). split.
      * intros [Hin|(rc' & Hin & Hs & Hc)]; [left; exact Hin |].
        right. exists rc'. split; [right; exact Hin | split; assumption].
      * intros [Hin|(rc' & [<-|Hin] & Hs & Hc)]; [left; exact Hin | |].
        -- unfold survives in Hs. rewrite Hf in Hs. discriminate Hs.
        -- right. exists rc'. split; [exact Hin | split; assumption].
    + destruct (process_repo_contribution_kept include_forks include_private min_commits
                  t0 rc Hf) as (stats' & Hedges & Hstep).
      rewrite Hstep in Hrun. simpl in Hrun.
      assert (Hs : survives include_forks include_private min_commits rc = true)
        by (unfold survives; rewrite Hf; reflexivity).
      unfold GeneratorPrev.attribute_weighted in Hedges.
      rewrite (IH _ _ lang Hrun). cbn [GeneratorPrev.language_stats].
      rewrite (attribute_edges_key_In rc _ _ _ lang Hedges), attribute_primary_key_In.
      split.
      * intros [[[Hin|Hp]|He]|(rc' & Hin & Hs' & Hc)].
        -- left. exact Hin.
        -- right. exists rc. split; [left; reflexivity | split; [exact Hs | left; exact Hp]].
        -- right. exists rc. split; [left; reflexivity | split; [exact Hs | right; exact He]].
        -- right. exists rc'. split; [right; exact Hin | split; assumption].
      * intros [Hin|(rc' & [<-|Hin] & Hs' & [Hp|He])].
        -- left. left. left. exact Hin.
        -- left. left. right. exact Hp.
        -- left. right. exact He.
        -- right. exists rc'. split; [exact Hin | split; [exact Hs' | left; exact Hp]].
        -- right. exists rc'. split; [exact Hin | split; [exact Hs' | right; exact He]].
Qed.

End TableKeys.

(** The language table lists the languages that a record passing the
    filters credits, as the primary language of its repository or as the
    language of one of its edges: each of them once, and no other; in exact
    arithmetic it stands in descending order of weighted commits. *)
Theorem language_table_lists_each_language_once_in_descending_order :
  (forall (F : Type) (PF : PyFloat F) (u : GeneratorPrev.UserContributions)
          (cc : GeneratorPrev.ContributionsCollection)
          (include_forks include_private : bool) (min_commits : Z)
          (a : @GeneratorPrev.Analysis F),
     GeneratorPrev.analyze_languages (GeneratorPrev.Aggregated (Some u) cc)
       include_forks include_private min_commits = inr a ->
     NoDup (map fst (GeneratorPrev.analysis_languages a)) /\
     forall lang,
       In lang (map fst (GeneratorPrev.analysis_languages a))
       <-> accumulated include_forks include_private min_commits
             (GeneratorPrev.commitContributionsByRepository cc) lang) /\
  (forall (u : GeneratorPrev.UserContributions)
          (cc : GeneratorPrev.ContributionsCollection)
          (include_forks include_private : bool) (min_commits : Z)
          (a : @GeneratorPrev.Analysis Q),
     GeneratorPrev.analyze_languages (GeneratorPrev.Aggregated (Some u) cc)
       include_forks include_private min_commits = inr a ->
     descending (fun row => GeneratorPrev.final_weighted_commits (snd row))
       (GeneratorPrev.analysis_languages a)).
Proof.
  split.
  - intros F PF u cc include_forks include_private min_commits a Hrun.
    destruct (analyze_languages_ok u cc include_forks include_private min_commits)
      as (t & a0 & Hagg & Hrun0 & _ & Htable).
    rewrite Hrun in Hrun0. injection Hrun0 as <-. rewrite Htable.
    pose proof (Permutation_map fst (sorted_reverse_Permutation
                                       GeneratorPrev.by_weighted_commits (final_table t)))
      as Hperm.
    assert (Hkeys : map fst (final_table t) = Dict.keys (GeneratorPrev.language_stats t)).
    { unfold final_table, Dict.keys. rewrite map_map. reflexivity. }
    rewrite Hkeys in Hperm. split.
    + apply (Permutation_NoDup (Permutation_sym Hperm)).
      apply (aggregate_keys _ _ _ _ _ Hagg).
    + intros lang. unfold GeneratorPrev.aggregate in Hagg.
      pose proof (aggregate_key_In include_forks include_private min_commits _ _ _ lang Hagg)
        as Hin.
      split.
      * intros Hlang. apply (Permutation_in _ Hperm) in Hlang.
        apply Hin in Hlang. destruct Hlang as [[]|Hacc]. exact Hacc.
      * intros Hacc. apply (Permutation_in _ (Permutation_sym Hperm)).
        apply Hin. right. exact Hacc.
  - intros u cc include_forks include_private min_commits a Hrun.
    destruct (analyze_languages_ok (F := Q) u cc include_forks include_private min_commits)
      as (t & a0 & _ & Hrun0 & _ & Htable).
    rewrite Hrun in Hrun0. injection Hrun0 as <-. rewrite Htable.
    apply (sorted_reverse_descending
             (fun row : string * @GeneratorPrev.FinalStat Q =>
                GeneratorPrev.final_weighted_commits (snd row))).
Qed.

(** Three languages in two repositories, in exact arithmetic. *)
Lemma language_table_example :
  exists a,
    GeneratorPrev.analyze_languages (F := Q)
      (GeneratorPrev.Aggregated (Some ada_contributions) two_repositories) true true 1
    = inr a /\
    map fst (GeneratorPrev.analysis_languages a) = ["B"; "A"; "C"] /\
    NoDup (map fst (GeneratorPrev.analysis_languages a)) /\
    (forall lang,
       In lang (map fst (GeneratorPrev.analysis_languages a))
       <-> accumulated true true 1
             (GeneratorPrev.commitContributionsByRepository two_repositories) lang) /\
    descending (fun row => GeneratorPrev.final_weighted_commits (snd row))
      (GeneratorPrev.analysis_languages a).
Proof.
  destruct (analyze_languages_ok (F := Q) ada_contributions two_repositories true true 1)
    as (t & a & Hagg & Hrun & _ & Htable).
  exists a. split; [exact Hrun |]. split; [| split; [| split]].
  - rewrite Htable. vm_compute in Hagg. injection Hagg as <-. vm_compute. reflexivity.
  - exact (proj1 (proj1 language_table_lists_each_language_once_in_descending_order Q exact
                    ada_contributions two_repositories true true 1 a Hrun)).
  - exact (proj2 (proj1 language_table_lists_each_language_once_in_descending_order Q exact
                    ada_contributions two_repositories true true 1 a Hrun)).
  - exact (proj2 language_table_lists_each_language_once_in_descending_order
             ada_contributions two_repositories true true 1 a Hrun).
Defined.

(** A language's [repository_count] counts distinct repositories: the
    repositories filed under a language hold no name twice and only names
    of records that pass the filters, and no reported language has more
    repositories than the summary's [total_repositories]. *)
Theorem repository_count_counts_distinct_surviving_repositories :
  forall (F : Type) (PF : PyFloat F) (u : GeneratorPrev.UserContributions)
         (cc : GeneratorPrev.ContributionsCollection)
         (include_forks include_private : bool) (min_commits : Z)
         (t : @GeneratorPrev.Totals F) (a : @GeneratorPrev.Analysis F),
    GeneratorPrev.aggregate include_forks include_private min_commits
      (GeneratorPrev.commitContributionsByRepository cc) = inr t ->
    GeneratorPrev.analyze_languages (GeneratorPrev.Aggregated (Some u) cc)
      include_forks include_private min_commits = inr a ->
    (forall lang s,
       In (lang, s) (GeneratorPrev.language_stats t) ->
       NoDup (GeneratorPrev.repositories s) /\
       incl (GeneratorPrev.repositories s)
         (map repository_name
            (filter (survives include_forks include_private min_commits)
               (GeneratorPrev.commitContributionsByRepository cc)))) /\
    (forall lang row,
       In (lang, row) (GeneratorPrev.analysis_languages a) ->
       0 <= GeneratorPrev.repository_count row
         <= GeneratorPrev.summary_total_repositories (GeneratorPrev.summary a)).
Proof.
  intros F PF u cc include_forks include_private min_commits t a Hagg Hrun.
  pose proof (aggregate_repositories _ _ _ _ _ Hagg) as Hrepos.
  rewrite Forall_forall in Hrepos.
  split.
  - intros lang s Hin. exact (Hrepos (lang, s) Hin).
  - intros lang row Hin.
    destruct (analyze_languages_ok u cc include_forks include_private min_commits)
      as (t0 & a0 & Hagg0 & Hrun0 & _ & Htable).
    rewrite Hagg in Hagg0. injection Hagg0 as <-.
    rewrite Hrun in Hrun0. injection Hrun0 as <-.
    rewrite Htable in Hin. apply (proj1 (sorted_reverse_In _ _ _)) in Hin.
    unfold final_table in Hin. apply in_map_iff in Hin.
    destruct Hin as ([l s] & Heq & Hin). simpl in Heq. injection Heq as <- <-.
    destruct (Hrepos (l, s) Hin) as [Hnd Hincl]. simpl in Hnd, Hincl.
    apply (NoDup_incl_length Hnd) in Hincl. rewrite length_map in Hincl.
    destruct (aggregate_totals include_forks include_private min_commits
                (GeneratorPrev.commitContributionsByRepository cc)
                GeneratorPrev.initial_totals) as (t' & Hrun' & Hr & _).
    unfold GeneratorPrev.aggregate in Hagg. rewrite Hagg in Hrun'. injection Hrun' as <-.
    assert (Hsummary : GeneratorPrev.summary_total_repositories (GeneratorPrev.summary a)
                       = GeneratorPrev.sum_repositories t).
    { unfold GeneratorPrev.analyze_languages, GeneratorPrev.aggregate in Hrun.
      rewrite Hagg in Hrun. simpl in Hrun. rewrite final_entries_ok in Hrun.
      simpl in Hrun. injection Hrun as <-. reflexivity. }
    rewrite Hsummary, Hr. simpl. lia.
Qed.

(** Two repositories with the languages A and B: their count is 2, of 2. *)
Lemma repository_count_example :
  exists a,
    GeneratorPrev.analyze_languages (F := float)
      (GeneratorPrev.Aggregated (Some ada_contributions) two_repositories) true true 1
    = inr a /\
    map (fun r => (fst r, GeneratorPrev.repository_count (snd r)))
      (GeneratorPrev.analysis_languages a) = [("B", 2); ("A", 2); ("C", 1)] /\
    GeneratorPrev.summary_total_repositories (GeneratorPrev.summary a) = 2 /\
    forall lang row,
      In (lang, row) (GeneratorPrev.analysis_languages a) ->
      0 <= GeneratorPrev.repository_count row
        <= GeneratorPrev.summary_total_repositories (GeneratorPrev.summary a).
Proof.
  destruct (analyze_languages_ok (F := float) ada_contributions two_repositories true true 1)
    as (t & a & Hagg & Hrun & _ & Htable).
  exists a. split; [exact Hrun |]. split; [| split].
  - rewrite Htable. vm_compute in Hagg. injection Hagg as <-. vm_compute. reflexivity.
  - vm_compute in Hrun. injection Hrun as <-. reflexivity.
  - exact (proj2 (repository_count_counts_distinct_surviving_repositories float binary64
                    ada_contributions two_repositories true true 1 t a Hagg Hrun)).
Defined.

(** * Further properties of the neofetch pipeline *)

(** ** A run without years *)

(** With [years_back] at 0 or below the loop of line 385 has no year.
    When the start of the window, which then lies [365 * -years_back] days
    after today, is still a day of the years up to 9999, no contributions
    query is made, the fetch returns the user with empty totals and without
    warnings, and the run ends with exit code 0 when the renderer succeeds.
    When it is not, line 319 raises OverflowError before any request and
    the run ends with exit code 1. *)
Theorem no_years_give_an_empty_run :
  forall (F : Type) (PF : PyFloat F) (args_token env_token : option string)
         (net : Generator.Network) (end_date : Generator.date) (years_back : Z)
         (write_artifacts : Generator.RunData -> result unit) (u : Generator.UserData),
    years_back <= 0 ->
    Generator.fetch_user net = inr u ->
    (window_fits end_date years_back ->
     Generator.get_user_data_multi_year (F := F) net end_date years_back
     = inr ({| Generator.data_user := u;
               Generator.data_total_commits := 0;
               Generator.data_language_stats := Dict.empty;
               Generator.data_contributions_data := [] |}, []) /\
     (truthy_str (match truthy_str args_token with
                  | Some t => Some t
                  | None => env_token
                  end) <> None ->
      write_artifacts {| Generator.data_user := u;
                         Generator.data_total_commits := 0;
                         Generator.data_language_stats := Dict.empty;
                         Generator.data_contributions_data := [] |} = inr tt ->
      Generator.main (F := F) args_token env_token net end_date years_back
        write_artifacts = 0)) /\
    (~ window_fits end_date years_back ->
     Generator.get_user_data_multi_year (F := F) net end_date years_back
     = inl OverflowError /\
     Generator.main (F := F) args_token env_token net end_date years_back
       write_artifacts = 1).
Proof.
  intros F PF args_token env_token net end_date years_back write_artifacts u
    Hyears Huser.
  split.
  - intros Hwindow.
    assert (Hrun : Generator.get_user_data_multi_year (F := F) net end_date years_back
                   = inr ({| Generator.data_user := u;
                             Generator.data_total_commits := 0;
                             Generator.data_language_stats := Dict.empty;
                             Generator.data_contributions_data := [] |}, [])).
    { unfold Generator.get_user_data_multi_year, Generator.years_of.
      rewrite (window_start_ok _ _ Hwindow), Huser, py_range_nil by lia. reflexivity. }
    split; [exact Hrun |].
    intros Htoken Hwritten. unfold Generator.main.
    destruct (truthy_str _); [| contradiction].
    rewrite Hrun. simpl. rewrite Hwritten. reflexivity.
  - intros Hout.
    assert (Hrun : Generator.get_user_data_multi_year (F := F) net end_date years_back
                   = inl OverflowError).
    { unfold Generator.get_user_data_multi_year.
      rewrite (window_start_overflows _ _ Hout). reflexivity. }
    split; [exact Hrun |].
    unfold Generator.main. destruct (truthy_str _); [| reflexivity].
    rewrite Hrun. reflexivity.
Qed.

Lemma no_years_from_2025_fit : window_fits (june_18 2025) 0.
Proof. unfold window_fits. vm_compute. repeat split; discriminate. Qed.

Lemma eight_thousand_years_ahead_do_not_fit : ~ window_fits (june_18 2025) (-8000).
Proof. unfold window_fits. vm_compute. intros [_ [_ Hhigh]]. apply Hhigh. reflexivity. Qed.

(** [--years 0], with a network whose year queries all fail, ends with exit
    code 0; [--years -8000], whose window would start after the year 9999,
    with exit code 1. *)
Lemma no_years_example :
  window_fits (june_18 2025) 0 /\
  Generator.main (F := float) (Some "token") None
    {| Generator.post_user := ok_response ada;
       Generator.post_year := fun _ => inl RequestException |}
    (june_18 2025) 0 written = 0 /\
  ~ window_fits (june_18 2025) (-8000) /\
  Generator.main (F := float) (Some "token") None
    {| Generator.post_user := ok_response ada;
       Generator.post_year := fun _ => inl RequestException |}
    (june_18 2025) (-8000) written = 1.
Proof.
  split; [exact no_years_from_2025_fit |]. split; [| split].
  - apply (proj2 (proj1 (no_years_give_an_empty_run float binary64 (Some "token") None
                           {| Generator.post_user := ok_response ada;
                              Generator.post_year := fun _ => inl RequestException |}
                           (june_18 2025) 0 written ada ltac:(lia) eq_refl)
                    no_years_from_2025_fit)).
    + discriminate.
    + reflexivity.
  - exact eight_thousand_years_ahead_do_not_fit.
  - apply (proj2 (proj2 (no_years_give_an_empty_run float binary64 (Some "token") None
                           {| Generator.post_user := ok_response ada;
                              Generator.post_year := fun _ => inl RequestException |}
                           (june_18 2025) (-8000) written ada ltac:(lia) eq_refl)
                    eight_thousand_years_ahead_do_not_fit)).
Defined.

(** ** The sum of the buckets *)

Section BucketFacts.
Import Generator.

Lemma attribute_primary_bucket_sum {F : Type} `{PyFloat F} (c : Z) (repo : Repository)
    (stats : LanguageStats) :
  bucket_sum (attribute_primary c repo stats) = bucket_sum stats + primary_weight c repo.
Proof.
  unfold attribute_primary, primary_weight, primary_name, bucket_sum.
  destruct (primaryLanguage repo) as [pl|]; [| lia].
  destruct (truthy_str (name pl)) as [l|]; [| lia].
  apply update_sum; [intros v; reflexivity | reflexivity].
Qed.

Lemma attribute_edge_bucket_sum {F : Type} `{PyFloat F} (c total : Z)
    (stats stats' : LanguageStats) (edge : option LanguageEdge) :
  total <> 0 ->
  attribute_edge c total stats edge = inr stats' ->
  bucket_sum stats' = bucket_sum stats + credited_weight c total edge.
Proof.
  intros Hne. unfold attribute_edge, credited_weight, edge_language, bucket_sum.
  destruct edge as [e|]; [| intros Hrun; injection Hrun as <-; lia].
  destruct (node e) as [nd|]; [| intros Hrun; injection Hrun as <-; lia].
  destruct (truthy_str (name nd)) as [l|]; [| intros Hrun; injection Hrun as <-; lia].
  rewrite (weighted_commits_of_ok c (edge_size_of e) total Hne). simpl.
  destruct (weighted_int c (edge_size_of e) total >? 0);
    intros Hrun; injection Hrun as <-; [| lia].
  apply update_sum; [intros v; reflexivity | reflexivity].
Qed.

Lemma attribute_edges_bucket_sum {F : Type} `{PyFloat F} (c total : Z)
    (edges : list (option LanguageEdge)) (stats stats' : LanguageStats) :
  total <> 0 ->
  for_each (attribute_edge c total) edges stats = inr stats' ->
  bucket_sum stats' = bucket_sum stats + sum_int (map (credited_weight c total) edges).
Proof.
  intros Hne.
  apply (for_each_measure bucket_sum (credited_weight c total) (attribute_edge c total) edges).
  intros s e s' _ Hstep. exact (attribute_edge_bucket_sum c total s s' e Hne Hstep).
Qed.

(** In exact arithmetic, for a commit count and a size that are not
    negative, [int(commit_count * (edge_size / total_size))] is the integer
    quotient of [commit_count * edge_size] by [total_size]. *)
Lemma weighted_int_exact (c s t : Z) :
  0 <= c -> 0 <= s -> 0 < t -> @weighted_int Q exact c s t = c * s / t.
Proof.
  intros Hc Hs Ht. unfold weighted_int. simpl. unfold Q_to_int.
  destruct t as [|t|t]; try lia. simpl.
  rewrite Z.quot_div_nonneg by nia. f_equal; lia.
Qed.

Lemma credited_weight_bound (c t : Z) (edge : option LanguageEdge) :
  0 <= c -> 0 < t -> sized edge ->
  0 <= @credited_weight Q exact c t edge /\
  @credited_weight Q exact c t edge * t
  <= c * sum_int (counted_sizes [edge]).
Proof.
  intros Hc Ht Hsize. unfold credited_weight, counted_sizes. cbn [flat_map].
  rewrite app_nil_r.
  destruct edge as [e|]; [| change (sum_int []) with 0; lia]. simpl in Hsize.
  assert (Hsum : sum_int (if edge_size_of e =? 0 then [] else [edge_size_of e])
                 = edge_size_of e).
  { destruct (Z.eqb_spec (edge_size_of e) 0) as [Hz|Hnz].
    - rewrite Hz. reflexivity.
    - rewrite sum_int_cons. change (sum_int []) with 0. lia. }
  rewrite Hsum.
  destruct (edge_language (Some e)); [| nia].
  rewrite (weighted_int_exact c (edge_size_of e) t Hc Hsize Ht).
  pose proof (Z.mul_div_le (c * edge_size_of e) t Ht).
  destruct (Z.gtb_spec (c * edge_size_of e / t) 0) as [Hpos|Hle]; [| nia].
  split; lia.
Qed.

Lemma counted_sizes_cons (edge : option LanguageEdge) (edges : list (option LanguageEdge)) :
  counted_sizes (edge :: edges) = counted_sizes [edge] ++ counted_sizes edges.
Proof. unfold counted_sizes. simpl. rewrite app_nil_r. reflexivity. Qed.

Lemma credited_weights_bound (c t : Z) (edges : list (option LanguageEdge)) :
  0 <= c -> 0 < t -> Forall sized edges ->
  0 <= sum_int (map (@credited_weight Q exact c t) edges) /\
  sum_int (map (@credited_weight Q exact c t) edges) * t <= c * total_size_of edges.
Proof.
  intros Hc Ht. unfold total_size_of. induction 1 as [|edge edges Hedge Hedges IH].
  - cbn. lia.
  - destruct (credited_weight_bound c t edge Hc Ht Hedge) as [H0 H1].
    cbn [map]. rewrite sum_int_cons, counted_sizes_cons, sum_int_app. lia.
Qed.

End BucketFacts.

(** In exact arithmetic, a record with a commit count and with sizes that
    are not negative raises the sum of all buckets, the denominator of the
    percentages, by its commit count when the repository names a primary
    language, and by at most its commit count again for the weighted
    attribution: the truncated weighted counts never add up to more than
    the commit count. *)
Theorem a_record_adds_at_most_twice_its_commits :
  forall (repo : Generator.Repository) (c : Z) (stats stats' : Generator.LanguageStats),
    0 <= c ->
    Forall sized (Generator.languages repo) ->
    Generator.process_repo_contrib (F := Q) stats
      (Some {| Generator.repository := Some repo; Generator.totalCount := Some c |})
    = inr stats' ->
    bucket_sum stats + primary_weight c repo <= bucket_sum stats' /\
    bucket_sum stats' <= bucket_sum stats + primary_weight c repo + c.
Proof.
  intros repo c stats stats' Hc Hsized Hrun.
  unfold Generator.process_repo_contrib in Hrun. simpl in Hrun.
  destruct (Z.eqb_spec c 0) as [->|Hnz].
  { injection Hrun as <-. unfold primary_weight. destruct (primary_name repo); lia. }
  unfold Generator.attribute_weighted in Hrun.
  pose proof (attribute_primary_bucket_sum (F := Q) c repo stats) as Hprimary.
  destruct (Z.gtb_spec (Generator.total_size_of (Generator.languages repo)) 0) as [Hpos|Hle].
  - apply attribute_edges_bucket_sum in Hrun; [| lia].
    destruct (credited_weights_bound c (Generator.total_size_of (Generator.languages repo))
                (Generator.languages repo) Hc Hpos Hsized) as [H0 H1].
    rewrite Hrun, Hprimary. split; [lia |].
    assert (sum_int (map (@credited_weight Q exact c
                            (Generator.total_size_of (Generator.languages repo)))
                       (Generator.languages repo)) <= c) by nia.
    lia.
  - injection Hrun as <-. rewrite Hprimary. lia.
Qed.

(** Ten commits in a repository with three languages of one byte each and
    primary language A: the buckets grow by 10 + 3 + 3 + 3. *)
Lemma a_record_adds_at_most_twice_its_commits_example :
  exists stats',
    Generator.process_repo_contrib (F := Q) Dict.empty
      (neofetch_record (Some "A") [("A", 1); ("B", 1); ("C", 1)] 10) = inr stats' /\
    bucket_sum stats' = 19 /\
    10 <= bucket_sum stats' <= 20.
Proof.
  destruct (process_repo_contrib_total (F := Q) Dict.empty
              (neofetch_record (Some "A") [("A", 1); ("B", 1); ("C", 1)] 10))
    as (stats' & Hrun).
  exists stats'. split; [exact Hrun |]. split.
  - vm_compute in Hrun. injection Hrun as <-. reflexivity.
  - apply (a_record_adds_at_most_twice_its_commits
             (neofetch_repo (Some "A") [("A", 1); ("B", 1); ("C", 1)]) 10 Dict.empty stats').
    + lia.
    + apply Forall_forall. intros e He. simpl in He.
      destruct He as [<-|[<-|[<-|[]]]]; cbv; discriminate.
    + exact Hrun.
Defined.

(** ** The percentages *)

Section PercentageFacts.
Import Generator.

Lemma exact_sum_Permutation (l l' : list Q) :
  Permutation l l' -> (exact_sum l == exact_sum l')%Q.
Proof.
  induction 1 as [| x l l' _ IH | x y l | l l' l'' _ IH1 _ IH2]; simpl.
  - reflexivity.
  - rewrite IH. reflexivity.
  - ring.
  - rewrite IH1. exact IH2.
Qed.

(** The commits that line 536 lets into the table. *)
Lemma percentage_rows_sum (total : Z) (stats : LanguageStats) :
  (exact_sum (map (fun r => percentage (snd r)) (flat_map (@percentage_row Q exact total) stats))
   == inject_Z (sum_int (map (fun item => (if commits (snd item) >? 0
                                           then commits (snd item) else 0)%Z) stats))
      / inject_Z total * 100)%Q.
Proof.
  induction stats as [|[lang s] stats IH].
  - simpl. unfold Qdiv. change (sum_int []) with 0. ring.
  - cbn [flat_map map]. rewrite map_app, sum_int_cons. unfold percentage_row at 1.
    cbn [fst snd].
    destruct (commits s >? 0).
    + cbn [map app exact_sum fold_right percentage snd].
      fold (exact_sum (map (fun r : string * LanguagePercentage => percentage (snd r))
                         (flat_map (percentage_row total) stats))).
      rewrite IH, inject_Z_plus. simpl. unfold Qdiv. change (inject_Z 100) with 100%Q. ring.
    + cbn [map app]. rewrite IH. reflexivity.
Qed.

Lemma positive_commits_sum (stats : LanguageStats) :
  Forall (fun item => 0 <= commits (snd item)) stats ->
  sum_int (map (fun item => if commits (snd item) >? 0 then commits (snd item) else 0) stats)
  = bucket_sum stats.
Proof.
  unfold bucket_sum, Dict.values. induction 1 as [|[lang s] stats Hs _ IH]; [reflexivity |].
  cbn [map snd]. rewrite !sum_int_cons, IH. simpl in Hs.
  destruct (Z.gtb_spec (commits s) 0); lia.
Qed.

Lemma percentage_rows_positive (total : Z) (stats : LanguageStats) :
  Forall (fun r => 0 < pct_commits (snd r)) (flat_map (@percentage_row Q exact total) stats).
Proof.
  induction stats as [|[lang s] stats IH]; simpl; [constructor |].
  apply Forall_app. split; [| exact IH].
  unfold percentage_row. simpl.
  destruct (Z.gtb_spec (commits s) 0); constructor; [simpl; lia | constructor].
Qed.

End PercentageFacts.

(** In exact arithmetic, for buckets that are not negative: when all
    buckets are 0 the table of percentages is empty; otherwise its
    percentages add up to 100.  The table lists only the languages with
    commits, in descending order of percentage. *)
Theorem neofetch_percentages_add_up_to_100 :
  forall (stats : Generator.LanguageStats)
         (rows : list (string * @Generator.LanguagePercentage Q)),
    Forall (fun item => 0 <= Generator.commits (snd item)) stats ->
    Generator.calculate_language_percentages (F := Q) stats = inr rows ->
    (bucket_sum stats = 0 -> rows = []) /\
    (bucket_sum stats <> 0 ->
     (exact_sum (map (fun r => Generator.percentage (snd r)) rows) == 100)%Q) /\
    descending (fun r => Generator.percentage (snd r)) rows /\
    Forall (fun r => 0 < Generator.pct_commits (snd r)) rows.
Proof.
  intros stats rows Hnonneg Hrun.
  rewrite (calculate_language_percentages_ok (F := Q)) in Hrun.
  fold (bucket_sum stats) in Hrun. injection Hrun as <-.
  destruct (Z.eqb_spec (bucket_sum stats) 0) as [Hz|Hnz].
  - split; [reflexivity |]. split; [contradiction |]. split; constructor.
  - split; [contradiction |]. split; [| split].
    + intros _.
      rewrite (exact_sum_Permutation _ _
                 (Permutation_map (fun r => Generator.percentage (snd r))
                    (sorted_reverse_Permutation _ _))).
      rewrite percentage_rows_sum, (positive_commits_sum stats Hnonneg).
      change (inject_Z 100) with 100%Q. field. apply inject_Z_nonzero. exact Hnz.
    + apply (sorted_reverse_descending
               (fun r : string * @Generator.LanguagePercentage Q =>
                  Generator.percentage (snd r))).
    + apply (Permutation_Forall
               (Permutation_sym (sorted_reverse_Permutation _ _))).
      apply percentage_rows_positive.
Qed.

(** Buckets A: 1, B: 0 and C: 2: the table lists C with two thirds and A
    with one third of 100. *)
Lemma neofetch_percentages_example :
  exists rows,
    Generator.calculate_language_percentages (F := Q) three_buckets = inr rows /\
    map fst rows = ["C"; "A"] /\
    (exact_sum (map (fun r => Generator.percentage (snd r)) rows) == 100)%Q.
Proof.
  destruct (calculate_language_percentages_total (F := Q) three_buckets) as (rows & Hrun).
  exists rows. split; [exact Hrun |]. split.
  - vm_compute in Hrun. injection Hrun as <-. reflexivity.
  - apply (neofetch_percentages_add_up_to_100 three_buckets rows).
    + apply Forall_forall. intros item Hitem. simpl in Hitem.
      destruct Hitem as [<-|[<-|[<-|[]]]]; cbv; discriminate.
    + exact Hrun.
    + vm_compute. discriminate.
Defined.

(** ** Header lines *)

(** A key that starts with a dash is a header: [format_line] ignores the
    value and the separator and pads the key with dashes; the line is
    [total_width] wide unless the key itself is longer.  [format_styled_line]
    wraps the same line, at width 68, in the separator style. *)
Theorem header_lines_are_padded_with_dashes :
  forall (key value separator : pystr) (total_width : Z)
         (special_styling : list (pystr * (pystr -> pystr))),
    Generator.is_header key = true ->
    Generator.format_line key value total_width separator
    = key ++ times em_dash (total_width - len key) /\
    len (Generator.format_line key value total_width separator)
    = Z.max total_width (len key) /\
    Generator.format_styled_line key value special_styling
    = Generator.tspan "separator" (Generator.format_line key value 68 separator).
Proof.
  intros key value separator total_width special_styling Hkey.
  unfold Generator.format_line, Generator.format_styled_line. rewrite Hkey.
  split; [reflexivity |]. split; [| reflexivity].
  rewrite len_app. unfold em_dash. rewrite len_times_char.
  pose proof (len_nonneg key). lia.
Qed.

(** The header of the contact section. *)
Lemma header_line_example :
  len (Generator.format_line (em_dash ++ str " Contact ") [] 68 (str ":")) = 68.
Proof.
  rewrite (proj1 (proj2 (header_lines_are_padded_with_dashes
                           (em_dash ++ str " Contact ") [] (str ":") 68 [] eq_refl))).
  reflexivity.
Defined.

(** ** The order of the languages *)

(** Folding records never removes a language from the accumulator and
    never moves one: the languages stand in the order in which they were
    first credited, in both pipelines. *)
Theorem languages_stand_in_the_order_of_first_credit :
  forall (F : Type) (PF : PyFloat F),
    (forall (records : list (option Generator.RepoContribution))
            (stats stats' : Generator.LanguageStats),
       for_each Generator.process_repo_contrib records stats = inr stats' ->
       exists new, Dict.keys stats' = Dict.keys stats ++ new) /\
    (forall (include_forks include_private : bool) (min_commits : Z)
            (records : list GeneratorPrev.RepoContribution)
            (t t' : @GeneratorPrev.Totals F),
       for_each (GeneratorPrev.process_repo_contribution include_forks include_private
                   min_commits) records t = inr t' ->
       exists new,
         Dict.keys (GeneratorPrev.language_stats t')
         = Dict.keys (GeneratorPrev.language_stats t) ++ new).
Proof.
  intros F PF. split.
  - intros records stats stats'.
    apply (for_each_invariant
             (fun s : Generator.LanguageStats => exists new, Dict.keys s = Dict.keys stats ++ new));
      [| exists []; rewrite app_nil_r; reflexivity].
    intros s rc s' _ (new & Hs) Hstep.
    assert (Hgrow : exists more, Dict.keys s' = Dict.keys s ++ more).
    { unfold Generator.process_repo_contrib in Hstep.
      destruct rc as [rc|]; [| injection Hstep as <-; exists []; rewrite app_nil_r; reflexivity].
      destruct (Generator.repository rc) as [repo|];
        [| injection Hstep as <-; exists []; rewrite app_nil_r; reflexivity].
      destruct (_ =? 0);
        [injection Hstep as <-; exists []; rewrite app_nil_r; reflexivity |].
      match type of Hstep with
      | Generator.attribute_weighted ?c repo ?s1 = _ =>
          assert (Hprimary : exists more, Dict.keys s1 = Dict.keys s ++ more)
      end.
      { unfold Generator.attribute_primary.
        destruct (Generator.primaryLanguage repo) as [pl|];
          [| exists []; rewrite app_nil_r; reflexivity].
        destruct (truthy_str (Generator.name pl));
          [apply keys_update_prefix | exists []; rewrite app_nil_r; reflexivity]. }
      destruct Hprimary as (more1 & Hmore1).
      unfold Generator.attribute_weighted in Hstep.
      destruct (_ >? 0);
        [| injection Hstep as <-; exists more1; exact Hmore1].
      revert Hstep.
      apply (for_each_invariant
               (fun s2 : Generator.LanguageStats =>
                  exists more, Dict.keys s2 = Dict.keys s ++ more));
        [| exists more1; exact Hmore1].
      intros s2 e s3 _ (more2 & Hs2) He. unfold Generator.attribute_edge in He.
      destruct e as [e|]; [| injection He as <-; exists more2; exact Hs2].
      destruct (Generator.node e) as [nd|]; [| injection He as <-; exists more2; exact Hs2].
      destruct (truthy_str (Generator.name nd)) as [l|];
        [| injection He as <-; exists more2; exact Hs2].
      destruct (Generator.weighted_commits_of _ _ _) as [err|w]; [discriminate |].
      simpl in He. destruct (w >? 0); injection He as <-; [| exists more2; exact Hs2].
      match goal with
      | |- context [Dict.update ?d ?k ?f s2] =>
          destruct (keys_update_prefix d k f s2) as (more3 & Hs3)
      end.
      exists (more2 ++ more3). rewrite Hs3, Hs2, app_assoc. reflexivity. }
    destruct Hgrow as (more & Hmore). exists (new ++ more).
    rewrite Hmore, Hs, app_assoc. reflexivity.
  - intros include_forks include_private min_commits records t t'.
    apply (for_each_invariant
             (fun t1 : @GeneratorPrev.Totals F =>
                exists new, Dict.keys (GeneratorPrev.language_stats t1)
                            = Dict.keys (GeneratorPrev.language_stats t) ++ new));
      [| exists []; rewrite app_nil_r; reflexivity].
    intros t1 rc t2 _ (new & Ht1) Hstep.
    unfold GeneratorPrev.process_repo_contribution in Hstep.
    destruct (GeneratorPrev.filtered_out _ _ _ rc);
      [injection Hstep as <-; exists new; exact Ht1 |].
    destruct (GeneratorPrev.attribute_weighted rc _) as [err|stats'] eqn:Hw; [discriminate |].
    simpl in Hstep. injection Hstep as <-. simpl.
    assert (Hprimary : exists more,
               Dict.keys (GeneratorPrev.attribute_primary rc (GeneratorPrev.language_stats t1))
               = Dict.keys (GeneratorPrev.language_stats t) ++ more).
    { unfold GeneratorPrev.attribute_primary.
      destruct (GeneratorPrev.primaryLanguage (GeneratorPrev.repository rc));
        [| exists new; exact Ht1].
      match goal with
      | |- context [Dict.update ?d ?k ?f (GeneratorPrev.language_stats t1)] =>
          destruct (keys_update_prefix d k f (GeneratorPrev.language_stats t1))
            as (more & Hmore)
      end.
      exists (new ++ more). rewrite Hmore, Ht1, app_assoc. reflexivity. }
    revert Hw. unfold GeneratorPrev.attribute_weighted.
    apply (for_each_invariant
             (fun s : @GeneratorPrev.LanguageStats F =>
                exists more, Dict.keys s = Dict.keys (GeneratorPrev.language_stats t) ++ more));
      [| exact Hprimary].
    intros s e s' _ (more & Hs) He. rewrite attribute_edge_ok in He. injection He as <-.
    match goal with
    | |- context [Dict.update ?d ?k ?f s] =>
        destruct (keys_update_prefix d k f s) as (more' & Hmore')
    end.
    exists (more ++ more'). rewrite Hmore', Hs, app_assoc. reflexivity.
Qed.

(** A repository in B and A, then a repository in A, B and C: B and A
    keep the first two places. *)
Lemma languages_stand_in_the_order_of_first_credit_example :
  exists t1 t2 new,
    GeneratorPrev.aggregate (F := float) true true 1
      [prev_record (prev_repo "ada/x" (Some "B") [("A", 30); ("B", 70)] 100) [10] None]
    = inr t1 /\
    for_each (GeneratorPrev.process_repo_contribution true true 1)
      [prev_record (prev_repo "ada/y" None [("A", 20); ("B", 30); ("C", 50)] 100) [10] None]
      t1 = inr t2 /\
    Dict.keys (GeneratorPrev.language_stats t1) = ["B"; "A"] /\
    Dict.keys (GeneratorPrev.language_stats t2)
    = Dict.keys (GeneratorPrev.language_stats t1) ++ new.
Proof.
  destruct (aggregate_from (F := float) true true 1
              [prev_record (prev_repo "ada/x" (Some "B") [("A", 30); ("B", 70)] 100) [10] None]
              GeneratorPrev.initial_totals) as (t1 & Hrun1 & _).
  destruct (aggregate_from (F := float) true true 1
              [prev_record (prev_repo "ada/y" None [("A", 20); ("B", 30); ("C", 50)] 100)
                 [10] None] t1) as (t2 & Hrun2 & _).
  destruct (proj2 (languages_stand_in_the_order_of_first_credit float binary64)
              true true 1 _ t1 t2 Hrun2) as (new & Hnew).
  exists t1, t2, new. split; [exact Hrun1 |]. split; [exact Hrun2 |].
  split; [| exact Hnew].
  vm_compute in Hrun1. injection Hrun1 as <-. reflexivity.
Defined.

(** * The reports of the terminal pipeline *)

(** ** The yearly breakdown *)

Lemma fold_left_measure {A S : Type} (m : S -> Z) (w : A -> Z) (step : S -> A -> S)
    (xs : list A) :
  (forall s x, In x xs -> m (step s x) = m s + w x) ->
  forall s, m (fold_left step xs s) = m s + sum_int (map w xs).
Proof.
  induction xs as [|x xs IH]; intros Hstep s; simpl.
  - cbn. lia.
  - rewrite IH by (intros s' y Hy; apply Hstep; right; exact Hy).
    rewrite (Hstep s x (or_introl eq_refl)), sum_int_cons. lia.
Qed.

Section FoldUpdate.
Context {V A : Type} (default : V) (key : A -> string) (f : A -> V -> V).

Lemma fold_update_keys (xs : list A) (d : Dict.t) :
  NoDup (Dict.keys d) ->
  NoDup (Dict.keys (fold_left (fun d x => Dict.update default (key x) (f x) d) xs d)) /\
  forall y,
    In y (Dict.keys (fold_left (fun d x => Dict.update default (key x) (f x) d) xs d))
    <-> In y (Dict.keys d) \/ exists x, In x xs /\ key x = y.
Proof.
  revert d. induction xs as [|x xs IH]; intros d Hd; simpl.
  - split; [exact Hd |]. intros y. split; [tauto |]. intros [Hy|(x & [] & _)]. exact Hy.
  - destruct (IH (Dict.update default (key x) (f x) d) (update_NoDup _ _ _ _ Hd))
      as [Hnd Hin].
    split; [exact Hnd |]. intros y. rewrite Hin, keys_update_In. split.
    + intros [[->|Hy]|(x' & Hx' & Hk)].
      * right. exists x. split; [left; reflexivity | reflexivity].
      * left. exact Hy.
      * right. exists x'. split; [right; exact Hx' | exact Hk].
    + intros [Hy|(x' & [->|Hx'] & Hk)].
      * left. right. exact Hy.
      * left. left. symmetry. exact Hk.
      * right. exists x'. split; assumption.
Qed.

Lemma fold_update_sum (g : V -> Z) (w : A -> Z) (xs : list A) (d : Dict.t) :
  (forall x v, g (f x v) = g v + w x) -> g default = 0 ->
  sum_int (map g (Dict.values
                    (fold_left (fun d x => Dict.update default (key x) (f x) d) xs d)))
  = sum_int (map g (Dict.values d)) + sum_int (map w xs).
Proof.
  intros Hf Hdefault.
  apply (fold_left_measure (fun d => sum_int (map g (Dict.values d))) w).
  intros s x _. apply update_sum; [intros v; apply Hf | exact Hdefault].
Qed.

End FoldUpdate.

Section YearlyFacts.
Context {F : Type} `{PyFloat F}.
Import GeneratorPrev.

Lemma yearly_edge_ok (rc : RepoContribution) (ys : @Dict.t (@YearStat F)) (e : LanguageEdge) :
  yearly_edge rc ys e =
  inr (fold_left (credit_year (name (node e))
                    (lang_share (size e) (totalSize (languages (repository rc)))))
         (nodes rc) ys).
Proof. unfold yearly_edge. rewrite lang_percentage_of_ok. reflexivity. Qed.

Lemma count_years_spec (ns : list ContributionNode) (ys : @Dict.t (@YearStat F)) :
  NoDup (Dict.keys ys) ->
  NoDup (Dict.keys (fold_left count_year ns ys)) /\
  (forall y, In y (Dict.keys (fold_left count_year ns ys))
             <-> In y (Dict.keys ys) \/ exists node, In node ns /\ year_of node = y) /\
  sum_int (map year_total_commits (Dict.values (fold_left count_year ns ys)))
  = sum_int (map year_total_commits (Dict.values ys)) + sum_int (map commitCount ns).
Proof.
  intros Hys. split; [| split].
  - exact (proj1 (fold_update_keys default_year year_of
                    (fun contrib y =>
                       {| year_total_commits := year_total_commits y + commitCount contrib;
                          year_languages := year_languages y |}) ns ys Hys)).
  - exact (proj2 (fold_update_keys default_year year_of
                    (fun contrib y =>
                       {| year_total_commits := year_total_commits y + commitCount contrib;
                          year_languages := year_languages y |}) ns ys Hys)).
  - exact (fold_update_sum default_year year_of
             (fun contrib y =>
                {| year_total_commits := year_total_commits y + commitCount contrib;
                   year_languages := year_languages y |})
             year_total_commits commitCount ns ys (fun x v => eq_refl) eq_refl).
Qed.

Lemma sum_int_zeros {A : Type} (xs : list A) : sum_int (map (fun _ => 0) xs) = 0.
Proof.
  induction xs as [|x xs IH]; [reflexivity |].
  cbn [map]. rewrite sum_int_cons, IH. reflexivity.
Qed.

Lemma credit_years_spec (lang : string) (pct : F) (ns : list ContributionNode)
    (ys : @Dict.t (@YearStat F)) :
  NoDup (Dict.keys ys) ->
  NoDup (Dict.keys (fold_left (credit_year lang pct) ns ys)) /\
  (forall y, In y (Dict.keys (fold_left (credit_year lang pct) ns ys))
             <-> In y (Dict.keys ys) \/ exists node, In node ns /\ year_of node = y) /\
  sum_int (map year_total_commits (Dict.values (fold_left (credit_year lang pct) ns ys)))
  = sum_int (map year_total_commits (Dict.values ys)).
Proof.
  intros Hys. split; [| split].
  - exact (proj1 (fold_update_keys default_year year_of
                    (fun contrib y =>
                       {| year_total_commits := year_total_commits y;
                          year_languages :=
                            Dict.update (of_int 0) lang
                              (fun v => fadd v (fmul (of_int (commitCount contrib)) pct))
                              (year_languages y) |}) ns ys Hys)).
  - exact (proj2 (fold_update_keys default_year year_of
                    (fun contrib y =>
                       {| year_total_commits := year_total_commits y;
                          year_languages :=
                            Dict.update (of_int 0) lang
                              (fun v => fadd v (fmul (of_int (commitCount contrib)) pct))
                              (year_languages y) |}) ns ys Hys)).
  - transitivity (sum_int (map year_total_commits (Dict.values ys))
                  + sum_int (map (fun _ : ContributionNode => 0) ns));
      [| rewrite sum_int_zeros; lia].
    exact (fold_update_sum default_year year_of
             (fun contrib y =>
                {| year_total_commits := year_total_commits y;
                   year_languages :=
                     Dict.update (of_int 0) lang
                       (fun v => fadd v (fmul (of_int (commitCount contrib)) pct))
                       (year_languages y) |})
             year_total_commits (fun _ => 0) ns ys
             (fun x v => eq_sym (Z.add_0_r _)) eq_refl).
Qed.

(** The edges of a record: no year is added that its nodes do not hold,
    and the yearly totals stay. *)
Lemma yearly_edges (rc : RepoContribution) (es : list LanguageEdge)
    (ys : @Dict.t (@YearStat F)) :
  NoDup (Dict.keys ys) ->
  exists ys',
    for_each (yearly_edge rc) es ys = inr ys' /\
    NoDup (Dict.keys ys') /\
    (forall y, In y (Dict.keys ys')
               <-> In y (Dict.keys ys)
                   \/ (es <> [] /\ exists node, In node (nodes rc) /\ year_of node = y)) /\
    sum_int (map year_total_commits (Dict.values ys'))
    = sum_int (map year_total_commits (Dict.values ys)).
Proof.
  revert ys. induction es as [|e es IH]; intros ys Hys.
  - exists ys. split; [reflexivity |]. split; [exact Hys |]. split; [| reflexivity].
    intros y. split; [tauto |]. intros [Hy|[Hne _]]; [exact Hy | contradiction].
  - simpl. rewrite yearly_edge_ok. simpl.
    destruct (credit_years_spec (name (node e))
                (lang_share (size e) (totalSize (languages (repository rc))))
                (nodes rc) ys Hys) as (Hnd1 & Hin1 & Hsum1).
    destruct (IH _ Hnd1) as (ys' & Hrun & Hnd & Hin & Hsum).
    exists ys'. split; [exact Hrun |]. split; [exact Hnd |]. split.
    + intros y. rewrite Hin, Hin1. split.
      * intros [[Hy|Hnode]|[_ Hnode]]; [left; exact Hy | |];
          right; (split; [discriminate | exact Hnode]).
      * intros [Hy|[_ Hnode]]; [left; left; exact Hy | left; right; exact Hnode].
    + rewrite Hsum, Hsum1. reflexivity.
Qed.

(** One record that passes the filters: the years of its nodes are filed,
    and the yearly totals grow by its commits. *)
Lemma yearly_record (rc : RepoContribution) (ys : @Dict.t (@YearStat F)) :
  NoDup (Dict.keys ys) ->
  exists ys',
    for_each (yearly_edge rc) (edges (languages (repository rc)))
      (fold_left count_year (nodes rc) ys) = inr ys' /\
    NoDup (Dict.keys ys') /\
    (forall y, In y (Dict.keys ys')
               <-> In y (Dict.keys ys) \/ exists node, In node (nodes rc) /\ year_of node = y) /\
    sum_int (map year_total_commits (Dict.values ys'))
    = sum_int (map year_total_commits (Dict.values ys)) + repo_commits_of rc.
Proof.
  intros Hys.
  destruct (count_years_spec (nodes rc) ys Hys) as (Hnd0 & Hin0 & Hsum0).
  destruct (yearly_edges rc (edges (languages (repository rc))) _ Hnd0)
    as (ys' & Hrun & Hnd & Hin & Hsum).
  exists ys'. split; [exact Hrun |]. split; [exact Hnd |]. split.
  - intros y. rewrite Hin, Hin0. tauto.
  - rewrite Hsum, Hsum0. reflexivity.
Qed.

Lemma year_of_a_surviving_node_cons (include_forks include_private : bool)
    (min_commits : Z) (rc : RepoContribution) (records : list RepoContribution)
    (y : string) :
  year_of_a_surviving_node include_forks include_private min_commits (rc :: records) y
  <-> (survives include_forks include_private min_commits rc = true /\
       exists node, In node (nodes rc) /\ year_of node = y)
      \/ year_of_a_surviving_node include_forks include_private min_commits records y.
Proof.
  unfold year_of_a_surviving_node. split.
  - intros (rc' & node & Hrc' & Hnode & Hyear). apply filter_In in Hrc'.
    destruct Hrc' as [[<-|Hrc'] Hs].
    + left. split; [exact Hs |]. exists node. split; assumption.
    + right. exists rc', node. split; [apply filter_In; split; assumption |].
      split; assumption.
  - intros [[Hs (node & Hnode & Hyear)]|(rc' & node & Hrc' & Hnode & Hyear)].
    + exists rc, node. split; [apply filter_In; split; [left; reflexivity | exact Hs] |].
      split; assumption.
    + apply filter_In in Hrc'. destruct Hrc' as [Hrc' Hs].
      exists rc', node. split; [apply filter_In; split; [right; exact Hrc' | exact Hs] |].
      split; assumption.
Qed.

Lemma yearly_records (include_forks include_private : bool) (min_commits : Z)
    (records : list RepoContribution) (ys : @Dict.t (@YearStat F)) :
  NoDup (Dict.keys ys) ->
  exists ys',
    for_each (yearly_step include_forks include_private min_commits) records ys = inr ys' /\
    NoDup (Dict.keys ys') /\
    (forall y, In y (Dict.keys ys')
               <-> In y (Dict.keys ys)
                   \/ year_of_a_surviving_node include_forks include_private min_commits
                        records y) /\
    sum_int (map year_total_commits (Dict.values ys'))
    = sum_int (map year_total_commits (Dict.values ys))
      + sum_int (map repo_commits_of
                   (filter (survives include_forks include_private min_commits) records)).
Proof.
  revert ys. induction records as [|rc records IH]; intros ys Hys.
  - exists ys. split; [reflexivity |]. split; [exact Hys |]. split; [| cbn; lia].
    intros y. split; [tauto |].
    intros [Hy|(rc & node & Hrc & _)]; [exact Hy | destruct Hrc].
  - cbn [for_each filter]. unfold yearly_step at 1.
    destruct (survives include_forks include_private min_commits rc) eqn:Hs.
    + assert (Hf : filtered_out include_forks include_private min_commits rc = false)
        by (unfold survives in Hs; apply negb_true_iff in Hs; exact Hs).
      rewrite Hf.
      destruct (yearly_record rc ys Hys) as (ys1 & Hrun1 & Hnd1 & Hin1 & Hsum1).
      rewrite Hrun1. simpl.
      destruct (IH ys1 Hnd1) as (ys' & Hrun & Hnd & Hin & Hsum).
      exists ys'. split; [exact Hrun |]. split; [exact Hnd |]. split.
      * intros y. rewrite Hin, Hin1, year_of_a_surviving_node_cons. tauto.
      * rewrite Hsum, Hsum1. cbn [map]. rewrite sum_int_cons. lia.
    + assert (Hf : filtered_out include_forks include_private min_commits rc = true)
        by (unfold survives in Hs; apply negb_false_iff in Hs; exact Hs).
      rewrite Hf. simpl.
      destruct (IH ys Hys) as (ys' & Hrun & Hnd & Hin & Hsum).
      exists ys'. split; [exact Hrun |]. split; [exact Hnd |]. split; [| exact Hsum].
      intros y. rewrite Hin, year_of_a_surviving_node_cons. rewrite Hs. intuition congruence.
Qed.

End YearlyFacts.

(** The yearly breakdown files the commits of the records that pass the
    filters under the first four characters of their nodes' [occurredAt]:
    it holds one entry for each such year and no other, and the
    [total_commits] of its years add up to the [total_commits] of the
    summary. *)
Theorem yearly_totals_add_up_to_the_run_total :
  forall (F : Type) (PF : PyFloat F) (u : GeneratorPrev.UserContributions)
         (cc : GeneratorPrev.ContributionsCollection)
         (include_forks include_private : bool) (min_commits : Z),
    exists a ys,
      GeneratorPrev.analyze_languages (F := F) (GeneratorPrev.Aggregated (Some u) cc)
        include_forks include_private min_commits = inr a /\
      GeneratorPrev.yearly_breakdown (F := F) include_forks include_private min_commits
        (GeneratorPrev.commitContributionsByRepository cc) = inr ys /\
      sum_int (map GeneratorPrev.year_total_commits (Dict.values ys))
      = GeneratorPrev.summary_total_commits (GeneratorPrev.summary a) /\
      NoDup (Dict.keys ys) /\
      forall y,
        In y (Dict.keys ys)
        <-> year_of_a_surviving_node include_forks include_private min_commits
              (GeneratorPrev.commitContributionsByRepository cc) y.
Proof.
  intros F PF u cc include_forks include_private min_commits.
  destruct (analyze_languages_ok u cc include_forks include_private min_commits)
    as (t & a & Hagg & Hrun & Htotal & _).
  destruct (aggregate_from include_forks include_private min_commits
              (GeneratorPrev.commitContributionsByRepository cc)
              GeneratorPrev.initial_totals) as (t' & Hagg' & Hsum).
  unfold GeneratorPrev.aggregate in Hagg. rewrite Hagg in Hagg'. injection Hagg' as <-.
  destruct (yearly_records include_forks include_private min_commits
              (GeneratorPrev.commitContributionsByRepository cc) Dict.empty (NoDup_nil _))
    as (ys & Hys & Hnd & Hin & Hyears).
  exists a, ys. split; [exact Hrun |]. split; [exact Hys |].
  split; [| split; [exact Hnd |]].
  - rewrite Htotal, Hsum, Hyears. cbn. lia.
  - intros y. rewrite Hin. split; [| tauto]. intros [Hempty|Hy]; [destruct Hempty | exact Hy].
Qed.

(** ** The statistics of the profile *)

Section ProfileFacts.
Import GeneratorPrev.

Lemma occurrences_cons (x y : string) (xs : list string) :
  occurrences y (x :: xs) = (if String.eqb x y then 1 else 0) + occurrences y xs.
Proof.
  unfold occurrences. simpl. destruct (string_dec x y) as [->|Hne].
  - rewrite String.eqb_refl. lia.
  - destruct (String.eqb_spec x y); [contradiction | lia].
Qed.

Lemma occurrences_nonneg (y : string) (xs : list string) : 0 <= occurrences y xs.
Proof. unfold occurrences. lia. Qed.

Lemma occurrences_In (y : string) (xs : list string) : In y xs <-> 0 < occurrences y xs.
Proof.
  unfold occurrences. rewrite (count_occ_In string_dec). lia.
Qed.

(** The counts of a [Counter], from a starting dict. *)
Lemma counter_get (y : string) (xs : list string) (d : @Dict.t Z) :
  Dict.get 0 y (fold_left (fun counts x => Dict.update 0 x (fun n => n + 1) counts) xs d)
  = Dict.get 0 y d + occurrences y xs.
Proof.
  revert d. induction xs as [|x xs IH]; intros d; simpl.
  - unfold occurrences. simpl. lia.
  - rewrite IH, occurrences_cons. destruct (String.eqb_spec x y) as [->|Hne].
    + rewrite get_update_same. lia.
    + rewrite get_update_other by exact Hne. lia.
Qed.

Lemma get_of_entry {V : Type} (default : V) (k : string) (v : V) (d : Dict.t) :
  NoDup (Dict.keys d) -> In (k, v) d -> Dict.get default k d = v.
Proof.
  unfold Dict.get, Dict.keys. induction d as [|[k' v'] d IH]; simpl; intros Hnd Hin.
  - destruct Hin.
  - inversion Hnd as [|? ? Hnotin Hrest]; subst.
    destruct Hin as [Heq|Hin].
    + injection Heq as -> ->. rewrite String.eqb_refl. reflexivity.
    + destruct (String.eqb_spec k k') as [->|Hne].
      * exfalso. apply Hnotin. apply in_map_iff. exists (k', v). split; [reflexivity | exact Hin].
      * apply IH; assumption.
Qed.

Lemma counter_entries (xs : list string) :
  NoDup (Dict.keys (Counter xs)) /\
  (forall y, In y (Dict.keys (Counter xs)) <-> In y xs) /\
  (forall y n, In (y, n) (Counter xs) -> n = occurrences y xs).
Proof.
  unfold Counter.
  destruct (fold_update_keys 0 (fun x : string => x) (fun _ n => n + 1) xs Dict.empty
              (NoDup_nil _)) as [Hnd Hin].
  split; [exact Hnd |]. split.
  - intros y. rewrite Hin. split.
    + intros [[]|(x & Hx & <-)]. exact Hx.
    + intros Hy. right. exists y. split; [exact Hy | reflexivity].
  - intros y n Hentry.
    rewrite <- (get_of_entry 0 y n _ Hnd Hentry), counter_get. reflexivity.
Qed.

Lemma max_by_count_spec (best : string * Z) (items : list (string * Z)) :
  In (max_by_count best items) (best :: items) /\
  forall item, In item (best :: items) -> snd item <= snd (max_by_count best items).
Proof.
  revert best. induction items as [|item items IH]; intros best; simpl.
  - split; [left; reflexivity |]. intros item [<-|[]]. lia.
  - destruct (IH (if snd best <? snd item then item else best)) as [Hin Hmax].
    split.
    + destruct Hin as [Heq|Hin]; [| right; right; exact Hin].
      rewrite <- Heq. destruct (snd best <? snd item); [right; left | left]; reflexivity.
    + intros it [<-|[<-|Hit]].
      * specialize (Hmax _ (or_introl eq_refl)).
        destruct (Z.ltb_spec (snd best) (snd item)); simpl in Hmax; lia.
      * specialize (Hmax _ (or_introl eq_refl)).
        destruct (Z.ltb_spec (snd best) (snd item)); simpl in Hmax; lia.
      * apply Hmax. right. exact Hit.
Qed.

End ProfileFacts.

(** [most_used_language] is "N/A" when no public repository of the profile
    has a primary language; otherwise it is the primary language of one of
    them, and no language is the primary language of more public
    repositories. *)
Theorem most_used_language_is_a_most_frequent_one :
  forall (repos : list GeneratorPrev.ProfileRepository),
    (GeneratorPrev.public_languages repos = [] ->
     GeneratorPrev.most_used_language repos = "N/A") /\
    (GeneratorPrev.public_languages repos <> [] ->
     In (GeneratorPrev.most_used_language repos) (GeneratorPrev.public_languages repos) /\
     forall language,
       occurrences language (GeneratorPrev.public_languages repos)
       <= occurrences (GeneratorPrev.most_used_language repos)
            (GeneratorPrev.public_languages repos)).
Proof.
  intros repos. unfold GeneratorPrev.most_used_language.
  destruct (counter_entries (GeneratorPrev.public_languages repos)) as (Hnd & Hkeys & Hcount).
  split.
  - intros Hnone. rewrite Hnone. reflexivity.
  - intros Hsome.
    destruct (GeneratorPrev.Counter (GeneratorPrev.public_languages repos))
      as [|first rest] eqn:Hcounter.
    + exfalso. destruct (GeneratorPrev.public_languages repos) as [|l ls]; [contradiction |].
      apply (proj2 (Hkeys l) (or_introl eq_refl)).
    + destruct (max_by_count_spec first rest) as [Hin Hmax].
      set (best := GeneratorPrev.max_by_count first rest) in *.
      assert (Hbest : snd best = occurrences (fst best) (GeneratorPrev.public_languages repos)).
      { apply Hcount. destruct best. exact Hin. }
      split.
      * apply Hkeys. unfold Dict.keys. apply in_map. exact Hin.
      * intros language. rewrite <- Hbest.
        destruct (in_dec string_dec language (GeneratorPrev.public_languages repos))
          as [Hl|Hl].
        -- apply Hkeys in Hl. unfold Dict.keys in Hl. apply in_map_iff in Hl.
           destruct Hl as ([l n] & Heq & Hentry). simpl in Heq. subst l.
           rewrite <- (Hcount language n Hentry). apply (Hmax (language, n) Hentry).
        -- assert (Hzero : occurrences language (GeneratorPrev.public_languages repos) = 0).
           { pose proof (occurrences_nonneg language (GeneratorPrev.public_languages repos)).
             destruct (Z.eq_dec (occurrences language (GeneratorPrev.public_languages repos)) 0)
               as [Hz|Hnz]; [exact Hz |].
             exfalso. apply Hl. apply occurrences_In. lia. }
           rewrite Hzero, Hbest. apply occurrences_nonneg.
Qed.

(** Five repositories: Python, Rust, a private one in Python, Rust again
    and one without language. *)
Lemma most_used_language_example :
  GeneratorPrev.most_used_language five_repositories = "Rust" /\
  occurrences "Python" (GeneratorPrev.public_languages five_repositories)
  <= occurrences "Rust" (GeneratorPrev.public_languages five_repositories).
Proof.
  split; [reflexivity |].
  exact (proj2 (proj2 (most_used_language_is_a_most_frequent_one five_repositories)
                  ltac:(discriminate)) "Python").
Defined.

(** * The card of the neofetch pipeline *)

(** ** The uptime *)

(** The uptime that the card prints splits the age of the account, in
    days, into years of 365 days, months of 30 days and days: the three
    numbers recombine to the age, the days stay below 30, and the months
    reach 12 in the last five days of a year. *)
Theorem uptime_recombines_to_the_age :
  forall (age_days years months days : Z),
    Generator.uptime_parts age_days = (years, months, days) ->
    365 * years + 30 * months + days = age_days /\
    0 <= months <= 12 /\ 0 <= days < 30.
Proof.
  intros age_days years months days Hparts. unfold Generator.uptime_parts in Hparts.
  injection Hparts as <- <- <-.
  pose proof (Z.div_mod age_days 365 ltac:(lia)).
  pose proof (Z.mod_pos_bound age_days 365 ltac:(lia)).
  pose proof (Z.div_mod (age_days mod 365) 30 ltac:(lia)).
  pose proof (Z.mod_pos_bound (age_days mod 365) 30 ltac:(lia)).
  assert (0 <= age_days mod 365 / 30 <= 12).
  { split; [apply Z.div_pos; lia |].
    assert (age_days mod 365 / 30 < 13) by (apply Z.div_lt_upper_bound; lia). lia. }
  lia.
Qed.

(** An account of 364 days is 0 years, 12 months and 4 days old. *)
Lemma uptime_example :
  Generator.uptime_parts 364 = (0, 12, 4) /\ 365 * 0 + 30 * 12 + 4 = 364.
Proof.
  split; [reflexivity |].
  exact (proj1 (uptime_recombines_to_the_age 364 0 12 4 eq_refl)).
Defined.

(** ** The geometry of the card *)

Section CardFacts.
Import Generator.

Lemma content_counts {F : Type} (age_days : Z) (company : option pystr)
    (lp : list (string * @LanguagePercentage F)) :
  len_list (filter (fun line => negb (is_gap line)) (get_content_lines age_days company lp)) = 20 /\
  len_list (filter is_gap (get_content_lines age_days company lp)) = 4 /\
  fold_left place_line (get_content_lines age_days company lp) ([], 60)
  = (map (fun p => (fst p, 60 + 22 * snd p))
       (combine (map fst (filter (fun line => negb (is_gap line))
                            (get_content_lines age_days company lp)))
                gap_free_indices), 588).
Proof. repeat split. Qed.

Lemma place_details {F : Type} (xs : list (string * @LanguagePercentage F))
    (placed : list (string * Z)) (y : Z) :
  map snd (fst (fold_left place_detail xs (placed, y)))
  = map snd placed ++ map (fun i => y + 22 * i) (py_range 0 (len_list xs)).
Proof.
  revert placed y. induction xs as [|x xs IH]; intros placed y.
  - simpl. rewrite app_nil_r. reflexivity.
  - cbn [fold_left place_detail]. rewrite IH, map_app, <- app_assoc. f_equal.
    unfold len_list. cbn [List.length]. rewrite Nat2Z.inj_succ.
    rewrite (py_range_cons 0 (Z.succ (Z.of_nat (List.length xs)))) by lia.
    cbn [map app fst snd]. f_equal; [lia |].
    unfold py_range. rewrite !map_map.
    replace (Z.to_nat (Z.succ (Z.of_nat (List.length xs)) - (0 + 1)))
      with (Z.to_nat (Z.of_nat (List.length xs) - 0)) by lia.
    apply map_ext. intros i. lia.
Qed.

Lemma py_range_In (a b i : Z) : In i (py_range a b) -> a <= i < b.
Proof.
  unfold py_range. intros Hin. apply in_map_iff in Hin. destruct Hin as (n & <- & Hn).
  apply in_seq in Hn. lia.
Qed.

End CardFacts.

(** Whatever the user and the languages, the content has 20 lines and 4
    gaps: the card is [690 + 22 * min(6, languages)] pixels high, the
    height of the ASCII art never decides, the header stands at 35, the
    content lines at [60 + 22 * i] for their place [i] among the 24, the
    bar at 588 and the language details from 623 on, 22 apart.  All text
    stands at least 89 pixels above the lower edge. *)
Theorem card_geometry_is_fixed_by_the_number_of_languages :
  forall (F : Type) (age_days : Z) (company : option pystr)
         (language_percentages : list (string * @Generator.LanguagePercentage F)),
    let content := Generator.get_content_lines age_days company language_percentages in
    let g := Generator.card_geometry content language_percentages in
    let shown := Z.min 6 (len_list language_percentages) in
    Generator.svg_height content language_percentages = 690 + 22 * shown /\
    Generator.header_y g = 35 /\
    map snd (Generator.line_ys g) = map (fun i => 60 + 22 * i) gap_free_indices /\
    Generator.bar_y g = match language_percentages with [] => None | _ => Some 588 end /\
    map snd (Generator.detail_ys g) = map (fun i => 623 + 22 * i) (py_range 0 shown) /\
    Forall (fun y => 0 < y /\ y + 89 <= Generator.svg_height content language_percentages)
      (text_ys g).
Proof.
  intros F age_days company lp content g shown.
  destruct (content_counts age_days company lp) as (Htext & Hgaps & Hlines).
  fold content in Htext, Hgaps, Hlines.
  assert (Hshown : len_list (firstn 6 lp) = shown).
  { unfold shown, len_list. rewrite length_firstn. lia. }
  assert (Hheight : Generator.svg_height content lp = 690 + 22 * shown).
  { unfold Generator.svg_height. rewrite Htext, Hgaps.
    destruct lp; unfold shown, len_list in *; cbn [List.length] in *; lia. }
  assert (Hheader : Generator.header_y g = 35).
  { unfold g, Generator.card_geometry. change (35 + 25) with 60. rewrite Hlines.
    destruct lp; reflexivity. }
  assert (Hys : map snd (Generator.line_ys g) = map (fun i => 60 + 22 * i) gap_free_indices).
  { unfold g, Generator.card_geometry. change (35 + 25) with 60. rewrite Hlines.
    destruct lp; reflexivity. }
  assert (Hdetails : map snd (Generator.detail_ys g)
                     = map (fun i => 623 + 22 * i) (py_range 0 shown)).
  { unfold g, Generator.card_geometry. change (35 + 25) with 60. rewrite Hlines.
    destruct lp as [|item lp'] eqn:Hlp; [reflexivity |].
    rewrite <- Hlp in *. cbn [Generator.detail_ys]. rewrite place_details, Hshown.
    reflexivity. }
  split; [exact Hheight |]. split; [exact Hheader |]. split; [exact Hys |].
  split; [| split; [exact Hdetails |]].
  - unfold g, Generator.card_geometry. change (35 + 25) with 60. rewrite Hlines.
    destruct lp; reflexivity.
  - assert (H0 : 0 <= shown) by (unfold shown, len_list; lia).
    unfold text_ys. rewrite Hheader, Hys, Hdetails, Hheight.
    constructor; [lia |]. apply Forall_app. split.
    + apply Forall_forall. intros y Hy. apply in_map_iff in Hy.
      destruct Hy as (i & <- & Hi). unfold gap_free_indices in Hi. simpl in Hi.
      repeat (destruct Hi as [<-|Hi]; [lia |]). destruct Hi.
    + apply Forall_forall. intros y Hy. apply in_map_iff in Hy.
      destruct Hy as (i & <- & Hi). apply py_range_In in Hi. lia.
Qed.

(** ** The language bar *)

(** ** The language bar *)

Lemma round_half_even_near (q : Q) :
  (inject_Z (round_half_even q) - (1 # 2) <= q <= inject_Z (round_half_even q) + (1 # 2))%Q.
Proof.
  unfold round_half_even.
  pose proof (Qfloor_le q) as Hlow. pose proof (Qlt_floor q) as Hhigh.
  rewrite inject_Z_plus in Hhigh. change (inject_Z 1) with 1%Q in Hhigh.
  destruct (Qcompare_spec (q - inject_Z (Qfloor q)) (1 # 2)) as [He|Hl|Hg].
  - assert (Hle : (q - inject_Z (Qfloor q) <= 1 # 2)%Q) by (rewrite He; apply Qle_refl).
    assert (Hge : (1 # 2 <= q - inject_Z (Qfloor q))%Q) by (rewrite He; apply Qle_refl).
    clear He.
    destruct (Z.even (Qfloor q)); rewrite ?inject_Z_plus; change (inject_Z 1) with 1%Q;
      set (g := inject_Z (Qfloor q)) in *; clearbody g; split; lra.
  - set (g := inject_Z (Qfloor q)) in *; clearbody g. split; lra.
  - rewrite inject_Z_plus. change (inject_Z 1) with 1%Q.
    set (g := inject_Z (Qfloor q)) in *; clearbody g. split; lra.
Qed.

Lemma Q_tenths_near (q : Q) :
  (q - (1 # 20) <= inject_Z (Q_tenths q) / 10 <= q + (1 # 20))%Q.
Proof.
  unfold Q_tenths. pose proof (round_half_even_near (q * inject_Z 10)) as [Hl Hh].
  change (inject_Z 10) with 10%Q in *.
  set (t := inject_Z (round_half_even (q * 10))) in *. clearbody t.
  split.
  - apply Qle_shift_div_l; [reflexivity |]. lra.
  - apply Qle_shift_div_r; [reflexivity |]. lra.
Qed.

Lemma bar_fold (width : Z) (rows : list (string * @Generator.LanguagePercentage Q)) :
  forall (elements : list (@Generator.BarSegment Q)) (x : Q),
  exists new x',
    fold_left (Generator.bar_step width) rows (elements, x) = (elements ++ new, x') /\
    map Generator.seg_fill new
    = map (fun r => Generator.pct_color (snd r)) (filter (drawn width) rows) /\
    map Generator.seg_x new = starts x (map (share width) (filter (drawn width) rows)) /\
    map Generator.seg_width new
    = map (fun r => Q_tenths (share width r)) (filter (drawn width) rows).
Proof.
  induction rows as [|row rows IH]; intros elements x.
  - exists [], x. rewrite app_nil_r. repeat split; reflexivity.
  - cbn [fold_left filter]. unfold Generator.bar_step at 2.
    change (fltb (fmul (fdiv (Generator.percentage (snd row)) (of_int 100)) (of_int width))
              (of_int 1)) with (Q_ltb (share width row) 1).
    assert (Hd : drawn width row = negb (Q_ltb (share width row) 1)) by reflexivity.
    rewrite Hd. clear Hd.
    destruct (Q_ltb (share width row) 1); cbn [negb].
    + apply IH.
    + destruct (IH (elements ++ [{| Generator.seg_x := x;
                                    Generator.seg_width := Q_tenths (share width row);
                                    Generator.seg_fill := Generator.pct_color (snd row) |}])
                  (x + share width row)%Q) as (new & x' & Hrun & Hfill & Hx & Hw).
      eexists (_ :: new), x'. split; [rewrite <- app_assoc in Hrun; exact Hrun |].
      cbn [map starts Generator.seg_fill Generator.seg_x Generator.seg_width].
      rewrite Hfill, Hx, Hw. repeat split; reflexivity.
Qed.

Lemma shares_of_the_drawn (width : Z) (rows : list (string * @Generator.LanguagePercentage Q)) :
  0 <= width ->
  Forall (fun r => 0 <= Generator.percentage (snd r))%Q rows ->
  (exact_sum (map (share width) (filter (drawn width) rows))
   <= exact_sum (map (fun r => Generator.percentage (snd r)) rows) / 100 * inject_Z width)%Q.
Proof.
  intros Hwidth. pose proof (inject_Z_nonneg width Hwidth) as Hw.
  induction 1 as [|row rows Hrow Hrows IH]; cbn [filter map exact_sum fold_right].
  - unfold Qdiv. rewrite !Qmult_0_l. apply Qle_refl.
  - fold (exact_sum (map (fun r : string * Generator.LanguagePercentage =>
                            Generator.percentage (snd r)) rows)).
    assert (Hshare : (0 <= share width row)%Q).
    { unfold share. apply Qmult_le_0_compat; [| exact Hw].
      apply Qle_shift_div_l; [reflexivity |]. rewrite Qmult_0_l. exact Hrow. }
    assert (Hsplit : ((Generator.percentage (snd row)
                       + exact_sum (map (fun r : string * Generator.LanguagePercentage =>
                                           Generator.percentage (snd r)) rows))
                      / 100 * inject_Z width
                      == share width row
                         + exact_sum (map (fun r : string * Generator.LanguagePercentage =>
                                             Generator.percentage (snd r)) rows)
                           / 100 * inject_Z width)%Q).
    { unfold share. change (inject_Z 100) with 100%Q. unfold Qdiv. ring. }
    rewrite Hsplit.
    destruct (drawn width row); cbn [map exact_sum fold_right].
    + apply Qplus_le_compat; [apply Qle_refl | exact IH].
    + fold (exact_sum (map (share width) (filter (drawn width) rows))).
      apply Qle_trans with (1 := IH). rewrite <- Qplus_0_l at 1.
      apply Qplus_le_compat; [exact Hshare | apply Qle_refl].
Qed.

(** In exact arithmetic, for a table whose percentages are not negative
    and add up to at most 100: the bar has one segment for each language
    whose share of the width is at least 1, in the order of the table and
    with the language's colour, and none for the others.  The segments
    start at the sums of the shares before them, from 0 on, so that by their
    shares they lie end to end and fill at most the width of the bar.  The
    width that a segment prints is its share rounded to one decimal, at
    most 0.05 off: printed, neighbours can overlap or gape by as much, and
    the last segment can end up to 0.05 beyond the bar. *)
Theorem language_bar_follows_the_shares :
  forall (rows : list (string * @Generator.LanguagePercentage Q)) (width : Z),
    0 <= width ->
    Forall (fun r => 0 <= Generator.percentage (snd r))%Q rows ->
    (exact_sum (map (fun r => Generator.percentage (snd r)) rows) <= 100)%Q ->
    map Generator.seg_fill (Generator.generate_language_bar rows width)
    = map (fun r => Generator.pct_color (snd r)) (filter (drawn width) rows) /\
    map Generator.seg_x (Generator.generate_language_bar rows width)
    = starts 0 (map (share width) (filter (drawn width) rows)) /\
    map Generator.seg_width (Generator.generate_language_bar rows width)
    = map (fun r => Q_tenths (share width r)) (filter (drawn width) rows) /\
    Forall (fun r =>
              (1 <= share width r)%Q /\
              (share width r - (1 # 20) <= inject_Z (Q_tenths (share width r)) / 10
               <= share width r + (1 # 20))%Q)
      (filter (drawn width) rows) /\
    (exact_sum (map (share width) (filter (drawn width) rows)) <= inject_Z width)%Q.
Proof.
  intros rows width Hwidth Hrows Hsum. unfold Generator.generate_language_bar.
  destruct (bar_fold width rows [] (of_int 0)) as (new & x' & Hrun & Hfill & Hx & Hw).
  rewrite Hrun. cbn [fst app].
  split; [exact Hfill |]. split; [exact Hx |]. split; [exact Hw |]. split.
  - apply Forall_forall. intros r Hr. apply filter_In in Hr. destruct Hr as [_ Hdrawn].
    split; [| apply Q_tenths_near].
    unfold drawn in Hdrawn. apply negb_true_iff in Hdrawn. apply Q_ltb_false. exact Hdrawn.
  - apply Qle_trans with (1 := shares_of_the_drawn width rows Hwidth Hrows).
    setoid_replace (inject_Z width) with (100 / 100 * inject_Z width)%Q at 2 by field.
    apply Qmult_le_compat_r; [| apply inject_Z_nonneg; exact Hwidth].
    apply Qmult_le_compat_r; [exact Hsum | discriminate].
Qed.

Lemma three_thirds_nonnegative :
  Forall (fun r => 0 <= Generator.percentage (snd r))%Q three_thirds.
Proof. repeat constructor; discriminate. Qed.

Lemma three_thirds_add_up :
  (exact_sum (map (fun r => Generator.percentage (snd r)) three_thirds) <= 100)%Q.
Proof. discriminate. Qed.

(** Three languages with a third each in a bar of width 500: the segments
    start at 0, 500/3 and 1000/3 and each prints the width 166.7, 500.1 in
    all.  For 99.9 and 0.1 percent there is one segment, of width 499.5. *)
Lemma language_bar_example :
  0 <= 500 /\
  Forall (fun r => 0 <= Generator.percentage (snd r))%Q three_thirds /\
  (exact_sum (map (fun r => Generator.percentage (snd r)) three_thirds) <= 100)%Q /\
  map (fun s => (Generator.seg_x s, Generator.seg_width s))
    (Generator.generate_language_bar three_thirds 500)
  = [(0%Q, 1667); ((0 + (100 # 3) / inject_Z 100 * inject_Z 500)%Q, 1667);
     ((0 + (100 # 3) / inject_Z 100 * inject_Z 500
       + (100 # 3) / inject_Z 100 * inject_Z 500)%Q, 1667)] /\
  map Generator.seg_width (Generator.generate_language_bar three_thirds 500)
  = map (fun r => Q_tenths (share 500 r)) (filter (drawn 500) three_thirds) /\
  map Generator.seg_width (Generator.generate_language_bar two_rows 500) = [4995].
Proof.
  split; [discriminate |].
  split; [exact three_thirds_nonnegative |].
  split; [exact three_thirds_add_up |].
  split; [reflexivity |].
  split; [| reflexivity].
  exact (proj1 (proj2 (proj2 (language_bar_follows_the_shares three_thirds 500
                                ltac:(discriminate) three_thirds_nonnegative
                                three_thirds_add_up)))).
Defined.

(** * The frame and the chart of the terminal pipeline *)

Lemma len_slice_le (s : pystr) (n : Z) : 0 <= n -> len (slice_to s n) = Z.min n (len s).
Proof.
  intros Hn. unfold slice_to, len. destruct (Z.ltb_spec n 0); [lia |].
  rewrite length_firstn. lia.
Qed.

Lemma len_ljust (s : pystr) (width : Z) :
  len (GeneratorPrev.ljust s width) = Z.max (len s) width.
Proof.
  unfold GeneratorPrev.ljust. rewrite len_app. change (str " ") with [32%N].
  rewrite len_times_char. lia.
Qed.

Lemma len_boxed (line : pystr) : len (GeneratorPrev.boxed line) = Z.max (len line) 65 + 1.
Proof. unfold GeneratorPrev.boxed. rewrite len_app, len_ljust. reflexivity. Qed.

Ltac closed_lengths :=
  repeat match goal with
         | |- context [len ?s] =>
             lazymatch s with
             | GeneratorPrev.box_vertical => idtac
             | str _ => idtac
             | [_] => idtac
             | [] => idtac
             end;
             let n := eval vm_compute in (len s) in change (len s) with n
         end.

(** In [generate_terminal_svg] the three frame lines of the
    card are 67 code points long, while a line closed by [ljust(65)] and a bar is
    66 code points long, or longer when its text has more than 65: the bio and the
    location lines are always 66, and the user line is
    [max 66 (len name + len login + len join_date + 20)], so the right border of
    the bio and location lines stands one column left of the frame's. *)
Theorem data_lines_are_shorter_than_the_frame :
  (forall line, len (GeneratorPrev.boxed line) = Z.max (len line) 65 + 1) /\
  (forall bio, len (GeneratorPrev.bio_line bio) = 66) /\
  (forall location, len (GeneratorPrev.location_line location) = 66) /\
  (forall name login join_date,
     len (GeneratorPrev.user_line name login join_date)
     = Z.max 66 (len name + len login + len join_date + 20)) /\
  len GeneratorPrev.top_border = 67 /\
  len GeneratorPrev.blank_line = 67 /\
  len GeneratorPrev.bottom_border = 67.
Proof.
  split; [exact len_boxed |]. split; [| split; [| split]].
  - intros bio. unfold GeneratorPrev.bio_line. rewrite len_boxed, !len_app.
    rewrite len_slice_le by lia. pose proof (len_nonneg bio).
    destruct (Z.gtb_spec (len bio) 50); closed_lengths; lia.
  - intros location. unfold GeneratorPrev.location_line. rewrite len_boxed, !len_app.
    rewrite len_slice_le by lia. pose proof (len_nonneg location). closed_lengths. lia.
  - intros name login join_date. unfold GeneratorPrev.user_line.
    rewrite len_boxed, !len_app.
    pose proof (len_nonneg name). pose proof (len_nonneg login).
    pose proof (len_nonneg join_date). closed_lengths. lia.
  - repeat split.
Qed.

Lemma max_float_spec (best : Q) (xs : list Q) :
  In (GeneratorPrev.max_float best xs) (best :: xs) /\
  forall x, In x (best :: xs) -> (x <= GeneratorPrev.max_float best xs)%Q.
Proof.
  revert best. induction xs as [|x xs IH]; intros best; simpl.
  - split; [left; reflexivity |]. intros y [<-|[]]. apply Qle_refl.
  - destruct (IH (if Q_ltb best x then x else best)) as [Hin Hmax].
    split.
    + destruct Hin as [Heq|Hin]; [| right; right; exact Hin].
      rewrite <- Heq. destruct (Q_ltb best x); [right; left | left]; reflexivity.
    + intros y [Hy|[Hy|Hy]].
      * subst y. specialize (Hmax _ (or_introl eq_refl)).
        destruct (Q_ltb best x) eqn:Hlt; [| exact Hmax].
        apply Q_ltb_true in Hlt.
        apply Qle_trans with x; [apply Qlt_le_weak; exact Hlt | exact Hmax].
      * subst y. specialize (Hmax _ (or_introl eq_refl)).
        destruct (Q_ltb best x) eqn:Hlt; [exact Hmax |].
        apply Q_ltb_false in Hlt. apply Qle_trans with best; assumption.
      * apply Hmax. right. exact Hy.
Qed.

Lemma is_zero_exact (x : Q) : @GeneratorPrev.is_zero Q exact x = true <-> (x == 0)%Q.
Proof.
  unfold GeneratorPrev.is_zero. simpl. change (inject_Z 0) with 0%Q.
  rewrite andb_true_iff, !negb_true_iff.
  split.
  - intros [H1 H2]. apply Q_ltb_false in H1. apply Q_ltb_false in H2.
    apply Qle_antisym; assumption.
  - intros Hx. unfold Q_ltb. rewrite !negb_false_iff.
    split; apply Qle_bool_iff; rewrite Hx; apply Qle_refl.
Qed.

Lemma Q_to_int_bounds (q : Q) (n : Z) :
  (0 <= q)%Q -> (q <= inject_Z n)%Q -> 0 <= Q_to_int q <= n.
Proof.
  unfold Q_to_int, Qle. destruct q as [a b]. simpl. intros Ha Hb.
  rewrite Z.mul_1_r in Ha, Hb.
  rewrite Z.quot_div_nonneg by lia. split; [apply Z.div_pos; lia |].
  apply Z.div_le_upper_bound; lia.
Qed.

Lemma len_cells (k : Z) : 0 <= k <= 40 -> len (cells k) = 40.
Proof.
  intros Hk. unfold cells, GeneratorPrev.full_block, GeneratorPrev.light_shade.
  rewrite len_app, !len_times_char. lia.
Qed.

Lemma distribution_bar_spec (max_weighted : Q) (stats : @GeneratorPrev.FinalStat Q) :
  (0 < max_weighted)%Q ->
  (0 <= GeneratorPrev.final_weighted_commits stats)%Q ->
  (GeneratorPrev.final_weighted_commits stats <= max_weighted)%Q ->
  exists k,
    GeneratorPrev.distribution_bar max_weighted stats = inr (cells k) /\ 0 <= k <= 40.
Proof.
  intros Hmax Hpos Hle. unfold GeneratorPrev.distribution_bar.
  destruct (GeneratorPrev.is_zero max_weighted) eqn:Hz.
  { apply is_zero_exact in Hz. rewrite Hz in Hmax. discriminate. }
  cbv zeta. set (n := to_int _).
  set (q := (GeneratorPrev.final_weighted_commits stats / max_weighted * inject_Z 40)%Q).
  assert (Hn : n = Q_to_int q) by reflexivity.
  assert (Hratio : (0 <= GeneratorPrev.final_weighted_commits stats / max_weighted)%Q).
  { apply Qle_shift_div_l; [exact Hmax |]. rewrite Qmult_0_l. exact Hpos. }
  assert (Hratio1 : (GeneratorPrev.final_weighted_commits stats / max_weighted <= 1)%Q).
  { apply Qle_shift_div_r; [exact Hmax |]. rewrite Qmult_1_l. exact Hle. }
  assert (Hq0 : (0 <= q)%Q).
  { unfold q. apply Qmult_le_0_compat; [exact Hratio | discriminate]. }
  assert (Hq40 : (q <= inject_Z 40)%Q).
  { unfold q. rewrite <- (Qmult_1_l (inject_Z 40)) at 2.
    apply Qmult_le_compat_r; [exact Hratio1 | discriminate]. }
  destruct (Q_to_int_bounds q 40 Hq0 Hq40) as [H0 H40]. rewrite <- Hn in H0, H40.
  exists n. split; [reflexivity | lia].
Qed.

(** The chart of [print_analysis]: in exact arithmetic, when no language
    of the table has negative weighted commits and one has positive ones, the
    distribution chart is drawn for the first ten languages in the order of the
    table, and every bar is [k] full blocks followed by [40 - k] light shades with
    [0 <= k <= 40], so 40 cells long. *)
Theorem distribution_bars_have_40_cells :
  forall (languages : list (string * @GeneratorPrev.FinalStat Q)),
    Forall (fun r => 0 <= GeneratorPrev.final_weighted_commits (snd r))%Q languages ->
    Exists (fun r => 0 < GeneratorPrev.final_weighted_commits (snd r))%Q languages ->
    exists chart,
      GeneratorPrev.distribution_chart languages = inr chart /\
      map fst chart = map fst (firstn 10 languages) /\
      Forall (fun row => len (snd row) = 40 /\
                         exists k, 0 <= k <= 40 /\ snd row = cells k) chart.
Proof.
  intros languages Hnonneg Hsome. unfold GeneratorPrev.distribution_chart.
  destruct languages as [|first rest]; [inversion Hsome |].
  cbn [map]. set (ws := map (fun item : string * @GeneratorPrev.FinalStat Q =>
                              GeneratorPrev.final_weighted_commits (snd item)) rest).
  destruct (max_float_spec (GeneratorPrev.final_weighted_commits (snd first)) ws)
    as [_ Hmax].
  set (m := GeneratorPrev.max_float (GeneratorPrev.final_weighted_commits (snd first)) ws)
    in *.
  assert (Hall : forall r, In r (first :: rest) ->
             (GeneratorPrev.final_weighted_commits (snd r) <= m)%Q).
  { intros r [<-|Hr]; apply Hmax; [left; reflexivity |].
    right. unfold ws. apply in_map_iff. exists r. split; [reflexivity | exact Hr]. }
  assert (Hpos : (0 < m)%Q).
  { apply Exists_exists in Hsome. destruct Hsome as (r & Hr & Hrpos).
    apply Qlt_le_trans with (1 := Hrpos). apply Hall. exact Hr. }
  assert (Hrows : forall (rows : list (string * @GeneratorPrev.FinalStat Q)) chart,
             incl rows (first :: rest) ->
             Forall (fun row => len (snd row) = 40 /\
                                exists k, 0 <= k <= 40 /\ snd row = cells k) chart ->
             exists chart',
               for_each (fun chart item =>
                           bar <- GeneratorPrev.distribution_bar m (snd item) ;;
                           ret (chart ++ [(fst item, bar)])) rows chart = inr chart' /\
               map fst chart' = map fst chart ++ map fst rows /\
               Forall (fun row => len (snd row) = 40 /\
                                  exists k, 0 <= k <= 40 /\ snd row = cells k) chart').
  { induction rows as [|row rows IH]; intros chart Hincl Hchart.
    - exists chart. split; [reflexivity |].
      split; [rewrite app_nil_r; reflexivity | exact Hchart].
    - assert (Hrow : In row (first :: rest)) by (apply Hincl; left; reflexivity).
      rewrite Forall_forall in Hnonneg.
      destruct (distribution_bar_spec m (snd row) Hpos (Hnonneg row Hrow) (Hall row Hrow))
        as (k & Hbar & Hk).
      cbn [for_each]. rewrite Hbar. simpl.
      destruct (IH (chart ++ [(fst row, cells k)])) as (chart' & Hrun & Hkeys & Hlens).
      + intros r Hr. apply Hincl. right. exact Hr.
      + apply Forall_app. split; [exact Hchart |]. constructor; [| constructor].
        split; [apply len_cells; exact Hk | exists k; split; [exact Hk | reflexivity]].
      + exists chart'. split; [exact Hrun |]. split; [| exact Hlens].
        rewrite Hkeys, map_app, <- app_assoc. reflexivity. }
  destruct (Hrows (firstn 10 (first :: rest)) []) as (chart & Hrun & Hkeys & Hlens).
  - intros r Hr. rewrite <- (firstn_skipn 10 (first :: rest)). apply in_or_app.
    left. exact Hr.
  - constructor.
  - exists chart. split; [exact Hrun |]. split; [exact Hkeys | exact Hlens].
Qed.

Lemma charted_rows_nonnegative :
  Forall (fun r => 0 <= GeneratorPrev.final_weighted_commits (snd r))%Q charted_rows.
Proof. repeat constructor; discriminate. Qed.

Lemma charted_rows_positive :
  Exists (fun r => 0 < GeneratorPrev.final_weighted_commits (snd r))%Q charted_rows.
Proof. apply Exists_cons_hd. reflexivity. Qed.

Lemma distribution_bars_example :
  Forall (fun r => 0 <= GeneratorPrev.final_weighted_commits (snd r))%Q charted_rows /\
  Exists (fun r => 0 < GeneratorPrev.final_weighted_commits (snd r))%Q charted_rows /\
  GeneratorPrev.distribution_chart charted_rows
  = inr [("Python"%string, cells 40); ("Rust"%string, cells 13); ("Shell"%string, cells 0)] /\
  exists chart,
    GeneratorPrev.distribution_chart charted_rows = inr chart /\
    map fst chart = map fst (firstn 10 charted_rows) /\
    Forall (fun row => len (snd row) = 40 /\
                       exists k, 0 <= k <= 40 /\ snd row = cells k) chart.
Proof.
  split; [exact charted_rows_nonnegative |].
  split; [exact charted_rows_positive |].
  split; [reflexivity |].
  exact (distribution_bars_have_40_cells charted_rows
           charted_rows_nonnegative charted_rows_positive).
Defined.

Lemma chart_of_a_weightless_table :
  forall (languages : list (string * @GeneratorPrev.FinalStat Q)),
    languages <> [] ->
    Forall (fun r => GeneratorPrev.final_weighted_commits (snd r) == 0)%Q languages ->
    GeneratorPrev.distribution_chart languages = inl ZeroDivisionError.
Proof.
  intros languages Hne Hzero. unfold GeneratorPrev.distribution_chart.
  destruct languages as [|first rest]; [contradiction |].
  cbn [map]. set (ws := map (fun item : string * @GeneratorPrev.FinalStat Q =>
                              GeneratorPrev.final_weighted_commits (snd item)) rest).
  destruct (max_float_spec (GeneratorPrev.final_weighted_commits (snd first)) ws)
    as [Hin _].
  set (m := GeneratorPrev.max_float (GeneratorPrev.final_weighted_commits (snd first)) ws)
    in *.
  assert (Hm : (m == 0)%Q).
  { rewrite Forall_forall in Hzero. destruct Hin as [Heq|Hin'].
    - rewrite <- Heq. apply (Hzero first). left. reflexivity.
    - unfold ws in Hin'. apply in_map_iff in Hin'. destruct Hin' as (r & Hr & Hin').
      rewrite <- Hr. apply (Hzero r). right. exact Hin'. }
  cbn [firstn for_each]. unfold GeneratorPrev.distribution_bar.
  rewrite (proj2 (is_zero_exact m) Hm). reflexivity.
Qed.

Lemma update_not_empty {V : Type} (default : V) (k : string) (f : V -> V) (d : @Dict.t V) :
  Dict.update default k f d <> [].
Proof.
  destruct d as [|[k' v] d]; simpl; [discriminate |].
  destruct (String.eqb k k'); discriminate.
Qed.

Lemma attribute_primary_weightless (rc : GeneratorPrev.RepoContribution)
    (stats : @GeneratorPrev.LanguageStats Q) :
  weightless stats ->
  weightless (GeneratorPrev.attribute_primary rc stats) /\
  (stats <> [] \/ GeneratorPrev.primaryLanguage (GeneratorPrev.repository rc) <> None ->
   GeneratorPrev.attribute_primary rc stats <> []).
Proof.
  intros Hw. unfold GeneratorPrev.attribute_primary.
  destruct (GeneratorPrev.primaryLanguage (GeneratorPrev.repository rc)) as [pl|].
  - split; [| intros _; apply update_not_empty].
    apply update_Forall; [exact Hw | intros v Hv; exact Hv | reflexivity].
  - split; [exact Hw |]. intros [H|H]; [exact H | contradiction].
Qed.

Lemma lang_share_of_nothing (total : Z) : (@lang_share Q exact 0 total == 0)%Q.
Proof. unfold lang_share. destruct (total >? 0); reflexivity. Qed.

Lemma attribute_edges_weightless (rc : GeneratorPrev.RepoContribution)
    (es : list GeneratorPrev.LanguageEdge) :
  Forall (fun e => GeneratorPrev.size e = 0) es ->
  forall stats : @GeneratorPrev.LanguageStats Q,
    weightless stats ->
    exists stats',
      for_each (GeneratorPrev.attribute_edge rc) es stats = inr stats' /\
      weightless stats' /\
      (stats <> [] \/ es <> [] -> stats' <> []).
Proof.
  induction 1 as [|e es He Hes IH]; intros stats Hw.
  - exists stats. split; [reflexivity |]. split; [exact Hw |].
    intros [H|H]; [exact H | contradiction].
  - cbn [for_each]. rewrite attribute_edge_ok.
    destruct (IH (Dict.update GeneratorPrev.default_stat
                    (GeneratorPrev.name (GeneratorPrev.node e)) (edge_update rc e) stats))
      as (stats' & Hrun & Hw' & Hne).
    + assert (Hstep : forall s : @GeneratorPrev.LanguageStat Q,
                 (GeneratorPrev.weighted_commits s == 0)%Q ->
                 (GeneratorPrev.weighted_commits (edge_update rc e s) == 0)%Q).
      { intros s Hs. unfold edge_update. cbn [GeneratorPrev.weighted_commits].
        rewrite He. simpl. rewrite Hs, lang_share_of_nothing. ring. }
      apply update_Forall; [exact Hw | intros v Hv; exact (Hstep v Hv) |].
      apply Hstep. reflexivity.
    + exists stats'. split; [exact Hrun |]. split; [exact Hw' |].
      intros _. apply Hne. left. apply update_not_empty.
Qed.

Lemma aggregate_weightless (include_forks include_private : bool) (min_commits : Z)
    (rcs : list GeneratorPrev.RepoContribution) :
  Forall (without_sized_language include_forks include_private min_commits) rcs ->
  forall t0 t : @GeneratorPrev.Totals Q,
    weightless (GeneratorPrev.language_stats t0) ->
    for_each (GeneratorPrev.process_repo_contribution include_forks include_private
                min_commits) rcs t0 = inr t ->
    weightless (GeneratorPrev.language_stats t) /\
    (GeneratorPrev.language_stats t0 <> [] \/
     Exists (names_a_language include_forks include_private min_commits) rcs ->
     GeneratorPrev.language_stats t <> []).
Proof.
  induction 1 as [|rc rcs Hrc Hrcs IH]; intros t0 t Hw Hrun.
  - cbn [for_each] in Hrun. injection Hrun as <-. split; [exact Hw |].
    intros [H|H]; [exact H | inversion H].
  - cbn [for_each] in Hrun.
    destruct (GeneratorPrev.filtered_out include_forks include_private min_commits rc)
      eqn:Hf.
    + rewrite (process_repo_contribution_filtered _ _ _ t0 rc Hf) in Hrun.
      destruct (IH t0 t Hw Hrun) as [Hw' Hne]. split; [exact Hw' |].
      intros [H|H]; [apply Hne; left; exact H |].
      inversion H as [? ? [Hs _]|? ? Hrest]; subst.
      * unfold survives in Hs. rewrite Hf in Hs. discriminate.
      * apply Hne. right. exact Hrest.
    + destruct (process_repo_contribution_kept include_forks include_private min_commits
                  t0 rc Hf) as (stats' & Hedges & Hstep).
      rewrite Hstep in Hrun.
      assert (Hs : survives include_forks include_private min_commits rc = true)
        by (unfold survives; rewrite Hf; reflexivity).
      destruct (attribute_primary_weightless rc (GeneratorPrev.language_stats t0) Hw)
        as [Hwp Hnp].
      destruct (attribute_edges_weightless rc _ (Hrc Hs) _ Hwp)
        as (stats'' & Hedges' & Hw'' & Hne'').
      unfold GeneratorPrev.attribute_weighted in Hedges. rewrite Hedges in Hedges'.
      injection Hedges' as <-.
      simpl in Hrun. apply IH in Hrun; [| exact Hw''].
      destruct Hrun as [Hw' Hne]. cbn [GeneratorPrev.language_stats] in Hne.
      split; [exact Hw' |].
      intros [H|H].
      * apply Hne. left. apply Hne''. left. apply Hnp. left. exact H.
      * inversion H as [? ? [_ [Hp|He]]|? ? Hrest]; subst.
        -- apply Hne. left. apply Hne''. left. apply Hnp. right. exact Hp.
        -- apply Hne. left. apply Hne''. right. exact He.
        -- apply Hne. right. exact Hrest.
Qed.

(** When no repository that passes the filters of [analyze_languages] has a
    language edge with bytes, and one of them names a language (a primary language,
    which is credited with commits but with no weighted commits, or an edge), the
    analysis succeeds, in exact arithmetic, with a table that is not empty and whose
    weighted commits are all 0: the chart of [print_analysis] divides by their
    maximum and the report stops with ZeroDivisionError. *)
Theorem run_without_sized_languages_breaks_the_chart :
  forall (u : GeneratorPrev.UserContributions) (cc : GeneratorPrev.ContributionsCollection)
         (include_forks include_private : bool) (min_commits : Z),
    Forall (without_sized_language include_forks include_private min_commits)
      (GeneratorPrev.commitContributionsByRepository cc) ->
    Exists (names_a_language include_forks include_private min_commits)
      (GeneratorPrev.commitContributionsByRepository cc) ->
    exists a,
      GeneratorPrev.analyze_languages (F := Q) (GeneratorPrev.Aggregated (Some u) cc)
        include_forks include_private min_commits = inr a /\
      GeneratorPrev.analysis_languages a <> [] /\
      Forall (fun row => GeneratorPrev.final_weighted_commits (snd row) == 0)%Q
        (GeneratorPrev.analysis_languages a) /\
      GeneratorPrev.distribution_chart (GeneratorPrev.analysis_languages a)
      = inl ZeroDivisionError.
Proof.
  intros u cc include_forks include_private min_commits Hunsized Hnamed.
  destruct (analyze_languages_ok (F := Q) u cc include_forks include_private min_commits)
    as (t & a & Hagg & Hrun & _ & Htable).
  destruct (aggregate_weightless include_forks include_private min_commits _ Hunsized
              GeneratorPrev.initial_totals t) as [Hw Hne];
    [constructor | exact Hagg |].
  pose proof (sorted_reverse_Permutation GeneratorPrev.by_weighted_commits (final_table t))
    as Hperm.
  rewrite <- Htable in Hperm.
  assert (Hrows : GeneratorPrev.analysis_languages a <> []).
  { intros Hnil. rewrite Hnil in Hperm. apply Permutation_nil in Hperm.
    unfold final_table in Hperm. apply map_eq_nil in Hperm.
    apply Hne; [right; exact Hnamed | exact Hperm]. }
  assert (Hzero : Forall (fun row => GeneratorPrev.final_weighted_commits (snd row) == 0)%Q
                    (GeneratorPrev.analysis_languages a)).
  { apply (Permutation_Forall (Permutation_sym Hperm)).
    unfold final_table. apply Forall_map. exact Hw. }
  exists a. split; [exact Hrun |]. split; [exact Hrows |]. split; [exact Hzero |].
  apply chart_of_a_weightless_table; assumption.
Qed.

Lemma unsized_repositories_unsized :
  Forall (without_sized_language true true 0)
    (GeneratorPrev.commitContributionsByRepository unsized_repositories).
Proof. repeat constructor. Qed.

Lemma unsized_repositories_named :
  Exists (names_a_language true true 0)
    (GeneratorPrev.commitContributionsByRepository unsized_repositories).
Proof. apply Exists_cons_hd. split; [reflexivity | left; discriminate]. Qed.

(** Three commits to a repository in TeX without breakdown and two to one whose
    Python has no bytes: the table lists TeX and Python, both with weight 0. *)
Lemma run_without_sized_languages_example :
  Forall (without_sized_language true true 0)
    (GeneratorPrev.commitContributionsByRepository unsized_repositories) /\
  Exists (names_a_language true true 0)
    (GeneratorPrev.commitContributionsByRepository unsized_repositories) /\
  exists a,
    GeneratorPrev.analyze_languages (F := Q)
      (GeneratorPrev.Aggregated (Some (terminal_user [])) unsized_repositories)
      true true 0 = inr a /\
    GeneratorPrev.analysis_languages a <> [] /\
    Forall (fun row => GeneratorPrev.final_weighted_commits (snd row) == 0)%Q
      (GeneratorPrev.analysis_languages a) /\
    GeneratorPrev.distribution_chart (GeneratorPrev.analysis_languages a)
    = inl ZeroDivisionError.
Proof.
  split; [exact unsized_repositories_unsized |].
  split; [exact unsized_repositories_named |].
  exact (run_without_sized_languages_breaks_the_chart (terminal_user [])
           unsized_repositories true true 0
           unsized_repositories_unsized unsized_repositories_named).
Defined.



Section HeaderFacts.
Variable category : N -> string.
Variable east_asian_width : N -> string.

(** * The header of the neofetch card *)

Lemma visual_length_from (s : pystr) (n : Z) :
  fold_left (fun visual_length char => visual_length + Generator.char_width east_asian_width char) s n
  = n + Generator.visual_length east_asian_width s.
Proof.
  unfold Generator.visual_length. revert n. induction s as [|c s IH]; intros n; simpl; [lia |].
  rewrite IH, (IH (Generator.char_width east_asian_width c)). lia.
Qed.

Lemma visual_length_cons (c : N) (s : pystr) :
  Generator.visual_length east_asian_width (c :: s)
  = Generator.char_width east_asian_width c + Generator.visual_length east_asian_width s.
Proof. unfold Generator.visual_length at 1. simpl. apply visual_length_from. Qed.

Lemma visual_length_app (a b : pystr) :
  Generator.visual_length east_asian_width (a ++ b)
  = Generator.visual_length east_asian_width a + Generator.visual_length east_asian_width b.
Proof.
  induction a as [|c a IH]; [reflexivity |].
  rewrite <- app_comm_cons, !visual_length_cons, IH. lia.
Qed.

Lemma truncate_name_spec (available : Z) (rest : pystr) :
  forall (acc : pystr) (cur : Z),
    cur + 3 <= available ->
    available < cur + Generator.visual_length east_asian_width rest ->
    exists shown hidden,
      rest = shown ++ hidden /\
      Generator.truncate_name east_asian_width available rest acc cur
      = (acc ++ shown ++ ellipsis, cur + Generator.visual_length east_asian_width shown) /\
      cur + Generator.visual_length east_asian_width shown + 3 <= available.
Proof.
  induction rest as [|c rest IH]; intros acc cur Hroom Hlong.
  - change (Generator.visual_length east_asian_width []) with 0 in Hlong. lia.
  - cbn [Generator.truncate_name]. cbv zeta.
    destruct (Z.gtb_spec (cur + Generator.char_width east_asian_width c + 3) available) as [Hgt|Hle].
    + exists [], (c :: rest). split; [reflexivity |]. split; [| exact (eq_ind _ (fun z => z + 3 <= available) Hroom _ (eq_sym (Z.add_0_r cur)))].
      change (Generator.visual_length east_asian_width []) with 0. rewrite Z.add_0_r. reflexivity.
    + rewrite visual_length_cons in Hlong.
      destruct (IH (acc ++ [c]) (cur + Generator.char_width east_asian_width c))
        as (shown & hidden & Hsplit & Hrun & Hfit); [lia | lia |].
      exists (c :: shown), hidden. split; [rewrite Hsplit; reflexivity |].
      rewrite visual_length_cons, Hrun, <- app_assoc. split; [f_equal; lia | lia].
Qed.

End HeaderFacts.

Lemma startswith_app (s t : pystr) : startswith (s ++ t) s = true.
Proof.
  induction s as [|c s IH]; [destruct t; reflexivity |].
  simpl. rewrite N.eqb_refl. exact IH.
Qed.

Lemma endswith_app (s t : pystr) : Generator.endswith (s ++ t) t = true.
Proof. unfold Generator.endswith. rewrite rev_app_distr. apply startswith_app. Qed.

Lemma contains_app_r (s t : pystr) : Generator.contains (s ++ t) t = true.
Proof.
  induction s as [|c s IH].
  - cbn [app]. pose proof (startswith_app t []) as Hself. rewrite app_nil_r in Hself.
    destruct t as [|c t]; [reflexivity |]. cbn [Generator.contains].
    rewrite Hself. reflexivity.
  - cbn [app Generator.contains]. rewrite IH. apply orb_true_r.
Qed.

Lemma contains_tail (c : N) (s sub : pystr) :
  Generator.contains (c :: s) sub = false -> Generator.contains s sub = false.
Proof. cbn [Generator.contains]. intros H. apply orb_false_iff in H. exact (proj2 H). Qed.

Lemma contains_ellipsis_head (rest : pystr) :
  Generator.contains (46 :: 46 :: 46 :: rest)%N ellipsis = true.
Proof. destruct rest; reflexivity. Qed.

Lemma remove_ellipsis_step (a b c : N) (rest : pystr) :
  Generator.remove_ellipsis (a :: b :: c :: rest)
  = if N.eqb a 46 && N.eqb b 46 && N.eqb c 46 then Generator.remove_ellipsis rest
    else a :: Generator.remove_ellipsis (b :: c :: rest).
Proof. reflexivity. Qed.

Lemma remove_ellipsis_without (s : pystr) :
  Generator.contains s ellipsis = false -> Generator.remove_ellipsis s = s.
Proof.
  induction s as [|a s IH]; intros Hnone; [reflexivity |].
  pose proof (IH (contains_tail _ _ _ Hnone)) as Htail.
  destruct s as [|b [|c rest]]; [reflexivity | reflexivity |].
  rewrite remove_ellipsis_step.
  destruct (N.eqb a 46 && N.eqb b 46 && N.eqb c 46) eqn:Hdots.
  - apply andb_true_iff in Hdots. destruct Hdots as [Hab Hc].
    apply andb_true_iff in Hab. destruct Hab as [Ha Hb].
    apply N.eqb_eq in Ha, Hb, Hc. subst a b c.
    rewrite contains_ellipsis_head in Hnone. discriminate.
  - rewrite Htail. reflexivity.
Qed.

Lemma remove_ellipsis_added (s : pystr) :
  Generator.contains s ellipsis = false ->
  Generator.remove_ellipsis (s ++ ellipsis) = s.
Proof.
  induction s as [|a s IH]; intros Hnone; [reflexivity |].
  pose proof (IH (contains_tail _ _ _ Hnone)) as Htail.
  destruct s as [|b [|c rest]].
  - cbn. destruct (N.eqb a 46) eqn:Ha; [| reflexivity].
    apply N.eqb_eq in Ha. subst a. reflexivity.
  - cbn. cbn in Htail.
    destruct (N.eqb a 46) eqn:Ha; destruct (N.eqb b 46) eqn:Hb; cbn;
      try (apply N.eqb_eq in Ha; subst a); try (apply N.eqb_eq in Hb; subst b);
      try reflexivity; cbn in Htail; rewrite ?Hb in Htail; cbn in Htail;
      try (rewrite Htail; reflexivity).
  - change ((a :: b :: c :: rest) ++ ellipsis) with (a :: b :: c :: (rest ++ ellipsis)).
    rewrite remove_ellipsis_step.
    destruct (N.eqb a 46 && N.eqb b 46 && N.eqb c 46) eqn:Hdots.
    + apply andb_true_iff in Hdots. destruct Hdots as [Hab Hc].
      apply andb_true_iff in Hab. destruct Hab as [Ha Hb].
      apply N.eqb_eq in Ha, Hb, Hc. subst a b c.
      rewrite contains_ellipsis_head in Hnone. discriminate.
    + change (b :: c :: rest ++ ellipsis) with ((b :: c :: rest) ++ ellipsis).
      rewrite Htail. reflexivity.
Qed.

Lemma contains_prefix (s t sub : pystr) :
  Generator.contains (s ++ t) sub = false -> Generator.contains s sub = false.
Proof.
  assert (Hstart : forall (sub s t : pystr), startswith s sub = true -> startswith (s ++ t) sub = true).
  { intros sub0 s0. revert sub0. induction s0 as [|c s0 IH]; intros sub0 t0 H.
    - destruct sub0; [destruct t0; reflexivity | discriminate H].
    - destruct sub0 as [|p sub0]; [reflexivity |]. simpl in *.
      apply andb_true_iff in H. destruct H as [Hp Hs]. rewrite Hp. simpl.
      apply IH. exact Hs. }
  induction s as [|c s IH]; intros Hnone.
  - cbn [Generator.contains]. rewrite orb_false_r.
    destruct (startswith [] sub) eqn:Hs; [| reflexivity].
    cbn [app] in Hnone. destruct sub; [| discriminate Hs].
    destruct t; discriminate Hnone.
  - cbn [app Generator.contains] in *. apply orb_false_iff in Hnone.
    destruct Hnone as [Hhead Htail]. rewrite (IH Htail), orb_false_r.
    destruct (startswith (c :: s) sub) eqn:Hs; [| reflexivity].
    pose proof (Hstart sub (c :: s) t Hs) as Hlong. cbn [app] in Hlong.
    rewrite Hlong in Hhead. discriminate.
Qed.

Lemma clean_and_visible_length_spec (category east_asian_width : N -> string) (text : pystr) :
  Generator.clean_and_visible_length category east_asian_width text
  = (filter (Generator.visible category) text,
     Generator.visual_length east_asian_width (filter (Generator.visible category) text)).
Proof. destruct text; reflexivity. Qed.

Lemma visual_length_nonneg (east_asian_width : N -> string) (s : pystr) :
  0 <= Generator.visual_length east_asian_width s.
Proof.
  induction s as [|c s IH]; [reflexivity |]. rewrite visual_length_cons.
  unfold Generator.char_width. destruct (existsb _ _); lia.
Qed.

(** [format_username_header]: for every table of the Unicode
    database, when the cleaned name holds no "..." and the width leaves room for
    three dots beside the user name ([len username + 15 <= total_width]), the header
    is the cleaned name, or a prefix of it followed by "..." exactly when the name
    is too wide, then [" -—- @username -"], some em dashes and ["—-—-"]; counted
    with the characters of the name at their visual width and the others as one
    column, it is exactly [total_width] wide. *)
Theorem username_header_fills_the_width :
  forall (category east_asian_width : N -> string) (full_name username : pystr)
         (total_width : Z),
    Generator.contains (cleaned_name category east_asian_width full_name) ellipsis = false ->
    len username + 15 <= total_width ->
    exists shown hidden dots dashes,
      cleaned_name category east_asian_width full_name = shown ++ hidden /\
      (dots = [] /\ hidden = [] \/ dots = ellipsis /\ hidden <> []) /\
      (hidden = [] <->
       Generator.visual_length east_asian_width
         (cleaned_name category east_asian_width full_name) + len username + 12
       <= total_width) /\
      Generator.format_username_header category east_asian_width full_name username
        total_width
      = shown ++ dots ++ decoration username dashes /\
      0 <= dashes /\
      Generator.visual_length east_asian_width shown + len dots + len username + 12 + dashes
      = total_width.
Proof.
  intros category east_asian_width full_name username total_width.
  unfold cleaned_name, Generator.format_username_header.
  rewrite clean_and_visible_length_spec. cbn [fst].
  set (cleaned := filter (Generator.visible category) full_name).
  intros Hnone Hroom. cbv zeta. change (str "...") with ellipsis.
  set (fixed_parts := str " -" ++ em_dash ++ str "- " ++ (str "@" ++ username) ++ str " -").
  set (end_part := em_dash ++ str "-" ++ em_dash ++ str "-").
  assert (Hfixed : len fixed_parts = len username + 8).
  { unfold fixed_parts. rewrite !len_app. unfold em_dash. closed_lengths. lia. }
  assert (Hend : len end_part = 4) by reflexivity.
  rewrite Hfixed, Hend.
  pose proof (len_nonneg username) as Hu.
  pose proof (visual_length_nonneg east_asian_width cleaned) as Hv.
  destruct (Z.gtb_spec (Generator.visual_length east_asian_width cleaned)
              (total_width - (len username + 8 + 4))) as [Hlong|Hfits].
  - destruct (truncate_name_spec east_asian_width (total_width - (len username + 8 + 4))
                cleaned [] 0) as (shown & hidden & Hsplit & Hrun & Hfit); [lia | lia |].
    rewrite Hrun. cbn [app].
    assert (Hshown : Generator.contains shown ellipsis = false).
    { apply contains_prefix with hidden. rewrite <- Hsplit. exact Hnone. }
    rewrite endswith_app, contains_app_r, (remove_ellipsis_added shown Hshown).
    rewrite !len_app, Hfixed. change (len ellipsis) with 3.
    set (dashes := total_width - (len shown + 3 + (len username + 8)) - 4
                   - (0 + Generator.visual_length east_asian_width shown + 3 - len shown - 3)).
    assert (Hdashes : 0 <= dashes) by (unfold dashes; lia).
    destruct (Z.ltb_spec dashes 0) as [Hneg|_]; [lia |].
    exists shown, hidden, ellipsis, dashes.
    split; [exact Hsplit |]. split.
    { right. split; [reflexivity |]. intros ->. rewrite app_nil_r in Hsplit.
      rewrite Hsplit in Hlong. lia. }
    split.
    { split; [| lia]. intros ->. rewrite app_nil_r in Hsplit. rewrite Hsplit in Hlong. lia. }
    split; [unfold decoration; fold fixed_parts end_part; rewrite <- !app_assoc;
            reflexivity |].
    split; [exact Hdashes |]. change (len ellipsis) with 3. unfold dashes. lia.
  - rewrite (remove_ellipsis_without cleaned Hnone), Hnone.
    rewrite !len_app, Hfixed.
    set (dashes := total_width - (len cleaned + (len username + 8)) - 4
                   - (Generator.visual_length east_asian_width cleaned - len cleaned - 0)).
    assert (Hdashes : 0 <= dashes) by (unfold dashes; lia).
    destruct (Z.ltb_spec dashes 0) as [Hneg|_]; [lia |].
    exists cleaned, [], [], dashes.
    split; [rewrite app_nil_r; reflexivity |]. split; [left; split; reflexivity |].
    split; [split; [lia | reflexivity] |].
    split; [unfold decoration; fold fixed_parts end_part; cbn [app];
            rewrite <- !app_assoc; reflexivity |].
    split; [exact Hdashes |]. change (len []) with 0. unfold dashes. lia.
Qed.

Lemma wide_name_without_ellipsis :
  Generator.contains (cleaned_name sample_category sample_east_asian_width wide_name) ellipsis
  = false.
Proof. reflexivity. Qed.

Lemma room_for_yamada : len (str "yamada") + 15 <= 68.
Proof. discriminate. Qed.

Lemma username_header_example :
  Generator.contains (cleaned_name sample_category sample_east_asian_width wide_name) ellipsis
  = false /\
  len (str "yamada") + 15 <= 68 /\
  Generator.format_username_header sample_category sample_east_asian_width wide_name
    (str "yamada") 68
  = [23665; 30000; 32; 22826; 37070]%N ++ decoration (str "yamada") 41 /\
  Generator.format_username_header sample_category sample_east_asian_width long_name
    (str "ada") 68
  = str "Augusta Ada King, Countess of Lovelace, of Ockham " ++ ellipsis
    ++ decoration (str "ada") 0 /\
  exists shown hidden dots dashes,
    cleaned_name sample_category sample_east_asian_width wide_name = shown ++ hidden /\
    (dots = [] /\ hidden = [] \/ dots = ellipsis /\ hidden <> []) /\
    (hidden = [] <->
     Generator.visual_length sample_east_asian_width
       (cleaned_name sample_category sample_east_asian_width wide_name)
     + len (str "yamada") + 12 <= 68) /\
    Generator.format_username_header sample_category sample_east_asian_width wide_name
      (str "yamada") 68
    = shown ++ dots ++ decoration (str "yamada") dashes /\
    0 <= dashes /\
    Generator.visual_length sample_east_asian_width shown + len dots + len (str "yamada")
    + 12 + dashes = 68.
Proof.
  split; [exact wide_name_without_ellipsis |].
  split; [exact room_for_yamada |].
  split; [reflexivity |].
  split; [reflexivity |].
  exact (username_header_fills_the_width sample_category sample_east_asian_width
           wide_name (str "yamada") 68 wide_name_without_ellipsis room_for_yamada).
Defined.

Lemma filter_idempotent {A : Type} (f : A -> bool) (l : list A) :
  filter f (filter f l) = filter f l.
Proof.
  induction l as [|x l IH]; [reflexivity |]. simpl.
  destruct (f x) eqn:Hx; [| exact IH]. simpl. rewrite Hx, IH. reflexivity.
Qed.

(** [clean_and_visible_length]: for every table of the Unicode
    database, the cleaned text holds none of the ten listed invisible characters,
    cleaning it again changes neither the text nor the length, and the visual
    length lies between the number of its characters and twice that number. *)
Theorem cleaning_is_idempotent_and_bounded :
  forall (category east_asian_width : N -> string) (text : pystr),
    Generator.clean_and_visible_length category east_asian_width
      (cleaned_name category east_asian_width text)
    = Generator.clean_and_visible_length category east_asian_width text /\
    Forall (fun char => ~ In char Generator.invisible_characters)
      (cleaned_name category east_asian_width text) /\
    len (cleaned_name category east_asian_width text)
    <= snd (Generator.clean_and_visible_length category east_asian_width text)
    <= 2 * len (cleaned_name category east_asian_width text).
Proof.
  intros category east_asian_width text. unfold cleaned_name.
  rewrite !clean_and_visible_length_spec. cbn [fst snd].
  rewrite filter_idempotent. split; [reflexivity |]. split.
  - apply Forall_forall. intros char Hin Hlisted.
    apply filter_In in Hin. destruct Hin as [_ Hvisible].
    unfold Generator.visible in Hvisible. apply andb_true_iff in Hvisible.
    destruct Hvisible as [_ Hnot]. apply negb_true_iff in Hnot.
    assert (Hex : existsb (N.eqb char) Generator.invisible_characters = true).
    { apply existsb_exists. exists char. split; [exact Hlisted | apply N.eqb_refl]. }
    rewrite Hex in Hnot. discriminate.
  - induction (filter (Generator.visible category) text) as [|char cleaned IH].
    + split; discriminate.
    + rewrite visual_length_cons. change (len (char :: cleaned)) with (Z.of_nat (S (List.length cleaned))).
      unfold len in IH. unfold Generator.char_width. destruct (existsb _ _); lia.
Qed.
